(** * wiz: team task-management backend (routes/auth.js, routes/tasks.js, db.js)

    A shallow embedding of the request handlers over the relational schema
    that [initDb] creates.  Tables are lists of rows; every SQL statement of
    the handlers is a function on the database that also records itself in
    the list of statements issued on the connection; exceptions raised by
    the database (constraint violations, values that do not fit the type of
    a column) are results of the [Query] monad, caught by the handlers'
    [try]/[catch] blocks as in the source.

    Column value domains are carried by the types: the CHECK constraints of
    db.js on [role], [status] and [progress] become inductive types, ids and
    timestamps are integers, text columns are strings.  An id that a
    request binds to an INTEGER column must lie in the range of that type,
    and a text stored in a VARCHAR(n) column must fit it; the statements
    raise otherwise.  Referential constraints ([REFERENCES users(id)] and
    the like) and the UNIQUE constraint on [users.email] relate rows to
    each other and are checked by the statements that write them.

    Request fields are typed: an id is absent or a number, a text field is
    a string of characters that the text types of the database have (its
    length is the number of its characters), [progress] is one of the
    five values of its CHECK constraint and a deadline is a timestamp. *)

From Stdlib Require Import ZArith List Ascii String Bool Lia.
Import ListNotations.

Local Open Scope string_scope.
Local Open Scope Z_scope.
Local Open Scope list_scope.

Set Implicit Arguments.

(* ------------------------------------------------------------------ *)
(** ** Schema (db.js, [initDb]) *)

Module Role.
(** [CHECK (role IN ('leader', 'member'))] *)
Inductive t := leader | member.
Definition eqb (a b : t) : bool :=
  match a, b with leader, leader | member, member => true | _, _ => false end.
End Role.

Module Membership.
(** [CHECK (status IN ('pending', 'approved', 'rejected'))] on users *)
Inductive t := pending | approved | rejected.
Definition eqb (a b : t) : bool :=
  match a, b with
  | pending, pending | approved, approved | rejected, rejected => true
  | _, _ => false
  end.
End Membership.

Module Status.
(** [CHECK (status IN ('available', 'assigned', 'taken', 'completed'))] *)
Inductive t := available | assigned | taken | completed.
Definition eqb (a b : t) : bool :=
  match a, b with
  | available, available | assigned, assigned
  | taken, taken | completed, completed => true
  | _, _ => false
  end.
End Status.

Module Progress.
(** [CHECK (progress IN ('not_started', 'assigned', 'in_progress',
    'testing', 'completed'))] *)
Inductive t := not_started | assigned | in_progress | testing | completed.
Definition eqb (a b : t) : bool :=
  match a, b with
  | not_started, not_started | assigned, assigned
  | in_progress, in_progress | testing, testing
  | completed, completed => true
  | _, _ => false
  end.
End Progress.

Module User.
Record t := mk {
  id : Z;
  email : string;
  password : string;
  name : string;
  role : Role.t;
  team_code : string;
  created_at : Z;
  status : Membership.t;
  approved_by : option Z;
  approved_at : option Z;
  rejected_by : option Z;
  rejected_at : option Z;
  updated_at : Z
}.
End User.

Module Team.
Record t := mk {
  id : Z;
  team_code : string;
  team_name : string;
  leader_id : option Z;
  created_at : Z
}.
End Team.

Module Task.
Record t := mk {
  id : Z;
  title : string;
  description : option string;
  team_code : string;
  created_by : option Z;
  created_at : Z;
  status : string;
  updated_at : Z
}.
End Task.

Module Subtask.
Record t := mk {
  id : Z;
  task_id : option Z;
  title : string;
  description : option string;
  assigned_to : option Z;
  status : Status.t;
  progress : Progress.t;
  deadline : option Z;
  created_at : Z;
  updated_at : Z
}.

(** [SET assigned_to = _, status = _, progress = _] *)
Definition set_assignment (a : option Z) (st : Status.t) (pr : Progress.t)
    (s : t) : t :=
  mk (id s) (task_id s) (title s) (description s) a st pr
     (deadline s) (created_at s) (updated_at s).

(** [SET assigned_to = NULL, status = _] *)
Definition set_released (st : Status.t) (s : t) : t :=
  mk (id s) (task_id s) (title s) (description s) None st (progress s)
     (deadline s) (created_at s) (updated_at s).

(** [SET progress = _] *)
Definition set_progress (pr : Progress.t) (s : t) : t :=
  mk (id s) (task_id s) (title s) (description s) (assigned_to s)
     (status s) pr (deadline s) (created_at s) (updated_at s).

(** [SET status = _] *)
Definition set_status (st : Status.t) (s : t) : t :=
  mk (id s) (task_id s) (title s) (description s) (assigned_to s)
     st (progress s) (deadline s) (created_at s) (updated_at s).
End Subtask.

(** The database: the four tables, and the SERIAL sequence of [users.id]. *)
Record Db := mkDb {
  users : list User.t;
  teams : list Team.t;
  tasks : list Task.t;
  subtasks : list Subtask.t;
  users_id_seq : Z
}.

(** SQL [=] between a nullable integer column and an integer: unknown on
    NULL, which a WHERE or ON clause treats as not satisfied.  The same
    function is JavaScript's [col === n] for a column read as [null] or a
    number. *)
Definition col_is (c : option Z) (n : Z) : bool :=
  match c with Some m => m =? n | None => false end.

(* ------------------------------------------------------------------ *)
(** ** Column types *)

(** The range of PostgreSQL's INTEGER, the type of every id column and of
    every column that refers to one. *)
Definition int4 (v : Z) : bool :=
  (-2147483648 <=? v) && (v <=? 2147483647).

(** Some row holds [v] in an INTEGER column: as its key or as a
    reference. *)
Definition held (d : Db) (v : Z) : bool :=
  existsb (fun u => (User.id u =? v) || col_is (User.approved_by u) v
                    || col_is (User.rejected_by u) v)
          (users d)
  || existsb (fun t => (Team.id t =? v) || col_is (Team.leader_id t) v)
             (teams d)
  || existsb (fun t => (Task.id t =? v) || col_is (Task.created_by t) v)
             (tasks d)
  || existsb (fun s => (Subtask.id s =? v) || col_is (Subtask.task_id s) v
                       || col_is (Subtask.assigned_to s) v)
             (subtasks d).

(** [v] can be bound to a parameter that a statement compares with, or
    writes to, an INTEGER column: it lies in the range of the type.  What
    the tables hold in such columns are INTEGERs, so a value that some row
    holds is one. *)
Definition integer (d : Db) (v : Z) : bool := int4 v || held d v.

(** The first [n] characters of a string, and what follows them. *)
Fixpoint take (n : nat) (s : string) {struct s} : string :=
  match s, n with
  | String c s', S n' => String c (take n' s')
  | _, _ => EmptyString
  end.

Fixpoint drop (n : nat) (s : string) {struct s} : string :=
  match s, n with
  | String _ s', S n' => drop n' s'
  | _, _ => s
  end.

Fixpoint spaces (s : string) : bool :=
  match s with
  | EmptyString => true
  | String c s' => Ascii.eqb c " "%char && spaces s'
  end.

(** Storing a text in a VARCHAR(n) column: a text of at most [n]
    characters is stored as it is; of a longer one whose excess characters
    are all spaces the first [n] characters are stored; any other raises
    (value too long for type character varying(n)). *)
Definition storable (n : nat) (s : string) : bool := spaces (drop n s).

Definition varchar (n : nat) (s : string) : option string :=
  if storable n s then Some (take n s) else None.

(* ------------------------------------------------------------------ *)
(** ** The connection: statements, transactions, exceptions *)

Inductive Table := t_users | t_teams | t_tasks | t_subtasks.

(** One constructor per SQL text that the modelled handlers send. *)
Inductive Stmt :=
| BEGIN
| COMMIT
| ROLLBACK
| SELECT_subtask_FOR_UPDATE      (* SELECT * FROM subtasks WHERE id = $1 FOR UPDATE *)
| UPDATE_subtask_assignment      (* UPDATE subtasks SET assigned_to, status, progress WHERE id *)
| SELECT_subtask_details         (* getSubtaskWithDetails *)
| SELECT_subtask_with_task       (* SELECT s.*, t.team_code, t.created_by FROM subtasks s JOIN tasks t *)
| SELECT_user_role               (* SELECT role, team_code FROM users WHERE id = $1 *)
| UPDATE_subtask_progress        (* UPDATE subtasks SET progress = $1 WHERE id = $2 *)
| UPDATE_subtask_status          (* UPDATE subtasks SET status = $1 WHERE id = $2 *)
| SELECT_tasks_by_status         (* SELECT DISTINCT t.* ... LEFT JOIN subtasks s ... *)
| SELECT_subtasks_for_task       (* getSubtasksForTask *)
| SELECT_team_by_code            (* SELECT * FROM teams WHERE team_code = $1 *)
| SELECT_user_by_email           (* SELECT * FROM users WHERE email = $1 *)
| INSERT_user                    (* INSERT INTO users (...) VALUES (...) *)
| SELECT_user_by_email_and_team  (* SELECT * FROM users WHERE email = $1 AND team_code = $2 *)
| UPDATE_user_approve            (* approve-member *)
| UPDATE_user_reject             (* reject-member *)
| UPDATE_user_reapprove          (* approve-rejected-member *)
| SELECT_user_in_team            (* SELECT id.. FROM users WHERE id AND team_code AND role *)
| UPDATE_subtasks_release        (* UPDATE subtasks SET assigned_to = NULL, status WHERE assigned_to *)
| DELETE_user.                   (* DELETE FROM users WHERE id = $1 *)

(** The tables a statement names in FROM, JOIN, INTO, UPDATE or DELETE. *)
Definition stmt_tables (s : Stmt) : list Table :=
  match s with
  | BEGIN | COMMIT | ROLLBACK => []
  | SELECT_subtask_FOR_UPDATE => [t_subtasks]
  | UPDATE_subtask_assignment => [t_subtasks]
  | SELECT_subtask_details => [t_subtasks; t_users; t_tasks]
  | SELECT_subtask_with_task => [t_subtasks; t_tasks]
  | SELECT_user_role => [t_users]
  | UPDATE_subtask_progress => [t_subtasks]
  | UPDATE_subtask_status => [t_subtasks]
  | SELECT_tasks_by_status => [t_tasks; t_users; t_subtasks]
  | SELECT_subtasks_for_task => [t_subtasks; t_users]
  | SELECT_team_by_code => [t_teams]
  | SELECT_user_by_email => [t_users]
  | INSERT_user => [t_users]
  | SELECT_user_by_email_and_team => [t_users]
  | UPDATE_user_approve => [t_users]
  | UPDATE_user_reject => [t_users]
  | UPDATE_user_reapprove => [t_users]
  | SELECT_user_in_team => [t_users]
  | UPDATE_subtasks_release => [t_subtasks]
  | DELETE_user => [t_users]
  end.

Definition table_eqb (a b : Table) : bool :=
  match a, b with
  | t_users, t_users | t_teams, t_teams
  | t_tasks, t_tasks | t_subtasks, t_subtasks => true
  | _, _ => false
  end.

Definition names_table (tb : Table) (s : Stmt) : bool :=
  existsb (table_eqb tb) (stmt_tables s).

(** Errors the database raises for a statement. *)
Inductive PgError :=
| foreign_key_violation
| unique_violation
| numeric_value_out_of_range     (* 22003: value out of range for type integer *)
| string_data_right_truncation   (* 22001: value too long for type character varying(n) *)
| sequence_generator_limit_exceeded. (* 2200H: nextval: reached maximum value of sequence *)

Inductive Res (A : Type) :=
| Done (a : A)
| Thrown (e : PgError).
Arguments Done {A} a.
Arguments Thrown {A} e.

(** [cur] is the database as the connection sees it, [saved] the state at
    BEGIN while a transaction is open, [issued] the statements sent so
    far, oldest first. *)
Record Conn := mkConn {
  cur : Db;
  saved : option Db;
  issued : list Stmt
}.

Definition Query (A : Type) : Type := Conn -> Res A * Conn.

Definition ret {A} (a : A) : Query A := fun c => (Done a, c).

Definition throw {A} (e : PgError) : Query A := fun c => (Thrown e, c).

Definition bind {A B} (m : Query A) (k : A -> Query B) : Query B :=
  fun c =>
    match m c with
    | (Done a, c') => k a c'
    | (Thrown e, c') => (Thrown e, c')
    end.

Declare Scope query_scope.
Delimit Scope query_scope with query.
Notation "x <- m ;; k" := (bind m (fun x => k))
  (at level 61, m at next level, right associativity) : query_scope.
Notation "m ;; k" := (bind m (fun _ => k))
  (at level 61, right associativity) : query_scope.
Local Open Scope query_scope.

(** [try { body } catch (error) { handler }] *)
Definition try_catch {A} (body : Query A) (handler : PgError -> Query A)
    : Query A :=
  fun c =>
    match body c with
    | (Done a, c') => (Done a, c')
    | (Thrown e, c') => handler e c'
    end.

(** A statement: it is recorded, and it either yields rows and a new
    database or raises and leaves the tables as they were. *)
Definition statement {A} (s : Stmt) (f : Db -> Res A * Db) : Query A :=
  fun c =>
    let '(r, d) := f (cur c) in
    (r, mkConn d (saved c) (issued c ++ [s])).

Definition select {A} (s : Stmt) (f : Db -> A) : Query A :=
  statement s (fun d => (Done (f d), d)).

(** The values [ps] are bound to the parameters of a statement that go
    with INTEGER columns ([WHERE id = $1], [SET assigned_to = $1]): one
    that is no INTEGER makes the statement raise before it reads or
    writes a row. *)
Definition binding {A} (ps : list Z) (f : Db -> Res A * Db) (d : Db)
    : Res A * Db :=
  if forallb (integer d) ps then f d
  else (Thrown numeric_value_out_of_range, d).

(** A SELECT with INTEGER parameters. *)
Definition select_on {A} (ps : list Z) (s : Stmt) (f : Db -> A) : Query A :=
  statement s (binding ps (fun d => (Done (f d), d))).

Definition begin_ : Query unit :=
  fun c => (Done tt, mkConn (cur c) (Some (cur c)) (issued c ++ [BEGIN])).

Definition commit : Query unit :=
  fun c => (Done tt, mkConn (cur c) None (issued c ++ [COMMIT])).

(** ROLLBACK restores the tables as they were at BEGIN; the value of a
    sequence is not restored (a [nextval] is never undone). *)
Definition rollback : Query unit :=
  fun c =>
    let d := match saved c with
             | Some d0 => mkDb (users d0) (teams d0) (tasks d0) (subtasks d0)
                               (users_id_seq (cur c))
             | None => cur c
             end in
    (Done tt, mkConn d None (issued c ++ [ROLLBACK])).

(* ------------------------------------------------------------------ *)
(** ** HTTP responses *)

(** [getSubtaskWithDetails] row: [s.*] and the joined columns. *)
Record SubtaskDetails := mkDetails {
  d_subtask : Subtask.t;
  assigned_to_name : option string;
  assigned_to_email : option string;
  task_title : string;
  task_description : option string
}.

(** [getSubtasksForTask] row. *)
Record SubtaskRow := mkSubtaskRow {
  r_subtask : Subtask.t;
  r_assigned_to_name : option string;
  r_assigned_to_email : option string
}.

(** Row of the tasks-by-status query: [t.*] and the three computed columns. *)
Record TaskRow := mkTaskRow {
  r_task : Task.t;
  created_by_name : option string;
  total_subtasks : Z;
  completed_subtasks : Z
}.

(** [RETURNING id, email, name, role, team_code, status] *)
Record RegisteredUser := mkRegistered {
  ru_id : Z;
  ru_email : string;
  ru_name : string;
  ru_role : Role.t;
  ru_team_code : string;
  ru_status : Membership.t
}.

(** [const { password: _, ...userWithoutPassword } = user] *)
Record UserWithoutPassword := mkNoPassword {
  wp_id : Z;
  wp_email : string;
  wp_name : string;
  wp_role : Role.t;
  wp_team_code : string;
  wp_created_at : Z;
  wp_status : Membership.t;
  wp_approved_by : option Z;
  wp_approved_at : option Z;
  wp_rejected_by : option Z;
  wp_rejected_at : option Z;
  wp_updated_at : Z
}.

Inductive Body :=
| json_error (error : string)
| json_message (message : string)
| json_subtask (message : string) (subtask : option SubtaskDetails)
| json_user (message : string) (user : User.t)
| json_registered (message : string) (user : RegisteredUser)
| json_login (message : string) (user : UserWithoutPassword) (token : string)
| json_tasks (rows : list (TaskRow * list SubtaskRow)).

Record Response := mkResponse {
  code : Z;
  body : Body
}.

(** [res.status(n).json({ error })] *)
Definition fail (n : Z) (msg : string) : Response :=
  mkResponse n (json_error msg).

(** [res.json(b)]: status 200 *)
Definition ok (b : Body) : Response := mkResponse 200 b.

(** The outer [try { ... } catch (error) { res.status(500)... }] of every
    route. *)
Definition route (h : Query Response) : Query Response :=
  try_catch h (fun _ => ret (fail 500 "Internal server error")).

(** Running a handler on a fresh connection: the response, the database
    afterwards and the statements issued. *)
Definition run (h : Query Response) (d : Db) : Response * Db * list Stmt :=
  match h (mkConn d None []) with
  | (Done r, c) => (r, cur c, issued c)
  | (Thrown _, c) => (fail 500 "Internal server error", cur c, issued c)
  end.

(** A request-body field holding an id: absent ([None]) or a number.
    JavaScript's [!v] is true for an absent field and for 0. *)
Definition falsy (v : option Z) : bool :=
  match v with Some n => n =? 0 | None => true end.

(** [parseInt(v)] of a numeric field (fields are read after the [!v]
    guard, so the absent case is not reached). *)
Definition parseInt (v : option Z) : Z :=
  match v with Some n => n | None => 0 end.

(* ------------------------------------------------------------------ *)
(** ** Joins *)

(** [l LEFT JOIN r ON on]: a row of [l] without a partner is kept once,
    with NULLs for the columns of [r]. *)
Definition left_join {A B} (on : A -> B -> bool) (l : list A) (r : list B)
    : list (A * option B) :=
  flat_map (fun a =>
              match filter (on a) r with
              | [] => [(a, None)]
              | bs => map (fun b => (a, Some b)) bs
              end) l.

(** [l JOIN r ON on] *)
Definition inner_join {A B} (on : A -> B -> bool) (l : list A) (r : list B)
    : list (A * B) :=
  flat_map (fun a => map (fun b => (a, b)) (filter (on a) r)) l.

(* ------------------------------------------------------------------ *)
(** ** routes/tasks.js *)

Module Tasks.

(** [getSubtaskWithDetails(subtaskId)]: [result.rows[0]], [undefined] when
    the query has no row. *)
Definition getSubtaskWithDetails (subtaskId : Z) : Query (option SubtaskDetails) :=
  select_on [subtaskId] SELECT_subtask_details (fun d =>
    let s_u := left_join (fun s u => col_is (Subtask.assigned_to s) (User.id u))
                         (subtasks d) (users d) in
    let s_u_t := inner_join (fun su t => col_is (Subtask.task_id (fst su)) (Task.id t))
                            s_u (tasks d) in
    let rows := filter (fun r => Subtask.id (fst (fst r)) =? subtaskId) s_u_t in
    hd_error
      (map (fun r =>
              let '(s, u, t) := r in
              mkDetails s (option_map User.name u) (option_map User.email u)
                        (Task.title t) (Task.description t))
           rows)).

(** [SELECT * FROM subtasks WHERE id = $1 FOR UPDATE] *)
Definition select_subtask_for_update (subtaskId : Z) : Query (list Subtask.t) :=
  select_on [subtaskId] SELECT_subtask_FOR_UPDATE
            (fun d => filter (fun s => Subtask.id s =? subtaskId) (subtasks d)).

(** [UPDATE subtasks SET assigned_to = $1, status = $2, progress = $3
     WHERE id = $4 RETURNING *].  [assigned_to INTEGER REFERENCES users(id)]:
    writing an id that no user row has, into a row that the WHERE clause
    selects, raises. *)
Definition update_subtask_assignment (assigned_to : Z) (st : Status.t)
    (pr : Progress.t) (subtaskId : Z) : Query (list Subtask.t) :=
  statement UPDATE_subtask_assignment (binding [assigned_to; subtaskId] (fun d =>
    let hit := fun s => Subtask.id s =? subtaskId in
    if existsb hit (subtasks d)
       && negb (existsb (fun u => User.id u =? assigned_to) (users d))
    then (Thrown foreign_key_violation, d)
    else
      let rows :=
        map (fun s => if hit s
                      then Subtask.set_assignment (Some assigned_to) st pr s
                      else s)
            (subtasks d) in
      (Done (filter hit rows),
       mkDb (users d) (teams d) (tasks d) rows (users_id_seq d)))).

(** [router.put('/subtask/:subtaskId/take')] *)
Definition takeSubtask (subtaskId : Z) (userId : option Z) : Query Response :=
  route (
    if falsy userId then ret (fail 400 "User ID is required")
    else
      try_catch
        (begin_ ;;
         subtaskCheck <- select_subtask_for_update subtaskId ;;
         match subtaskCheck with
         | [] =>
             rollback ;;
             ret (fail 404 "Subtask not found")
         | subtask :: _ =>
             if negb (Status.eqb (Subtask.status subtask) Status.available)
             then
               rollback ;;
               ret (fail 400 "This subtask is no longer available")
             else
               update_subtask_assignment (parseInt userId) Status.taken
                                         Progress.in_progress subtaskId ;;
               commit ;;
               updatedSubtask <- getSubtaskWithDetails subtaskId ;;
               ret (ok (json_subtask "Subtask assigned to you successfully!"
                                     updatedSubtask))
         end)
        (fun error => rollback ;; throw error)).

(** [router.put('/subtask/:subtaskId/assign-to')] *)
Definition assignSubtask (subtaskId : Z) (userId assignedBy : option Z)
    : Query Response :=
  route (
    if falsy userId || falsy assignedBy
    then ret (fail 400 "User ID and assignedBy are required")
    else
      result <- update_subtask_assignment (parseInt userId) Status.assigned
                                          Progress.assigned subtaskId ;;
      match result with
      | [] => ret (fail 404 "Subtask not found")
      | _ :: _ =>
          updatedSubtask <- getSubtaskWithDetails subtaskId ;;
          ret (ok (json_subtask "Subtask assigned to member successfully"
                                updatedSubtask))
      end).

(** [SELECT s.*, t.team_code, t.created_by FROM subtasks s
     JOIN tasks t ON s.task_id = t.id WHERE s.id = $1] *)
Definition select_subtask_with_task (subtaskId : Z)
    : Query (list (Subtask.t * string * option Z)) :=
  select_on [subtaskId] SELECT_subtask_with_task (fun d =>
    map (fun st => (fst st, Task.team_code (snd st), Task.created_by (snd st)))
        (filter (fun st => Subtask.id (fst st) =? subtaskId)
                (inner_join (fun s t => col_is (Subtask.task_id s) (Task.id t))
                            (subtasks d) (tasks d)))).

(** [SELECT role, team_code FROM users WHERE id = $1] *)
Definition select_user_role (userId : Z) : Query (list (Role.t * string)) :=
  select_on [userId] SELECT_user_role (fun d =>
    map (fun u => (User.role u, User.team_code u))
        (filter (fun u => User.id u =? userId) (users d))).

(** [UPDATE subtasks SET progress = $1 WHERE id = $2 RETURNING *] *)
Definition update_subtask_progress (pr : Progress.t) (subtaskId : Z)
    : Query (list Subtask.t) :=
  statement UPDATE_subtask_progress (binding [subtaskId] (fun d =>
    let hit := fun s => Subtask.id s =? subtaskId in
    let rows := map (fun s => if hit s then Subtask.set_progress pr s else s)
                    (subtasks d) in
    (Done (filter hit rows),
     mkDb (users d) (teams d) (tasks d) rows (users_id_seq d)))).

(** [UPDATE subtasks SET status = $1 WHERE id = $2] *)
Definition update_subtask_status (st : Status.t) (subtaskId : Z) : Query unit :=
  statement UPDATE_subtask_status (binding [subtaskId] (fun d =>
    let hit := fun s => Subtask.id s =? subtaskId in
    let rows := map (fun s => if hit s then Subtask.set_status st s else s)
                    (subtasks d) in
    (Done tt, mkDb (users d) (teams d) (tasks d) rows (users_id_seq d)))).

(** The status that the progress route writes, from the progress sent and
    the status read ([let status = subtask.status; if ... else if ...]). *)
Definition status_for_progress (progress : Progress.t) (status : Status.t)
    : Status.t :=
  if Progress.eqb progress Progress.completed then Status.completed
  else if Progress.eqb progress Progress.in_progress
          && Status.eqb status Status.assigned
       then Status.taken
       else status.

(** [router.put('/subtask/:subtaskId/progress')] *)
Definition updateProgress (subtaskId : Z) (progress : option Progress.t)
    (userId : option Z) : Query Response :=
  route (
    match progress with
    | None => ret (fail 400 "Progress and user ID are required")
    | Some progress =>
      if falsy userId then ret (fail 400 "Progress and user ID are required")
      else
        subtaskResult <- select_subtask_with_task subtaskId ;;
        match subtaskResult with
        | [] => ret (fail 404 "Subtask not found")
        | (subtask, team_code, created_by) :: _ =>
          userCheck <- select_user_role (parseInt userId) ;;
          match userCheck with
          | [] => ret (fail 403 "User not found")
          | (role, user_team_code) :: _ =>
            let isOwner := col_is (Subtask.assigned_to subtask) (parseInt userId) in
            let isLeader := Role.eqb role Role.leader
                            && String.eqb user_team_code team_code in
            let isTaskCreator := col_is created_by (parseInt userId) in
            if negb isOwner && negb isLeader && negb isTaskCreator
            then ret (fail 403 "Not authorized to update this subtask")
            else
              update_subtask_progress progress subtaskId ;;
              let status := status_for_progress progress (Subtask.status subtask) in
              update_subtask_status status subtaskId ;;
              updatedSubtask <- getSubtaskWithDetails subtaskId ;;
              ret (ok (json_subtask "Progress updated successfully"
                                    updatedSubtask))
          end
        end
    end).

(** *** Tasks by status: the two definitions of
    [router.get('/team/:teamCode/status/:status')] *)

(** SQL conditions are three-valued: [None] is unknown. *)
Definition sql_ne (a : option Status.t) (b : Status.t) : option bool :=
  option_map (fun x => negb (Status.eqb x b)) a.

Definition sql_eq (a : option Status.t) (b : Status.t) : option bool :=
  option_map (fun x => Status.eqb x b) a.

Definition sql_is_null (a : option Status.t) : option bool :=
  Some (match a with None => true | Some _ => false end).

Definition sql_or (a b : option bool) : option bool :=
  match a, b with
  | Some true, _ | _, Some true => Some true
  | Some false, Some false => Some false
  | _, _ => None
  end.

Definition sql_and (a b : option bool) : option bool :=
  match a, b with
  | Some false, _ | _, Some false => Some false
  | Some true, Some true => Some true
  | _, _ => None
  end.

(** A WHERE clause keeps the rows on which the condition is true. *)
Definition where_ (c : option bool) : bool :=
  match c with Some true => true | _ => false end.

(** [statusCondition] of the first definition, as a condition on
    [s.status]; the empty string adds no condition. *)
Definition statusCondition_first (status : string)
    : option Status.t -> option bool :=
  if String.eqb status "active"
  then fun s_status => sql_ne s_status Status.completed
  else if String.eqb status "completed"
       then fun s_status => sql_eq s_status Status.completed
       else fun _ => Some true.

(** [statusCondition] of the second definition. *)
Definition statusCondition_second (status : string)
    : option Status.t -> option bool :=
  if String.eqb status "active"
  then fun s_status => sql_or (sql_ne s_status Status.completed)
                              (sql_is_null s_status)
  else if String.eqb status "completed"
       then fun s_status => sql_eq s_status Status.completed
       else fun _ => Some true.

Definition TaskRow_eq_dec (a b : TaskRow) : {a = b} + {a <> b}.
Proof.
  repeat decide equality; try apply Z.eq_dec; apply string_dec.
Defined.

(** [ORDER BY key]: insertion sort, rows with equal keys keep their order. *)
Fixpoint insert_by {A} (le : A -> A -> bool) (x : A) (l : list A) : list A :=
  match l with
  | [] => [x]
  | y :: l' => if le x y then x :: y :: l' else y :: insert_by le x l'
  end.

Definition order_by {A} (le : A -> A -> bool) (l : list A) : list A :=
  fold_right (insert_by le) [] l.

(** [(SELECT COUNT( * ) FROM subtasks s WHERE s.task_id = t.id)] *)
Definition count_subtasks (d : Db) (t : Task.t) : Z :=
  Z.of_nat (List.length (filter (fun s => col_is (Subtask.task_id s) (Task.id t))
                           (subtasks d))).

(** [(SELECT COUNT( * ) FROM subtasks s WHERE s.task_id = t.id
      AND s.status = 'completed')] *)
Definition count_completed_subtasks (d : Db) (t : Task.t) : Z :=
  Z.of_nat (List.length (filter (fun s => col_is (Subtask.task_id s) (Task.id t)
                                     && Status.eqb (Subtask.status s) Status.completed)
                           (subtasks d))).

(** [SELECT DISTINCT t.*, u.name as created_by_name, (...) as total_subtasks,
       (...) as completed_subtasks
     FROM tasks t LEFT JOIN users u ON t.created_by = u.id
                  LEFT JOIN subtasks s ON t.id = s.task_id
     WHERE t.team_code = $1 ${statusCondition}
     ORDER BY t.created_at DESC] *)
Definition select_tasks_by_status
    (statusCondition : option Status.t -> option bool) (teamCode : string)
    : Query (list TaskRow) :=
  select SELECT_tasks_by_status (fun d =>
    let t_u := left_join (fun t u => col_is (Task.created_by t) (User.id u))
                         (tasks d) (users d) in
    let t_u_s := left_join (fun tu s => col_is (Subtask.task_id s) (Task.id (fst tu)))
                           t_u (subtasks d) in
    let kept :=
      filter (fun r =>
                where_ (sql_and
                          (Some (String.eqb (Task.team_code (fst (fst r))) teamCode))
                          (statusCondition (option_map Subtask.status (snd r)))))
             t_u_s in
    let selected :=
      map (fun r =>
             let t := fst (fst r) in
             mkTaskRow t (option_map User.name (snd (fst r)))
                       (count_subtasks d t) (count_completed_subtasks d t))
          kept in
    order_by (fun a b => Task.created_at (r_task b) <=? Task.created_at (r_task a))
             (nodup TaskRow_eq_dec selected)).

(** [getSubtasksForTask(taskId)] *)
Definition getSubtasksForTask (taskId : Z) : Query (list SubtaskRow) :=
  select_on [taskId] SELECT_subtasks_for_task (fun d =>
    let s_u := left_join (fun s u => col_is (Subtask.assigned_to s) (User.id u))
                         (subtasks d) (users d) in
    let rows := filter (fun su => col_is (Subtask.task_id (fst su)) taskId) s_u in
    map (fun su => mkSubtaskRow (fst su) (option_map User.name (snd su))
                                (option_map User.email (snd su)))
        (order_by (fun a b => Subtask.created_at (fst a) <=? Subtask.created_at (fst b))
                  rows)).

(** [Promise.all(rows.map(async (x) => f(x)))] *)
Fixpoint map_all {A B} (f : A -> Query B) (l : list A) : Query (list B) :=
  match l with
  | [] => ret []
  | x :: l' => y <- f x ;; ys <- map_all f l' ;; ret (y :: ys)
  end.

Definition tasks_by_status
    (statusCondition : string -> option Status.t -> option bool)
    (teamCode status : string) : Query Response :=
  route (
    tasksResult <- select_tasks_by_status (statusCondition status) teamCode ;;
    tasksWithSubtasks <-
      map_all (fun task =>
                 subtasks <- getSubtasksForTask (Task.id (r_task task)) ;;
                 ret (task, subtasks))
              tasksResult ;;
    ret (ok (json_tasks tasksWithSubtasks))).

(** First definition (statusCondition without the NULL case). *)
Definition listByStatus_first : string -> string -> Query Response :=
  tasks_by_status statusCondition_first.

(** Second definition (statusCondition with [OR s.status IS NULL]). *)
Definition listByStatus_second : string -> string -> Query Response :=
  tasks_by_status statusCondition_second.

End Tasks.

(* ------------------------------------------------------------------ *)
(** ** routes/auth.js *)

Module Jwt.
(** [{ userId: user.id, email: user.email, role: user.role }] *)
Record payload := mk {
  userId : Z;
  email : string;
  role : Role.t
}.
(** [{ expiresIn: '24h' }] *)
Record options := mkOptions {
  expiresIn : string
}.
End Jwt.

(** What the handlers take from outside the repository: the clock behind
    [NOW()] and [CURRENT_TIMESTAMP], bcryptjs, jsonwebtoken, and
    [process.env.JWT_SECRET]. *)
Record Env := mkEnv {
  NOW : Z;
  bcrypt_hash : string -> Z -> string;
  bcrypt_compare : string -> string -> bool;
  JWT_SECRET : string;
  jwt_sign : Jwt.payload -> string -> Jwt.options -> string
}.

Module Auth.

(** [SELECT * FROM teams WHERE team_code = $1] *)
Definition select_team_by_code (teamCode : string) : Query (list Team.t) :=
  select SELECT_team_by_code
         (fun d => filter (fun t => String.eqb (Team.team_code t) teamCode) (teams d)).

(** [SELECT * FROM users WHERE email = $1] *)
Definition select_user_by_email (email : string) : Query (list User.t) :=
  select SELECT_user_by_email
         (fun d => filter (fun u => String.eqb (User.email u) email) (users d)).

(** [INSERT INTO users (email, password, name, role, team_code, status)
     VALUES ($1, $2, $3, $4, $5, $6)
     RETURNING id, email, name, role, team_code, status].
    [email], [password] and [name] are VARCHAR(255) and [team_code] is
    VARCHAR(10): a value that does not fit raises, before a row is built.
    [id SERIAL PRIMARY KEY] comes from the sequence, which raises when it
    has no INTEGER left to give; [created_at] and [updated_at] come from
    their DEFAULT CURRENT_TIMESTAMP, the other columns are NULL.  The
    PRIMARY KEY and [email VARCHAR(255) UNIQUE] raise on a duplicate, and
    the value taken from the sequence for the row is then lost. *)
Definition insert_user (E : Env) (email password name : string)
    (role : Role.t) (team_code : string) (status : Membership.t)
    : Query RegisteredUser :=
  statement INSERT_user (fun d =>
    match varchar 255 email, varchar 255 password, varchar 255 name,
          varchar 10 team_code with
    | Some email, Some password, Some name, Some team_code =>
      let id := users_id_seq d + 1 in
      if negb (int4 id) then (Thrown sequence_generator_limit_exceeded, d)
      else if existsb (fun u => User.id u =? id) (users d)
              || existsb (fun u => String.eqb (User.email u) email) (users d)
      then (Thrown unique_violation,
            mkDb (users d) (teams d) (tasks d) (subtasks d) id)
      else
        let row := User.mk id email password name role team_code (NOW E) status
                           None None None None (NOW E) in
        (Done (mkRegistered id email name role team_code status),
         mkDb (users d ++ [row]) (teams d) (tasks d) (subtasks d) id)
    | _, _, _, _ => (Thrown string_data_right_truncation, d)
    end).

(** [router.post('/register-member')] *)
Definition registerMember (E : Env) (email password name teamCode : string)
    : Query Response :=
  route (
    teamExists <- select_team_by_code teamCode ;;
    match teamExists with
    | [] => ret (fail 400 "Invalid team code")
    | _ :: _ =>
        userExists <- select_user_by_email email ;;
        match userExists with
        | _ :: _ => ret (fail 400 "User already exists")
        | [] =>
            let hashedPassword := bcrypt_hash E password 10 in
            user <- insert_user E email hashedPassword name Role.member
                                teamCode Membership.pending ;;
            ret (ok (json_registered
                       "Registration successful! Please wait for team leader approval."
                       user))
        end
    end).

(** [SELECT * FROM users WHERE email = $1 AND team_code = $2] *)
Definition select_user_by_email_and_team (email teamCode : string)
    : Query (list User.t) :=
  select SELECT_user_by_email_and_team (fun d =>
    filter (fun u => String.eqb (User.email u) email
                     && String.eqb (User.team_code u) teamCode)
           (users d)).

Definition without_password (u : User.t) : UserWithoutPassword :=
  mkNoPassword (User.id u) (User.email u) (User.name u) (User.role u)
               (User.team_code u) (User.created_at u) (User.status u)
               (User.approved_by u) (User.approved_at u)
               (User.rejected_by u) (User.rejected_at u) (User.updated_at u).

(** [router.post('/login')] *)
Definition login (E : Env) (email password teamCode : string) : Query Response :=
  route (
    userResult <- select_user_by_email_and_team email teamCode ;;
    match userResult with
    | [] => ret (fail 401 "Invalid credentials")
    | user :: _ =>
        let validPassword := bcrypt_compare E password (User.password user) in
        if negb validPassword then ret (fail 401 "Invalid credentials")
        else
          let success :=
            let userWithoutPassword := without_password user in
            let token :=
              jwt_sign E (Jwt.mk (User.id user) (User.email user) (User.role user))
                       (JWT_SECRET E) (Jwt.mkOptions "24h") in
            ret (ok (json_login "Login successful" userWithoutPassword token)) in
          if Role.eqb (User.role user) Role.member
             && negb (Membership.eqb (User.status user) Membership.approved)
          then
            if Membership.eqb (User.status user) Membership.pending
            then ret (fail 403 "Your membership is pending approval from the team leader")
            else if Membership.eqb (User.status user) Membership.rejected
            then ret (fail 403 "Your membership request was rejected. Please contact your team leader.")
            else success
          else success
    end).

(** The three membership updates share their shape: [actor] and [userId]
    are bound to INTEGER parameters; rows selected by [hit] are rewritten
    by [set]; [approved_by] and [rejected_by] REFERENCE users(id), so
    writing the id [actor] that no user row has, into a selected row,
    raises. *)
Definition update_users (s : Stmt) (userId : Z) (hit : User.t -> bool)
    (set : User.t -> User.t) (actor : Z) : Query (list User.t) :=
  statement s (binding [actor; userId] (fun d =>
    if existsb hit (users d)
       && negb (existsb (fun u => User.id u =? actor) (users d))
    then (Thrown foreign_key_violation, d)
    else
      (Done (map set (filter hit (users d))),
       mkDb (map (fun u => if hit u then set u else u) (users d))
            (teams d) (tasks d) (subtasks d) (users_id_seq d)))).

(** [UPDATE users SET status = $1, approved_by = $2, approved_at = NOW(),
       updated_at = NOW()
     WHERE id = $3 AND team_code = $4 AND role = $5 RETURNING *] *)
Definition update_user_approve (E : Env) (status : Membership.t)
    (approvedBy userId : Z) (teamCode : string) (role : Role.t)
    : Query (list User.t) :=
  update_users UPDATE_user_approve userId
    (fun u => (User.id u =? userId)
              && String.eqb (User.team_code u) teamCode
              && Role.eqb (User.role u) role)
    (fun u => User.mk (User.id u) (User.email u) (User.password u) (User.name u)
                      (User.role u) (User.team_code u) (User.created_at u)
                      status (Some approvedBy) (Some (NOW E))
                      (User.rejected_by u) (User.rejected_at u) (NOW E))
    approvedBy.

(** [UPDATE users SET status = $1, rejected_by = $2, rejected_at = NOW(),
       updated_at = NOW()
     WHERE id = $3 AND team_code = $4 AND role = $5 RETURNING *] *)
Definition update_user_reject (E : Env) (status : Membership.t)
    (rejectedBy userId : Z) (teamCode : string) (role : Role.t)
    : Query (list User.t) :=
  update_users UPDATE_user_reject userId
    (fun u => (User.id u =? userId)
              && String.eqb (User.team_code u) teamCode
              && Role.eqb (User.role u) role)
    (fun u => User.mk (User.id u) (User.email u) (User.password u) (User.name u)
                      (User.role u) (User.team_code u) (User.created_at u)
                      status (User.approved_by u) (User.approved_at u)
                      (Some rejectedBy) (Some (NOW E)) (NOW E))
    rejectedBy.

(** [UPDATE users SET status = $1, approved_by = $2, approved_at = NOW(),
       rejected_by = NULL, rejected_at = NULL, updated_at = NOW()
     WHERE id = $3 AND team_code = $4 AND status = $5 AND role = $6
     RETURNING *] *)
Definition update_user_reapprove (E : Env) (status : Membership.t)
    (approvedBy userId : Z) (teamCode : string) (current : Membership.t)
    (role : Role.t) : Query (list User.t) :=
  update_users UPDATE_user_reapprove userId
    (fun u => (User.id u =? userId)
              && String.eqb (User.team_code u) teamCode
              && Membership.eqb (User.status u) current
              && Role.eqb (User.role u) role)
    (fun u => User.mk (User.id u) (User.email u) (User.password u) (User.name u)
                      (User.role u) (User.team_code u) (User.created_at u)
                      status (Some approvedBy) (Some (NOW E))
                      None None (NOW E))
    approvedBy.

(** The body shared by the three routes: the guard on the request fields,
    then BEGIN, the UPDATE, ROLLBACK and 404 on zero rows, COMMIT and the
    row otherwise.  A [teamCode] that is absent is the empty string. *)
Definition membership_route (update : Z -> Z -> Query (list User.t))
    (not_found success : string)
    (userId : option Z) (teamCode : string) (actor : option Z)
    : Query Response :=
  route (
    if falsy userId || String.eqb teamCode "" || falsy actor
    then ret (fail 400 "Missing required fields")
    else
      try_catch
        (begin_ ;;
         result <- update (parseInt actor) (parseInt userId) ;;
         match result with
         | [] =>
             rollback ;;
             ret (fail 404 not_found)
         | user :: _ =>
             commit ;;
             ret (ok (json_user success user))
         end)
        (fun error => rollback ;; throw error)).

(** [router.post('/approve-member')] *)
Definition approveMember (E : Env) (userId : option Z) (teamCode : string)
    (approvedBy : option Z) : Query Response :=
  membership_route
    (fun by_ id_ => update_user_approve E Membership.approved by_ id_ teamCode Role.member)
    "User not found or already processed" "Member approved successfully"
    userId teamCode approvedBy.

(** [router.post('/reject-member')] *)
Definition rejectMember (E : Env) (userId : option Z) (teamCode : string)
    (rejectedBy : option Z) : Query Response :=
  membership_route
    (fun by_ id_ => update_user_reject E Membership.rejected by_ id_ teamCode Role.member)
    "User not found or already processed" "Member request rejected"
    userId teamCode rejectedBy.

(** [router.post('/approve-rejected-member')] *)
Definition reApprove (E : Env) (userId : option Z) (teamCode : string)
    (approvedBy : option Z) : Query Response :=
  membership_route
    (fun by_ id_ => update_user_reapprove E Membership.approved by_ id_ teamCode
                                          Membership.rejected Role.member)
    "Rejected member not found or already processed" "Member approved successfully"
    userId teamCode approvedBy.

(** [SELECT id, role FROM users WHERE id = $1 AND team_code = $2 AND role = $3]
    (and the same with [SELECT id]) *)
Definition select_user_in_team (userId : Z) (teamCode : string) (role : Role.t)
    : Query (list Z) :=
  select_on [userId] SELECT_user_in_team (fun d =>
    map User.id
        (filter (fun u => (User.id u =? userId)
                          && String.eqb (User.team_code u) teamCode
                          && Role.eqb (User.role u) role)
                (users d))).

(** [UPDATE subtasks SET assigned_to = NULL, status = $1 WHERE assigned_to = $2] *)
Definition update_subtasks_release (st : Status.t) (memberId : Z) : Query unit :=
  statement UPDATE_subtasks_release (binding [memberId] (fun d =>
    (Done tt,
     mkDb (users d) (teams d) (tasks d)
          (map (fun s => if col_is (Subtask.assigned_to s) memberId
                         then Subtask.set_released st s
                         else s)
               (subtasks d))
          (users_id_seq d)))).

(** A row of another table, or another row of [users], still refers to
    the user: [users.approved_by], [users.rejected_by], [teams.leader_id],
    [tasks.created_by] and [subtasks.assigned_to] all REFERENCE users(id)
    without an ON DELETE action. *)
Definition user_referenced (d : Db) (userId : Z) : bool :=
  existsb (fun u => negb (User.id u =? userId)
                    && (col_is (User.approved_by u) userId
                        || col_is (User.rejected_by u) userId))
          (users d)
  || existsb (fun t => col_is (Team.leader_id t) userId) (teams d)
  || existsb (fun t => col_is (Task.created_by t) userId) (tasks d)
  || existsb (fun s => col_is (Subtask.assigned_to s) userId) (subtasks d).

(** [DELETE FROM users WHERE id = $1] *)
Definition delete_user (userId : Z) : Query unit :=
  statement DELETE_user (binding [userId] (fun d =>
    if existsb (fun u => User.id u =? userId) (users d)
       && user_referenced d userId
    then (Thrown foreign_key_violation, d)
    else
      (Done tt,
       mkDb (filter (fun u => negb (User.id u =? userId)) (users d))
            (teams d) (tasks d) (subtasks d) (users_id_seq d)))).

(** [router.delete('/team/:teamCode/member/:memberId')] *)
Definition deleteTeamMember (teamCode : string) (memberId : Z)
    (leaderId : option Z) : Query Response :=
  route (
    if falsy leaderId then ret (fail 400 "Leader ID is required")
    else
      leaderCheck <- select_user_in_team (parseInt leaderId) teamCode Role.leader ;;
      match leaderCheck with
      | [] => ret (fail 403 "Only team leader can delete members")
      | _ :: _ =>
          if memberId =? parseInt leaderId
          then ret (fail 400 "Cannot delete yourself")
          else
            memberCheck <- select_user_in_team memberId teamCode Role.member ;;
            match memberCheck with
            | [] => ret (fail 404 "Member not found in your team")
            | _ :: _ =>
                try_catch
                  (begin_ ;;
                   update_subtasks_release Status.available memberId ;;
                   delete_user memberId ;;
                   commit ;;
                   ret (ok (json_message "Member deleted successfully")))
                  (fun error => rollback ;; throw error)
            end
      end).

End Auth.

(* ------------------------------------------------------------------ *)
(** ** Sample data *)

Module Sample.

Definition user (id : Z) (email : string) (role : Role.t) (team_code : string)
    (status : Membership.t) : User.t :=
  User.mk id email "h:pw" "N" role team_code 0 status None None None None 0.

Definition subtask (id task_id : Z) (assigned_to : option Z)
    (status : Status.t) (progress : Progress.t) : Subtask.t :=
  Subtask.mk id (Some task_id) "sub" None assigned_to status progress None id 0.

(** Team AB12CD: leader 1, members 2 (pending) and 4 (approved); team
    ZZ99ZZ: leader 3.  Task 1 has three subtasks, task 2 has none.  Every
    password is pw, hashed by [env] to h:pw. *)
Definition db : Db :=
  mkDb [user 1 "a@x.com" Role.leader "AB12CD" Membership.approved;
        user 2 "b@x.com" Role.member "AB12CD" Membership.pending;
        user 3 "c@y.com" Role.leader "ZZ99ZZ" Membership.approved;
        user 4 "d@x.com" Role.member "AB12CD" Membership.approved]
       [Team.mk 1 "AB12CD" "TeamA" (Some 1) 0;
        Team.mk 2 "ZZ99ZZ" "TeamZ" (Some 3) 0]
       [Task.mk 1 "T1" None "AB12CD" (Some 1) 5 "active" 5;
        Task.mk 2 "T2" None "AB12CD" (Some 1) 6 "active" 6]
       [subtask 1 1 None Status.available Progress.not_started;
        subtask 2 1 (Some 4) Status.taken Progress.in_progress;
        subtask 3 1 (Some 4) Status.completed Progress.completed]
       4.

Definition env : Env :=
  mkEnv 100
        (fun password _ => String.append "h:" password)
        (fun password hash => String.eqb hash (String.append "h:" password))
        "secret"
        (fun _ _ _ => "token").

(** A text of [n] characters. *)
Fixpoint text (n : nat) : string :=
  match n with
  | O => EmptyString
  | S n' => String "a" (text n')
  end.

End Sample.

(* ------------------------------------------------------------------ *)
(** ** Vocabulary of the specification *)

(** The row a lookup by primary key yields. *)
Definition subtask_by_id (d : Db) (subtaskId : Z) : option Subtask.t :=
  find (fun s => Subtask.id s =? subtaskId) (subtasks d).

Definition user_by_id (d : Db) (userId : Z) : option User.t :=
  find (fun u => User.id u =? userId) (users d).

(** The task that owns a subtask. *)
Definition task_of (d : Db) (s : Subtask.t) : option Task.t :=
  find (fun t => col_is (Subtask.task_id s) (Task.id t)) (tasks d).

(** The users table has a row with this id. *)
Definition user_exists (d : Db) (userId : Z) : Prop :=
  exists u, In u (users d) /\ User.id u = userId.

(** The database with another subtasks table. *)
Definition with_subtasks (d : Db) (rows : list Subtask.t) : Db :=
  mkDb (users d) (teams d) (tasks d) rows (users_id_seq d).

(** The subtask row with assignee, status and progress replaced and every
    other column as it was. *)
Definition reassigned (a : option Z) (st : Status.t) (pr : Progress.t)
    (r : Subtask.t) : Subtask.t :=
  Subtask.mk (Subtask.id r) (Subtask.task_id r) (Subtask.title r)
             (Subtask.description r) a st pr
             (Subtask.deadline r) (Subtask.created_at r) (Subtask.updated_at r).

(** The database in which the rows with id [subtaskId] are [reassigned]
    and nothing else differs. *)
Definition reassign_in (d : Db) (subtaskId : Z) (a : option Z)
    (st : Status.t) (pr : Progress.t) : Db :=
  with_subtasks d
    (map (fun r => if Subtask.id r =? subtaskId then reassigned a st pr r else r)
         (subtasks d)).

(** The subtask row with progress and status replaced and every other
    column as it was. *)
Definition progressed (pr : Progress.t) (st : Status.t) (r : Subtask.t)
    : Subtask.t :=
  Subtask.mk (Subtask.id r) (Subtask.task_id r) (Subtask.title r)
             (Subtask.description r) (Subtask.assigned_to r) st pr
             (Subtask.deadline r) (Subtask.created_at r) (Subtask.updated_at r).

(** Some statement of the list names the table. *)
Definition touches (tb : Table) (log : list Stmt) : bool :=
  existsb (names_table tb) log.

(** The row that the login query yields first. *)
Definition login_user (d : Db) (email teamCode : string) : option User.t :=
  find (fun u => String.eqb (User.email u) email
                 && String.eqb (User.team_code u) teamCode)
       (users d).

Definition pending_message : string :=
  "Your membership is pending approval from the team leader".

Definition rejected_message : string :=
  "Your membership request was rejected. Please contact your team leader.".

Definition team_by_code (d : Db) (teamCode : string) : option Team.t :=
  find (fun t => String.eqb (Team.team_code t) teamCode) (teams d).

Definition user_by_email (d : Db) (email : string) : option User.t :=
  find (fun u => String.eqb (User.email u) email) (users d).

(** The WHERE clause of the two checks of deleteTeamMember. *)
Definition in_team (d : Db) (userId : Z) (teamCode : string) (role : Role.t)
    : bool :=
  existsb (fun u => (User.id u =? userId)
                    && String.eqb (User.team_code u) teamCode
                    && Role.eqb (User.role u) role)
          (users d).

(** A user row with this id, team code and role exists. *)
Definition is_user_in_team (d : Db) (userId : Z) (teamCode : string)
    (role : Role.t) : Prop :=
  exists u, In u (users d) /\ User.id u = userId
            /\ User.team_code u = teamCode /\ User.role u = role.

(** A released subtask: assignee NULL, status available, every other
    column, progress among them, as it was. *)
Definition released_row (s : Subtask.t) : Subtask.t :=
  Subtask.mk (Subtask.id s) (Subtask.task_id s) (Subtask.title s)
             (Subtask.description s) None Status.available (Subtask.progress s)
             (Subtask.deadline s) (Subtask.created_at s) (Subtask.updated_at s).

Definition release_all (memberId : Z) (rows : list Subtask.t) : list Subtask.t :=
  map (fun s => if col_is (Subtask.assigned_to s) memberId
                then released_row s else s)
      rows.

(** The database after a successful deletion. *)
Definition member_deleted (d : Db) (memberId : Z) : Db :=
  mkDb (filter (fun u => negb (User.id u =? memberId)) (users d))
       (teams d) (tasks d) (release_all memberId (subtasks d))
       (users_id_seq d).

(** Another user row, a team or a task still refers to the user. *)
Definition referenced_elsewhere (d : Db) (userId : Z) : bool :=
  existsb (fun u => negb (User.id u =? userId)
                    && (col_is (User.approved_by u) userId
                        || col_is (User.rejected_by u) userId))
          (users d)
  || existsb (fun t => col_is (Team.leader_id t) userId) (teams d)
  || existsb (fun t => col_is (Task.created_by t) userId) (tasks d).

(** The rows in the body of a task listing. *)
Definition listed (r : Response * Db * list Stmt)
    : list (TaskRow * list SubtaskRow) :=
  match body (fst (fst r)) with
  | json_tasks rows => rows
  | _ => []
  end.

(** The subtasks of a task, as the join of the listing query sees them. *)
Definition subtasks_of (d : Db) (t : Task.t) : list Subtask.t :=
  filter (fun s => col_is (Subtask.task_id s) (Task.id t)) (subtasks d).

(** The rows that the listing query selects, before DISTINCT and ORDER BY
    (which neither add nor drop a row value). *)
Definition selected_rows (cond : option Status.t -> option bool)
    (teamCode : string) (d : Db) : list TaskRow :=
  map (fun r =>
         mkTaskRow (fst (fst r)) (option_map User.name (snd (fst r)))
                   (Tasks.count_subtasks d (fst (fst r)))
                   (Tasks.count_completed_subtasks d (fst (fst r))))
      (filter (fun r =>
                 Tasks.where_
                   (Tasks.sql_and
                      (Some (String.eqb (Task.team_code (fst (fst r))) teamCode))
                      (cond (option_map Subtask.status (snd r)))))
              (left_join (fun tu s => col_is (Subtask.task_id s) (Task.id (fst tu)))
                         (left_join (fun t u => col_is (Task.created_by t) (User.id u))
                                    (tasks d) (users d))
                         (subtasks d))).

(** The subtasks attached to a listed task. *)
Definition attached (d : Db) (taskId : Z) : list SubtaskRow :=
  map (fun su => mkSubtaskRow (fst su) (option_map User.name (snd su))
                              (option_map User.email (snd su)))
      (Tasks.order_by
         (fun a b => Subtask.created_at (fst a) <=? Subtask.created_at (fst b))
         (filter (fun su => col_is (Subtask.task_id (fst su)) taskId)
                 (left_join (fun s u => col_is (Subtask.assigned_to s) (User.id u))
                            (subtasks d) (users d)))).

(* ------------------------------------------------------------------ *)
(** ** The other routes *)

From Stdlib Require Import Sorted.

(** The answer of a route whose JSON body has a type of its own:
    [res.json(b)] with status 200, or [res.status(code).json({ error })]. *)
Inductive Reply (B : Type) :=
| Json (b : B)
| Failure (code : Z) (error : string).
Arguments Json {B} b.
Arguments Failure {B} code error.

Definition reply_code {B} (r : Reply B) : Z :=
  match r with
  | Json _ => 200
  | Failure n _ => n
  end.

(** The outer [try]/[catch] of a route, for a [Reply]. *)
Definition serve_route {B} (h : Query (Reply B)) : Query (Reply B) :=
  try_catch h (fun _ => ret (Failure 500 "Internal server error")).

(** Running such a route on a fresh connection: the answer and the
    database afterwards. *)
Definition serve {B} (h : Query (Reply B)) (d : Db) : Reply B * Db :=
  match h (mkConn d None []) with
  | (Done r, c) => (r, cur c)
  | (Thrown _, c) => (Failure 500 "Internal server error", cur c)
  end.

(** A statement that is not among those of [Stmt]: it acts on the
    database and leaves [issued], which lists the statements of [Stmt]
    only, as it is. *)
Definition effect {A} (f : Db -> Res A * Db) : Query A :=
  fun c =>
    let '(r, d) := f (cur c) in
    (r, mkConn d (saved c) (issued c)).

Definition query {A} (f : Db -> A) : Query A :=
  effect (fun d => (Done (f d), d)).

(** A SELECT with INTEGER parameters. *)
Definition query_on {A} (ps : list Z) (f : Db -> A) : Query A :=
  effect (binding ps (fun d => (Done (f d), d))).

(** A nullable INTEGER parameter: NULL binds to any type. *)
Definition nullable (c : option Z) : list Z :=
  match c with
  | Some n => [n]
  | None => []
  end.

(** The current values of the SERIAL sequences of [teams.id], [tasks.id]
    and [subtasks.id], which [Db] does not carry: a route that inserts
    into these tables is given them. *)
Record Serial := mkSerial {
  teams_id_seq : Z;
  tasks_id_seq : Z;
  subtasks_id_seq : Z
}.

(** A text field of a request body: JavaScript's [!v] is true for the
    empty string (an absent field is modelled as the empty string). *)
Definition blank (v : string) : bool := String.eqb v "".

(** [v || null] for an optional text field. *)
Definition or_null (v : option string) : option string :=
  match v with
  | Some s => if blank s then None else Some s
  | None => None
  end.

(** The database with another tasks table, or another teams table. *)
Definition with_tasks (d : Db) (rows : list Task.t) : Db :=
  mkDb (users d) (teams d) rows (subtasks d) (users_id_seq d).

Definition with_teams (d : Db) (rows : list Team.t) : Db :=
  mkDb (users d) rows (tasks d) (subtasks d) (users_id_seq d).

Definition with_users (d : Db) (rows : list User.t) : Db :=
  mkDb rows (teams d) (tasks d) (subtasks d) (users_id_seq d).

Definition has_user (d : Db) (userId : Z) : bool :=
  existsb (fun u => User.id u =? userId) (users d).

Definition has_task (d : Db) (taskId : Z) : bool :=
  existsb (fun t => Task.id t =? taskId) (tasks d).

(** A nullable reference to [users(id)] is satisfied. *)
Definition refers_to_user (d : Db) (c : option Z) : bool :=
  match c with
  | Some n => has_user d n
  | None => true
  end.

Module TaskRoutes.

(** An element of [subtasks] in the body of the create route. *)
Record NewSubtask := mkNewSubtask {
  ns_title : string;
  ns_description : option string;
  ns_assigned_to : option Z
}.

(** [t.*, u.name as created_by_name] with the subtasks attached. *)
Record TaskWithSubtasks := mkTaskWithSubtasks {
  tw_task : Task.t;
  tw_created_by_name : option string;
  tw_subtasks : list SubtaskRow
}.

(** [INSERT INTO tasks (title, description, team_code, created_by)
     VALUES ($1, $2, $3, $4) RETURNING *].  [id SERIAL PRIMARY KEY] is the
    next value of the sequence, which raises when it has no INTEGER left
    to give; [status] and the timestamps take their defaults;
    [title VARCHAR(255)], [team_code VARCHAR(10)], [description TEXT],
    [created_by INTEGER REFERENCES users(id)]. *)
Definition insert_task (E : Env) (id : Z) (title : string)
    (description : option string) (teamCode : string) (createdBy : Z)
    : Query Task.t :=
  effect (binding [createdBy] (fun d =>
    match varchar 255 title, varchar 10 teamCode with
    | Some title, Some teamCode =>
      if negb (int4 id) then (Thrown sequence_generator_limit_exceeded, d)
      else if has_task d id then (Thrown unique_violation, d)
      else if negb (has_user d createdBy) then (Thrown foreign_key_violation, d)
      else
        let row := Task.mk id title description teamCode (Some createdBy)
                           (NOW E) "active" (NOW E) in
        (Done row, with_tasks d (tasks d ++ [row]))
    | _, _ => (Thrown string_data_right_truncation, d)
    end)).

(** [INSERT INTO subtasks (task_id, title, description, assigned_to,
       status, progress) VALUES ($1, $2, $3, $4, $5, $6)].
    [id SERIAL PRIMARY KEY] is the next value of the sequence;
    [title VARCHAR(255)], [description TEXT]; [task_id] REFERENCES
    tasks(id) and [assigned_to] REFERENCES users(id). *)
Definition insert_subtask (E : Env) (id taskId : Z) (title : string)
    (description : option string) (assignedTo : option Z)
    (status : Status.t) (progress : Progress.t) : Query unit :=
  effect (binding (taskId :: nullable assignedTo) (fun d =>
    match varchar 255 title with
    | Some title =>
      if negb (int4 id) then (Thrown sequence_generator_limit_exceeded, d)
      else if existsb (fun s => Subtask.id s =? id) (subtasks d)
      then (Thrown unique_violation, d)
      else if negb (has_task d taskId) || negb (refers_to_user d assignedTo)
      then (Thrown foreign_key_violation, d)
      else
        let row := Subtask.mk id (Some taskId) title description assignedTo
                              status progress None (NOW E) (NOW E) in
        (Done tt, with_subtasks d (subtasks d ++ [row]))
    | None => (Thrown string_data_right_truncation, d)
    end)).

(** The status, assignee and progress a new subtask starts with. *)
Definition initial_state (assignSpecific : bool) (subtask : NewSubtask)
    : Status.t * option Z * Progress.t :=
  if assignSpecific && negb (falsy (ns_assigned_to subtask))
  then (Status.assigned, ns_assigned_to subtask, Progress.assigned)
  else (Status.available, None, Progress.not_started).

(** [for (const subtask of subtasks) { ... INSERT ... }]; [next] is the
    value the sequence gives the first of them. *)
Fixpoint insert_subtasks (E : Env) (taskId : Z) (assignSpecific : bool)
    (next : Z) (subtasks : list NewSubtask) : Query unit :=
  match subtasks with
  | [] => ret tt
  | subtask :: rest =>
      let '(status, assignedTo, progress) := initial_state assignSpecific subtask in
      insert_subtask E next taskId (ns_title subtask)
                     (or_null (ns_description subtask)) assignedTo status progress ;;
      insert_subtasks E taskId assignSpecific (next + 1) rest
  end.

(** [SELECT t.*, u.name as created_by_name FROM tasks t
     LEFT JOIN users u ON t.created_by = u.id WHERE t.id = $1] *)
Definition select_task_by_id (taskId : Z) : Query (list (Task.t * option string)) :=
  query_on [taskId] (fun d =>
    map (fun tu => (fst tu, option_map User.name (snd tu)))
        (filter (fun tu => Task.id (fst tu) =? taskId)
                (left_join (fun t u => col_is (Task.created_by t) (User.id u))
                           (tasks d) (users d)))).

(** [getTaskWithSubtasks(taskId)]: [null] when no task has the id. *)
Definition getTaskWithSubtasks (taskId : Z) : Query (option TaskWithSubtasks) :=
  taskResult <- select_task_by_id taskId ;;
  match taskResult with
  | [] => ret None
  | (t, name) :: _ =>
      subtasks <- Tasks.getSubtasksForTask taskId ;;
      ret (Some (mkTaskWithSubtasks t name subtasks))
  end.

(** [router.post('/create')]; the body of the answer is
    [{ message, task }]. *)
Definition createTask (E : Env) (S : Serial) (title : string)
    (description : option string) (teamCode : string) (createdBy : option Z)
    (subtasks : list NewSubtask) (assignSpecific : bool)
    : Query (Reply (string * option TaskWithSubtasks)) :=
  serve_route (
    if blank title || blank teamCode || falsy createdBy
       || (List.length subtasks =? 0)%nat
    then ret (Failure 400 "Missing required fields")
    else
      try_catch
        (begin_ ;;
         taskResult <- insert_task E (tasks_id_seq S + 1) title description
                                   teamCode (parseInt createdBy) ;;
         let taskId := Task.id taskResult in
         insert_subtasks E taskId assignSpecific (subtasks_id_seq S + 1)
                         subtasks ;;
         commit ;;
         completeTask <- getTaskWithSubtasks taskId ;;
         ret (Json ("Task created successfully", completeTask)))
        (fun error => rollback ;; throw error)).

(** [router.get('/:taskId')] *)
Definition getTask (taskId : Z) : Query (Reply TaskWithSubtasks) :=
  serve_route (
    taskResult <- select_task_by_id taskId ;;
    match taskResult with
    | [] => ret (Failure 404 "Task not found")
    | (t, name) :: _ =>
        subtasks <- Tasks.getSubtasksForTask taskId ;;
        ret (Json (mkTaskWithSubtasks t name subtasks))
    end).

(** [SELECT t.*, u.name as created_by_name, (...) as total_subtasks,
       (...) as completed_subtasks
     FROM tasks t LEFT JOIN users u ON t.created_by = u.id
     WHERE t.team_code = $1 ORDER BY t.created_at DESC] *)
Definition select_tasks_of_team (teamCode : string) : Query (list TaskRow) :=
  query (fun d =>
    Tasks.order_by
      (fun a b => Task.created_at (r_task b) <=? Task.created_at (r_task a))
      (map (fun tu =>
              mkTaskRow (fst tu) (option_map User.name (snd tu))
                        (Tasks.count_subtasks d (fst tu))
                        (Tasks.count_completed_subtasks d (fst tu)))
           (filter (fun tu => String.eqb (Task.team_code (fst tu)) teamCode)
                   (left_join (fun t u => col_is (Task.created_by t) (User.id u))
                              (tasks d) (users d))))).

(** [router.get('/team/:teamCode')] *)
Definition listTasksForTeam (teamCode : string)
    : Query (Reply (list (TaskRow * list SubtaskRow))) :=
  serve_route (
    tasksResult <- select_tasks_of_team teamCode ;;
    tasksWithSubtasks <-
      Tasks.map_all (fun row =>
                       subtasks <- Tasks.getSubtasksForTask (Task.id (r_task row)) ;;
                       ret (row, subtasks))
                    tasksResult ;;
    ret (Json tasksWithSubtasks)).

(** Row of the available-subtasks query: [s.*] and three joined columns. *)
Record AvailableRow := mkAvailableRow {
  a_subtask : Subtask.t;
  a_task_title : string;
  a_task_description : option string;
  a_created_by_name : option string
}.

(** [router.get('/team/:teamCode/available')]:
    [SELECT s.*, t.title as task_title, t.description as task_description,
            u.name as created_by_name
     FROM subtasks s JOIN tasks t ON s.task_id = t.id
          LEFT JOIN users u ON t.created_by = u.id
     WHERE t.team_code = $1 AND s.status = 'available'
     ORDER BY s.created_at DESC] *)
Definition availableSubtasks (teamCode : string) : Query (Reply (list AvailableRow)) :=
  serve_route (
    result <- query (fun d =>
      let s_t := inner_join (fun s t => col_is (Subtask.task_id s) (Task.id t))
                            (subtasks d) (tasks d) in
      let s_t_u := left_join (fun st u => col_is (Task.created_by (snd st)) (User.id u))
                             s_t (users d) in
      let kept := filter (fun r => String.eqb (Task.team_code (snd (fst r))) teamCode
                                   && Status.eqb (Subtask.status (fst (fst r)))
                                                 Status.available)
                         s_t_u in
      map (fun r => mkAvailableRow (fst (fst r)) (Task.title (snd (fst r)))
                                   (Task.description (snd (fst r)))
                                   (option_map User.name (snd r)))
          (Tasks.order_by
             (fun a b => Subtask.created_at (fst (fst b))
                         <=? Subtask.created_at (fst (fst a)))
             kept)) ;;
    ret (Json result)).

(** Row of the query for a user's subtasks. *)
Record AssignedRow := mkAssignedRow {
  u_subtask : Subtask.t;
  u_task_title : string;
  u_task_description : option string;
  u_team_code : string;
  u_assigned_to_name : option string;
  u_created_by_name : option string
}.

(** [CASE s.progress WHEN 'not_started' THEN 1 ... WHEN 'completed' THEN 5
     ELSE 6 END] *)
Definition progress_rank (p : Progress.t) : Z :=
  match p with
  | Progress.not_started => 1
  | Progress.assigned => 2
  | Progress.in_progress => 3
  | Progress.testing => 4
  | Progress.completed => 5
  end.

(** [ORDER BY CASE s.progress ... END, s.created_at DESC]: [a] may stand
    before [b]. *)
Definition by_progress_then_newest (a b : Subtask.t) : bool :=
  (progress_rank (Subtask.progress a) <? progress_rank (Subtask.progress b))
  || ((progress_rank (Subtask.progress a) =? progress_rank (Subtask.progress b))
      && (Subtask.created_at b <=? Subtask.created_at a)).

(** [router.get('/user/:userId/subtasks')]:
    [SELECT s.*, t.title as task_title, t.description as task_description,
            t.team_code, u.name as assigned_to_name, uc.name as created_by_name
     FROM subtasks s JOIN tasks t ON s.task_id = t.id
          LEFT JOIN users u ON s.assigned_to = u.id
          LEFT JOIN users uc ON t.created_by = uc.id
     WHERE s.assigned_to = $1
     ORDER BY CASE s.progress ... END, s.created_at DESC] *)
Definition userSubtasks (userId : Z) : Query (Reply (list AssignedRow)) :=
  serve_route (
    result <- query_on [userId] (fun d =>
      let s_t := inner_join (fun s t => col_is (Subtask.task_id s) (Task.id t))
                            (subtasks d) (tasks d) in
      let s_t_u := left_join (fun st u => col_is (Subtask.assigned_to (fst st)) (User.id u))
                             s_t (users d) in
      let s_t_u_uc := left_join (fun stu uc => col_is (Task.created_by (snd (fst stu)))
                                                      (User.id uc))
                                s_t_u (users d) in
      let kept := filter (fun r => col_is (Subtask.assigned_to (fst (fst (fst r)))) userId)
                         s_t_u_uc in
      map (fun r =>
             let s := fst (fst (fst r)) in
             let t := snd (fst (fst r)) in
             mkAssignedRow s (Task.title t) (Task.description t) (Task.team_code t)
                           (option_map User.name (snd (fst r)))
                           (option_map User.name (snd r)))
          (Tasks.order_by
             (fun a b => by_progress_then_newest (fst (fst (fst a))) (fst (fst (fst b))))
             kept)) ;;
    ret (Json result)).

(** [UPDATE subtasks SET deadline = $1 WHERE id = $2 RETURNING *] *)
Definition update_subtask_deadline (deadline subtaskId : Z) : Query (list Subtask.t) :=
  effect (binding [subtaskId] (fun d =>
    let hit := fun s => Subtask.id s =? subtaskId in
    let rows :=
      map (fun s => if hit s
                    then Subtask.mk (Subtask.id s) (Subtask.task_id s)
                                    (Subtask.title s) (Subtask.description s)
                                    (Subtask.assigned_to s) (Subtask.status s)
                                    (Subtask.progress s) (Some deadline)
                                    (Subtask.created_at s) (Subtask.updated_at s)
                    else s)
          (subtasks d) in
    (Done (filter hit rows), with_subtasks d rows))).

(** [router.put('/subtask/:subtaskId/deadline')]; a deadline that is
    present is a timestamp, so only its absence is falsy. *)
Definition updateDeadline (subtaskId : Z) (deadline userId : option Z)
    : Query (Reply (string * option SubtaskDetails)) :=
  serve_route (
    match deadline with
    | None => ret (Failure 400 "Deadline and user ID are required")
    | Some deadline =>
      if falsy userId then ret (Failure 400 "Deadline and user ID are required")
      else
        userCheck <- Tasks.select_user_role (parseInt userId) ;;
        match userCheck with
        | [] => ret (Failure 403 "Only team leaders can update deadlines")
        | (role, _) :: _ =>
          if negb (Role.eqb role Role.leader)
          then ret (Failure 403 "Only team leaders can update deadlines")
          else
            result <- update_subtask_deadline deadline subtaskId ;;
            match result with
            | [] => ret (Failure 404 "Subtask not found")
            | _ :: _ =>
                updatedSubtask <- Tasks.getSubtaskWithDetails subtaskId ;;
                ret (Json ("Deadline updated successfully", updatedSubtask))
            end
        end
    end).

(** [SELECT created_by, team_code FROM tasks WHERE id = $1] *)
Definition select_task_owner (taskId : Z) : Query (list (option Z * string)) :=
  query_on [taskId] (fun d =>
    map (fun t => (Task.created_by t, Task.team_code t))
        (filter (fun t => Task.id t =? taskId) (tasks d))).

(** [SELECT t.created_by, t.team_code FROM subtasks s
     JOIN tasks t ON s.task_id = t.id WHERE s.id = $1] *)
Definition select_subtask_owner (subtaskId : Z) : Query (list (option Z * string)) :=
  query_on [subtaskId] (fun d =>
    map (fun st => (Task.created_by (snd st), Task.team_code (snd st)))
        (filter (fun st => Subtask.id (fst st) =? subtaskId)
                (inner_join (fun s t => col_is (Subtask.task_id s) (Task.id t))
                            (subtasks d) (tasks d)))).

(** The check shared by the edit and delete routes: the caller is the
    creator, or a leader whose team code is the task's. *)
Definition may_modify (created_by : option Z) (team_code : string)
    (userId : Z) (role : Role.t) (user_team_code : string) : bool :=
  let isCreator := col_is created_by userId in
  let isLeader := Role.eqb role Role.leader
                  && String.eqb user_team_code team_code in
  isCreator || isLeader.

(** [DELETE FROM subtasks WHERE task_id = $1] *)
Definition delete_subtasks_of_task (taskId : Z) : Query unit :=
  effect (binding [taskId] (fun d =>
    (Done tt,
     with_subtasks d
       (filter (fun s => negb (col_is (Subtask.task_id s) taskId))
               (subtasks d))))).

(** [DELETE FROM tasks WHERE id = $1]; [subtasks.task_id] REFERENCES
    tasks(id) ON DELETE CASCADE, so the subtasks of a deleted task go
    with it. *)
Definition delete_task (taskId : Z) : Query unit :=
  effect (binding [taskId] (fun d =>
    (Done tt,
     mkDb (users d) (teams d)
          (filter (fun t => negb (Task.id t =? taskId)) (tasks d))
          (if has_task d taskId
           then filter (fun s => negb (col_is (Subtask.task_id s) taskId))
                       (subtasks d)
           else subtasks d)
          (users_id_seq d)))).

(** [router.delete('/:taskId')] *)
Definition deleteTask (taskId : Z) (userId : option Z) : Query (Reply string) :=
  serve_route (
    if falsy userId then ret (Failure 400 "User ID is required")
    else
      taskResult <- select_task_owner taskId ;;
      match taskResult with
      | [] => ret (Failure 404 "Task not found")
      | (created_by, team_code) :: _ =>
        userCheck <- Tasks.select_user_role (parseInt userId) ;;
        match userCheck with
        | [] => ret (Failure 403 "User not found")
        | (role, user_team_code) :: _ =>
          if negb (may_modify created_by team_code (parseInt userId)
                              role user_team_code)
          then ret (Failure 403 "Not authorized to delete this task")
          else
            try_catch
              (begin_ ;;
               delete_subtasks_of_task taskId ;;
               delete_task taskId ;;
               commit ;;
               ret (Json "Task deleted successfully"))
              (fun error => rollback ;; throw error)
        end
      end).

(** [DELETE FROM subtasks WHERE id = $1 RETURNING *] *)
Definition delete_subtask (subtaskId : Z) : Query (list Subtask.t) :=
  effect (binding [subtaskId] (fun d =>
    (Done (filter (fun s => Subtask.id s =? subtaskId) (subtasks d)),
     with_subtasks d
       (filter (fun s => negb (Subtask.id s =? subtaskId)) (subtasks d))))).

(** [router.delete('/subtask/:subtaskId')] *)
Definition deleteSubtask (subtaskId : Z) (userId : option Z) : Query (Reply string) :=
  serve_route (
    if falsy userId then ret (Failure 400 "User ID is required")
    else
      subtaskResult <- select_subtask_owner subtaskId ;;
      match subtaskResult with
      | [] => ret (Failure 404 "Subtask not found")
      | (created_by, team_code) :: _ =>
        userCheck <- Tasks.select_user_role (parseInt userId) ;;
        match userCheck with
        | [] => ret (Failure 403 "User not found")
        | (role, user_team_code) :: _ =>
          if negb (may_modify created_by team_code (parseInt userId)
                              role user_team_code)
          then ret (Failure 403 "Not authorized to delete this subtask")
          else
            result <- delete_subtask subtaskId ;;
            match result with
            | [] => ret (Failure 404 "Subtask not found")
            | _ :: _ => ret (Json "Subtask deleted successfully")
            end
        end
      end).

(** [UPDATE tasks SET title = $1, description = $2 WHERE id = $3
     RETURNING *]; [title VARCHAR(255)], [description TEXT]. *)
Definition update_task (title : string) (description : option string)
    (taskId : Z) : Query (list Task.t) :=
  effect (binding [taskId] (fun d =>
    match varchar 255 title with
    | Some title =>
      let hit := fun t => Task.id t =? taskId in
      let rows :=
        map (fun t => if hit t
                      then Task.mk (Task.id t) title description (Task.team_code t)
                                   (Task.created_by t) (Task.created_at t)
                                   (Task.status t) (Task.updated_at t)
                      else t)
            (tasks d) in
      (Done (filter hit rows), with_tasks d rows)
    | None => (Thrown string_data_right_truncation, d)
    end)).

(** [router.put('/:taskId')] (defined twice in the file, with the same
    text) *)
Definition editTask (taskId : Z) (title : string) (description : option string)
    (userId : option Z) : Query (Reply (string * option TaskWithSubtasks)) :=
  serve_route (
    if falsy userId then ret (Failure 400 "User ID is required")
    else
      taskResult <- select_task_owner taskId ;;
      match taskResult with
      | [] => ret (Failure 404 "Task not found")
      | (created_by, team_code) :: _ =>
        userCheck <- Tasks.select_user_role (parseInt userId) ;;
        match userCheck with
        | [] => ret (Failure 403 "User not found")
        | (role, user_team_code) :: _ =>
          if negb (may_modify created_by team_code (parseInt userId)
                              role user_team_code)
          then ret (Failure 403 "Not authorized to edit this task")
          else
            result <- update_task title description taskId ;;
            match result with
            | [] => ret (Failure 404 "Task not found")
            | _ :: _ =>
                updatedTask <- getTaskWithSubtasks taskId ;;
                ret (Json ("Task updated successfully", updatedTask))
            end
        end
      end).

(** [UPDATE subtasks SET title = $1, description = $2, assigned_to = $3,
       status = $4, progress = $5 WHERE id = $6 RETURNING *];
    [title VARCHAR(255)], [description TEXT], [assigned_to] REFERENCES
    users(id). *)
Definition update_subtask (title : string) (description : option string)
    (assignedTo : option Z) (status : Status.t) (progress : Progress.t)
    (subtaskId : Z) : Query (list Subtask.t) :=
  effect (binding (subtaskId :: nullable assignedTo) (fun d =>
    match varchar 255 title with
    | Some title =>
      let hit := fun s => Subtask.id s =? subtaskId in
      if existsb hit (subtasks d) && negb (refers_to_user d assignedTo)
      then (Thrown foreign_key_violation, d)
      else
        let rows :=
          map (fun s => if hit s
                        then Subtask.mk (Subtask.id s) (Subtask.task_id s)
                                        title description assignedTo status progress
                                        (Subtask.deadline s) (Subtask.created_at s)
                                        (Subtask.updated_at s)
                        else s)
              (subtasks d) in
        (Done (filter hit rows), with_subtasks d rows)
    | None => (Thrown string_data_right_truncation, d)
    end)).

(** [router.put('/subtask/:subtaskId')] (defined twice in the file, with
    the same text) *)
Definition editSubtask (subtaskId : Z) (title : string)
    (description : option string) (assignedTo userId : option Z)
    : Query (Reply (string * option SubtaskDetails)) :=
  serve_route (
    if falsy userId then ret (Failure 400 "User ID is required")
    else
      subtaskResult <- select_subtask_owner subtaskId ;;
      match subtaskResult with
      | [] => ret (Failure 404 "Subtask not found")
      | (created_by, team_code) :: _ =>
        userCheck <- Tasks.select_user_role (parseInt userId) ;;
        match userCheck with
        | [] => ret (Failure 403 "User not found")
        | (role, user_team_code) :: _ =>
          if negb (may_modify created_by team_code (parseInt userId)
                              role user_team_code)
          then ret (Failure 403 "Not authorized to edit this subtask")
          else
            let '(status, progress) :=
              if negb (falsy assignedTo)
              then (Status.assigned, Progress.assigned)
              else (Status.available, Progress.not_started) in
            result <- update_subtask title description assignedTo status
                                     progress subtaskId ;;
            match result with
            | [] => ret (Failure 404 "Subtask not found")
            | _ :: _ =>
                updatedSubtask <- Tasks.getSubtaskWithDetails subtaskId ;;
                ret (Json ("Subtask updated successfully", updatedSubtask))
            end
        end
      end).

End TaskRoutes.

Module AuthRoutes.

(** [INSERT INTO users (email, password, name, role, team_code, status)
     VALUES ($1, $2, $3, $4, $5, $6) RETURNING *]: the insert of
    [Auth.insert_user], returning the whole row. *)
Definition insert_user_returning_all (E : Env) (email password name : string)
    (role : Role.t) (team_code : string) (status : Membership.t)
    : Query User.t :=
  effect (fun d =>
    match varchar 255 email, varchar 255 password, varchar 255 name,
          varchar 10 team_code with
    | Some email, Some password, Some name, Some team_code =>
      let id := users_id_seq d + 1 in
      if negb (int4 id) then (Thrown sequence_generator_limit_exceeded, d)
      else if existsb (fun u => User.id u =? id) (users d)
              || existsb (fun u => String.eqb (User.email u) email) (users d)
      then (Thrown unique_violation,
            mkDb (users d) (teams d) (tasks d) (subtasks d) id)
      else
        let row := User.mk id email password name role team_code (NOW E) status
                           None None None None (NOW E) in
        (Done row,
         mkDb (users d ++ [row]) (teams d) (tasks d) (subtasks d) id)
    | _, _, _, _ => (Thrown string_data_right_truncation, d)
    end).

(** [INSERT INTO teams (team_code, team_name, leader_id)
     VALUES ($1, $2, $3)]; [id SERIAL PRIMARY KEY] is the next value of the
    sequence, [team_code VARCHAR(10) UNIQUE], [team_name VARCHAR(255)],
    [leader_id INTEGER REFERENCES users(id)]. *)
Definition insert_team (E : Env) (id : Z) (team_code team_name : string)
    (leader_id : Z) : Query unit :=
  effect (binding [leader_id] (fun d =>
    match varchar 10 team_code, varchar 255 team_name with
    | Some team_code, Some team_name =>
      if negb (int4 id) then (Thrown sequence_generator_limit_exceeded, d)
      else if existsb (fun t => Team.id t =? id) (teams d)
              || existsb (fun t => String.eqb (Team.team_code t) team_code)
                         (teams d)
      then (Thrown unique_violation, d)
      else if negb (has_user d leader_id) then (Thrown foreign_key_violation, d)
      else
        (Done tt,
         with_teams d (teams d ++ [Team.mk id team_code team_name (Some leader_id)
                                           (NOW E)]))
    | _, _ => (Thrown string_data_right_truncation, d)
    end)).

(** [router.post('/register-leader')]; [teamCode] is the value that
    [generateTeamCode()] returns (it draws on [Math.random]).  The body of
    the answer is [{ message, teamCode, user }]. *)
Definition registerLeader (E : Env) (S : Serial) (teamCode : string)
    (email password name teamName : string)
    : Query (Reply (string * string * User.t)) :=
  serve_route (
    userExists <- Auth.select_user_by_email email ;;
    match userExists with
    | _ :: _ => ret (Failure 400 "User already exists")
    | [] =>
        let hashedPassword := bcrypt_hash E password 10 in
        try_catch
          (begin_ ;;
           user <- insert_user_returning_all E email hashedPassword name
                                             Role.leader teamCode
                                             Membership.approved ;;
           insert_team E (teams_id_seq S + 1) teamCode teamName (User.id user) ;;
           commit ;;
           ret (Json ("Registration successful", teamCode, user)))
          (fun error => rollback ;; throw error)
    end).

(** The body of check-member-status: [{ canLogin, status, role, message }],
    a field that the route leaves out being [None]. *)
Record MemberStatus := mkMemberStatus {
  canLogin : bool;
  ms_status : option Membership.t;
  ms_role : option Role.t;
  ms_message : option string
}.

(** [SELECT id, name, email, role, status FROM users
     WHERE email = $1 AND team_code = $2] *)
Definition select_status_by_email_and_team (email teamCode : string)
    : Query (list (Role.t * Membership.t)) :=
  query (fun d =>
    map (fun u => (User.role u, User.status u))
        (filter (fun u => String.eqb (User.email u) email
                          && String.eqb (User.team_code u) teamCode)
                (users d))).

(** [router.post('/check-member-status')] *)
Definition checkMemberStatus (email teamCode : string) : Query (Reply MemberStatus) :=
  serve_route (
    if blank email || blank teamCode
    then ret (Failure 400 "Email and team code are required")
    else
      result <- select_status_by_email_and_team email teamCode ;;
      match result with
      | [] =>
          ret (Json (mkMemberStatus false None None
                       (Some "No account found with these credentials")))
      | (role, status) :: _ =>
          match role with
          | Role.leader =>
              ret (Json (mkMemberStatus true (Some Membership.approved)
                           (Some Role.leader) None))
          | Role.member =>
              match status with
              | Membership.pending =>
                  ret (Json (mkMemberStatus false (Some Membership.pending) None
                               (Some "Membership pending approval")))
              | Membership.rejected =>
                  ret (Json (mkMemberStatus false (Some Membership.rejected) None
                               (Some "Membership request rejected")))
              | Membership.approved =>
                  ret (Json (mkMemberStatus true (Some Membership.approved)
                               (Some Role.member) None))
              end
          end
      end).

(** Row of all-members: six columns of the user and two counts. *)
Record MemberRow := mkMemberRow {
  m_id : Z;
  m_name : string;
  m_email : string;
  m_role : Role.t;
  m_status : Membership.t;
  m_created_at : Z;
  assigned_tasks : Z;
  completed_tasks : Z
}.

(** The rows of [users] with this team code, role member and this status:
    the WHERE clause of the three listings. *)
Definition members_with_status (d : Db) (teamCode : string)
    (status : Membership.t) : list User.t :=
  filter (fun u => String.eqb (User.team_code u) teamCode
                   && Role.eqb (User.role u) Role.member
                   && Membership.eqb (User.status u) status)
         (users d).

(** [router.get('/team/:teamCode/all-members')]:
    [SELECT id, name, email, role, status, created_at,
       (SELECT COUNT( * ) FROM subtasks s WHERE s.assigned_to = users.id)
         as assigned_tasks,
       (SELECT COUNT( * ) FROM subtasks s WHERE s.assigned_to = users.id
          AND s.status = 'completed') as completed_tasks
     FROM users
     WHERE team_code = $1 AND role = 'member' AND status = 'approved'
     ORDER BY created_at DESC] *)
Definition allMembers (teamCode : string) : Query (Reply (list MemberRow)) :=
  serve_route (
    result <- query (fun d =>
      map (fun u =>
             mkMemberRow (User.id u) (User.name u) (User.email u) (User.role u)
               (User.status u) (User.created_at u)
               (Z.of_nat (List.length
                  (filter (fun s => col_is (Subtask.assigned_to s) (User.id u))
                          (subtasks d))))
               (Z.of_nat (List.length
                  (filter (fun s => col_is (Subtask.assigned_to s) (User.id u)
                                    && Status.eqb (Subtask.status s) Status.completed)
                          (subtasks d)))))
          (Tasks.order_by
             (fun a b => User.created_at b <=? User.created_at a)
             (members_with_status d teamCode Membership.approved))) ;;
    ret (Json result)).

(** [router.get('/team/:teamCode/pending-requests')]:
    [SELECT id, name, email, created_at FROM users
     WHERE team_code = $1 AND status = 'pending' AND role = 'member'
     ORDER BY created_at DESC] *)
Definition pendingRequests (teamCode : string)
    : Query (Reply (list (Z * string * string * Z))) :=
  serve_route (
    result <- query (fun d =>
      map (fun u => (User.id u, User.name u, User.email u, User.created_at u))
          (Tasks.order_by
             (fun a b => User.created_at b <=? User.created_at a)
             (members_with_status d teamCode Membership.pending))) ;;
    ret (Json result)).

(** [router.get('/team/:teamCode/rejected-members')]:
    [SELECT id, name, email, created_at, updated_at FROM users
     WHERE team_code = $1 AND status = 'rejected' AND role = 'member'
     ORDER BY updated_at DESC] *)
Definition rejectedMembers (teamCode : string)
    : Query (Reply (list (Z * string * string * Z * Z))) :=
  serve_route (
    result <- query (fun d =>
      map (fun u => (User.id u, User.name u, User.email u, User.created_at u,
                     User.updated_at u))
          (Tasks.order_by
             (fun a b => User.updated_at b <=? User.updated_at a)
             (members_with_status d teamCode Membership.rejected))) ;;
    ret (Json result)).

(** [DELETE FROM users WHERE id = $1 AND status = $2 AND role = $3
     RETURNING *]; the references to users(id) have no ON DELETE action,
    so a row that is still referred to cannot go. *)
Definition delete_user_where (userId : Z) (status : Membership.t)
    (role : Role.t) : Query (list User.t) :=
  effect (binding [userId] (fun d =>
    let hit := fun u => (User.id u =? userId)
                        && Membership.eqb (User.status u) status
                        && Role.eqb (User.role u) role in
    let remaining := filter (fun u => negb (hit u)) (users d) in
    if existsb hit (users d)
       && (existsb (fun u => col_is (User.approved_by u) userId
                             || col_is (User.rejected_by u) userId)
                   remaining
           || existsb (fun t => col_is (Team.leader_id t) userId) (teams d)
           || existsb (fun t => col_is (Task.created_by t) userId) (tasks d)
           || existsb (fun s => col_is (Subtask.assigned_to s) userId) (subtasks d))
           && negb (existsb (fun u => User.id u =? userId) remaining)
    then (Thrown foreign_key_violation, d)
    else (Done (filter hit (users d)), with_users d remaining))).

(** [router.delete('/delete-rejected-member/:userId')]; the body of the
    answer is [{ message, user }]. *)
Definition deleteRejectedMember (userId : Z) : Query (Reply (string * User.t)) :=
  serve_route (
    result <- delete_user_where userId Membership.rejected Role.member ;;
    match result with
    | [] => ret (Failure 404 "Rejected member not found")
    | user :: _ => ret (Json ("Rejected member deleted permanently", user))
    end).

End AuthRoutes.

(* ------------------------------------------------------------------ *)
(** ** Vocabulary for the other routes *)

(** A new subtask names an assignee that the create route will use. *)
Definition assigns (assignSpecific : bool) (x : TaskRoutes.NewSubtask) : bool :=
  assignSpecific && negb (falsy (TaskRoutes.ns_assigned_to x)).

(** Every assignee that the create route will use is a user. *)
Definition assignees_known (d : Db) (assignSpecific : bool)
    (l : list TaskRoutes.NewSubtask) : bool :=
  forallb (fun x => if assigns assignSpecific x
                    then refers_to_user d (TaskRoutes.ns_assigned_to x)
                    else true)
          l.

(** The title of every new subtask can be stored in [subtasks.title]. *)
Definition titles_fit (l : list TaskRoutes.NewSubtask) : bool :=
  forallb (fun x => storable 255 (TaskRoutes.ns_title x)) l.

(** The sequence of a SERIAL key has an id to give: an INTEGER, which no
    row of the table has yet. *)
Definition users_id_free (d : Db) : bool :=
  int4 (users_id_seq d + 1) && negb (has_user d (users_id_seq d + 1)).

Definition teams_id_free (S : Serial) (d : Db) : bool :=
  int4 (teams_id_seq S + 1)
  && negb (existsb (fun t => Team.id t =? teams_id_seq S + 1) (teams d)).

Definition tasks_id_free (S : Serial) (d : Db) : bool :=
  int4 (tasks_id_seq S + 1) && negb (has_task d (tasks_id_seq S + 1)).

(** The same of the [n] ids from [next] on, for subtask rows. *)
Fixpoint subtask_ids_free (rows : list Subtask.t) (next : Z) (n : nat) : bool :=
  match n with
  | O => true
  | S n' => int4 next && negb (existsb (fun s => Subtask.id s =? next) rows)
            && subtask_ids_free rows (next + 1) n'
  end.

(** The subtask rows that the create route inserts for task [taskId],
    the first with id [next]. *)
Fixpoint new_subtask_rows (E : Env) (taskId : Z) (assignSpecific : bool)
    (next : Z) (l : list TaskRoutes.NewSubtask) : list Subtask.t :=
  match l with
  | [] => []
  | x :: rest =>
      Subtask.mk next (Some taskId) (take 255 (TaskRoutes.ns_title x))
                 (or_null (TaskRoutes.ns_description x))
                 (if assigns assignSpecific x
                  then TaskRoutes.ns_assigned_to x else None)
                 (if assigns assignSpecific x
                  then Status.assigned else Status.available)
                 (if assigns assignSpecific x
                  then Progress.assigned else Progress.not_started)
                 None (NOW E) (NOW E)
      :: new_subtask_rows E taskId assignSpecific (next + 1) rest
  end.

(** The database after a successful create; of a text that goes into a
    VARCHAR(n) column the first [n] characters are stored, which for a
    text that fits is the text. *)
Definition task_created (E : Env) (S : Serial) (d : Db) (title : string)
    (description : option string) (teamCode : string) (createdBy : Z)
    (l : list TaskRoutes.NewSubtask) (assignSpecific : bool) : Db :=
  mkDb (users d) (teams d)
       (tasks d ++ [Task.mk (tasks_id_seq S + 1) (take 255 title) description
                            (take 10 teamCode)
                            (Some createdBy) (NOW E) "active" (NOW E)])
       (subtasks d
        ++ new_subtask_rows E (tasks_id_seq S + 1) assignSpecific
                            (subtasks_id_seq S + 1) l)
       (users_id_seq d).

(** Every row of a create request can be inserted: the texts can be
    stored, the sequences have ids to give, and the creator and the
    assignees are users. *)
Definition creates (S : Serial) (d : Db) (title teamCode : string)
    (createdBy : Z) (l : list TaskRoutes.NewSubtask) (assignSpecific : bool)
    : bool :=
  storable 255 title && storable 10 teamCode && tasks_id_free S d
  && has_user d createdBy
  && (titles_fit l && assignees_known d assignSpecific l
      && subtask_ids_free (subtasks d) (subtasks_id_seq S + 1) (List.length l)).

(** What [getTaskWithSubtasks] yields on a database. *)
Definition task_view (d : Db) (taskId : Z) : option TaskRoutes.TaskWithSubtasks :=
  match filter (fun tu => Task.id (fst tu) =? taskId)
               (left_join (fun t u => col_is (Task.created_by t) (User.id u))
                          (tasks d) (users d)) with
  | [] => None
  | tu :: _ =>
      Some (TaskRoutes.mkTaskWithSubtasks (fst tu) (option_map User.name (snd tu))
                                          (attached d taskId))
  end.

(** How a new subtask of the request relates to the row created for it. *)
Definition starts_as (assignSpecific : bool) (taskId : Z)
    (x : TaskRoutes.NewSubtask) (row : Subtask.t) : Prop :=
  Subtask.task_id row = Some taskId
  /\ Subtask.title row = TaskRoutes.ns_title x
  /\ Subtask.deadline row = None
  /\ (forall a, assignSpecific = true ->
                TaskRoutes.ns_assigned_to x = Some a -> a <> 0 ->
                Subtask.assigned_to row = Some a
                /\ Subtask.status row = Status.assigned
                /\ Subtask.progress row = Progress.assigned)
  /\ ((assignSpecific = false \/ falsy (TaskRoutes.ns_assigned_to x) = true) ->
      Subtask.assigned_to row = None
      /\ Subtask.status row = Status.available
      /\ Subtask.progress row = Progress.not_started).

Definition task_by_id (d : Db) (taskId : Z) : option Task.t :=
  find (fun t => Task.id t =? taskId) (tasks d).

(** The caller may edit or delete what belongs to task [t]: they created
    it, or they are a leader with the task's team code. *)
Definition may_modify_task (t : Task.t) (u : User.t) : Prop :=
  Task.created_by t = Some (User.id u)
  \/ (User.role u = Role.leader /\ User.team_code u = Task.team_code t).

(** The database without the task and without its subtasks. *)
Definition task_deleted (d : Db) (taskId : Z) : Db :=
  mkDb (users d) (teams d)
       (filter (fun t => negb (Task.id t =? taskId)) (tasks d))
       (filter (fun s => negb (col_is (Subtask.task_id s) taskId)) (subtasks d))
       (users_id_seq d).

(** The subtask row after an edit: title, description and assignee as
    sent, status and progress computed from the assignee alone. *)
Definition edited_row (title : string) (description : option string)
    (assignedTo : option Z) (r : Subtask.t) : Subtask.t :=
  Subtask.mk (Subtask.id r) (Subtask.task_id r) title description assignedTo
             (if falsy assignedTo then Status.available else Status.assigned)
             (if falsy assignedTo then Progress.not_started else Progress.assigned)
             (Subtask.deadline r) (Subtask.created_at r) (Subtask.updated_at r).

(** The subtask row with another deadline. *)
Definition with_deadline (deadline : Z) (r : Subtask.t) : Subtask.t :=
  Subtask.mk (Subtask.id r) (Subtask.task_id r) (Subtask.title r)
             (Subtask.description r) (Subtask.assigned_to r) (Subtask.status r)
             (Subtask.progress r) (Some deadline)
             (Subtask.created_at r) (Subtask.updated_at r).

(** The database in which the rows with id [subtaskId] are rewritten by
    [f]. *)
Definition rewrite_subtask (d : Db) (subtaskId : Z)
    (f : Subtask.t -> Subtask.t) : Db :=
  with_subtasks d
    (map (fun r => if Subtask.id r =? subtaskId then f r else r) (subtasks d)).

(** The subtask belongs to a task of the team. *)
Definition in_team_task (d : Db) (teamCode : string) (s : Subtask.t) : Prop :=
  exists t, In t (tasks d)
            /\ Subtask.task_id s = Some (Task.id t)
            /\ Task.team_code t = teamCode.

(** The subtasks that the available route lists for a team. *)
Definition available_in (d : Db) (teamCode : string) : list Subtask.t :=
  match fst (serve (TaskRoutes.availableSubtasks teamCode) d) with
  | Json rows => map TaskRoutes.a_subtask rows
  | Failure _ _ => []
  end.

(** The subtasks that the route for a user's subtasks lists. *)
Definition listed_for_user (d : Db) (userId : Z) : list Subtask.t :=
  match fst (serve (TaskRoutes.userSubtasks userId) d) with
  | Json rows => map TaskRoutes.u_subtask rows
  | Failure _ _ => []
  end.

(** [a] stands before [b] in the order of a user's subtasks: lower
    progress rank first, and among equal ranks the newer first. *)
Definition before_in_progress_order (a b : Subtask.t) : Prop :=
  TaskRoutes.progress_rank (Subtask.progress a)
  < TaskRoutes.progress_rank (Subtask.progress b)
  \/ (TaskRoutes.progress_rank (Subtask.progress a)
      = TaskRoutes.progress_rank (Subtask.progress b)
      /\ Subtask.created_at b <= Subtask.created_at a).

(** The [canLogin] field of the answer of check-member-status ([false]
    when the route answers with an error). *)
Definition can_login (d : Db) (email teamCode : string) : bool :=
  match fst (serve (AuthRoutes.checkMemberStatus email teamCode) d) with
  | Json ms => AuthRoutes.canLogin ms
  | Failure _ _ => false
  end.

(** The HTTP status with which login answers. *)
Definition login_code (E : Env) (d : Db) (email password teamCode : string) : Z :=
  code (fst (fst (run (Auth.login E email password teamCode) d))).

(** The rejected member with this id that delete-rejected-member would
    remove. *)
Definition rejected_member (d : Db) (userId : Z) : option User.t :=
  find (fun u => (User.id u =? userId)
                 && Membership.eqb (User.status u) Membership.rejected
                 && Role.eqb (User.role u) Role.member)
       (users d).

(** The sample database after leader 1 has rejected member [userId]. *)
Definition sample_after_rejecting (userId : Z) : Db :=
  snd (fst (run (Auth.rejectMember Sample.env (Some userId) "AB12CD" (Some 1))
                Sample.db)).

(** The member of the team with this id that the membership routes
    select. *)
Definition member_of_team (d : Db) (userId : Z) (teamCode : string)
    : option User.t :=
  find (fun u => (User.id u =? userId)
                 && String.eqb (User.team_code u) teamCode
                 && Role.eqb (User.role u) Role.member)
       (users d).

(** The user row after approve-rejected-member: approved, with the actor
    and the time recorded and the record of the rejection cleared. *)
Definition reapproved (E : Env) (approvedBy : Z) (u : User.t) : User.t :=
  User.mk (User.id u) (User.email u) (User.password u) (User.name u)
          (User.role u) (User.team_code u) (User.created_at u)
          Membership.approved (Some approvedBy) (Some (NOW E))
          None None (NOW E).

(** The ids on the three listings of a team's members. *)
Definition approved_ids (d : Db) (teamCode : string) : list Z :=
  match fst (serve (AuthRoutes.allMembers teamCode) d) with
  | Json rows => map AuthRoutes.m_id rows
  | Failure _ _ => []
  end.

Definition pending_ids (d : Db) (teamCode : string) : list Z :=
  match fst (serve (AuthRoutes.pendingRequests teamCode) d) with
  | Json rows => map (fun r => fst (fst (fst r))) rows
  | Failure _ _ => []
  end.

Definition rejected_ids (d : Db) (teamCode : string) : list Z :=
  match fst (serve (AuthRoutes.rejectedMembers teamCode) d) with
  | Json rows => map (fun r => fst (fst (fst (fst r)))) rows
  | Failure _ _ => []
  end.

(** A member of the team with this id and status. *)
Definition member_with_status (d : Db) (teamCode : string)
    (status : Membership.t) (userId : Z) : Prop :=
  exists u, In u (users d) /\ User.id u = userId
            /\ User.team_code u = teamCode
            /\ User.role u = Role.member
            /\ User.status u = status.

(* ------------------------------------------------------------------ *)
(** ** Referential integrity *)

(** A nullable reference to [tasks(id)] is satisfied. *)
Definition refers_to_task (d : Db) (c : option Z) : bool :=
  match c with
  | Some n => has_task d n
  | None => true
  end.

(** Every foreign key of db.js holds: [subtasks.task_id] names a task,
    and [subtasks.assigned_to], [tasks.created_by], [teams.leader_id],
    [users.approved_by] and [users.rejected_by] name users. *)
Definition integrity (d : Db) : Prop :=
  Forall (fun s => refers_to_task d (Subtask.task_id s) = true
                   /\ refers_to_user d (Subtask.assigned_to s) = true)
         (subtasks d)
  /\ Forall (fun t => refers_to_user d (Task.created_by t) = true) (tasks d)
  /\ Forall (fun t => refers_to_user d (Team.leader_id t) = true) (teams d)
  /\ Forall (fun u => refers_to_user d (User.approved_by u) = true
                      /\ refers_to_user d (User.rejected_by u) = true)
            (users d).

(** The connection is in a state that satisfies [I], and so is the state
    that a ROLLBACK would restore. *)
Definition conn_ok (I : Db -> Prop) (c : Conn) : Prop :=
  I (cur c) /\ match saved c with Some d0 => I d0 | None => True end.

(** The query keeps [I], whether it returns or raises. *)
Definition keeps (I : Db -> Prop) {A} (q : Query A) : Prop :=
  forall c, conn_ok I c -> conn_ok I (snd (q c)).

(** The database that a route leaves behind. *)
Definition left_by {A} (q : Query A) (d : Db) : Db :=
  cur (snd (q (mkConn d None []))).

(** A request to one of the routes that write. *)
Inductive Request :=
| TakeSubtask (subtaskId : Z) (userId : option Z)
| AssignSubtask (subtaskId : Z) (userId assignedBy : option Z)
| UpdateProgress (subtaskId : Z) (progress : option Progress.t) (userId : option Z)
| UpdateDeadline (subtaskId : Z) (deadline userId : option Z)
| CreateTask (title : string) (description : option string) (teamCode : string)
             (createdBy : option Z) (subtasks : list TaskRoutes.NewSubtask)
             (assignSpecific : bool)
| EditTask (taskId : Z) (title : string) (description : option string)
           (userId : option Z)
| EditSubtask (subtaskId : Z) (title : string) (description : option string)
              (assignedTo userId : option Z)
| DeleteTask (taskId : Z) (userId : option Z)
| DeleteSubtask (subtaskId : Z) (userId : option Z)
| RegisterLeader (generatedCode email password name teamName : string)
| RegisterMember (email password name teamCode : string)
| ApproveMember (userId : option Z) (teamCode : string) (approvedBy : option Z)
| RejectMember (userId : option Z) (teamCode : string) (rejectedBy : option Z)
| ReApprove (userId : option Z) (teamCode : string) (approvedBy : option Z)
| DeleteRejectedMember (userId : Z)
| DeleteTeamMember (teamCode : string) (memberId : Z) (leaderId : option Z).

(** The database that a request leaves when it is served alone: its
    statements run one after the other on the database, with no statement
    of another request between them.  The clock and the sequences stand at
    [E] and [S]. *)
Definition served_alone (E : Env) (S : Serial) (req : Request) (d : Db) : Db :=
  match req with
  | TakeSubtask subtaskId userId =>
      left_by (Tasks.takeSubtask subtaskId userId) d
  | AssignSubtask subtaskId userId assignedBy =>
      left_by (Tasks.assignSubtask subtaskId userId assignedBy) d
  | UpdateProgress subtaskId progress userId =>
      left_by (Tasks.updateProgress subtaskId progress userId) d
  | UpdateDeadline subtaskId deadline userId =>
      left_by (TaskRoutes.updateDeadline subtaskId deadline userId) d
  | CreateTask title description teamCode createdBy subtasks assignSpecific =>
      left_by (TaskRoutes.createTask E S title description teamCode createdBy
                                     subtasks assignSpecific) d
  | EditTask taskId title description userId =>
      left_by (TaskRoutes.editTask taskId title description userId) d
  | EditSubtask subtaskId title description assignedTo userId =>
      left_by (TaskRoutes.editSubtask subtaskId title description assignedTo
                                      userId) d
  | DeleteTask taskId userId =>
      left_by (TaskRoutes.deleteTask taskId userId) d
  | DeleteSubtask subtaskId userId =>
      left_by (TaskRoutes.deleteSubtask subtaskId userId) d
  | RegisterLeader generatedCode email password name teamName =>
      left_by (AuthRoutes.registerLeader E S generatedCode email password name
                                         teamName) d
  | RegisterMember email password name teamCode =>
      left_by (Auth.registerMember E email password name teamCode) d
  | ApproveMember userId teamCode approvedBy =>
      left_by (Auth.approveMember E userId teamCode approvedBy) d
  | RejectMember userId teamCode rejectedBy =>
      left_by (Auth.rejectMember E userId teamCode rejectedBy) d
  | ReApprove userId teamCode approvedBy =>
      left_by (Auth.reApprove E userId teamCode approvedBy) d
  | DeleteRejectedMember userId =>
      left_by (AuthRoutes.deleteRejectedMember userId) d
  | DeleteTeamMember teamCode memberId leaderId =>
      left_by (Auth.deleteTeamMember teamCode memberId leaderId) d
  end.

(** The rows of the team's task listing ([[]] when the route answers with
    an error). *)
Definition team_listing (d : Db) (teamCode : string)
    : list (TaskRow * list SubtaskRow) :=
  match fst (serve (TaskRoutes.listTasksForTeam teamCode) d) with
  | Json rows => rows
  | Failure _ _ => []
  end.

(** The tasks of the team with their creator's name and their two counts,
    newest first: the rows of the first query of the listing. *)
Definition team_task_rows (d : Db) (teamCode : string) : list TaskRow :=
  Tasks.order_by
    (fun a b => Task.created_at (r_task b) <=? Task.created_at (r_task a))
    (map (fun tu =>
            mkTaskRow (fst tu) (option_map User.name (snd tu))
                      (Tasks.count_subtasks d (fst tu))
                      (Tasks.count_completed_subtasks d (fst tu)))
         (filter (fun tu => String.eqb (Task.team_code (fst tu)) teamCode)
                 (left_join (fun t u => col_is (Task.created_by t) (User.id u))
                            (tasks d) (users d)))).

(** The subtask row counts as completed. *)
Definition row_completed (r : SubtaskRow) : bool :=
  Status.eqb (Subtask.status (r_subtask r)) Status.completed.

(** The database without the subtask. *)
Definition subtask_deleted (d : Db) (subtaskId : Z) : Db :=
  with_subtasks d (filter (fun s => negb (Subtask.id s =? subtaskId)) (subtasks d)).

(** The task row with another title and description. *)
Definition retitled (title : string) (description : option string)
    (t : Task.t) : Task.t :=
  Task.mk (Task.id t) title description (Task.team_code t) (Task.created_by t)
          (Task.created_at t) (Task.status t) (Task.updated_at t).

(** The database in which the rows with id [taskId] are rewritten by [f]. *)
Definition rewrite_task (d : Db) (taskId : Z) (f : Task.t -> Task.t) : Db :=
  with_tasks d (map (fun t => if Task.id t =? taskId then f t else t) (tasks d)).

(* ------------------------------------------------------------------ *)
(** ** Status and assignee *)

(** [subtasks.id] is a key ([id SERIAL PRIMARY KEY]). *)
Definition subtasks_keyed (d : Db) : Prop :=
  NoDup (map Subtask.id (subtasks d)).

(** A subtask that is assigned or taken has an assignee. *)
Definition held_by_someone (s : Subtask.t) : Prop :=
  Subtask.status s = Status.assigned \/ Subtask.status s = Status.taken ->
  Subtask.assigned_to s <> None.

Definition coherent (d : Db) : Prop :=
  subtasks_keyed d /\ Forall held_by_someone (subtasks d).

(* ------------------------------------------------------------------ *)
(** ** Facts about lists and rows *)

Unset Implicit Arguments.

Arguments int4 : simpl never.
Arguments integer : simpl never.
Arguments binding : simpl never.
Arguments varchar : simpl never.
Arguments storable : simpl never.

Lemma db_eta (d : Db) :
  mkDb (users d) (teams d) (tasks d) (subtasks d) (users_id_seq d) = d.
Proof. now destruct d. Qed.

Lemma int4_integer (d : Db) (v : Z) : int4 v = true -> integer d v = true.
Proof. unfold integer. now intros ->. Qed.

Lemma held_integer (d : Db) (v : Z) : held d v = true -> integer d v = true.
Proof. unfold integer. intros ->. apply orb_true_r. Qed.

Lemma existsb_or_l {A} (p q : A -> bool) (l : list A) :
  existsb p l = true -> existsb (fun a => p a || q a) l = true.
Proof.
  intros H. apply existsb_exists in H. destruct H as (a & Hin & Hp).
  apply existsb_exists. exists a. split; [exact Hin|]. now rewrite Hp.
Qed.

Lemma existsb_or_r {A} (p q : A -> bool) (l : list A) :
  existsb q l = true -> existsb (fun a => p a || q a) l = true.
Proof.
  intros H. apply existsb_exists in H. destruct H as (a & Hin & Hq).
  apply existsb_exists. exists a. split; [exact Hin|].
  rewrite Hq. apply orb_true_r.
Qed.

(** The id of a user row, of a task row and of a subtask row, and the
    assignee of a subtask row, are INTEGERs. *)
Lemma user_integer (d : Db) (v : Z) :
  existsb (fun u => User.id u =? v) (users d) = true -> integer d v = true.
Proof.
  intros H. apply held_integer. unfold held.
  rewrite (existsb_or_l _ (fun u => col_is (User.rejected_by u) v) _
             (existsb_or_l _ (fun u => col_is (User.approved_by u) v) _ H)).
  reflexivity.
Qed.

Lemma task_integer (d : Db) (v : Z) :
  existsb (fun t => Task.id t =? v) (tasks d) = true -> integer d v = true.
Proof.
  intros H. apply held_integer. unfold held.
  rewrite (existsb_or_l _ (fun t => col_is (Task.created_by t) v) _ H).
  now rewrite !orb_true_r.
Qed.

Lemma subtask_integer (d : Db) (v : Z) :
  existsb (fun s => Subtask.id s =? v) (subtasks d) = true ->
  integer d v = true.
Proof.
  intros H. apply held_integer. unfold held.
  rewrite (existsb_or_l _ (fun s => col_is (Subtask.assigned_to s) v) _
             (existsb_or_l _ (fun s => col_is (Subtask.task_id s) v) _ H)).
  now rewrite !orb_true_r.
Qed.

Lemma assignee_integer (d : Db) (v : Z) :
  existsb (fun s => col_is (Subtask.assigned_to s) v) (subtasks d) = true ->
  integer d v = true.
Proof.
  intros H. apply held_integer. unfold held.
  rewrite (existsb_or_r (fun s => (Subtask.id s =? v)
                                  || col_is (Subtask.task_id s) v) _ _ H).
  now rewrite !orb_true_r.
Qed.

Lemma binding_ok {A} (ps : list Z) (f : Db -> Res A * Db) (d : Db) :
  forallb (integer d) ps = true -> binding ps f d = f d.
Proof. unfold binding. now intros ->. Qed.

Lemma binding_raises {A} (ps : list Z) (f : Db -> Res A * Db) (d : Db) :
  forallb (integer d) ps = false ->
  binding ps f d = (Thrown numeric_value_out_of_range, d).
Proof. unfold binding. now intros ->. Qed.

Lemma binding_1 {A} (a : Z) (f : Db -> Res A * Db) (d : Db) :
  integer d a = true -> binding [a] f d = f d.
Proof. intros H. apply binding_ok. simpl. now rewrite H. Qed.

Lemma binding_2 {A} (a b : Z) (f : Db -> Res A * Db) (d : Db) :
  integer d a = true -> integer d b = true -> binding [a; b] f d = f d.
Proof. intros Ha Hb. apply binding_ok. simpl. now rewrite Ha, Hb. Qed.

Lemma binding_raises_1 {A} (a : Z) (f : Db -> Res A * Db) (d : Db) :
  integer d a = false ->
  binding [a] f d = (Thrown numeric_value_out_of_range, d).
Proof. intros H. apply binding_raises. simpl. now rewrite H. Qed.

(** A statement whose parameters are INTEGERs, followed by the rest of the
    handler. *)
Lemma bind_select_on {A B} (a : Z) (s : Stmt) (f : Db -> A)
    (k : A -> Query B) (c : Conn) :
  integer (cur c) a = true ->
  bind (select_on [a] s f) k c
  = k (f (cur c)) (mkConn (cur c) (saved c) (issued c ++ [s])).
Proof.
  intros H. unfold bind, select_on, statement. now rewrite (binding_1 _ _ _ H).
Qed.

Lemma take_fits (n : nat) (s : string) :
  (String.length s <= n)%nat -> take n s = s.
Proof.
  revert n. induction s as [|c s IH]; intros n H; [reflexivity|].
  destruct n as [|n]; simpl in *; [lia|]. f_equal. apply IH. lia.
Qed.

Lemma drop_fits (n : nat) (s : string) :
  (String.length s <= n)%nat -> drop n s = EmptyString.
Proof.
  revert n. induction s as [|c s IH]; intros n H; [reflexivity|].
  destruct n as [|n]; simpl in *; [lia|]. apply IH. lia.
Qed.

(** A text that fits the column is stored as it is. *)
Lemma varchar_fits (n : nat) (s : string) :
  (String.length s <= n)%nat -> varchar n s = Some s.
Proof.
  intros H. unfold varchar, storable.
  now rewrite (drop_fits n s H), (take_fits n s H).
Qed.

Lemma storable_fits (n : nat) (s : string) :
  (String.length s <= n)%nat -> storable n s = true.
Proof. intros H. unfold storable. now rewrite (drop_fits n s H). Qed.

(** What is stored is always the first [n] characters. *)
Lemma varchar_take (n : nat) (s s' : string) :
  varchar n s = Some s' -> s' = take n s.
Proof.
  unfold varchar. destruct (storable n s); [|discriminate].
  now intros [= <-].
Qed.

Lemma hd_filter_find {A} (p : A -> bool) (l : list A) :
  hd_error (filter p l) = find p l.
Proof.
  induction l as [|a l IH]; simpl; [reflexivity|].
  destruct (p a); simpl; auto.
Qed.

Lemma filter_nil_find {A} (p : A -> bool) (l : list A) :
  find p l = None -> filter p l = [].
Proof.
  intros H. pose proof (hd_filter_find p l) as E. rewrite H in E.
  destruct (filter p l); [reflexivity|discriminate].
Qed.

Lemma filter_cons_find {A} (p : A -> bool) (l : list A) (a : A) :
  find p l = Some a -> exists rest, filter p l = a :: rest.
Proof.
  intros H. pose proof (hd_filter_find p l) as E. rewrite H in E.
  destruct (filter p l) as [|b rest]; [discriminate|].
  simpl in E. injection E as ->. now exists rest.
Qed.

Lemma existsb_find_some {A} (p : A -> bool) (l : list A) (a : A) :
  find p l = Some a -> existsb p l = true.
Proof.
  intros H. apply existsb_exists. exists a.
  apply find_some in H. exact H.
Qed.

Lemma existsb_find_none {A} (p : A -> bool) (l : list A) :
  find p l = None -> existsb p l = false.
Proof.
  intros H. destruct (existsb p l) eqn:E; [|reflexivity].
  apply existsb_exists in E. destruct E as (a & Ha & Hp).
  pose proof (find_none _ _ H _ Ha). congruence.
Qed.

Lemma existsb_weaken {A} (p q : A -> bool) (l : list A) :
  (forall a, p a = true -> q a = true) ->
  existsb p l = true -> existsb q l = true.
Proof.
  intros Hpq H. apply existsb_exists in H. destruct H as (a & Hin & Hp).
  apply existsb_exists. exists a. auto.
Qed.

Lemma filter_map_if {A} (p : A -> bool) (f : A -> A) (l : list A) :
  (forall a, p (f a) = p a) ->
  filter p (map (fun a => if p a then f a else a) l) = map f (filter p l).
Proof.
  intros Hf. induction l as [|a l IH]; simpl; [reflexivity|].
  destruct (p a) eqn:E.
  - rewrite Hf, E. simpl. now rewrite IH.
  - rewrite E. exact IH.
Qed.

Lemma Status_eqb_eq (a b : Status.t) : Status.eqb a b = true <-> a = b.
Proof. destruct a, b; simpl; split; congruence. Qed.

Lemma Status_eqb_neq (a b : Status.t) : Status.eqb a b = false <-> a <> b.
Proof. destruct a, b; simpl; split; congruence. Qed.

Lemma Progress_eqb_eq (a b : Progress.t) : Progress.eqb a b = true <-> a = b.
Proof. destruct a, b; simpl; split; congruence. Qed.

Lemma Role_eqb_eq (a b : Role.t) : Role.eqb a b = true <-> a = b.
Proof. destruct a, b; simpl; split; congruence. Qed.

Lemma falsy_some (n : Z) : n <> 0 -> falsy (Some n) = false.
Proof. intros H. simpl. now apply Z.eqb_neq. Qed.

Lemma user_exists_existsb (d : Db) (uid : Z) :
  user_exists d uid <-> existsb (fun u => User.id u =? uid) (users d) = true.
Proof.
  unfold user_exists. rewrite existsb_exists. split.
  - intros (u & Hin & Hid). exists u. split; [assumption|]. now apply Z.eqb_eq.
  - intros (u & Hin & Hid). exists u. split; [assumption|]. now apply Z.eqb_eq.
Qed.

(* ------------------------------------------------------------------ *)
(** ** Claiming a subtask: [takeSubtask] *)

Lemma existsb_map_if {A} (p q : A -> bool) (f : A -> A) (l : list A) :
  (forall a, p (f a) = p a) ->
  existsb p (map (fun a => if q a then f a else a) l) = existsb p l.
Proof.
  intros Hf. induction l as [|a l IH]; simpl; [reflexivity|].
  rewrite IH. destruct (q a); [now rewrite Hf | reflexivity].
Qed.

(** A subtask row keeps its id under the updates of the routes, so the id
    stays an INTEGER of the database. *)
Lemma rewritten_subtask_integer (d : Db) (q : Subtask.t -> bool)
    (f : Subtask.t -> Subtask.t) (v : Z) :
  (forall s, Subtask.id (f s) = Subtask.id s) ->
  existsb (fun s => Subtask.id s =? v) (subtasks d) = true ->
  integer (mkDb (users d) (teams d) (tasks d)
                (map (fun s => if q s then f s else s) (subtasks d))
                (users_id_seq d)) v = true.
Proof.
  intros Hf H. apply subtask_integer. cbn [subtasks].
  rewrite existsb_map_if; [exact H|]. intros s. now rewrite Hf.
Qed.

Section TakeSubtask.
Variable d : Db.
Variables subtaskId uid : Z.
Hypothesis uid_present : uid <> 0.

Lemma take_out_of_range :
  integer d subtaskId = false ->
  run (Tasks.takeSubtask subtaskId (Some uid)) d
  = (fail 500 "Internal server error", d,
     [BEGIN; SELECT_subtask_FOR_UPDATE; ROLLBACK]).
Proof.
  intros H.
  unfold run, Tasks.takeSubtask, route, try_catch.
  rewrite (falsy_some uid uid_present).
  unfold bind, begin_, Tasks.select_subtask_for_update, select_on, statement.
  cbn. rewrite (binding_raises_1 _ _ _ H). cbn. now rewrite db_eta.
Qed.

Lemma take_not_found :
  integer d subtaskId = true ->
  subtask_by_id d subtaskId = None ->
  run (Tasks.takeSubtask subtaskId (Some uid)) d
  = (fail 404 "Subtask not found", d,
     [BEGIN; SELECT_subtask_FOR_UPDATE; ROLLBACK]).
Proof.
  intros Hint H. apply filter_nil_find in H.
  unfold run, Tasks.takeSubtask, route, try_catch.
  rewrite (falsy_some uid uid_present).
  unfold bind, begin_, Tasks.select_subtask_for_update, select_on, statement.
  cbn. rewrite (binding_1 _ _ _ Hint). cbn. rewrite H. cbn.
  now rewrite db_eta.
Qed.

Lemma take_not_available (s : Subtask.t) :
  subtask_by_id d subtaskId = Some s ->
  Subtask.status s <> Status.available ->
  run (Tasks.takeSubtask subtaskId (Some uid)) d
  = (fail 400 "This subtask is no longer available", d,
     [BEGIN; SELECT_subtask_FOR_UPDATE; ROLLBACK]).
Proof.
  intros H Hs.
  pose proof (subtask_integer d subtaskId (existsb_find_some _ _ _ H)) as Hint.
  apply filter_cons_find in H. destruct H as (rest & H).
  apply Status_eqb_neq in Hs.
  unfold run, Tasks.takeSubtask, route, try_catch.
  rewrite (falsy_some uid uid_present).
  unfold bind, begin_, Tasks.select_subtask_for_update, select_on, statement.
  cbn. rewrite (binding_1 _ _ _ Hint). cbn. rewrite H, Hs. cbn.
  now rewrite db_eta.
Qed.

Lemma take_available (s : Subtask.t) :
  subtask_by_id d subtaskId = Some s ->
  Subtask.status s = Status.available ->
  user_exists d uid ->
  exists details,
    run (Tasks.takeSubtask subtaskId (Some uid)) d
    = (ok (json_subtask "Subtask assigned to you successfully!" details),
       reassign_in d subtaskId (Some uid) Status.taken Progress.in_progress,
       [BEGIN; SELECT_subtask_FOR_UPDATE; UPDATE_subtask_assignment; COMMIT;
        SELECT_subtask_details]).
Proof.
  intros H Hs Hu.
  pose proof (existsb_find_some _ _ _ H) as Hex.
  pose proof (subtask_integer d subtaskId Hex) as Hint.
  apply filter_cons_find in H. destruct H as (rest & H).
  apply Status_eqb_eq in Hs. apply user_exists_existsb in Hu.
  pose proof (user_integer d uid Hu) as Huint.
  unfold run, Tasks.takeSubtask, route, try_catch.
  rewrite (falsy_some uid uid_present).
  unfold bind, begin_, Tasks.select_subtask_for_update,
    Tasks.update_subtask_assignment, Tasks.getSubtaskWithDetails,
    select_on, statement.
  cbn. rewrite (binding_1 _ _ _ Hint). cbn. rewrite H, Hs. cbn.
  rewrite (binding_2 _ _ _ _ Huint Hint). cbn. rewrite Hex, Hu. cbn.
  rewrite binding_1
    by (apply rewritten_subtask_integer; [reflexivity | exact Hex]).
  cbn. eexists. reflexivity.
Qed.

Lemma take_unknown_user (s : Subtask.t) :
  subtask_by_id d subtaskId = Some s ->
  Subtask.status s = Status.available ->
  ~ user_exists d uid ->
  run (Tasks.takeSubtask subtaskId (Some uid)) d
  = (fail 500 "Internal server error", d,
     [BEGIN; SELECT_subtask_FOR_UPDATE; UPDATE_subtask_assignment; ROLLBACK]).
Proof.
  intros H Hs Hu.
  pose proof (existsb_find_some _ _ _ H) as Hex.
  pose proof (subtask_integer d subtaskId Hex) as Hint.
  apply filter_cons_find in H. destruct H as (rest & H).
  apply Status_eqb_eq in Hs. rewrite user_exists_existsb in Hu.
  apply not_true_is_false in Hu.
  unfold run, Tasks.takeSubtask, route, try_catch.
  rewrite (falsy_some uid uid_present).
  unfold bind, begin_, Tasks.select_subtask_for_update,
    Tasks.update_subtask_assignment, select_on, statement.
  cbn. rewrite (binding_1 _ _ _ Hint). cbn. rewrite H, Hs. cbn.
  destruct (integer d uid) eqn:Huint.
  - rewrite (binding_2 _ _ _ _ Huint Hint). cbn. rewrite Hex, Hu. cbn.
    now rewrite db_eta.
  - rewrite binding_raises by (simpl; now rewrite Huint).
    cbn. now rewrite db_eta.
Qed.

End TakeSubtask.

(** C1 (amended).  A call of takeSubtask without a userId answers 400 and
    sends no statement.  With a userId: a subtaskId that is no INTEGER
    makes the SELECT raise, the transaction is rolled back and the answer
    is 500; with an INTEGER that no subtask has as its id the answer is 404
    "Subtask not found" and nothing changes; with a subtask whose status is
    not available the answer is 400 "This subtask is no longer available"
    and nothing changes; with an available subtask and a userId that
    references an existing user the call succeeds and the subtask gets
    status taken, progress in_progress and assigned_to userId, every other
    column and row as before; the check and the write are between BEGIN and
    COMMIT, after SELECT ... FOR UPDATE.  With an available subtask and a
    userId that no user row has, the write raises, the transaction is
    rolled back and the answer is 500. *)
Theorem takeSubtask_outcomes (d : Db) (subtaskId : Z) :
  (forall userId,
     falsy userId = true ->
     run (Tasks.takeSubtask subtaskId userId) d
     = (fail 400 "User ID is required", d, []))
  /\ (forall uid,
        uid <> 0 ->
        (integer d subtaskId = false ->
         run (Tasks.takeSubtask subtaskId (Some uid)) d
         = (fail 500 "Internal server error", d,
            [BEGIN; SELECT_subtask_FOR_UPDATE; ROLLBACK]))
        /\ (integer d subtaskId = true ->
            subtask_by_id d subtaskId = None ->
            run (Tasks.takeSubtask subtaskId (Some uid)) d
            = (fail 404 "Subtask not found", d,
               [BEGIN; SELECT_subtask_FOR_UPDATE; ROLLBACK]))
        /\ (forall s,
              subtask_by_id d subtaskId = Some s ->
              Subtask.status s <> Status.available ->
              run (Tasks.takeSubtask subtaskId (Some uid)) d
              = (fail 400 "This subtask is no longer available", d,
                 [BEGIN; SELECT_subtask_FOR_UPDATE; ROLLBACK]))
        /\ (forall s,
              subtask_by_id d subtaskId = Some s ->
              Subtask.status s = Status.available ->
              user_exists d uid ->
              exists details,
                run (Tasks.takeSubtask subtaskId (Some uid)) d
                = (ok (json_subtask "Subtask assigned to you successfully!"
                                    details),
                   reassign_in d subtaskId (Some uid) Status.taken
                               Progress.in_progress,
                   [BEGIN; SELECT_subtask_FOR_UPDATE; UPDATE_subtask_assignment;
                    COMMIT; SELECT_subtask_details]))
        /\ (forall s,
              subtask_by_id d subtaskId = Some s ->
              Subtask.status s = Status.available ->
              ~ user_exists d uid ->
              run (Tasks.takeSubtask subtaskId (Some uid)) d
              = (fail 500 "Internal server error", d,
                 [BEGIN; SELECT_subtask_FOR_UPDATE; UPDATE_subtask_assignment;
                  ROLLBACK]))).
Proof.
  split.
  - intros userId Hf. unfold run, Tasks.takeSubtask, route, try_catch.
    now rewrite Hf.
  - intros uid Huid. repeat split.
    + now apply take_out_of_range.
    + now apply take_not_found.
    + intros s. now apply take_not_available.
    + intros s. now apply take_available.
    + intros s. now apply take_unknown_user.
Qed.

(** In the sample database subtask 1 is available and user 3 exists: the
    claim succeeds and only subtask 1 changes.  No subtask has id 7, and
    2147483648 is no INTEGER. *)
Lemma takeSubtask_outcomes_witness :
  (exists details,
     run (Tasks.takeSubtask 1 (Some 3)) Sample.db
     = (ok (json_subtask "Subtask assigned to you successfully!" details),
        with_subtasks Sample.db
          [Sample.subtask 1 1 (Some 3) Status.taken Progress.in_progress;
           Sample.subtask 2 1 (Some 4) Status.taken Progress.in_progress;
           Sample.subtask 3 1 (Some 4) Status.completed Progress.completed],
        [BEGIN; SELECT_subtask_FOR_UPDATE; UPDATE_subtask_assignment;
         COMMIT; SELECT_subtask_details]))
  /\ run (Tasks.takeSubtask 7 (Some 3)) Sample.db
     = (fail 404 "Subtask not found", Sample.db,
        [BEGIN; SELECT_subtask_FOR_UPDATE; ROLLBACK])
  /\ run (Tasks.takeSubtask 2147483648 (Some 3)) Sample.db
     = (fail 500 "Internal server error", Sample.db,
        [BEGIN; SELECT_subtask_FOR_UPDATE; ROLLBACK]).
Proof.
  split; [|split].
  - destruct (takeSubtask_outcomes Sample.db 1) as (_ & H).
    destruct (H 3) as (_ & _ & _ & H3 & _); [discriminate|].
    apply (H3 (Sample.subtask 1 1 None Status.available Progress.not_started)).
    + reflexivity.
    + reflexivity.
    + exists (Sample.user 3 "c@y.com" Role.leader "ZZ99ZZ" Membership.approved).
      split; [simpl; tauto | reflexivity].
  - destruct (takeSubtask_outcomes Sample.db 7) as (_ & H).
    destruct (H 3) as (_ & H2 & _); [discriminate|].
    apply H2; reflexivity.
  - destruct (takeSubtask_outcomes Sample.db 2147483648) as (_ & H).
    destruct (H 3) as (H1 & _); [discriminate|].
    apply H1; reflexivity.
Defined.

(** C1 as stated fails: subtask 1 of the sample database is available, the
    call carries userId 9, and it does not succeed, because no user row has
    id 9 and [assigned_to] REFERENCES users(id). *)
Lemma takeSubtask_available_but_fails :
  option_map Subtask.status (subtask_by_id Sample.db 1) = Some Status.available
  /\ falsy (Some 9) = false
  /\ run (Tasks.takeSubtask 1 (Some 9)) Sample.db
     = (fail 500 "Internal server error", Sample.db,
        [BEGIN; SELECT_subtask_FOR_UPDATE; UPDATE_subtask_assignment;
         ROLLBACK]).
Proof. repeat split. Qed.

(** C9 (amended).  takeSubtask makes no team or role check on the claimant:
    for an available subtask and any userId that references an existing
    user, whatever that user's team and role, the call succeeds and assigns
    the subtask to the user.  No statement up to the COMMIT names the users
    table; the one statement that does is the query of
    getSubtaskWithDetails, sent after the COMMIT to fill the response. *)
Theorem takeSubtask_no_membership_check (d : Db) (subtaskId uid : Z)
    (s : Subtask.t) (u : User.t) :
  uid <> 0 ->
  subtask_by_id d subtaskId = Some s ->
  Subtask.status s = Status.available ->
  In u (users d) ->
  User.id u = uid ->
  exists details log,
    run (Tasks.takeSubtask subtaskId (Some uid)) d
    = (ok (json_subtask "Subtask assigned to you successfully!" details),
       reassign_in d subtaskId (Some uid) Status.taken Progress.in_progress,
       log ++ [COMMIT; SELECT_subtask_details])
    /\ touches t_users log = false
    /\ In UPDATE_subtask_assignment log.
Proof.
  intros Huid Hs Hav Hin Hid.
  destruct (take_available d subtaskId uid Huid s Hs Hav) as (details & E).
  - now exists u.
  - exists details,
      [BEGIN; SELECT_subtask_FOR_UPDATE; UPDATE_subtask_assignment].
    split; [exact E|]. split; [reflexivity|]. simpl. tauto.
Qed.

(** User 3 leads another team (ZZ99ZZ) than the one that owns subtask 1
    (AB12CD), and claims it. *)
Lemma takeSubtask_no_membership_check_witness :
  exists details log,
    run (Tasks.takeSubtask 1 (Some 3)) Sample.db
    = (ok (json_subtask "Subtask assigned to you successfully!" details),
       reassign_in Sample.db 1 (Some 3) Status.taken Progress.in_progress,
       log ++ [COMMIT; SELECT_subtask_details])
    /\ touches t_users log = false
    /\ In UPDATE_subtask_assignment log.
Proof.
  apply (takeSubtask_no_membership_check Sample.db 1 3
           (Sample.subtask 1 1 None Status.available Progress.not_started)
           (Sample.user 3 "c@y.com" Role.leader "ZZ99ZZ" Membership.approved)).
  - discriminate.
  - reflexivity.
  - reflexivity.
  - simpl; tauto.
  - reflexivity.
Defined.

(** C9 as stated fails in its last clause: the statements of a successful
    takeSubtask include one that names the users table. *)
Lemma takeSubtask_queries_users :
  code (fst (fst (run (Tasks.takeSubtask 1 (Some 3)) Sample.db))) = 200
  /\ touches t_users (snd (run (Tasks.takeSubtask 1 (Some 3)) Sample.db)) = true
  /\ In SELECT_subtask_details (snd (run (Tasks.takeSubtask 1 (Some 3)) Sample.db))
  /\ In t_users (stmt_tables SELECT_subtask_details).
Proof. repeat split; simpl; tauto. Qed.

(* ------------------------------------------------------------------ *)
(** ** Leader-directed assignment: [assignSubtask] *)

(** The subtask table is rewritten row by row, ids kept: the id of a
    row that was there is still an INTEGER of the database. *)
Ltac subtask_kept Hex :=
  apply subtask_integer; unfold with_subtasks; cbn [subtasks];
  rewrite ?existsb_map_if by (intros; reflexivity); exact Hex.

Lemma assign_existing (d : Db) (subtaskId uid assignedBy : Z) (s : Subtask.t) :
  uid <> 0 ->
  assignedBy <> 0 ->
  subtask_by_id d subtaskId = Some s ->
  user_exists d uid ->
  exists details,
    run (Tasks.assignSubtask subtaskId (Some uid) (Some assignedBy)) d
    = (ok (json_subtask "Subtask assigned to member successfully" details),
       reassign_in d subtaskId (Some uid) Status.assigned Progress.assigned,
       [UPDATE_subtask_assignment; SELECT_subtask_details]).
Proof.
  intros Huid Hby H Hu.
  pose proof (existsb_find_some _ _ _ H) as Hex.
  pose proof (subtask_integer d subtaskId Hex) as Hint.
  apply filter_cons_find in H. destruct H as (rest & H).
  apply user_exists_existsb in Hu.
  pose proof (user_integer d uid Hu) as Huint.
  unfold run, Tasks.assignSubtask, route, try_catch.
  rewrite (falsy_some uid Huid), (falsy_some assignedBy Hby).
  unfold bind, Tasks.update_subtask_assignment, Tasks.getSubtaskWithDetails,
    select_on, statement.
  cbn. rewrite (binding_2 _ _ _ _ Huint Hint). cbn. rewrite Hex, Hu. cbn.
  rewrite (filter_map_if (fun s0 => Subtask.id s0 =? subtaskId)
             (Subtask.set_assignment (Some uid) Status.assigned Progress.assigned))
    by reflexivity.
  rewrite H. cbn.
  rewrite binding_1 by subtask_kept Hex.
  cbn. eexists. reflexivity.
Qed.

(** C10 (amended).  The one check of assignSubtask is that userId and
    assignedBy are present: a request that lacks one of them is answered
    400 and no statement is sent.  Otherwise the first statement is the
    UPDATE, so nothing about assignedBy is looked up (it need not be a
    leader, nor exist), and for an existing subtask in any prior status and
    a userId that references an existing user the subtask is overwritten
    with status assigned, progress assigned and assigned_to userId.  The
    users table is named only by the query of getSubtaskWithDetails, sent
    after the UPDATE to fill the response. *)
Theorem assignSubtask_overwrites (d : Db) (subtaskId : Z) :
  (forall userId assignedBy,
     falsy userId = true \/ falsy assignedBy = true ->
     run (Tasks.assignSubtask subtaskId userId assignedBy) d
     = (fail 400 "User ID and assignedBy are required", d, []))
  /\ (forall uid assignedBy s,
        uid <> 0 ->
        assignedBy <> 0 ->
        subtask_by_id d subtaskId = Some s ->
        user_exists d uid ->
        exists details log,
          run (Tasks.assignSubtask subtaskId (Some uid) (Some assignedBy)) d
          = (ok (json_subtask "Subtask assigned to member successfully" details),
             reassign_in d subtaskId (Some uid) Status.assigned Progress.assigned,
             log ++ [SELECT_subtask_details])
          /\ hd_error log = Some UPDATE_subtask_assignment
          /\ touches t_users log = false).
Proof.
  split.
  - intros userId assignedBy Hf.
    unfold run, Tasks.assignSubtask, route, try_catch.
    assert (falsy userId || falsy assignedBy = true) as ->; [|reflexivity].
    destruct Hf as [-> | ->]; [reflexivity | apply orb_true_r].
  - intros uid assignedBy s Huid Hby H Hu.
    destruct (assign_existing d subtaskId uid assignedBy s Huid Hby H Hu)
      as (details & E).
    exists details, [UPDATE_subtask_assignment].
    split; [exact E | split; reflexivity].
Qed.

(** Subtask 3 of the sample database is completed and assigned to user 4;
    a request naming assignedBy 77, an id that no user has, hands it to
    user 2.  The same request without assignedBy is answered 400. *)
Lemma assignSubtask_overwrites_witness :
  user_by_id Sample.db 77 = None
  /\ (exists details log,
        run (Tasks.assignSubtask 3 (Some 2) (Some 77)) Sample.db
        = (ok (json_subtask "Subtask assigned to member successfully" details),
           with_subtasks Sample.db
             [Sample.subtask 1 1 None Status.available Progress.not_started;
              Sample.subtask 2 1 (Some 4) Status.taken Progress.in_progress;
              Sample.subtask 3 1 (Some 2) Status.assigned Progress.assigned],
           log ++ [SELECT_subtask_details])
        /\ hd_error log = Some UPDATE_subtask_assignment
        /\ touches t_users log = false)
  /\ run (Tasks.assignSubtask 3 (Some 2) None) Sample.db
     = (fail 400 "User ID and assignedBy are required", Sample.db, []).
Proof.
  split; [reflexivity|].
  destruct (assignSubtask_overwrites Sample.db 3) as (H400 & H).
  split.
  - apply (H 2 77 (Sample.subtask 3 1 (Some 4) Status.completed Progress.completed)).
    + discriminate.
    + discriminate.
    + reflexivity.
    + exists (Sample.user 2 "b@x.com" Role.member "AB12CD" Membership.pending).
      split; [simpl; tauto | reflexivity].
  - apply H400. right. reflexivity.
Defined.

(** C10 as stated fails twice: a successful assignSubtask sends a statement
    that names the users table, and for a userId that no user row has the
    subtask is not overwritten (the UPDATE raises and the answer is 500). *)
Lemma assignSubtask_reads_users_and_can_fail :
  touches t_users (snd (run (Tasks.assignSubtask 3 (Some 2) (Some 1)) Sample.db))
  = true
  /\ user_by_id Sample.db 9 = None
  /\ run (Tasks.assignSubtask 3 (Some 9) (Some 1)) Sample.db
     = (fail 500 "Internal server error", Sample.db, [UPDATE_subtask_assignment]).
Proof. repeat split. Qed.

(* ------------------------------------------------------------------ *)
(** ** Progress updates: [updateProgress] *)

Lemma filter_fst_pairs {A B} (p : A -> bool) (a : A) (bs : list B) :
  filter (fun ab => p (fst ab)) (map (fun b => (a, b)) bs)
  = if p a then map (fun b => (a, b)) bs else [].
Proof.
  induction bs as [|b bs IH]; simpl.
  - now destruct (p a).
  - rewrite IH. now destruct (p a).
Qed.

(** The first row of [l JOIN r] that [p] accepts pairs the first accepted
    row of [l] with its first partner, provided it has one. *)
Lemma hd_filter_inner_join {A B} (on : A -> B -> bool) (p : A -> bool)
    (l : list A) (r : list B) (a : A) (b : B) :
  find p l = Some a ->
  find (on a) r = Some b ->
  exists rest,
    filter (fun ab => p (fst ab)) (inner_join on l r) = (a, b) :: rest.
Proof.
  intros Ha Hb. unfold inner_join.
  induction l as [|x l IH]; simpl in *; [discriminate|].
  rewrite filter_app, filter_fst_pairs.
  destruct (p x) eqn:Px.
  - injection Ha as ->.
    destruct (filter_cons_find _ _ _ Hb) as (bs & ->).
    simpl. eexists. reflexivity.
  - simpl. now apply IH.
Qed.

Lemma map_if_twice {A} (p : A -> bool) (f g : A -> A) (l : list A) :
  (forall a, p (f a) = p a) ->
  map (fun a => if p a then g a else a) (map (fun a => if p a then f a else a) l)
  = map (fun a => if p a then g (f a) else a) l.
Proof.
  intros Hf. rewrite map_map. apply map_ext. intros a.
  destruct (p a) eqn:E.
  - now rewrite Hf, E.
  - now rewrite E.
Qed.

(** C3.  updateProgress by an authorized caller (the assignee, the creator
    of the owning task, or a leader of the task's team) on an existing
    subtask sets progress to the given value and writes a status that is
    completed when progress is completed, taken when progress is
    in_progress and the prior status was assigned, and the prior status in
    every other case; no other column and no other row changes. *)
Theorem updateProgress_status_mapping (d : Db) (subtaskId uid : Z)
    (progress : Progress.t) (s : Subtask.t) (t : Task.t) (u : User.t) :
  uid <> 0 ->
  subtask_by_id d subtaskId = Some s ->
  task_of d s = Some t ->
  user_by_id d uid = Some u ->
  (Subtask.assigned_to s = Some uid
   \/ Task.created_by t = Some uid
   \/ (User.role u = Role.leader /\ User.team_code u = Task.team_code t)) ->
  exists details status',
    run (Tasks.updateProgress subtaskId (Some progress) (Some uid)) d
    = (ok (json_subtask "Progress updated successfully" details),
       with_subtasks d
         (map (fun r => if Subtask.id r =? subtaskId
                        then progressed progress status' r
                        else r)
              (subtasks d)),
       [SELECT_subtask_with_task; SELECT_user_role; UPDATE_subtask_progress;
        UPDATE_subtask_status; SELECT_subtask_details])
    /\ (progress = Progress.completed -> status' = Status.completed)
    /\ (progress = Progress.in_progress ->
        Subtask.status s = Status.assigned -> status' = Status.taken)
    /\ (progress <> Progress.completed ->
        ~ (progress = Progress.in_progress /\ Subtask.status s = Status.assigned) ->
        status' = Subtask.status s).
Proof.
  intros Huid Hs Ht Hu Hauth.
  pose proof (existsb_find_some _ _ _ Hs) as Hex.
  pose proof (subtask_integer d subtaskId Hex) as Hint.
  pose proof (user_integer d uid (existsb_find_some _ _ _ Hu)) as Huint.
  destruct (hd_filter_inner_join
              (fun s0 t0 => col_is (Subtask.task_id s0) (Task.id t0))
              (fun s0 => Subtask.id s0 =? subtaskId)
              (subtasks d) (tasks d) s t Hs Ht) as (rest & Hjoin).
  destruct (filter_cons_find _ _ _ Hu) as (urest & Husers).
  assert (Hallowed :
            negb (col_is (Subtask.assigned_to s) uid)
            && negb (Role.eqb (User.role u) Role.leader
                     && String.eqb (User.team_code u) (Task.team_code t))
            && negb (col_is (Task.created_by t) uid) = false).
  { destruct Hauth as [Ha | [Hc | [Hr Htc]]].
    - rewrite Ha. simpl. now rewrite Z.eqb_refl.
    - rewrite Hc. simpl. rewrite Z.eqb_refl. simpl.
      now rewrite andb_false_r.
    - rewrite Hr, Htc, String.eqb_refl. simpl. now rewrite andb_false_r. }
  eexists.
  exists (Tasks.status_for_progress progress (Subtask.status s)).
  split.
  - unfold run, Tasks.updateProgress, route, try_catch.
    rewrite (falsy_some uid Huid).
    unfold bind, Tasks.select_subtask_with_task, Tasks.select_user_role,
      Tasks.update_subtask_progress, Tasks.update_subtask_status,
      Tasks.getSubtaskWithDetails, select_on, statement.
    cbn. rewrite (binding_1 _ _ _ Hint). cbn. rewrite Hjoin. cbn.
    rewrite (binding_1 _ _ _ Huint). cbn. rewrite Husers. cbn.
    rewrite Hallowed. cbn.
    rewrite (binding_1 _ _ _ Hint). cbn.
    rewrite binding_1 by subtask_kept Hex. cbn.
    rewrite binding_1 by subtask_kept Hex. cbn.
    rewrite (map_if_twice (fun s0 => Subtask.id s0 =? subtaskId)
               (Subtask.set_progress progress)
               (Subtask.set_status
                  (Tasks.status_for_progress progress (Subtask.status s))))
      by reflexivity.
    reflexivity.
  - unfold Tasks.status_for_progress. repeat split.
    + intros ->. reflexivity.
    + intros -> ->. reflexivity.
    + intros Hn1 Hn2.
      destruct (Progress.eqb progress Progress.completed) eqn:E1.
      { apply Progress_eqb_eq in E1. contradiction. }
      destruct (Progress.eqb progress Progress.in_progress
                && Status.eqb (Subtask.status s) Status.assigned) eqn:E2;
        [|reflexivity].
      apply andb_true_iff in E2. destruct E2 as (E2 & E3).
      apply Progress_eqb_eq in E2. apply Status_eqb_eq in E3. tauto.
Qed.

(** User 4 is the assignee of subtask 2 (status taken) and reports it
    completed. *)
Lemma updateProgress_status_mapping_witness :
  exists details status',
    run (Tasks.updateProgress 2 (Some Progress.completed) (Some 4)) Sample.db
    = (ok (json_subtask "Progress updated successfully" details),
       with_subtasks Sample.db
         (map (fun r => if Subtask.id r =? 2
                        then progressed Progress.completed status' r
                        else r)
              (subtasks Sample.db)),
       [SELECT_subtask_with_task; SELECT_user_role; UPDATE_subtask_progress;
        UPDATE_subtask_status; SELECT_subtask_details])
    /\ (Progress.completed = Progress.completed -> status' = Status.completed)
    /\ (Progress.completed = Progress.in_progress ->
        Status.taken = Status.assigned -> status' = Status.taken)
    /\ (Progress.completed <> Progress.completed ->
        ~ (Progress.completed = Progress.in_progress
           /\ Status.taken = Status.assigned) ->
        status' = Status.taken).
Proof.
  apply (updateProgress_status_mapping Sample.db 2 4 Progress.completed
           (Sample.subtask 2 1 (Some 4) Status.taken Progress.in_progress)
           (Task.mk 1 "T1" None "AB12CD" (Some 1) 5 "active" 5)
           (Sample.user 4 "d@x.com" Role.member "AB12CD" Membership.approved)).
  - discriminate.
  - reflexivity.
  - reflexivity.
  - reflexivity.
  - left. reflexivity.
Defined.

(* ------------------------------------------------------------------ *)
(** ** Login *)

(** C4.  login answers 401 when no user matches the email and team code or
    when the password does not verify against the stored hash; 403, with
    one message for a pending member and another for a rejected one; and
    otherwise 200 with a token that jwt.sign makes from the payload
    (userId, email, role), the server secret and expiresIn 24h, and with
    the user record without its password hash. *)
Theorem login_outcomes (E : Env) (d : Db) (email password teamCode : string) :
  (login_user d email teamCode = None ->
   run (Auth.login E email password teamCode) d
   = (fail 401 "Invalid credentials", d, [SELECT_user_by_email_and_team]))
  /\ (forall u,
        login_user d email teamCode = Some u ->
        bcrypt_compare E password (User.password u) = false ->
        run (Auth.login E email password teamCode) d
        = (fail 401 "Invalid credentials", d, [SELECT_user_by_email_and_team]))
  /\ (forall u,
        login_user d email teamCode = Some u ->
        bcrypt_compare E password (User.password u) = true ->
        User.role u = Role.member ->
        User.status u = Membership.pending ->
        run (Auth.login E email password teamCode) d
        = (fail 403 pending_message, d, [SELECT_user_by_email_and_team]))
  /\ (forall u,
        login_user d email teamCode = Some u ->
        bcrypt_compare E password (User.password u) = true ->
        User.role u = Role.member ->
        User.status u = Membership.rejected ->
        run (Auth.login E email password teamCode) d
        = (fail 403 rejected_message, d, [SELECT_user_by_email_and_team]))
  /\ pending_message <> rejected_message
  /\ (forall u,
        login_user d email teamCode = Some u ->
        bcrypt_compare E password (User.password u) = true ->
        User.role u = Role.leader \/ User.status u = Membership.approved ->
        run (Auth.login E email password teamCode) d
        = (ok (json_login "Login successful"
                 (mkNoPassword (User.id u) (User.email u) (User.name u)
                    (User.role u) (User.team_code u) (User.created_at u)
                    (User.status u) (User.approved_by u) (User.approved_at u)
                    (User.rejected_by u) (User.rejected_at u)
                    (User.updated_at u))
                 (jwt_sign E
                    (Jwt.mk (User.id u) (User.email u) (User.role u))
                    (JWT_SECRET E) (Jwt.mkOptions "24h"))),
           d, [SELECT_user_by_email_and_team])).
Proof.
  unfold login_user, run, Auth.login, route, try_catch, bind,
    Auth.select_user_by_email_and_team, select, statement.
  repeat split.
  - intros H. apply filter_nil_find in H. cbn. rewrite H. reflexivity.
  - intros u H Hpw. destruct (filter_cons_find _ _ _ H) as (rest & Hf).
    cbn. rewrite Hf. cbn. rewrite Hpw. reflexivity.
  - intros u H Hpw Hr Hst. destruct (filter_cons_find _ _ _ H) as (rest & Hf).
    cbn. rewrite Hf. cbn. rewrite Hpw, Hr, Hst. reflexivity.
  - intros u H Hpw Hr Hst. destruct (filter_cons_find _ _ _ H) as (rest & Hf).
    cbn. rewrite Hf. cbn. rewrite Hpw, Hr, Hst. reflexivity.
  - discriminate.
  - intros u H Hpw Hok. destruct (filter_cons_find _ _ _ H) as (rest & Hf).
    assert (Hgate : Role.eqb (User.role u) Role.member
                    && negb (Membership.eqb (User.status u) Membership.approved)
                    = false).
    { destruct Hok as [Hr | Hst].
      - now rewrite Hr.
      - rewrite Hst. apply andb_false_r. }
    cbn. rewrite Hf. cbn. rewrite Hpw. cbn. rewrite Hgate. reflexivity.
Qed.

(** In the sample database b@x.com is a pending member and a@x.com the
    leader of team AB12CD; both have password pw. *)
Lemma login_outcomes_witness :
  run (Auth.login Sample.env "b@x.com" "pw" "AB12CD") Sample.db
  = (fail 403 pending_message, Sample.db, [SELECT_user_by_email_and_team])
  /\ run (Auth.login Sample.env "a@x.com" "pw" "AB12CD") Sample.db
     = (ok (json_login "Login successful"
              (mkNoPassword 1 "a@x.com" "N" Role.leader "AB12CD" 0
                 Membership.approved None None None None 0)
              (jwt_sign Sample.env (Jwt.mk 1 "a@x.com" Role.leader)
                 "secret" (Jwt.mkOptions "24h"))),
        Sample.db, [SELECT_user_by_email_and_team]).
Proof.
  split.
  - destruct (login_outcomes Sample.env Sample.db "b@x.com" "pw" "AB12CD")
      as (_ & _ & H & _).
    apply (H (Sample.user 2 "b@x.com" Role.member "AB12CD" Membership.pending));
      reflexivity.
  - destruct (login_outcomes Sample.env Sample.db "a@x.com" "pw" "AB12CD")
      as (_ & _ & _ & _ & _ & H).
    apply (H (Sample.user 1 "a@x.com" Role.leader "AB12CD" Membership.approved));
      [reflexivity | reflexivity | left; reflexivity].
Defined.

(* ------------------------------------------------------------------ *)
(** ** Member registration *)

(** C6 (amended).  registerMember, for a request that carries its four
    fields as texts, answers 400 "Invalid team code" when no team has the
    given code and 400 "User already exists" when a user has the given
    email.  Otherwise, when the email, the name and the hash of the
    password have at most 255 characters and the team code at most 10 (the
    sizes of their VARCHAR columns) and the sequence of users.id has an id
    to give, it appends exactly one user row, with role member, the given
    team code and status pending; when one of them does not fit its column,
    or the sequence has no id to give, the INSERT raises, the answer is 500
    and no row is added.  Whatever the request, the teams table is the same
    afterwards, and the statements sent are among the two SELECTs and the
    INSERT into users. *)
Theorem registerMember_outcomes (E : Env) (d : Db)
    (email password name teamCode : string) :
  (team_by_code d teamCode = None ->
   run (Auth.registerMember E email password name teamCode) d
   = (fail 400 "Invalid team code", d, [SELECT_team_by_code]))
  /\ (forall t u,
        team_by_code d teamCode = Some t ->
        user_by_email d email = Some u ->
        run (Auth.registerMember E email password name teamCode) d
        = (fail 400 "User already exists", d,
           [SELECT_team_by_code; SELECT_user_by_email]))
  /\ (forall t,
        team_by_code d teamCode = Some t ->
        user_by_email d email = None ->
        (String.length email <= 255)%nat ->
        (String.length (bcrypt_hash E password 10) <= 255)%nat ->
        (String.length name <= 255)%nat ->
        (String.length teamCode <= 10)%nat ->
        users_id_free d = true ->
        run (Auth.registerMember E email password name teamCode) d
        = (ok (json_registered
                 "Registration successful! Please wait for team leader approval."
                 (mkRegistered (users_id_seq d + 1) email name Role.member
                    teamCode Membership.pending)),
           mkDb (users d
                 ++ [User.mk (users_id_seq d + 1) email (bcrypt_hash E password 10)
                       name Role.member teamCode (NOW E) Membership.pending
                       None None None None (NOW E)])
                (teams d) (tasks d) (subtasks d) (users_id_seq d + 1),
           [SELECT_team_by_code; SELECT_user_by_email; INSERT_user]))
  /\ (forall t,
        team_by_code d teamCode = Some t ->
        user_by_email d email = None ->
        varchar 255 email = None
        \/ varchar 255 (bcrypt_hash E password 10) = None
        \/ varchar 255 name = None
        \/ varchar 10 teamCode = None ->
        run (Auth.registerMember E email password name teamCode) d
        = (fail 500 "Internal server error", d,
           [SELECT_team_by_code; SELECT_user_by_email; INSERT_user]))
  /\ (forall t,
        team_by_code d teamCode = Some t ->
        user_by_email d email = None ->
        (String.length email <= 255)%nat ->
        (String.length (bcrypt_hash E password 10) <= 255)%nat ->
        (String.length name <= 255)%nat ->
        (String.length teamCode <= 10)%nat ->
        users_id_free d = false ->
        exists seq,
          run (Auth.registerMember E email password name teamCode) d
          = (fail 500 "Internal server error",
             mkDb (users d) (teams d) (tasks d) (subtasks d) seq,
             [SELECT_team_by_code; SELECT_user_by_email; INSERT_user]))
  /\ teams (snd (fst (run (Auth.registerMember E email password name teamCode)
                          d)))
     = teams d
  /\ incl (snd (run (Auth.registerMember E email password name teamCode) d))
          [SELECT_team_by_code; SELECT_user_by_email; INSERT_user].
Proof.
  unfold team_by_code, user_by_email, users_id_free, has_user, run,
    Auth.registerMember, route,
    try_catch, bind, Auth.select_team_by_code, Auth.select_user_by_email,
    Auth.insert_user, select, statement.
  split; [|split; [|split; [|split; [|split; [|split]]]]].
  - intros H. apply filter_nil_find in H. cbn. rewrite H. reflexivity.
  - intros t u Ht Hu.
    destruct (filter_cons_find _ _ _ Ht) as (trest & Hft).
    destruct (filter_cons_find _ _ _ Hu) as (urest & Hfu).
    cbn. rewrite Hft. cbn. rewrite Hfu. reflexivity.
  - intros t Ht Hu Hemail Hhash Hname Hcode Hfree.
    destruct (filter_cons_find _ _ _ Ht) as (trest & Hft).
    pose proof (existsb_find_none _ _ Hu) as Hex.
    apply filter_nil_find in Hu.
    apply andb_true_iff in Hfree. destruct Hfree as (Hint & Hkey).
    apply negb_true_iff in Hkey.
    cbn [cur saved issued fst snd app]. rewrite Hft.
    cbn [cur saved issued fst snd app]. rewrite Hu.
    cbn [cur saved issued fst snd app].
    rewrite (varchar_fits _ _ Hemail), (varchar_fits _ _ Hhash),
      (varchar_fits _ _ Hname), (varchar_fits _ _ Hcode).
    cbv zeta. rewrite Hint, Hkey, Hex. reflexivity.
  - intros t Ht Hu Hlong.
    destruct (filter_cons_find _ _ _ Ht) as (trest & Hft).
    apply filter_nil_find in Hu.
    cbn [cur saved issued fst snd app]. rewrite Hft.
    cbn [cur saved issued fst snd app]. rewrite Hu.
    cbn [cur saved issued fst snd app].
    destruct Hlong as [H | [H | [H | H]]]; rewrite H;
      repeat match goal with
             | |- context [match varchar ?n ?x with _ => _ end] =>
                 destruct (varchar n x)
             end;
      reflexivity.
  - intros t Ht Hu Hemail Hhash Hname Hcode Hfree.
    destruct (filter_cons_find _ _ _ Ht) as (trest & Hft).
    apply filter_nil_find in Hu.
    cbn [cur saved issued fst snd app]. rewrite Hft.
    cbn [cur saved issued fst snd app]. rewrite Hu.
    cbn [cur saved issued fst snd app].
    rewrite (varchar_fits _ _ Hemail), (varchar_fits _ _ Hhash),
      (varchar_fits _ _ Hname), (varchar_fits _ _ Hcode).
    cbv zeta.
    destruct (int4 (users_id_seq d + 1)); cbn [negb andb] in Hfree |- *.
    + apply negb_false_iff in Hfree. rewrite Hfree. cbn [orb].
      exists (users_id_seq d + 1). reflexivity.
    + exists (users_id_seq d). now rewrite db_eta.
  - cbn [cur saved issued fst snd app].
    destruct (filter _ (teams d)); [reflexivity|].
    cbn [cur saved issued fst snd app].
    destruct (filter _ (users d)); [|reflexivity].
    cbn [cur saved issued fst snd app]. cbv zeta.
    repeat match goal with
           | |- context [match varchar ?n ?x with _ => _ end] =>
               destruct (varchar n x)
           end;
      try reflexivity.
    destruct (negb (int4 (users_id_seq d + 1))); [reflexivity|].
    match goal with |- context [if ?b then _ else _] => destruct b end;
      reflexivity.
  - cbn [cur saved issued fst snd app].
    destruct (filter _ (teams d));
      [intros x Hx; simpl in Hx |- *; tauto|].
    cbn [cur saved issued fst snd app].
    destruct (filter _ (users d));
      [|intros x Hx; simpl in Hx |- *; tauto].
    cbn [cur saved issued fst snd app]. cbv zeta.
    repeat match goal with
           | |- context [match varchar ?n ?x with _ => _ end] =>
               destruct (varchar n x)
           end;
      try (intros x Hx; simpl in Hx |- *; tauto).
    destruct (negb (int4 (users_id_seq d + 1)));
      [intros x Hx; simpl in Hx |- *; tauto|].
    match goal with |- context [if ?b then _ else _] => destruct b end;
      intros x Hx; simpl in Hx |- *; tauto.
Qed.

(** A new address joins team AB12CD of the sample database; with a name of
    256 characters the same request is answered 500 and adds no row. *)
Lemma registerMember_outcomes_witness :
  run (Auth.registerMember Sample.env "e@x.com" "pw" "Eve" "AB12CD") Sample.db
  = (ok (json_registered
           "Registration successful! Please wait for team leader approval."
           (mkRegistered 5 "e@x.com" "Eve" Role.member "AB12CD"
              Membership.pending)),
     mkDb (users Sample.db
           ++ [User.mk 5 "e@x.com" "h:pw" "Eve" Role.member "AB12CD" 100
                 Membership.pending None None None None 100])
          (teams Sample.db) (tasks Sample.db) (subtasks Sample.db) 5,
     [SELECT_team_by_code; SELECT_user_by_email; INSERT_user])
  /\ run (Auth.registerMember Sample.env "e@x.com" "pw" (Sample.text 256)
                              "AB12CD") Sample.db
     = (fail 500 "Internal server error", Sample.db,
        [SELECT_team_by_code; SELECT_user_by_email; INSERT_user]).
Proof.
  split.
  - destruct (registerMember_outcomes Sample.env Sample.db
                "e@x.com" "pw" "Eve" "AB12CD") as (_ & _ & H & _).
    apply (H (Team.mk 1 "AB12CD" "TeamA" (Some 1) 0));
      first [reflexivity | vm_compute; lia].
  - destruct (registerMember_outcomes Sample.env Sample.db
                "e@x.com" "pw" (Sample.text 256) "AB12CD")
      as (_ & _ & _ & H & _).
    apply (H (Team.mk 1 "AB12CD" "TeamA" (Some 1) 0)).
    + reflexivity.
    + reflexivity.
    + right. right. left. reflexivity.
Defined.

(** C6 as stated fails: for a team code that no team has the answer is 400,
    the status of a validation error, not the 404 of NotFound. *)
Lemma registerMember_unknown_team_is_400 :
  team_by_code Sample.db "NOPE00" = None
  /\ run (Auth.registerMember Sample.env "e@x.com" "pw" "Eve" "NOPE00") Sample.db
     = (fail 400 "Invalid team code", Sample.db, [SELECT_team_by_code])
  /\ code (fst (fst (run (Auth.registerMember Sample.env "e@x.com" "pw" "Eve"
                            "NOPE00") Sample.db))) <> 404.
Proof. repeat split. discriminate. Qed.

(* ------------------------------------------------------------------ *)
(** ** Membership transitions *)

(** reject-member on any member row of the team, whatever its current
    status: the row is updated, the answer is 200, and the row records the
    acting user and the time. *)
Lemma rejectMember_whatever_status (E : Env) (d : Db) (uid rejectedBy : Z)
    (teamCode : string) (u : User.t) :
  uid <> 0 ->
  teamCode <> "" ->
  rejectedBy <> 0 ->
  user_exists d rejectedBy ->
  find (fun u0 => (User.id u0 =? uid)
                  && String.eqb (User.team_code u0) teamCode
                  && Role.eqb (User.role u0) Role.member)
       (users d) = Some u ->
  exists row d',
    run (Auth.rejectMember E (Some uid) teamCode (Some rejectedBy)) d
    = (ok (json_user "Member request rejected" row), d',
       [BEGIN; UPDATE_user_reject; COMMIT])
    /\ User.id row = User.id u
    /\ User.status row = Membership.rejected
    /\ User.rejected_by row = Some rejectedBy
    /\ User.rejected_at row = Some (NOW E).
Proof.
  intros Huid Htc Hby Hactor Hu.
  pose proof (existsb_find_some _ _ _ Hu) as Hex.
  destruct (filter_cons_find _ _ _ Hu) as (rest & Hf).
  apply user_exists_existsb in Hactor.
  apply String.eqb_neq in Htc.
  assert (Hint : integer d uid = true).
  { apply user_integer. revert Hex. apply existsb_weaken. intros a Ha.
    apply andb_true_iff in Ha. destruct Ha as (Ha & _).
    apply andb_true_iff in Ha. tauto. }
  unfold run, Auth.rejectMember, Auth.membership_route, route, try_catch.
  rewrite (falsy_some uid Huid), (falsy_some rejectedBy Hby), Htc.
  unfold bind, begin_, commit, Auth.update_user_reject, Auth.update_users,
    statement.
  cbn. rewrite (binding_2 _ _ _ _ (user_integer d rejectedBy Hactor) Hint).
  cbn. rewrite Hex, Hactor, Hf. cbn.
  eexists. eexists. split; [reflexivity|]. repeat split.
Qed.

(** C2 (the code departs from the claim).  approve-member and reject-member
    do not condition their UPDATE on the current status.  In the sample
    database user 4 is an approved member: rejecting them answers 200 and
    makes them rejected.  User 2 is pending: approving them twice answers
    200 both times. *)
Theorem membership_updates_ignore_current_status :
  option_map User.status (user_by_id Sample.db 4) = Some Membership.approved
  /\ (let r := run (Auth.rejectMember Sample.env (Some 4) "AB12CD" (Some 1))
                   Sample.db in
      code (fst (fst r)) = 200
      /\ option_map User.status (user_by_id (snd (fst r)) 4)
         = Some Membership.rejected
      /\ snd r = [BEGIN; UPDATE_user_reject; COMMIT])
  /\ (let r1 := run (Auth.approveMember Sample.env (Some 2) "AB12CD" (Some 1))
                    Sample.db in
      let r2 := run (Auth.approveMember Sample.env (Some 2) "AB12CD" (Some 1))
                    (snd (fst r1)) in
      code (fst (fst r1)) = 200
      /\ option_map User.status (user_by_id (snd (fst r1)) 2)
         = Some Membership.approved
      /\ code (fst (fst r2)) = 200
      /\ snd r2 = [BEGIN; UPDATE_user_approve; COMMIT]).
Proof. repeat split. Qed.

(** The one route that does condition on the current status:
    approve-rejected-member on a member who is not rejected updates no row,
    answers 404 and leaves the database as it was. *)
Lemma reApprove_requires_rejected :
  run (Auth.reApprove Sample.env (Some 4) "AB12CD" (Some 1)) Sample.db
  = (fail 404 "Rejected member not found or already processed", Sample.db,
     [BEGIN; UPDATE_user_reapprove; ROLLBACK]).
Proof. reflexivity. Qed.

(* ------------------------------------------------------------------ *)
(** ** Deleting a team member *)

Lemma in_team_spec (d : Db) (userId : Z) (teamCode : string) (role : Role.t) :
  in_team d userId teamCode role = true <-> is_user_in_team d userId teamCode role.
Proof.
  unfold in_team, is_user_in_team. rewrite existsb_exists.
  split; intros (u & Hin & H); exists u; (split; [exact Hin|]).
  - apply andb_true_iff in H. destruct H as (H & Hr).
    apply andb_true_iff in H. destruct H as (Hi & Ht).
    apply Z.eqb_eq in Hi. apply String.eqb_eq in Ht. apply Role_eqb_eq in Hr.
    tauto.
  - destruct H as (Hi & Ht & Hr).
    rewrite Hi, Ht, Hr, Z.eqb_refl, String.eqb_refl.
    now destruct role.
Qed.

Lemma filter_existsb_false {A} (p : A -> bool) (l : list A) :
  existsb p l = false -> filter p l = [].
Proof.
  induction l as [|a l IH]; simpl; [reflexivity|].
  destruct (p a); simpl; [discriminate | exact IH].
Qed.

Lemma filter_existsb_true {A} (p : A -> bool) (l : list A) :
  existsb p l = true -> exists a rest, filter p l = a :: rest.
Proof.
  induction l as [|a l IH]; simpl; [discriminate|].
  destruct (p a); simpl.
  - intros _. now exists a, (filter p l).
  - exact IH.
Qed.

Lemma release_all_unassigned (memberId : Z) (rows : list Subtask.t) :
  existsb (fun s => col_is (Subtask.assigned_to s) memberId)
          (release_all memberId rows) = false.
Proof.
  induction rows as [|s rows IH]; simpl; [reflexivity|].
  destruct (col_is (Subtask.assigned_to s) memberId) eqn:E; simpl.
  - exact IH.
  - rewrite E. exact IH.
Qed.

Lemma in_team_user (d : Db) (userId : Z) (teamCode : string) (role : Role.t) :
  in_team d userId teamCode role = true ->
  existsb (fun u => User.id u =? userId) (users d) = true.
Proof.
  unfold in_team. apply existsb_weaken. intros a Ha.
  apply andb_true_iff in Ha. destruct Ha as (Ha & _).
  apply andb_true_iff in Ha. tauto.
Qed.

(** What deleteTeamMember does, guard by guard. *)
Lemma deleteTeamMember_run (d : Db) (teamCode : string) (memberId lid : Z) :
  lid <> 0 ->
  run (Auth.deleteTeamMember teamCode memberId (Some lid)) d
  = if negb (integer d lid)
    then (fail 500 "Internal server error", d, [SELECT_user_in_team])
    else if negb (in_team d lid teamCode Role.leader)
    then (fail 403 "Only team leader can delete members", d,
          [SELECT_user_in_team])
    else if memberId =? lid
    then (fail 400 "Cannot delete yourself", d, [SELECT_user_in_team])
    else if negb (integer d memberId)
    then (fail 500 "Internal server error", d,
          [SELECT_user_in_team; SELECT_user_in_team])
    else if negb (in_team d memberId teamCode Role.member)
    then (fail 404 "Member not found in your team", d,
          [SELECT_user_in_team; SELECT_user_in_team])
    else if referenced_elsewhere d memberId
    then (fail 500 "Internal server error", d,
          [SELECT_user_in_team; SELECT_user_in_team; BEGIN;
           UPDATE_subtasks_release; DELETE_user; ROLLBACK])
    else (ok (json_message "Member deleted successfully"),
          member_deleted d memberId,
          [SELECT_user_in_team; SELECT_user_in_team; BEGIN;
           UPDATE_subtasks_release; DELETE_user; COMMIT]).
Proof.
  intros Hlid.
  unfold run, Auth.deleteTeamMember, route, try_catch.
  rewrite (falsy_some lid Hlid).
  unfold bind, Auth.select_user_in_team, Auth.update_subtasks_release,
    Auth.delete_user, begin_, commit, rollback, select_on, statement.
  cbn.
  destruct (integer d lid) eqn:Hlint; cbn [negb];
    [rewrite (binding_1 _ _ _ Hlint)
    |rewrite (binding_raises_1 _ _ _ Hlint); reflexivity].
  cbn.
  destruct (in_team d lid teamCode Role.leader) eqn:Hl; unfold in_team in Hl.
  - destruct (filter_existsb_true _ _ Hl) as (l0 & lrest & ->). cbn.
    destruct (memberId =? lid) eqn:Hself; [reflexivity|]. cbn.
    destruct (integer d memberId) eqn:Hmint; cbn [negb];
      [rewrite (binding_1 _ _ _ Hmint)
      |rewrite (binding_raises_1 _ _ _ Hmint); reflexivity].
    cbn.
    destruct (in_team d memberId teamCode Role.member) eqn:Hm.
    + pose proof (in_team_user _ _ _ _ Hm) as Hex. unfold in_team in Hm.
      destruct (filter_existsb_true _ _ Hm) as (m0 & mrest & ->). cbn.
      rewrite (binding_1 _ _ _ Hmint). cbn.
      rewrite binding_1 by (apply user_integer; exact Hex). cbn.
      rewrite Hex. unfold Auth.user_referenced. cbn.
      change (map (fun s : Subtask.t =>
                     if col_is (Subtask.assigned_to s) memberId
                     then Subtask.set_released Status.available s
                     else s)
                  (subtasks d))
        with (release_all memberId (subtasks d)).
      rewrite release_all_unassigned, orb_false_r.
      fold (referenced_elsewhere d memberId).
      destruct (referenced_elsewhere d memberId); cbn;
        [now rewrite db_eta | reflexivity].
    + unfold in_team in Hm. rewrite (filter_existsb_false _ _ Hm). reflexivity.
  - rewrite (filter_existsb_false _ _ Hl). reflexivity.
Qed.

Lemma release_all_not_assigned (memberId : Z) (rows : list Subtask.t)
    (s : Subtask.t) :
  In s (release_all memberId rows) -> Subtask.assigned_to s <> Some memberId.
Proof.
  intros Hin Ha.
  pose proof (release_all_unassigned memberId rows) as Hnone.
  assert (existsb (fun s0 => col_is (Subtask.assigned_to s0) memberId)
                  (release_all memberId rows) = true) as Hsome.
  { apply existsb_exists. exists s. split; [exact Hin|].
    rewrite Ha. simpl. apply Z.eqb_refl. }
  congruence.
Qed.

(** A call either answers 200 and leaves [member_deleted], or answers
    something else and leaves the database as it was. *)
Lemma deleteTeamMember_effect (d : Db) (teamCode : string) (memberId : Z)
    (leaderId : option Z) (res : Response) (d' : Db) (log : list Stmt) :
  run (Auth.deleteTeamMember teamCode memberId leaderId) d = (res, d', log) ->
  (code res = 200 /\ d' = member_deleted d memberId)
  \/ (code res <> 200 /\ d' = d).
Proof.
  intros H.
  destruct (falsy leaderId) eqn:Hf.
  - unfold run, Auth.deleteTeamMember, route, try_catch in H.
    rewrite Hf in H. cbn in H.
    injection H as <- <- _. right. split; [discriminate|reflexivity].
  - destruct leaderId as [lid|]; [|discriminate].
    assert (Hlid : lid <> 0) by (now apply Z.eqb_neq).
    rewrite (deleteTeamMember_run d teamCode memberId lid Hlid) in H.
    destruct (integer d lid); simpl in H;
      [|injection H as <- <- _; right; split; [discriminate|reflexivity]].
    destruct (in_team d lid teamCode Role.leader); simpl in H;
      [|injection H as <- <- _; right; split; [discriminate|reflexivity]].
    destruct (memberId =? lid);
      [injection H as <- <- _; right; split; [discriminate|reflexivity]|].
    destruct (integer d memberId); simpl in H;
      [|injection H as <- <- _; right; split; [discriminate|reflexivity]].
    destruct (in_team d memberId teamCode Role.member); simpl in H;
      [|injection H as <- <- _; right; split; [discriminate|reflexivity]].
    destruct (referenced_elsewhere d memberId);
      [injection H as <- <- _; right; split; [discriminate|reflexivity]|].
    injection H as <- <- _. left. split; reflexivity.
Qed.

(** C5 (amended).  deleteTeamMember without a leaderId answers 400 "Leader
    ID is required" and sends no statement.  With a leaderId: it answers
    500 when the leaderId is no INTEGER (the SELECT raises), 403 when it is
    one and no leader of that team has it; rejects memberId = leaderId;
    answers 500 when the memberId is no INTEGER and 404 when it is one and
    no member of that team has it; and otherwise, between BEGIN and COMMIT,
    first releases the member's subtasks and then deletes the user row
    (when another row still refers to the member the DELETE raises and the
    release is rolled back).  After a successful call no subtask is
    assigned to the deleted id and no user row has it; after any other
    answer the database is what it was. *)
Theorem deleteTeamMember_outcomes (d : Db) (teamCode : string)
    (memberId : Z) :
  (forall leaderId,
     falsy leaderId = true ->
     run (Auth.deleteTeamMember teamCode memberId leaderId) d
     = (fail 400 "Leader ID is required", d, []))
  /\ (forall lid,
        lid <> 0 ->
        (integer d lid = false ->
         run (Auth.deleteTeamMember teamCode memberId (Some lid)) d
         = (fail 500 "Internal server error", d, [SELECT_user_in_team]))
        /\ (integer d lid = true ->
            ~ is_user_in_team d lid teamCode Role.leader ->
            run (Auth.deleteTeamMember teamCode memberId (Some lid)) d
            = (fail 403 "Only team leader can delete members", d,
               [SELECT_user_in_team]))
        /\ (is_user_in_team d lid teamCode Role.leader ->
            memberId = lid ->
            run (Auth.deleteTeamMember teamCode memberId (Some lid)) d
            = (fail 400 "Cannot delete yourself", d, [SELECT_user_in_team]))
        /\ (is_user_in_team d lid teamCode Role.leader ->
            memberId <> lid ->
            integer d memberId = false ->
            run (Auth.deleteTeamMember teamCode memberId (Some lid)) d
            = (fail 500 "Internal server error", d,
               [SELECT_user_in_team; SELECT_user_in_team]))
        /\ (is_user_in_team d lid teamCode Role.leader ->
            memberId <> lid ->
            integer d memberId = true ->
            ~ is_user_in_team d memberId teamCode Role.member ->
            run (Auth.deleteTeamMember teamCode memberId (Some lid)) d
            = (fail 404 "Member not found in your team", d,
               [SELECT_user_in_team; SELECT_user_in_team]))
        /\ (is_user_in_team d lid teamCode Role.leader ->
            memberId <> lid ->
            is_user_in_team d memberId teamCode Role.member ->
            referenced_elsewhere d memberId = false ->
            run (Auth.deleteTeamMember teamCode memberId (Some lid)) d
            = (ok (json_message "Member deleted successfully"),
               member_deleted d memberId,
               [SELECT_user_in_team; SELECT_user_in_team; BEGIN;
                UPDATE_subtasks_release; DELETE_user; COMMIT]))
        /\ (is_user_in_team d lid teamCode Role.leader ->
            memberId <> lid ->
            is_user_in_team d memberId teamCode Role.member ->
            referenced_elsewhere d memberId = true ->
            run (Auth.deleteTeamMember teamCode memberId (Some lid)) d
            = (fail 500 "Internal server error", d,
               [SELECT_user_in_team; SELECT_user_in_team; BEGIN;
                UPDATE_subtasks_release; DELETE_user; ROLLBACK])))
  /\ (forall leaderId res d' log,
        run (Auth.deleteTeamMember teamCode memberId leaderId) d
        = (res, d', log) ->
        (code res = 200 ->
         d' = member_deleted d memberId
         /\ (forall s, In s (subtasks d') ->
                       Subtask.assigned_to s <> Some memberId)
         /\ (forall u, In u (users d') -> User.id u <> memberId))
        /\ (code res <> 200 -> d' = d)).
Proof.
  pose proof (in_team_spec d memberId teamCode Role.member) as Hmember.
  split; [|split].
  - intros leaderId Hf. unfold run, Auth.deleteTeamMember, route, try_catch.
    now rewrite Hf.
  - intros lid Hlid.
    pose proof (deleteTeamMember_run d teamCode memberId lid Hlid) as Hrun.
    pose proof (in_team_spec d lid teamCode Role.leader) as Hleader.
    assert (Hlint : is_user_in_team d lid teamCode Role.leader ->
                    integer d lid = true).
    { intros Hl. apply Hleader in Hl.
      apply user_integer. now apply in_team_user in Hl. }
    assert (Hmint : is_user_in_team d memberId teamCode Role.member ->
                    integer d memberId = true).
    { intros Hm. apply Hmember in Hm.
      apply user_integer. now apply in_team_user in Hm. }
    split; [|split; [|split; [|split; [|split; [|split]]]]].
    + intros Hi. rewrite Hrun, Hi. reflexivity.
    + intros Hi Hn. rewrite Hrun, Hi. simpl.
      destruct (in_team d lid teamCode Role.leader); [|reflexivity].
      exfalso. apply Hn, Hleader. reflexivity.
    + intros Hl ->. rewrite Hrun, (Hlint Hl).
      apply Hleader in Hl. rewrite Hl, Z.eqb_refl. reflexivity.
    + intros Hl Hne Hi. rewrite Hrun, (Hlint Hl), Hi.
      apply Hleader in Hl. apply Z.eqb_neq in Hne. rewrite Hl, Hne.
      reflexivity.
    + intros Hl Hne Hi Hn. rewrite Hrun, (Hlint Hl), Hi.
      apply Hleader in Hl. apply Z.eqb_neq in Hne. rewrite Hl, Hne. simpl.
      destruct (in_team d memberId teamCode Role.member); [|reflexivity].
      exfalso. apply Hn, Hmember. reflexivity.
    + intros Hl Hne Hm Href. rewrite Hrun, (Hlint Hl), (Hmint Hm).
      apply Hleader in Hl. apply Hmember in Hm. apply Z.eqb_neq in Hne.
      rewrite Hl, Hne, Hm, Href. reflexivity.
    + intros Hl Hne Hm Href. rewrite Hrun, (Hlint Hl), (Hmint Hm).
      apply Hleader in Hl. apply Hmember in Hm. apply Z.eqb_neq in Hne.
      rewrite Hl, Hne, Hm, Href. reflexivity.
  - intros leaderId res d' log H.
    destruct (deleteTeamMember_effect d teamCode memberId leaderId res d' log H)
      as [(Hc & ->) | (Hc & ->)].
    + split; [|intros Hn; contradiction].
      intros _. split; [reflexivity|]. split.
      * intros s. apply release_all_not_assigned.
      * intros u Hin Hid. simpl in Hin.
        apply filter_In in Hin. destruct Hin as (_ & Hin).
        rewrite Hid, Z.eqb_refl in Hin. discriminate.
    + split; [intros Hy; contradiction | reflexivity].
Qed.

(** Leader 1 of team AB12CD deletes member 4, to whom subtasks 2 and 3 of
    the sample database are assigned. *)
Lemma deleteTeamMember_outcomes_witness :
  run (Auth.deleteTeamMember "AB12CD" 4 (Some 1)) Sample.db
  = (ok (json_message "Member deleted successfully"),
     mkDb [Sample.user 1 "a@x.com" Role.leader "AB12CD" Membership.approved;
           Sample.user 2 "b@x.com" Role.member "AB12CD" Membership.pending;
           Sample.user 3 "c@y.com" Role.leader "ZZ99ZZ" Membership.approved]
          (teams Sample.db) (tasks Sample.db)
          [Sample.subtask 1 1 None Status.available Progress.not_started;
           Sample.subtask 2 1 None Status.available Progress.in_progress;
           Sample.subtask 3 1 None Status.available Progress.completed]
          4,
     [SELECT_user_in_team; SELECT_user_in_team; BEGIN;
      UPDATE_subtasks_release; DELETE_user; COMMIT])
  /\ run (Auth.deleteTeamMember "AB12CD" 4 (Some 2)) Sample.db
     = (fail 403 "Only team leader can delete members", Sample.db,
        [SELECT_user_in_team]).
Proof.
  destruct (deleteTeamMember_outcomes Sample.db "AB12CD" 4) as (_ & H & _).
  split.
  - destruct (H 1) as (_ & _ & _ & _ & _ & H1 & _); [discriminate|].
    apply H1.
    + exists (Sample.user 1 "a@x.com" Role.leader "AB12CD" Membership.approved).
      simpl. tauto.
    + discriminate.
    + exists (Sample.user 4 "d@x.com" Role.member "AB12CD" Membership.approved).
      simpl. tauto.
    + reflexivity.
  - destruct (H 2) as (_ & H2 & _); [discriminate|].
    apply H2; [reflexivity|].
    intros (u & Hin & Hid & Htc & Hr). simpl in Hin.
    destruct Hin as [<- | [<- | [<- | [<- | []]]]]; discriminate.
Defined.

(** C5 as stated fails: a call without a leaderId names no leader of the
    team, and the answer is 400 "Leader ID is required", a validation
    error, not Forbidden; and a leaderId that is no INTEGER makes the
    SELECT raise, so that the answer is 500. *)
Lemma deleteTeamMember_without_leader_is_400 :
  run (Auth.deleteTeamMember "AB12CD" 4 None) Sample.db
  = (fail 400 "Leader ID is required", Sample.db, [])
  /\ code (fst (fst (run (Auth.deleteTeamMember "AB12CD" 4 None) Sample.db)))
     <> 403
  /\ in_team Sample.db 2147483648 "AB12CD" Role.leader = false
  /\ run (Auth.deleteTeamMember "AB12CD" 4 (Some 2147483648)) Sample.db
     = (fail 500 "Internal server error", Sample.db, [SELECT_user_in_team]).
Proof. repeat split. discriminate. Qed.

(** C8.  The release that deleteTeamMember performs writes assigned_to and
    status only: after a successful call every subtask that was assigned to
    the member is the same row with assigned_to NULL and status available,
    its progress and every other column as before, and every other subtask
    is untouched.  So for each progress value there is a run after which a
    released subtask has status available and that progress. *)
Theorem deleteTeamMember_release_keeps_progress :
  (forall (d : Db) (teamCode : string) (memberId : Z) (leaderId : option Z)
          (res : Response) (d' : Db) (log : list Stmt),
      run (Auth.deleteTeamMember teamCode memberId leaderId) d
      = (res, d', log) ->
      code res = 200 ->
      subtasks d'
      = map (fun s =>
               if col_is (Subtask.assigned_to s) memberId
               then Subtask.mk (Subtask.id s) (Subtask.task_id s)
                               (Subtask.title s) (Subtask.description s)
                               None Status.available (Subtask.progress s)
                               (Subtask.deadline s) (Subtask.created_at s)
                               (Subtask.updated_at s)
               else s)
            (subtasks d)
      /\ tasks d' = tasks d /\ teams d' = teams d)
  /\ (forall pr : Progress.t,
        let d := with_subtasks Sample.db
                   [Sample.subtask 1 1 (Some 4) Status.taken pr] in
        let r := run (Auth.deleteTeamMember "AB12CD" 4 (Some 1)) d in
        code (fst (fst r)) = 200
        /\ subtasks (snd (fst r))
           = [Sample.subtask 1 1 None Status.available pr]).
Proof.
  split.
  - intros d teamCode memberId leaderId res d' log H Hcode.
    destruct (deleteTeamMember_effect d teamCode memberId leaderId res d' log H)
      as [(_ & ->) | (Hc & _)]; [|contradiction].
    repeat split.
  - intros pr. split; reflexivity.
Qed.

(** In the sample database subtask 2 (in_progress) and subtask 3
    (completed) are assigned to member 4. *)
Lemma deleteTeamMember_release_keeps_progress_witness :
  subtasks (snd (fst (run (Auth.deleteTeamMember "AB12CD" 4 (Some 1)) Sample.db)))
  = [Sample.subtask 1 1 None Status.available Progress.not_started;
     Sample.subtask 2 1 None Status.available Progress.in_progress;
     Sample.subtask 3 1 None Status.available Progress.completed]
  /\ tasks (snd (fst (run (Auth.deleteTeamMember "AB12CD" 4 (Some 1)) Sample.db)))
     = tasks Sample.db
  /\ teams (snd (fst (run (Auth.deleteTeamMember "AB12CD" 4 (Some 1)) Sample.db)))
     = teams Sample.db.
Proof.
  destruct deleteTeamMember_release_keeps_progress as (H & _).
  apply (H Sample.db "AB12CD" 4 (Some 1)
           (fst (fst (run (Auth.deleteTeamMember "AB12CD" 4 (Some 1)) Sample.db)))
           (snd (fst (run (Auth.deleteTeamMember "AB12CD" 4 (Some 1)) Sample.db)))
           (snd (run (Auth.deleteTeamMember "AB12CD" 4 (Some 1)) Sample.db))).
  - reflexivity.
  - reflexivity.
Defined.

(* ------------------------------------------------------------------ *)
(** ** Tasks by status: the two definitions of the route *)

Lemma In_left_join {A B} (on : A -> B -> bool) (l : list A) (r : list B)
    (a : A) (ob : option B) :
  In (a, ob) (left_join on l r)
  <-> In a l
      /\ ((ob = None /\ filter (on a) r = [])
          \/ exists b, ob = Some b /\ In b (filter (on a) r)).
Proof.
  unfold left_join. rewrite in_flat_map. split.
  - intros (x & Hx & Hin).
    destruct (filter (on x) r) as [|b0 bs] eqn:E.
    + simpl in Hin. destruct Hin as [Heq | []].
      injection Heq as -> <-. split; [exact Hx|]. left. now split.
    + apply in_map_iff in Hin. destruct Hin as (b & Heq & Hb).
      injection Heq as -> <-. split; [exact Hx|]. right.
      exists b. split; [reflexivity|]. now rewrite E.
  - intros (Ha & [(-> & E) | (b & -> & Hb)]).
    + exists a. split; [exact Ha|]. rewrite E. simpl. now left.
    + exists a. split; [exact Ha|].
      destruct (filter (on a) r) as [|b0 bs] eqn:E; [contradiction|].
      apply in_map_iff. now exists b.
Qed.

Lemma In_insert_by {A} (le : A -> A -> bool) (x y : A) (l : list A) :
  In y (Tasks.insert_by le x l) <-> y = x \/ In y l.
Proof.
  induction l as [|z l IH]; simpl.
  - split; intros [H | H]; auto.
  - destruct (le x z); simpl.
    + split; intros [H | H]; auto.
    + rewrite IH. split; intros H; tauto.
Qed.

Lemma In_order_by {A} (le : A -> A -> bool) (y : A) (l : list A) :
  In y (Tasks.order_by le l) <-> In y l.
Proof.
  unfold Tasks.order_by. induction l as [|x l IH]; simpl; [tauto|].
  rewrite In_insert_by, IH. split; intros [H | H]; auto.
Qed.

(** [map_all] over a query that only reads, with a parameter that is an
    INTEGER for every element. *)
Lemma map_all_select_on {A B C} (s : Stmt) (p : A -> Z) (f : A -> Db -> B)
    (g : A -> B -> C) (l : list A) (c : Conn) :
  (forall x, In x l -> integer (cur c) (p x) = true) ->
  Tasks.map_all (fun x => bind (select_on [p x] s (f x)) (fun y => ret (g x y)))
                l c
  = (Done (map (fun x => g x (f x (cur c))) l),
     mkConn (cur c) (saved c) (issued c ++ repeat s (List.length l))).
Proof.
  revert c. induction l as [|x l IH]; intros c Hl; simpl.
  - unfold ret. rewrite app_nil_r. now destruct c.
  - unfold bind at 1. unfold bind at 1. unfold select_on, statement at 1.
    rewrite binding_1 by (apply Hl; now left). simpl.
    unfold ret at 1. unfold bind at 1. rewrite IH by (intros y Hy; apply Hl; now right).
    simpl. unfold ret. rewrite <- app_assoc. reflexivity.
Qed.

Lemma bind_select {A B} (s : Stmt) (f : Db -> A) (k : A -> Query B) (c : Conn) :
  bind (select s f) k c
  = k (f (cur c)) (mkConn (cur c) (saved c) (issued c ++ [s])).
Proof. reflexivity. Qed.

Lemma left_join_total {A B} (on : A -> B -> bool) (l : list A) (r : list B)
    (a : A) :
  In a l -> exists ob, In (a, ob) (left_join on l r).
Proof.
  intros Ha. destruct (filter (on a) r) as [|b bs] eqn:E.
  - exists None. apply In_left_join. split; [exact Ha|]. left. now split.
  - exists (Some b). apply In_left_join. split; [exact Ha|]. right.
    exists b. split; [reflexivity|]. rewrite E. now left.
Qed.

Lemma where_and (b : bool) (c : option bool) :
  Tasks.where_ (Tasks.sql_and (Some b) c) = true <-> b = true /\ c = Some true.
Proof.
  destruct b, c as [[|]|]; simpl; split; intros H;
    try discriminate; try tauto; destruct H; discriminate.
Qed.

(** A row is selected exactly when a row of the double join passes the
    WHERE clause: a task [t] of the team with a creator column [ou] and a
    subtask column [os] that is NULL if [t] has no subtask and otherwise
    one of its subtasks. *)
Lemma In_selected_rows (cond : option Status.t -> option bool)
    (teamCode : string) (d : Db) (row : TaskRow) :
  In row (selected_rows cond teamCode d)
  <-> exists t ou os,
        row = mkTaskRow t (option_map User.name ou)
                        (Tasks.count_subtasks d t)
                        (Tasks.count_completed_subtasks d t)
        /\ In (t, ou) (left_join (fun t u => col_is (Task.created_by t) (User.id u))
                                 (tasks d) (users d))
        /\ ((os = None /\ subtasks_of d t = [])
            \/ exists s, os = Some s /\ In s (subtasks_of d t))
        /\ Task.team_code t = teamCode
        /\ cond (option_map Subtask.status os) = Some true.
Proof.
  unfold selected_rows. rewrite in_map_iff. split.
  - intros (((t & ou) & os) & <- & Hin).
    apply filter_In in Hin. destruct Hin as (Hin & Hw).
    apply In_left_join in Hin. destruct Hin as (Htu & Hos).
    apply where_and in Hw. destruct Hw as (Hteam & Hcond).
    apply String.eqb_eq in Hteam.
    exists t, ou, os. simpl in *. tauto.
  - intros (t & ou & os & -> & Htu & Hos & Hteam & Hcond).
    exists (t, ou, os). split; [reflexivity|].
    apply filter_In. split.
    + apply In_left_join. now split.
    + apply where_and. simpl. split; [now apply String.eqb_eq | exact Hcond].
Qed.

Lemma In_listed (cond : string -> option Status.t -> option bool)
    (teamCode status : string) (d : Db) (x : TaskRow * list SubtaskRow) :
  In x (listed (run (Tasks.tasks_by_status cond teamCode status) d))
  <-> In (fst x) (selected_rows (cond status) teamCode d)
      /\ snd x = attached d (Task.id (r_task (fst x))).
Proof.
  unfold run, Tasks.tasks_by_status, route, try_catch,
    Tasks.select_tasks_by_status.
  rewrite bind_select. unfold bind at 1.
  fold (selected_rows (cond status) teamCode d).
  unfold Tasks.getSubtasksForTask.
  rewrite (map_all_select_on SELECT_subtasks_for_task
             (fun task : TaskRow => Task.id (r_task task))
             (fun (task : TaskRow) d0 => attached d0 (Task.id (r_task task)))
             (fun task subtasks => (task, subtasks))).
  - unfold ret, listed, ok. simpl body.
    rewrite in_map_iff. split.
    + intros (row & <- & Hin). simpl.
      apply In_order_by, nodup_In in Hin. now split.
    + intros (Hin & Hsnd). exists (fst x). split.
      * destruct x as (row & subs). simpl in *. now rewrite Hsnd.
      * now apply In_order_by, nodup_In.
  - intros row Hin. apply In_order_by, nodup_In in Hin.
    apply In_selected_rows in Hin.
    destruct Hin as (t & ou & os & -> & Htu & _).
    apply In_left_join in Htu. destruct Htu as (Ht & _).
    apply task_integer. simpl. apply existsb_exists. exists t.
    split; [exact Ht | apply Z.eqb_refl].
Qed.

Lemma active_first_some (os : option Subtask.t) :
  Tasks.statusCondition_first "active" (option_map Subtask.status os) = Some true
  <-> exists s, os = Some s /\ Subtask.status s <> Status.completed.
Proof.
  change (Tasks.statusCondition_first "active")
    with (fun s_status => Tasks.sql_ne s_status Status.completed).
  destruct os as [s|]; simpl.
  - split.
    + intros H. exists s. split; [reflexivity|].
      apply Status_eqb_neq. injection H as H.
      now apply negb_true_iff in H.
    + intros (s0 & Heq & Hne). injection Heq as <-.
      apply Status_eqb_neq in Hne. now rewrite Hne.
  - split; [discriminate|]. intros (s0 & Heq & _). discriminate.
Qed.

Lemma active_second_some (os : option Subtask.t) :
  Tasks.statusCondition_second "active" (option_map Subtask.status os) = Some true
  <-> os = None \/ exists s, os = Some s /\ Subtask.status s <> Status.completed.
Proof.
  change (Tasks.statusCondition_second "active")
    with (fun s_status => Tasks.sql_or (Tasks.sql_ne s_status Status.completed)
                                       (Tasks.sql_is_null s_status)).
  destruct os as [s|]; simpl.
  - destruct (Status.eqb (Subtask.status s) Status.completed) eqn:E; simpl.
    + split; [discriminate|]. intros [H | (s0 & Heq & Hne)]; [discriminate|].
      injection Heq as <-. apply Status_eqb_neq in Hne. congruence.
    + split; [|reflexivity]. intros _. right. exists s.
      split; [reflexivity|]. now apply Status_eqb_neq.
  - split; [|reflexivity]. intros _. now left.
Qed.

Lemma count_subtasks_length (d : Db) (t : Task.t) :
  Tasks.count_subtasks d t = Z.of_nat (List.length (subtasks_of d t)).
Proof. reflexivity. Qed.

(** C7.  The two definitions of the status route give the same answer for
    the completed filter.  Under the active filter every row of the first
    is a row of the second, and a row of the second is missing from the
    first exactly when its task has no subtask (total_subtasks = 0): a task
    of the team without subtasks is listed by the second definition (whose
    condition adds OR s.status IS NULL) and not by the first. *)
Theorem status_routes_differ_on_empty_tasks (d : Db) (teamCode : string) :
  run (Tasks.listByStatus_first teamCode "completed") d
  = run (Tasks.listByStatus_second teamCode "completed") d
  /\ (forall x,
        In x (listed (run (Tasks.listByStatus_first teamCode "active") d)) ->
        In x (listed (run (Tasks.listByStatus_second teamCode "active") d)))
  /\ (forall x,
        In x (listed (run (Tasks.listByStatus_second teamCode "active") d)) ->
        total_subtasks (fst x)
        = Z.of_nat (List.length (subtasks_of d (r_task (fst x))))
        /\ (In x (listed (run (Tasks.listByStatus_first teamCode "active") d))
            <-> total_subtasks (fst x) <> 0))
  /\ (forall t,
        In t (tasks d) ->
        Task.team_code t = teamCode ->
        subtasks_of d t = [] ->
        (exists x,
            In x (listed (run (Tasks.listByStatus_second teamCode "active") d))
            /\ r_task (fst x) = t)
        /\ (forall x,
              In x (listed (run (Tasks.listByStatus_first teamCode "active") d)) ->
              r_task (fst x) <> t)).
Proof.
  unfold Tasks.listByStatus_first, Tasks.listByStatus_second.
  split; [reflexivity|]. split; [|split].
  - intros x Hx. apply In_listed in Hx. apply In_listed.
    destruct Hx as (Hrow & Hsnd). split; [|exact Hsnd].
    apply In_selected_rows in Hrow. apply In_selected_rows.
    destruct Hrow as (t & ou & os & Heq & Htu & Hos & Hteam & Hcond).
    exists t, ou, os. repeat (split; [assumption|]).
    apply active_second_some. right. now apply active_first_some.
  - intros x Hx. apply In_listed in Hx. destruct Hx as (Hrow & Hsnd).
    apply In_selected_rows in Hrow.
    destruct Hrow as (t & ou & os & Heq & Htu & Hos & Hteam & Hcond).
    rewrite Heq. simpl. split; [apply count_subtasks_length|].
    rewrite count_subtasks_length. split.
    + intros Hfirst. apply In_listed in Hfirst. destruct Hfirst as (Hrow1 & _).
      apply In_selected_rows in Hrow1.
      destruct Hrow1 as (t1 & ou1 & os1 & Heq1 & _ & Hos1 & _ & Hcond1).
      rewrite Heq in Heq1. injection Heq1 as <- _.
      apply active_first_some in Hcond1. destruct Hcond1 as (s & -> & _).
      destruct Hos1 as [(Hnone & _) | (s1 & _ & Hin)]; [discriminate|].
      destruct (subtasks_of d t); [contradiction | discriminate].
    + intros Hcount. apply In_listed. split; [|exact Hsnd].
      apply In_selected_rows. exists t, ou, os.
      repeat (split; [assumption|]).
      apply active_first_some. apply active_second_some in Hcond.
      destruct Hcond as [-> | Hsome]; [|exact Hsome].
      destruct Hos as [(_ & Hempty) | (s & Hs & _)]; [|discriminate].
      rewrite Hempty in Hcount. contradiction.
  - intros t Ht Hteam Hempty. split.
    + destruct (left_join_total
                  (fun t0 u => col_is (Task.created_by t0) (User.id u))
                  (tasks d) (users d) t Ht) as (ou & Htu).
      exists (mkTaskRow t (option_map User.name ou)
                        (Tasks.count_subtasks d t)
                        (Tasks.count_completed_subtasks d t),
              attached d (Task.id t)).
      split; [|reflexivity]. apply In_listed. split; [|reflexivity].
      apply In_selected_rows. exists t, ou, None.
      split; [reflexivity|]. split; [exact Htu|]. split; [left; now split|].
      split; [exact Hteam|]. apply active_second_some. now left.
    + intros x Hx Hxt. apply In_listed in Hx. destruct Hx as (Hrow & _).
      apply In_selected_rows in Hrow.
      destruct Hrow as (t1 & ou1 & os1 & Heq & _ & Hos1 & _ & Hcond1).
      rewrite Heq in Hxt. simpl in Hxt. subst t1.
      apply active_first_some in Hcond1. destruct Hcond1 as (s & -> & _).
      destruct Hos1 as [(Hnone & _) | (s1 & _ & Hin)]; [discriminate|].
      rewrite Hempty in Hin. contradiction.
Qed.

(** Task 2 of the sample database has no subtask: the second definition
    lists tasks 2 and 1 as active, the first lists task 1 only. *)
Lemma status_routes_differ_on_empty_tasks_witness :
  map (fun x => Task.id (r_task (fst x)))
      (listed (run (Tasks.listByStatus_first "AB12CD" "active") Sample.db))
  = [1]
  /\ map (fun x => Task.id (r_task (fst x)))
         (listed (run (Tasks.listByStatus_second "AB12CD" "active") Sample.db))
     = [2; 1]
  /\ (exists x,
         In x (listed (run (Tasks.listByStatus_second "AB12CD" "active") Sample.db))
         /\ r_task (fst x) = Task.mk 2 "T2" None "AB12CD" (Some 1) 6 "active" 6)
  /\ (forall x,
        In x (listed (run (Tasks.listByStatus_first "AB12CD" "active") Sample.db)) ->
        r_task (fst x) <> Task.mk 2 "T2" None "AB12CD" (Some 1) 6 "active" 6).
Proof.
  split; [reflexivity|]. split; [reflexivity|].
  destruct (status_routes_differ_on_empty_tasks Sample.db "AB12CD")
    as (_ & _ & _ & H).
  apply (H (Task.mk 2 "T2" None "AB12CD" (Some 1) 6 "active" 6)).
  - simpl. tauto.
  - reflexivity.
  - reflexivity.
Defined.

(* ------------------------------------------------------------------ *)
(** ** Further properties of the claim and progress routes *)

Lemma find_map_if {A} (p : A -> bool) (f : A -> A) (l : list A) :
  (forall a, p (f a) = p a) ->
  find p (map (fun a => if p a then f a else a) l) = option_map f (find p l).
Proof.
  intros Hf. induction l as [|a l IH]; simpl; [reflexivity|].
  destruct (p a) eqn:E.
  - now rewrite Hf, E.
  - now rewrite E.
Qed.

(** X1.  Two calls of takeSubtask for the same available subtask, one after the
    other: the first succeeds, the second, whoever makes it, is answered
    400 and changes nothing. *)
Theorem takeSubtask_twice (d : Db) (subtaskId uid uid' : Z) (s : Subtask.t) :
  uid <> 0 ->
  uid' <> 0 ->
  subtask_by_id d subtaskId = Some s ->
  Subtask.status s = Status.available ->
  user_exists d uid ->
  exists first d1,
    run (Tasks.takeSubtask subtaskId (Some uid)) d = (first, d1,
      [BEGIN; SELECT_subtask_FOR_UPDATE; UPDATE_subtask_assignment; COMMIT;
       SELECT_subtask_details])
    /\ code first = 200
    /\ run (Tasks.takeSubtask subtaskId (Some uid')) d1
       = (fail 400 "This subtask is no longer available", d1,
          [BEGIN; SELECT_subtask_FOR_UPDATE; ROLLBACK])
    /\ option_map Subtask.assigned_to (subtask_by_id d1 subtaskId)
       = Some (Some uid).
Proof.
  intros Huid Huid' Hs Hav Hu.
  destruct (take_available d subtaskId uid Huid s Hs Hav Hu) as (details & E).
  assert (Hs1 : subtask_by_id
                  (reassign_in d subtaskId (Some uid) Status.taken
                               Progress.in_progress) subtaskId
                = Some (reassigned (Some uid) Status.taken Progress.in_progress s)).
  { unfold subtask_by_id, reassign_in, with_subtasks. simpl.
    rewrite (find_map_if (fun r => Subtask.id r =? subtaskId)
               (reassigned (Some uid) Status.taken Progress.in_progress))
      by reflexivity.
    unfold subtask_by_id in Hs. now rewrite Hs. }
  eexists. eexists. split; [exact E|]. split; [reflexivity|]. split.
  - apply (take_not_available _ subtaskId uid' Huid'
             (reassigned (Some uid) Status.taken Progress.in_progress s) Hs1).
    discriminate.
  - now rewrite Hs1.
Qed.

(** User 2 claims subtask 1 of the sample database; user 3 comes second. *)
Lemma takeSubtask_twice_witness :
  exists first d1,
    run (Tasks.takeSubtask 1 (Some 2)) Sample.db = (first, d1,
      [BEGIN; SELECT_subtask_FOR_UPDATE; UPDATE_subtask_assignment; COMMIT;
       SELECT_subtask_details])
    /\ code first = 200
    /\ run (Tasks.takeSubtask 1 (Some 3)) d1
       = (fail 400 "This subtask is no longer available", d1,
          [BEGIN; SELECT_subtask_FOR_UPDATE; ROLLBACK])
    /\ option_map Subtask.assigned_to (subtask_by_id d1 1) = Some (Some 2).
Proof.
  apply (takeSubtask_twice Sample.db 1 2 3
           (Sample.subtask 1 1 None Status.available Progress.not_started)).
  - discriminate.
  - discriminate.
  - reflexivity.
  - reflexivity.
  - exists (Sample.user 2 "b@x.com" Role.member "AB12CD" Membership.pending).
    split; [simpl; tauto | reflexivity].
Defined.

Lemma filter_inner_join_none {A B} (on : A -> B -> bool) (p : A -> bool)
    (l : list A) (r : list B) :
  find p l = None ->
  filter (fun ab => p (fst ab)) (inner_join on l r) = [].
Proof.
  intros H. unfold inner_join.
  induction l as [|x l IH]; simpl in *; [reflexivity|].
  rewrite filter_app, filter_fst_pairs.
  destruct (p x); [discriminate|]. simpl. now apply IH.
Qed.

(** X2.  updateProgress turns a call away without writing: 400 when progress
    or userId is missing; otherwise 500 when the subtask id is no INTEGER
    (the SELECT raises), 404 when it is one and no subtask has it, 500
    when the caller's id is no INTEGER, 403 when it is one and no user has
    it, and 403 when the caller is neither the assignee, nor the creator
    of the owning task, nor a leader of the task's team. *)
Theorem updateProgress_rejections (d : Db) (subtaskId : Z) :
  (forall progress userId,
     progress = None \/ falsy userId = true ->
     run (Tasks.updateProgress subtaskId progress userId) d
     = (fail 400 "Progress and user ID are required", d, []))
  /\ (forall progress uid,
        uid <> 0 ->
        (integer d subtaskId = false ->
         run (Tasks.updateProgress subtaskId (Some progress) (Some uid)) d
         = (fail 500 "Internal server error", d, [SELECT_subtask_with_task]))
        /\ (integer d subtaskId = true ->
            subtask_by_id d subtaskId = None ->
            run (Tasks.updateProgress subtaskId (Some progress) (Some uid)) d
            = (fail 404 "Subtask not found", d, [SELECT_subtask_with_task]))
        /\ (forall s t,
              subtask_by_id d subtaskId = Some s ->
              task_of d s = Some t ->
              integer d uid = false ->
              run (Tasks.updateProgress subtaskId (Some progress) (Some uid)) d
              = (fail 500 "Internal server error", d,
                 [SELECT_subtask_with_task; SELECT_user_role]))
        /\ (forall s t,
              subtask_by_id d subtaskId = Some s ->
              task_of d s = Some t ->
              integer d uid = true ->
              user_by_id d uid = None ->
              run (Tasks.updateProgress subtaskId (Some progress) (Some uid)) d
              = (fail 403 "User not found", d,
                 [SELECT_subtask_with_task; SELECT_user_role]))
        /\ (forall s t u,
              subtask_by_id d subtaskId = Some s ->
              task_of d s = Some t ->
              user_by_id d uid = Some u ->
              Subtask.assigned_to s <> Some uid ->
              Task.created_by t <> Some uid ->
              ~ (User.role u = Role.leader
                 /\ User.team_code u = Task.team_code t) ->
              run (Tasks.updateProgress subtaskId (Some progress) (Some uid)) d
              = (fail 403 "Not authorized to update this subtask", d,
                 [SELECT_subtask_with_task; SELECT_user_role]))).
Proof.
  split.
  - intros progress userId H.
    unfold run, Tasks.updateProgress, route, try_catch.
    destruct progress as [pr|]; [|reflexivity].
    destruct H as [H | H]; [discriminate|]. now rewrite H.
  - intros progress uid Huid.
    unfold run, Tasks.updateProgress, route, try_catch.
    rewrite (falsy_some uid Huid).
    unfold bind, Tasks.select_subtask_with_task, Tasks.select_user_role,
      select_on, statement.
    split; [|split; [|split; [|split]]].
    + intros Hi. cbn. rewrite (binding_raises_1 _ _ _ Hi). reflexivity.
    + intros Hi H.
      pose proof (filter_inner_join_none
                    (fun s0 t0 => col_is (Subtask.task_id s0) (Task.id t0))
                    (fun s0 => Subtask.id s0 =? subtaskId)
                    (subtasks d) (tasks d) H) as Hj.
      cbn. rewrite (binding_1 _ _ _ Hi). cbn. rewrite Hj. reflexivity.
    + intros s t Hs Ht Hi.
      pose proof (subtask_integer d subtaskId (existsb_find_some _ _ _ Hs))
        as Hint.
      destruct (hd_filter_inner_join
                  (fun s0 t0 => col_is (Subtask.task_id s0) (Task.id t0))
                  (fun s0 => Subtask.id s0 =? subtaskId)
                  (subtasks d) (tasks d) s t Hs Ht) as (rest & Hjoin).
      cbn. rewrite (binding_1 _ _ _ Hint). cbn. rewrite Hjoin. cbn.
      rewrite (binding_raises_1 _ _ _ Hi). reflexivity.
    + intros s t Hs Ht Hi Hu.
      pose proof (subtask_integer d subtaskId (existsb_find_some _ _ _ Hs))
        as Hint.
      destruct (hd_filter_inner_join
                  (fun s0 t0 => col_is (Subtask.task_id s0) (Task.id t0))
                  (fun s0 => Subtask.id s0 =? subtaskId)
                  (subtasks d) (tasks d) s t Hs Ht) as (rest & Hjoin).
      apply filter_nil_find in Hu.
      cbn. rewrite (binding_1 _ _ _ Hint). cbn. rewrite Hjoin. cbn.
      rewrite (binding_1 _ _ _ Hi). cbn. rewrite Hu. reflexivity.
    + intros s t u Hs Ht Hu Hna Hnc Hnl.
      pose proof (subtask_integer d subtaskId (existsb_find_some _ _ _ Hs))
        as Hint.
      pose proof (user_integer d uid (existsb_find_some _ _ _ Hu)) as Huint.
      destruct (hd_filter_inner_join
                  (fun s0 t0 => col_is (Subtask.task_id s0) (Task.id t0))
                  (fun s0 => Subtask.id s0 =? subtaskId)
                  (subtasks d) (tasks d) s t Hs Ht) as (rest & Hjoin).
      destruct (filter_cons_find _ _ _ Hu) as (urest & Husers).
      assert (Ha : col_is (Subtask.assigned_to s) uid = false).
      { destruct (Subtask.assigned_to s) as [a|]; simpl; [|reflexivity].
        apply Z.eqb_neq. congruence. }
      assert (Hc : col_is (Task.created_by t) uid = false).
      { destruct (Task.created_by t) as [a|]; simpl; [|reflexivity].
        apply Z.eqb_neq. congruence. }
      assert (Hl : Role.eqb (User.role u) Role.leader
                   && String.eqb (User.team_code u) (Task.team_code t) = false).
      { destruct (Role.eqb (User.role u) Role.leader) eqn:E1; [|reflexivity].
        destruct (String.eqb (User.team_code u) (Task.team_code t)) eqn:E2;
          [|reflexivity].
        exfalso. apply Hnl. split.
        - now apply Role_eqb_eq.
        - now apply String.eqb_eq. }
      cbn. rewrite (binding_1 _ _ _ Hint). cbn. rewrite Hjoin. cbn.
      rewrite (binding_1 _ _ _ Huint). cbn. rewrite Husers. cbn.
      rewrite Ha, Hc, Hl. reflexivity.
Qed.

(** Member 2 of the sample database is not the assignee of subtask 2, did
    not create task 1 and leads no team; 2147483648 is no INTEGER. *)
Lemma updateProgress_rejections_witness :
  run (Tasks.updateProgress 2 (Some Progress.completed) (Some 2)) Sample.db
  = (fail 403 "Not authorized to update this subtask", Sample.db,
     [SELECT_subtask_with_task; SELECT_user_role])
  /\ run (Tasks.updateProgress 2147483648 (Some Progress.completed) (Some 2))
         Sample.db
     = (fail 500 "Internal server error", Sample.db, [SELECT_subtask_with_task]).
Proof.
  split.
  - destruct (updateProgress_rejections Sample.db 2) as (_ & H).
    destruct (H Progress.completed 2) as (_ & _ & _ & _ & H5); [discriminate|].
    apply (H5 (Sample.subtask 2 1 (Some 4) Status.taken Progress.in_progress)
              (Task.mk 1 "T1" None "AB12CD" (Some 1) 5 "active" 5)
              (Sample.user 2 "b@x.com" Role.member "AB12CD" Membership.pending)).
    + reflexivity.
    + reflexivity.
    + reflexivity.
    + discriminate.
    + discriminate.
    + intros (H1 & _). discriminate.
  - destruct (updateProgress_rejections Sample.db 2147483648) as (_ & H).
    destruct (H Progress.completed 2) as (H1 & _); [discriminate|].
    apply H1. reflexivity.
Defined.

(* ------------------------------------------------------------------ *)
(** ** Creating a task *)

Lemma existsb_app_last {A} (p : A -> bool) (l : list A) (a : A) :
  p a = true -> existsb p (l ++ [a]) = true.
Proof.
  intros H. rewrite existsb_app. simpl. rewrite H. apply orb_true_r.
Qed.

Lemma refers_to_user_integer (d : Db) (a : option Z) :
  refers_to_user d a = true -> forallb (integer d) (nullable a) = true.
Proof.
  destruct a as [n|]; simpl; [|reflexivity].
  intros H. now rewrite (user_integer d n H).
Qed.

(** One INSERT of the loop: it keeps the open transaction, the statement
    list and the sequence, and it inserts the row when the title can be
    stored, the id is an INTEGER that no subtask has, and the assignee, if
    there is one, is a user; it raises otherwise. *)
Lemma insert_subtask_spec (E : Env) (id taskId : Z) (title : string)
    (description : option string) (assignedTo : option Z)
    (status : Status.t) (progress : Progress.t) (c : Conn) :
  has_task (cur c) taskId = true ->
  if storable 255 title && refers_to_user (cur c) assignedTo
     && (int4 id
         && negb (existsb (fun s => Subtask.id s =? id) (subtasks (cur c))))
  then TaskRoutes.insert_subtask E id taskId title description assignedTo
                                 status progress c
       = (Done tt,
          mkConn (with_subtasks (cur c)
                    (subtasks (cur c)
                     ++ [Subtask.mk id (Some taskId) (take 255 title) description
                                    assignedTo status progress None
                                    (NOW E) (NOW E)]))
                 (saved c) (issued c))
  else exists e,
      TaskRoutes.insert_subtask E id taskId title description assignedTo
                                status progress c
      = (Thrown e, c).
Proof.
  intros Htask. pose proof (task_integer (cur c) taskId Htask) as Hint.
  unfold TaskRoutes.insert_subtask, effect, binding, varchar.
  cbn [forallb]. rewrite Hint. cbn [andb].
  destruct (int4 id) eqn:Hid;
    destruct (existsb (fun s => Subtask.id s =? id) (subtasks (cur c)))
      eqn:Hkey;
    destruct (refers_to_user (cur c) assignedTo) eqn:Hu;
    rewrite ?(refers_to_user_integer _ _ Hu), ?Htask;
    destruct (storable 255 title);
    cbn [andb negb orb fst snd];
    try reflexivity;
    try (destruct (forallb (integer (cur c)) (nullable assignedTo));
         cbn [andb negb orb fst snd]);
    rewrite ?Htask; cbn [andb negb orb fst snd];
    eexists; destruct c; reflexivity.
Qed.

Lemma subtask_ids_free_after (rows : list Subtask.t) (row : Subtask.t)
    (n : nat) :
  forall next,
    Subtask.id row < next ->
    subtask_ids_free (rows ++ [row]) next n = subtask_ids_free rows next n.
Proof.
  induction n as [|n IH]; intros next Hlt; [reflexivity|].
  cbn [subtask_ids_free]. rewrite IH by lia.
  rewrite existsb_app. cbn [existsb].
  assert (Hne : (Subtask.id row =? next) = false) by (apply Z.eqb_neq; lia).
  rewrite Hne. cbn [orb]. now rewrite orb_false_r.
Qed.

(** The insertion loop keeps the open transaction, the statement list and
    the sequence of [users.id], and either inserts every row or raises. *)
Lemma insert_subtasks_spec (E : Env) (taskId : Z) (assignSpecific : bool)
    (l : list TaskRoutes.NewSubtask) :
  forall (next : Z) (c : Conn),
    has_task (cur c) taskId = true ->
    saved (snd (TaskRoutes.insert_subtasks E taskId assignSpecific next l c))
    = saved c
    /\ issued (snd (TaskRoutes.insert_subtasks E taskId assignSpecific next l c))
       = issued c
    /\ users_id_seq
         (cur (snd (TaskRoutes.insert_subtasks E taskId assignSpecific next l c)))
       = users_id_seq (cur c)
    /\ if titles_fit l && assignees_known (cur c) assignSpecific l
          && subtask_ids_free (subtasks (cur c)) next (List.length l)
       then TaskRoutes.insert_subtasks E taskId assignSpecific next l c
            = (Done tt,
               mkConn (with_subtasks (cur c)
                         (subtasks (cur c)
                          ++ new_subtask_rows E taskId assignSpecific next l))
                      (saved c) (issued c))
       else exists e,
           fst (TaskRoutes.insert_subtasks E taskId assignSpecific next l c)
           = Thrown e.
Proof.
  induction l as [|x l IH]; intros next c Htask.
  - simpl. unfold ret, with_subtasks. rewrite app_nil_r.
    destruct c as [[us ts tk st sq] sv lg]; simpl. repeat split.
  - simpl TaskRoutes.insert_subtasks. unfold TaskRoutes.initial_state.
    fold (assigns assignSpecific x).
    cbn [titles_fit assignees_known forallb List.length subtask_ids_free].
    fold (titles_fit l). fold (assignees_known (cur c) assignSpecific l).
    set (a := if assigns assignSpecific x
              then TaskRoutes.ns_assigned_to x else None).
    set (st := if assigns assignSpecific x
               then Status.assigned else Status.available).
    set (pr := if assigns assignSpecific x
               then Progress.assigned else Progress.not_started).
    assert (Hshape :
              (let '(status, assignedTo, progress) :=
                 if assigns assignSpecific x
                 then (Status.assigned, TaskRoutes.ns_assigned_to x,
                       Progress.assigned)
                 else (Status.available, None, Progress.not_started) in
               bind (TaskRoutes.insert_subtask E next taskId
                       (TaskRoutes.ns_title x)
                       (or_null (TaskRoutes.ns_description x))
                       assignedTo status progress)
                    (fun _ => TaskRoutes.insert_subtasks E taskId assignSpecific
                                (next + 1) l))
              = bind (TaskRoutes.insert_subtask E next taskId
                        (TaskRoutes.ns_title x)
                        (or_null (TaskRoutes.ns_description x)) a st pr)
                     (fun _ => TaskRoutes.insert_subtasks E taskId assignSpecific
                                 (next + 1) l)).
    { unfold a, st, pr. now destruct (assigns assignSpecific x). }
    rewrite Hshape. clear Hshape.
    assert (Hknown : (if assigns assignSpecific x
                      then refers_to_user (cur c) (TaskRoutes.ns_assigned_to x)
                      else true)
                     = refers_to_user (cur c) a).
    { unfold a. now destruct (assigns assignSpecific x). }
    rewrite Hknown. clear Hknown.
    pose proof (insert_subtask_spec E next taskId (TaskRoutes.ns_title x)
                  (or_null (TaskRoutes.ns_description x)) a st pr c Htask)
      as Hone.
    unfold bind.
    destruct (storable 255 (TaskRoutes.ns_title x)
              && refers_to_user (cur c) a
              && (int4 next
                  && negb (existsb (fun s => Subtask.id s =? next)
                                   (subtasks (cur c))))) eqn:Hhead.
    + apply andb_true_iff in Hhead. destruct Hhead as (Hhead & Hid).
      apply andb_true_iff in Hhead. destruct Hhead as (Hfit & Hu).
      rewrite Hone, Hfit, Hu, Hid. cbn [andb].
      match goal with
      | |- context [TaskRoutes.insert_subtasks E taskId assignSpecific (next + 1) l ?c1] =>
          specialize (IH (next + 1) c1 Htask)
      end.
      destruct IH as (IH1 & IH2 & IH3 & IH4). simpl in IH1, IH2, IH3, IH4.
      split; [exact IH1|]. split; [exact IH2|]. split; [exact IH3|].
      change (assignees_known (with_subtasks (cur c) _) assignSpecific l)
        with (assignees_known (cur c) assignSpecific l) in IH4.
      rewrite subtask_ids_free_after in IH4 by (cbn [Subtask.id]; lia).
      destruct (titles_fit l && assignees_known (cur c) assignSpecific l
                && subtask_ids_free (subtasks (cur c)) (next + 1)
                                    (List.length l)).
      * rewrite IH4. simpl. unfold with_subtasks. simpl.
        rewrite <- app_assoc. reflexivity.
      * exact IH4.
    + destruct Hone as (e & ->). cbn [fst snd]. repeat split.
      assert (Hcond : storable 255 (TaskRoutes.ns_title x) && titles_fit l
                      && (refers_to_user (cur c) a
                          && assignees_known (cur c) assignSpecific l)
                      && (int4 next
                          && negb (existsb (fun s => Subtask.id s =? next)
                                           (subtasks (cur c)))
                          && subtask_ids_free (subtasks (cur c)) (next + 1)
                                              (List.length l))
                      = false).
      { destruct (storable 255 (TaskRoutes.ns_title x));
          destruct (refers_to_user (cur c) a);
          destruct (int4 next
                    && negb (existsb (fun s => Subtask.id s =? next)
                                     (subtasks (cur c))));
          cbn [andb] in Hhead |- *;
          rewrite ?andb_false_r; try reflexivity; discriminate Hhead. }
      rewrite Hcond. now exists e.
Qed.

Lemma bind_query_on {A B} (a : Z) (f : Db -> A) (k : A -> Query B)
    (c : Conn) :
  integer (cur c) a = true ->
  bind (query_on [a] f) k c
  = k (f (cur c)) (mkConn (cur c) (saved c) (issued c)).
Proof.
  intros H. unfold bind, query_on, effect. now rewrite (binding_1 _ _ _ H).
Qed.

Lemma bind_query_on_raises {A B} (a : Z) (f : Db -> A) (k : A -> Query B)
    (c : Conn) :
  integer (cur c) a = false ->
  bind (query_on [a] f) k c
  = (Thrown numeric_value_out_of_range,
     mkConn (cur c) (saved c) (issued c)).
Proof.
  intros H. unfold bind, query_on, effect.
  now rewrite (binding_raises_1 _ _ _ H).
Qed.

Lemma getTaskWithSubtasks_reads (taskId : Z) (c : Conn) :
  integer (cur c) taskId = true ->
  fst (TaskRoutes.getTaskWithSubtasks taskId c) = Done (task_view (cur c) taskId)
  /\ cur (snd (TaskRoutes.getTaskWithSubtasks taskId c)) = cur c
  /\ saved (snd (TaskRoutes.getTaskWithSubtasks taskId c)) = saved c.
Proof.
  intros Hint.
  unfold TaskRoutes.getTaskWithSubtasks, TaskRoutes.select_task_by_id,
    Tasks.getSubtasksForTask, task_view.
  rewrite (bind_query_on _ _ _ _ Hint).
  destruct (filter (fun tu => Task.id (fst tu) =? taskId)
              (left_join (fun t u => col_is (Task.created_by t) (User.id u))
                 (tasks (cur c)) (users (cur c)))) as [|[t ou] rest].
  - repeat split.
  - cbn [map fst snd]. rewrite bind_select_on by exact Hint. repeat split.
Qed.

(** The INSERT of the task: it inserts the row when title and team code
    can be stored, the id is an INTEGER that no task has and the creator
    is a user, and raises otherwise. *)
Lemma insert_task_spec (E : Env) (id : Z) (title : string)
    (description : option string) (teamCode : string) (createdBy : Z)
    (c : Conn) :
  if storable 255 title && storable 10 teamCode
     && (int4 id && negb (has_task (cur c) id))
     && has_user (cur c) createdBy
  then TaskRoutes.insert_task E id title description teamCode createdBy c
       = (Done (Task.mk id (take 255 title) description (take 10 teamCode)
                        (Some createdBy) (NOW E) "active" (NOW E)),
          mkConn (with_tasks (cur c)
                    (tasks (cur c)
                     ++ [Task.mk id (take 255 title) description
                                 (take 10 teamCode) (Some createdBy)
                                 (NOW E) "active" (NOW E)]))
                 (saved c) (issued c))
  else exists e,
      TaskRoutes.insert_task E id title description teamCode createdBy c
      = (Thrown e, c).
Proof.
  unfold TaskRoutes.insert_task, effect, binding, varchar. cbn [forallb].
  destruct (int4 id) eqn:Hid;
    destruct (has_task (cur c) id) eqn:Hkey;
    destruct (has_user (cur c) createdBy) eqn:Hu;
    rewrite ?(user_integer _ _ Hu);
    destruct (storable 255 title);
    destruct (storable 10 teamCode);
    cbn [andb negb orb fst snd];
    try reflexivity;
    try (destruct (integer (cur c) createdBy); cbn [andb negb orb fst snd]);
    eexists; destruct c; reflexivity.
Qed.

(** What the create route does once its guard on the fields is passed. *)
Lemma createTask_run (E : Env) (S : Serial) (d : Db) (title : string)
    (description : option string) (teamCode : string) (createdBy : Z)
    (l : list TaskRoutes.NewSubtask) (assignSpecific : bool) :
  title <> "" ->
  teamCode <> "" ->
  createdBy <> 0 ->
  l <> [] ->
  if creates S d title teamCode createdBy l assignSpecific
  then serve (TaskRoutes.createTask E S title description teamCode
                (Some createdBy) l assignSpecific) d
       = (Json ("Task created successfully",
                task_view (task_created E S d title description teamCode
                             createdBy l assignSpecific)
                          (tasks_id_seq S + 1)),
          task_created E S d title description teamCode createdBy l assignSpecific)
  else serve (TaskRoutes.createTask E S title description teamCode
                (Some createdBy) l assignSpecific) d
       = (Failure 500 "Internal server error", d).
Proof.
  intros Ht Htc Hcb Hl.
  assert (Hguard : blank title || blank teamCode || falsy (Some createdBy)
                   || (List.length l =? 0)%nat = false).
  { unfold blank. apply String.eqb_neq in Ht. apply String.eqb_neq in Htc.
    rewrite Ht, Htc, (falsy_some createdBy Hcb). simpl.
    destruct l; [contradiction|reflexivity]. }
  set (row := Task.mk (tasks_id_seq S + 1) (take 255 title) description
                      (take 10 teamCode) (Some createdBy) (NOW E) "active"
                      (NOW E)).
  pose proof (insert_task_spec E (tasks_id_seq S + 1) title description
                teamCode createdBy (mkConn d (Some d) ([] ++ [BEGIN])))
    as Htask.
  pose proof (insert_subtasks_spec E (tasks_id_seq S + 1) assignSpecific l
                (subtasks_id_seq S + 1)
                (mkConn (with_tasks d (tasks d ++ [row])) (Some d)
                        ([] ++ [BEGIN])))
    as Hloop.
  cbn [cur saved issued] in Htask, Hloop. fold row in Htask.
  destruct Hloop as (Hsaved & _ & Hseq & Hloop).
  { unfold has_task, with_tasks. cbn [tasks].
    apply existsb_app_last. cbn [Task.id row]. apply Z.eqb_refl. }
  change (assignees_known (with_tasks d _) assignSpecific l)
    with (assignees_known d assignSpecific l) in Hloop.
  change (subtasks (with_tasks d _)) with (subtasks d) in Hloop.
  unfold creates, tasks_id_free.
  destruct (storable 255 title && storable 10 teamCode
            && (int4 (tasks_id_seq S + 1)
                && negb (has_task d (tasks_id_seq S + 1)))
            && has_user d createdBy);
    cbn [andb];
    [destruct (titles_fit l && assignees_known d assignSpecific l
               && subtask_ids_free (subtasks d) (subtasks_id_seq S + 1)
                                   (List.length l))|];
    unfold serve, TaskRoutes.createTask, serve_route; rewrite Hguard;
    unfold try_catch; unfold bind at 1; unfold begin_;
    unfold bind at 1; cbn [cur saved issued parseInt].
  - rewrite Htask. cbn [Task.id row]. unfold bind at 1. fold row.
    rewrite Hloop. unfold bind at 1. unfold commit. cbn [cur saved issued].
    unfold bind at 1.
    match goal with
    | |- context [TaskRoutes.getTaskWithSubtasks ?tid ?c2] =>
        destruct (getTaskWithSubtasks_reads tid c2) as (Hres & Hcur & _);
        [|destruct (TaskRoutes.getTaskWithSubtasks tid c2) as [r c']]
    end.
    { apply task_integer. cbn [cur tasks with_subtasks with_tasks].
      apply existsb_app_last. cbn [Task.id row]. apply Z.eqb_refl. }
    cbn [fst snd cur] in Hres, Hcur. subst r. unfold ret. rewrite Hcur.
    reflexivity.
  - rewrite Htask. cbn [Task.id row]. unfold bind at 1. fold row.
    destruct Hloop as (e & He).
    destruct (TaskRoutes.insert_subtasks E (tasks_id_seq S + 1) assignSpecific
                (subtasks_id_seq S + 1) l
                (mkConn (with_tasks d (tasks d ++ [row])) (Some d)
                        ([] ++ [BEGIN])))
      as [r c'] eqn:Eq.
    cbn [fst snd] in He, Hsaved, Hseq. subst r.
    unfold bind, rollback, throw, ret. rewrite Hsaved. cbn.
    cbn in Hseq. rewrite Hseq. now rewrite db_eta.
  - destruct Htask as (e & ->).
    unfold bind, rollback, throw, ret; cbn; now rewrite db_eta.
Qed.

Lemma new_subtask_rows_length (E : Env) (taskId : Z) (assignSpecific : bool)
    (l : list TaskRoutes.NewSubtask) (next : Z) :
  List.length (new_subtask_rows E taskId assignSpecific next l) = List.length l.
Proof.
  revert next. induction l as [|x l IH]; intros next; simpl; [reflexivity|].
  now rewrite IH.
Qed.

(** X3.  createTask is all or nothing: whatever the request, either the answer
    is 200 and the database holds one more task, with one subtask per
    element of the request, or the answer is an error and the database is
    what it was; no task is left without its subtasks. *)
Theorem createTask_all_or_nothing (E : Env) (S : Serial) (d : Db)
    (title : string) (description : option string) (teamCode : string)
    (createdBy : option Z) (l : list TaskRoutes.NewSubtask)
    (assignSpecific : bool) :
  let r := serve (TaskRoutes.createTask E S title description teamCode
                    createdBy l assignSpecific) d in
  (reply_code (fst r) = 200
   /\ snd r = task_created E S d title description teamCode
                (parseInt createdBy) l assignSpecific
   /\ List.length (subtasks (snd r))
      = (List.length (subtasks d) + List.length l)%nat)
  \/ (reply_code (fst r) <> 200 /\ snd r = d).
Proof.
  destruct (blank title || blank teamCode || falsy createdBy
            || (List.length l =? 0)%nat) eqn:Hguard.
  - right. unfold serve, TaskRoutes.createTask, serve_route.
    rewrite Hguard. cbn. split; [discriminate|reflexivity].
  - apply orb_false_iff in Hguard. destruct Hguard as (Hguard & Hl).
    apply orb_false_iff in Hguard. destruct Hguard as (Hguard & Hcb).
    apply orb_false_iff in Hguard. destruct Hguard as (Ht & Htc).
    destruct createdBy as [cb|]; [|discriminate].
    assert (Hcb' : cb <> 0) by (now apply Z.eqb_neq).
    assert (Hl' : l <> []) by (intros ->; discriminate).
    unfold blank in Ht, Htc.
    apply String.eqb_neq in Ht. apply String.eqb_neq in Htc.
    pose proof (createTask_run E S d title description teamCode cb l
                  assignSpecific Ht Htc Hcb' Hl') as Hrun.
    destruct (creates S d title teamCode cb l assignSpecific).
    + rewrite Hrun. left. cbn [fst snd reply_code parseInt].
      split; [reflexivity|]. split; [reflexivity|].
      unfold task_created. cbn [subtasks].
      now rewrite length_app, new_subtask_rows_length.
    + rewrite Hrun. right. cbn. split; [discriminate|reflexivity].
Qed.

Lemma new_subtask_rows_start (E : Env) (taskId : Z) (assignSpecific : bool)
    (l : list TaskRoutes.NewSubtask) (next : Z) :
  Forall (fun x => (String.length (TaskRoutes.ns_title x) <= 255)%nat) l ->
  Forall2 (starts_as assignSpecific taskId) l
          (new_subtask_rows E taskId assignSpecific next l).
Proof.
  intros Hfit. revert next.
  induction Hfit as [|x l Hx Hfit IH]; intros next; simpl; constructor;
    [|apply IH].
  unfold starts_as. simpl.
  split; [reflexivity|]. split; [now apply take_fits|].
  split; [reflexivity|]. split.
  - intros a Has Ha Hnz. unfold assigns.
    rewrite Has, Ha, (falsy_some a Hnz). simpl. repeat split.
  - intros H.
    assert (Hno : assigns assignSpecific x = false).
    { unfold assigns. destruct H as [-> | ->];
        [reflexivity | apply andb_false_r]. }
    rewrite Hno. repeat split.
Qed.

Lemma titles_fit_short (l : list TaskRoutes.NewSubtask) :
  Forall (fun x => (String.length (TaskRoutes.ns_title x) <= 255)%nat) l ->
  titles_fit l = true.
Proof.
  intros H. unfold titles_fit. apply forallb_forall. intros x Hx.
  apply storable_fits. revert x Hx. now apply Forall_forall.
Qed.

(** X4.  createTask with its fields present, a title and subtask titles of
    at most 255 characters, a team code of at most 10, a creator that
    exists and assignees that exist succeeds when the sequences of
    tasks.id and subtasks.id have ids to give for the rows: the task is
    appended with the creator and the team code given, and one subtask per
    element of the request is appended, in order; a subtask starts
    assigned/assigned
    to the assignee named for it when assignSpecific is set, and
    available/not_started with no assignee otherwise (an assignee named
    without assignSpecific is ignored). *)
Theorem createTask_initial_states (E : Env) (S : Serial) (d : Db)
    (title : string) (description : option string) (teamCode : string)
    (createdBy : Z) (l : list TaskRoutes.NewSubtask) (assignSpecific : bool) :
  title <> "" ->
  teamCode <> "" ->
  createdBy <> 0 ->
  l <> [] ->
  (String.length title <= 255)%nat ->
  (String.length teamCode <= 10)%nat ->
  Forall (fun x => (String.length (TaskRoutes.ns_title x) <= 255)%nat) l ->
  user_exists d createdBy ->
  assignees_known d assignSpecific l = true ->
  tasks_id_free S d = true ->
  subtask_ids_free (subtasks d) (subtasks_id_seq S + 1) (List.length l)
  = true ->
  let r := serve (TaskRoutes.createTask E S title description teamCode
                    (Some createdBy) l assignSpecific) d in
  fst r = Json ("Task created successfully",
                task_view (snd r) (tasks_id_seq S + 1))
  /\ users (snd r) = users d
  /\ tasks (snd r)
     = tasks d ++ [Task.mk (tasks_id_seq S + 1) title description teamCode
                           (Some createdBy) (NOW E) "active" (NOW E)]
  /\ exists rows,
       subtasks (snd r) = subtasks d ++ rows
       /\ Forall2 (starts_as assignSpecific (tasks_id_seq S + 1)) l rows.
Proof.
  intros Ht Htc Hcb Hl Hlen Hclen Hfit Hu Hk Htid Hsid.
  pose proof (createTask_run E S d title description teamCode createdBy l
                assignSpecific Ht Htc Hcb Hl) as Hrun.
  apply user_exists_existsb in Hu. unfold creates, has_user in Hrun.
  rewrite (storable_fits _ _ Hlen), (storable_fits _ _ Hclen), Htid, Hu,
    (titles_fit_short l Hfit), Hk, Hsid in Hrun.
  cbn [andb] in Hrun.
  cbv zeta. rewrite Hrun. cbn [fst snd].
  split; [reflexivity|]. split; [reflexivity|].
  unfold task_created. cbn [tasks subtasks].
  rewrite (take_fits _ _ Hlen), (take_fits _ _ Hclen).
  split; [reflexivity|].
  eexists. split; [reflexivity|]. now apply new_subtask_rows_start.
Qed.

(** Leader 1 creates a task with two subtasks, the first for member 4. *)
Lemma createTask_initial_states_witness :
  let r := serve (TaskRoutes.createTask Sample.env (mkSerial 2 2 3) "T3" None
                    "AB12CD" (Some 1)
                    [TaskRoutes.mkNewSubtask "a" None (Some 4);
                     TaskRoutes.mkNewSubtask "b" (Some "") None]
                    true) Sample.db in
  subtasks (snd r)
  = subtasks Sample.db
    ++ [Subtask.mk 4 (Some 3) "a" None (Some 4) Status.assigned
                   Progress.assigned None 100 100;
        Subtask.mk 5 (Some 3) "b" None None Status.available
                   Progress.not_started None 100 100]
  /\ exists rows,
       subtasks (snd r) = subtasks Sample.db ++ rows
       /\ Forall2 (starts_as true 3)
                  [TaskRoutes.mkNewSubtask "a" None (Some 4);
                   TaskRoutes.mkNewSubtask "b" (Some "") None]
                  rows.
Proof.
  split; [reflexivity|].
  apply (createTask_initial_states Sample.env (mkSerial 2 2 3) Sample.db
           "T3" None "AB12CD" 1
           [TaskRoutes.mkNewSubtask "a" None (Some 4);
            TaskRoutes.mkNewSubtask "b" (Some "") None]
           true).
  - discriminate.
  - discriminate.
  - discriminate.
  - discriminate.
  - vm_compute. lia.
  - vm_compute. lia.
  - repeat constructor; vm_compute; lia.
  - exists (Sample.user 1 "a@x.com" Role.leader "AB12CD" Membership.approved).
    split; [simpl; tauto | reflexivity].
  - reflexivity.
  - reflexivity.
  - reflexivity.
Defined.

(** The second subtask of the request names user 9, whom the sample
    database does not have: the task and the first subtask, already
    inserted, are rolled back. *)
Lemma createTask_all_or_nothing_witness :
  serve (TaskRoutes.createTask Sample.env (mkSerial 2 2 3) "T3" None
           "AB12CD" (Some 1)
           [TaskRoutes.mkNewSubtask "a" None (Some 4);
            TaskRoutes.mkNewSubtask "b" None (Some 9)]
           true) Sample.db
  = (Failure 500 "Internal server error", Sample.db).
Proof.
  destruct (createTask_all_or_nothing Sample.env (mkSerial 2 2 3) Sample.db
              "T3" None "AB12CD" (Some 1)
              [TaskRoutes.mkNewSubtask "a" None (Some 4);
               TaskRoutes.mkNewSubtask "b" None (Some 9)]
              true) as [(H & _) | (_ & H)].
  - discriminate H.
  - reflexivity.
Defined.

(* ------------------------------------------------------------------ *)
(** ** Deleting and editing tasks and subtasks *)

Lemma filter_idem {A} (p : A -> bool) (l : list A) :
  filter p (filter p l) = filter p l.
Proof.
  induction l as [|a l IH]; simpl; [reflexivity|].
  destruct (p a) eqn:E; simpl; [rewrite E|]; now rewrite IH.
Qed.

Lemma may_modify_spec (t : Task.t) (u : User.t) :
  TaskRoutes.may_modify (Task.created_by t) (Task.team_code t) (User.id u)
                        (User.role u) (User.team_code u) = true
  <-> may_modify_task t u.
Proof.
  unfold TaskRoutes.may_modify, may_modify_task.
  rewrite orb_true_iff, andb_true_iff, Role_eqb_eq, String.eqb_eq.
  assert (H : col_is (Task.created_by t) (User.id u) = true
              <-> Task.created_by t = Some (User.id u)).
  { destruct (Task.created_by t) as [a|]; simpl.
    - rewrite Z.eqb_eq. split; congruence.
    - split; discriminate. }
  rewrite H. tauto.
Qed.

Lemma user_by_id_id (d : Db) (uid : Z) (u : User.t) :
  user_by_id d uid = Some u -> User.id u = uid.
Proof.
  intros H. apply find_some in H. destruct H as (_ & H). now apply Z.eqb_eq.
Qed.

Lemma task_by_id_integer (d : Db) (taskId : Z) (t : Task.t) :
  task_by_id d taskId = Some t -> integer d taskId = true.
Proof. intros H. apply task_integer. exact (existsb_find_some _ _ _ H). Qed.

Lemma user_by_id_integer (d : Db) (uid : Z) (u : User.t) :
  user_by_id d uid = Some u -> integer d uid = true.
Proof. intros H. apply user_integer. exact (existsb_find_some _ _ _ H). Qed.

Lemma subtask_by_id_integer (d : Db) (subtaskId : Z) (s : Subtask.t) :
  subtask_by_id d subtaskId = Some s -> integer d subtaskId = true.
Proof. intros H. apply subtask_integer. exact (existsb_find_some _ _ _ H). Qed.

(** What the delete route does for a call that carries a userId. *)
Lemma deleteTask_run (d : Db) (taskId uid : Z) :
  uid <> 0 ->
  serve (TaskRoutes.deleteTask taskId (Some uid)) d
  = if negb (integer d taskId)
    then (Failure 500 "Internal server error", d)
    else
      match task_by_id d taskId with
      | None => (Failure 404 "Task not found", d)
      | Some t =>
          if negb (integer d uid)
          then (Failure 500 "Internal server error", d)
          else
            match user_by_id d uid with
            | None => (Failure 403 "User not found", d)
            | Some u =>
                if TaskRoutes.may_modify (Task.created_by t) (Task.team_code t)
                                         uid (User.role u) (User.team_code u)
                then (Json "Task deleted successfully", task_deleted d taskId)
                else (Failure 403 "Not authorized to delete this task", d)
            end
      end.
Proof.
  intros Huid.
  unfold serve, TaskRoutes.deleteTask, serve_route, try_catch.
  rewrite (falsy_some uid Huid).
  unfold bind, TaskRoutes.select_task_owner, Tasks.select_user_role,
    TaskRoutes.delete_subtasks_of_task, TaskRoutes.delete_task,
    begin_, commit, query_on, effect, select_on, statement.
  cbn [cur saved issued parseInt].
  destruct (integer d taskId) eqn:Hti; cbn [negb];
    [rewrite (binding_1 _ _ _ Hti)
    |rewrite (binding_raises_1 _ _ _ Hti); reflexivity].
  unfold task_by_id, user_by_id.
  destruct (find (fun t => Task.id t =? taskId) (tasks d)) as [t|] eqn:Ht.
  - pose proof (existsb_find_some _ _ _ Ht) as Hex.
    destruct (filter_cons_find _ _ _ Ht) as (trest & ->). cbn.
    destruct (integer d uid) eqn:Hui; cbn [negb];
      [rewrite (binding_1 _ _ _ Hui)
      |rewrite (binding_raises_1 _ _ _ Hui); reflexivity].
    cbn.
    destruct (find (fun u => User.id u =? uid) (users d)) as [u|] eqn:Hu.
    + destruct (filter_cons_find _ _ _ Hu) as (urest & ->). cbn.
      destruct (TaskRoutes.may_modify (Task.created_by t) (Task.team_code t)
                  uid (User.role u) (User.team_code u)); cbn; [|reflexivity].
      rewrite (binding_1 _ _ _ Hti). cbn.
      rewrite binding_1 by (apply task_integer; exact Hex). cbn.
      unfold task_deleted. rewrite filter_idem.
      match goal with
      | |- context [if ?b then _ else _] => destruct b
      end; reflexivity.
    + rewrite (filter_nil_find _ _ Hu). reflexivity.
  - rewrite (filter_nil_find _ _ Ht). reflexivity.
Qed.

(** X5.  deleteTask without a userId answers 400.  With one, it answers 500
    when the task id is no INTEGER (the SELECT raises), 404 when it is one
    and no task has it, 500 when the caller's id is no INTEGER, 403 when
    it is one and no user has it, 403 for a caller who neither created the
    task nor leads its team, and changes nothing; for the creator or a
    leader of the team it removes the task and every subtask of it, and
    nothing else: afterwards no task has the id, no subtask refers to it,
    and every subtask of another task is still there. *)
Theorem deleteTask_outcomes (d : Db) (taskId : Z) :
  (forall userId,
     falsy userId = true ->
     serve (TaskRoutes.deleteTask taskId userId) d
     = (Failure 400 "User ID is required", d))
  /\ (forall uid,
        uid <> 0 ->
        (integer d taskId = false ->
         serve (TaskRoutes.deleteTask taskId (Some uid)) d
         = (Failure 500 "Internal server error", d))
        /\ (integer d taskId = true ->
            task_by_id d taskId = None ->
            serve (TaskRoutes.deleteTask taskId (Some uid)) d
            = (Failure 404 "Task not found", d))
        /\ (forall t,
              task_by_id d taskId = Some t ->
              integer d uid = false ->
              serve (TaskRoutes.deleteTask taskId (Some uid)) d
              = (Failure 500 "Internal server error", d))
        /\ (forall t,
              task_by_id d taskId = Some t ->
              integer d uid = true ->
              user_by_id d uid = None ->
              serve (TaskRoutes.deleteTask taskId (Some uid)) d
              = (Failure 403 "User not found", d))
        /\ (forall t u,
              task_by_id d taskId = Some t ->
              user_by_id d uid = Some u ->
              ~ may_modify_task t u ->
              serve (TaskRoutes.deleteTask taskId (Some uid)) d
              = (Failure 403 "Not authorized to delete this task", d))
        /\ (forall t u,
              task_by_id d taskId = Some t ->
              user_by_id d uid = Some u ->
              may_modify_task t u ->
              serve (TaskRoutes.deleteTask taskId (Some uid)) d
              = (Json "Task deleted successfully", task_deleted d taskId)))
  /\ task_by_id (task_deleted d taskId) taskId = None
  /\ (forall s, In s (subtasks (task_deleted d taskId)) ->
                Subtask.task_id s <> Some taskId)
  /\ (forall s, In s (subtasks d) -> Subtask.task_id s <> Some taskId ->
                In s (subtasks (task_deleted d taskId)))
  /\ (forall t, In t (tasks d) -> Task.id t <> taskId ->
                In t (tasks (task_deleted d taskId))).
Proof.
  split; [|split; [|split; [|split; [|split]]]].
  - intros userId Hf.
    unfold serve, TaskRoutes.deleteTask, serve_route, try_catch.
    now rewrite Hf.
  - intros uid Huid.
    pose proof (deleteTask_run d taskId uid Huid) as Hrun.
    split; [|split; [|split; [|split; [|split]]]].
    + intros Hi. now rewrite Hrun, Hi.
    + intros Hi Ht. now rewrite Hrun, Hi, Ht.
    + intros t Ht Hi.
      now rewrite Hrun, (task_by_id_integer _ _ _ Ht), Ht, Hi.
    + intros t Ht Hi Hu.
      now rewrite Hrun, (task_by_id_integer _ _ _ Ht), Ht, Hi, Hu.
    + intros t u Ht Hu Hn.
      rewrite Hrun, (task_by_id_integer _ _ _ Ht), Ht,
        (user_by_id_integer _ _ _ Hu), Hu.
      pose proof (may_modify_spec t u) as Hspec.
      rewrite (user_by_id_id d uid u Hu) in Hspec. cbn [negb].
      destruct (TaskRoutes.may_modify (Task.created_by t) (Task.team_code t) uid
                  (User.role u) (User.team_code u)); [|reflexivity].
      exfalso. apply Hn, Hspec. reflexivity.
    + intros t u Ht Hu Hy.
      rewrite Hrun, (task_by_id_integer _ _ _ Ht), Ht,
        (user_by_id_integer _ _ _ Hu), Hu.
      pose proof (may_modify_spec t u) as Hspec.
      rewrite (user_by_id_id d uid u Hu) in Hspec.
      apply Hspec in Hy. cbn [negb]. now rewrite Hy.
  - unfold task_by_id, task_deleted. cbn [tasks].
    destruct (find _ _) as [t|] eqn:E; [|reflexivity].
    apply find_some in E. destruct E as (Hin & Hid).
    apply filter_In in Hin. destruct Hin as (_ & Hn).
    rewrite Hid in Hn. discriminate.
  - intros s Hin Heq. unfold task_deleted in Hin. cbn [subtasks] in Hin.
    apply filter_In in Hin. destruct Hin as (_ & Hn).
    rewrite Heq in Hn. simpl in Hn. rewrite Z.eqb_refl in Hn. discriminate.
  - intros s Hin Hne. unfold task_deleted. cbn [subtasks].
    apply filter_In. split; [exact Hin|].
    destruct (Subtask.task_id s) as [a|]; simpl; [|reflexivity].
    apply negb_true_iff, Z.eqb_neq. congruence.
  - intros t Hin Hne. unfold task_deleted. cbn [tasks].
    apply filter_In. split; [exact Hin|].
    now apply negb_true_iff, Z.eqb_neq.
Qed.

(** Leader 1 of team AB12CD deletes task 1 of the sample database, which
    has three subtasks; member 4 may not; no task has id 2147483648, which
    is no INTEGER. *)
Lemma deleteTask_outcomes_witness :
  serve (TaskRoutes.deleteTask 1 (Some 1)) Sample.db
  = (Json "Task deleted successfully",
     mkDb (users Sample.db) (teams Sample.db)
          [Task.mk 2 "T2" None "AB12CD" (Some 1) 6 "active" 6] [] 4)
  /\ serve (TaskRoutes.deleteTask 1 (Some 4)) Sample.db
     = (Failure 403 "Not authorized to delete this task", Sample.db)
  /\ serve (TaskRoutes.deleteTask 2147483648 (Some 1)) Sample.db
     = (Failure 500 "Internal server error", Sample.db).
Proof.
  destruct (deleteTask_outcomes Sample.db 1) as (_ & H & _).
  split; [|split].
  - destruct (H 1) as (_ & _ & _ & _ & _ & H1); [discriminate|].
    apply (H1 (Task.mk 1 "T1" None "AB12CD" (Some 1) 5 "active" 5)
              (Sample.user 1 "a@x.com" Role.leader "AB12CD" Membership.approved)).
    + reflexivity.
    + reflexivity.
    + left. reflexivity.
  - destruct (H 4) as (_ & _ & _ & _ & H4 & _); [discriminate|].
    apply (H4 (Task.mk 1 "T1" None "AB12CD" (Some 1) 5 "active" 5)
              (Sample.user 4 "d@x.com" Role.member "AB12CD" Membership.approved)).
    + reflexivity.
    + reflexivity.
    + intros [H1 | (H1 & _)]; discriminate.
  - destruct (deleteTask_outcomes Sample.db 2147483648) as (_ & H' & _).
    destruct (H' 1) as (H1 & _); [discriminate|].
    apply H1. reflexivity.
Defined.

(** X6.  editSubtask by the creator of the owning task or a leader of its
    team, with a title of at most 255 characters and an assignee that is
    absent or a user, writes title, description and assignee as sent and
    sets status and progress from the assignee alone: assigned/assigned
    when one is given, available/not_started when none is; what status and
    progress the subtask had (taken, in_progress, testing, completed) is
    lost. *)
Theorem editSubtask_resets_state (d : Db) (subtaskId uid : Z) (title : string)
    (description : option string) (assignedTo : option Z)
    (s : Subtask.t) (t : Task.t) (u : User.t) :
  uid <> 0 ->
  (String.length title <= 255)%nat ->
  subtask_by_id d subtaskId = Some s ->
  task_of d s = Some t ->
  user_by_id d uid = Some u ->
  may_modify_task t u ->
  refers_to_user d assignedTo = true ->
  exists details,
    serve (TaskRoutes.editSubtask subtaskId title description assignedTo
                                  (Some uid)) d
    = (Json ("Subtask updated successfully", details),
       rewrite_subtask d subtaskId (edited_row title description assignedTo)).
Proof.
  intros Huid Hlen Hs Ht Hu Hmay Hrefs.
  destruct (hd_filter_inner_join
              (fun s0 t0 => col_is (Subtask.task_id s0) (Task.id t0))
              (fun s0 => Subtask.id s0 =? subtaskId)
              (subtasks d) (tasks d) s t Hs Ht) as (rest & Hjoin).
  pose proof (existsb_find_some _ _ _ Hs) as Hex.
  pose proof (subtask_integer d subtaskId Hex) as Hint.
  pose proof (user_by_id_integer _ _ _ Hu) as Huint.
  assert (Hps : forallb (integer d) (subtaskId :: nullable assignedTo) = true).
  { cbn [forallb]. now rewrite Hint, (refers_to_user_integer _ _ Hrefs). }
  destruct (filter_cons_find _ _ _ Hs) as (srest & Hfs).
  destruct (filter_cons_find _ _ _ Hu) as (urest & Husers).
  pose proof (may_modify_spec t u) as Hspec.
  rewrite (user_by_id_id d uid u Hu) in Hspec. apply Hspec in Hmay.
  destruct (falsy assignedTo) eqn:Hf; eexists;
    unfold serve, TaskRoutes.editSubtask, serve_route, try_catch;
    rewrite (falsy_some uid Huid);
    unfold bind, TaskRoutes.select_subtask_owner, Tasks.select_user_role,
      TaskRoutes.update_subtask, Tasks.getSubtaskWithDetails,
      query_on, effect, select_on, statement;
    cbn; rewrite (binding_1 _ _ _ Hint); cbn; rewrite Hjoin; cbn;
    rewrite (binding_1 _ _ _ Huint); cbn; rewrite Husers; cbn;
    rewrite Hmay, Hf; cbn;
    rewrite (binding_ok _ _ _ Hps), (varchar_fits _ _ Hlen); cbn;
    rewrite Hex, Hrefs; cbn;
    rewrite (filter_map_if (fun s0 => Subtask.id s0 =? subtaskId)) by reflexivity;
    rewrite Hfs; cbn;
    rewrite binding_1 by subtask_kept Hex; cbn;
    unfold rewrite_subtask, edited_row; rewrite Hf; reflexivity.
Qed.

(** Leader 1 edits subtask 3 of the sample database, completed by member 4,
    and names no assignee: it is available and not started again. *)
Lemma editSubtask_resets_state_witness :
  exists details,
    serve (TaskRoutes.editSubtask 3 "again" None None (Some 1)) Sample.db
    = (Json ("Subtask updated successfully", details),
       with_subtasks Sample.db
         [Sample.subtask 1 1 None Status.available Progress.not_started;
          Sample.subtask 2 1 (Some 4) Status.taken Progress.in_progress;
          Subtask.mk 3 (Some 1) "again" None None Status.available
                     Progress.not_started None 3 0]).
Proof.
  apply (editSubtask_resets_state Sample.db 3 1 "again" None None
           (Sample.subtask 3 1 (Some 4) Status.completed Progress.completed)
           (Task.mk 1 "T1" None "AB12CD" (Some 1) 5 "active" 5)
           (Sample.user 1 "a@x.com" Role.leader "AB12CD" Membership.approved)).
  - discriminate.
  - vm_compute. lia.
  - reflexivity.
  - reflexivity.
  - reflexivity.
  - left. reflexivity.
  - reflexivity.
Defined.

Lemma map_if_none {A} (p : A -> bool) (f : A -> A) (l : list A) :
  find p l = None -> map (fun a => if p a then f a else a) l = l.
Proof.
  induction l as [|a l IH]; [reflexivity|].
  simpl. destruct (p a); [discriminate|]. intros H. now rewrite IH.
Qed.

(** X7.  updateDeadline, the deadline when present being a timestamp,
    answers 400 when the deadline or the userId is missing.  Otherwise it
    asks only that the caller be a leader: of which team is not looked at.
    A caller whose id is no INTEGER gets 500 (the SELECT raises); a caller
    who is no user or no leader gets 403, also for a subtask that does not
    exist; a leader gets 500 for a subtask id that is no INTEGER, 404 for
    one that no subtask has, and otherwise the deadline is the one column
    written. *)
Theorem updateDeadline_outcomes (d : Db) (subtaskId : Z) :
  (forall deadline userId,
     deadline = None \/ falsy userId = true ->
     serve (TaskRoutes.updateDeadline subtaskId deadline userId) d
     = (Failure 400 "Deadline and user ID are required", d))
  /\ (forall deadline uid,
        uid <> 0 ->
        (integer d uid = false ->
         serve (TaskRoutes.updateDeadline subtaskId (Some deadline) (Some uid)) d
         = (Failure 500 "Internal server error", d))
        /\ (integer d uid = true ->
            user_by_id d uid = None ->
            serve (TaskRoutes.updateDeadline subtaskId (Some deadline)
                                             (Some uid)) d
            = (Failure 403 "Only team leaders can update deadlines", d))
        /\ (forall u,
              user_by_id d uid = Some u ->
              User.role u <> Role.leader ->
              serve (TaskRoutes.updateDeadline subtaskId (Some deadline)
                                               (Some uid)) d
              = (Failure 403 "Only team leaders can update deadlines", d))
        /\ (forall u,
              user_by_id d uid = Some u ->
              User.role u = Role.leader ->
              integer d subtaskId = false ->
              serve (TaskRoutes.updateDeadline subtaskId (Some deadline)
                                               (Some uid)) d
              = (Failure 500 "Internal server error", d))
        /\ (forall u,
              user_by_id d uid = Some u ->
              User.role u = Role.leader ->
              integer d subtaskId = true ->
              subtask_by_id d subtaskId = None ->
              serve (TaskRoutes.updateDeadline subtaskId (Some deadline)
                                               (Some uid)) d
              = (Failure 404 "Subtask not found", d))
        /\ (forall u s,
              user_by_id d uid = Some u ->
              User.role u = Role.leader ->
              subtask_by_id d subtaskId = Some s ->
              exists details,
                serve (TaskRoutes.updateDeadline subtaskId (Some deadline)
                                                 (Some uid)) d
                = (Json ("Deadline updated successfully", details),
                   rewrite_subtask d subtaskId (with_deadline deadline)))).
Proof.
  split.
  - intros deadline userId H.
    unfold serve, TaskRoutes.updateDeadline, serve_route, try_catch.
    destruct deadline as [dl|]; [|reflexivity].
    destruct H as [H | H]; [discriminate|]. now rewrite H.
  - intros deadline uid Huid.
    unfold serve, TaskRoutes.updateDeadline, serve_route, try_catch.
    rewrite (falsy_some uid Huid).
    unfold bind, Tasks.select_user_role, TaskRoutes.update_subtask_deadline,
      Tasks.getSubtaskWithDetails, query_on, effect, select_on, statement.
    cbn.
    split; [|split; [|split; [|split; [|split]]]].
    + intros Hi. rewrite (binding_raises_1 _ _ _ Hi). reflexivity.
    + intros Hi Hu. rewrite (binding_1 _ _ _ Hi). cbn.
      rewrite (filter_nil_find _ _ Hu). reflexivity.
    + intros u Hu Hr. rewrite (binding_1 _ _ _ (user_by_id_integer _ _ _ Hu)).
      cbn. destruct (filter_cons_find _ _ _ Hu) as (urest & ->).
      cbn. destruct (User.role u); [contradiction | reflexivity].
    + intros u Hu Hr Hi.
      rewrite (binding_1 _ _ _ (user_by_id_integer _ _ _ Hu)).
      cbn. destruct (filter_cons_find _ _ _ Hu) as (urest & ->).
      cbn. rewrite Hr. cbn. rewrite (binding_raises_1 _ _ _ Hi). reflexivity.
    + intros u Hu Hr Hi Hs.
      rewrite (binding_1 _ _ _ (user_by_id_integer _ _ _ Hu)).
      cbn. destruct (filter_cons_find _ _ _ Hu) as (urest & ->).
      cbn. rewrite Hr. cbn. rewrite (binding_1 _ _ _ Hi). cbn.
      rewrite (filter_map_if (fun s0 => Subtask.id s0 =? subtaskId))
        by reflexivity.
      rewrite (filter_nil_find _ _ Hs). cbn.
      unfold with_subtasks.
      rewrite (map_if_none (fun s0 => Subtask.id s0 =? subtaskId) _ _ Hs).
      now rewrite db_eta.
    + intros u s Hu Hr Hs.
      pose proof (existsb_find_some _ _ _ Hs) as Hex.
      rewrite (binding_1 _ _ _ (user_by_id_integer _ _ _ Hu)).
      cbn. destruct (filter_cons_find _ _ _ Hu) as (urest & ->).
      cbn. rewrite Hr. cbn.
      rewrite (binding_1 _ _ _ (subtask_integer _ _ Hex)). cbn.
      rewrite (filter_map_if (fun s0 => Subtask.id s0 =? subtaskId))
        by reflexivity.
      destruct (filter_cons_find _ _ _ Hs) as (srest & ->). cbn.
      rewrite binding_1 by subtask_kept Hex. cbn.
      eexists. reflexivity.
Qed.

(** User 3 leads team ZZ99ZZ; subtask 1 belongs to a task of team AB12CD.
    Member 4 leads no team. *)
Lemma updateDeadline_outcomes_witness :
  (exists details,
     serve (TaskRoutes.updateDeadline 1 (Some 77) (Some 3)) Sample.db
     = (Json ("Deadline updated successfully", details),
        with_subtasks Sample.db
          [Subtask.mk 1 (Some 1) "sub" None None Status.available
                      Progress.not_started (Some 77) 1 0;
           Sample.subtask 2 1 (Some 4) Status.taken Progress.in_progress;
           Sample.subtask 3 1 (Some 4) Status.completed Progress.completed]))
  /\ serve (TaskRoutes.updateDeadline 1 (Some 77) (Some 4)) Sample.db
     = (Failure 403 "Only team leaders can update deadlines", Sample.db).
Proof.
  destruct (updateDeadline_outcomes Sample.db 1) as (_ & H).
  split.
  - destruct (H 77 3) as (_ & _ & _ & _ & _ & H3); [discriminate|].
    apply (H3 (Sample.user 3 "c@y.com" Role.leader "ZZ99ZZ" Membership.approved)
              (Sample.subtask 1 1 None Status.available Progress.not_started));
      reflexivity.
  - destruct (H 77 4) as (_ & _ & H4 & _); [discriminate|].
    apply (H4 (Sample.user 4 "d@x.com" Role.member "AB12CD" Membership.approved));
      [reflexivity | discriminate].
Defined.

(* ------------------------------------------------------------------ *)
(** ** The listings of subtasks *)

Lemma In_inner_join {A B} (on : A -> B -> bool) (l : list A) (r : list B)
    (a : A) (b : B) :
  In (a, b) (inner_join on l r) <-> In a l /\ In b r /\ on a b = true.
Proof.
  unfold inner_join. rewrite in_flat_map. split.
  - intros (x & Hx & Hin). apply in_map_iff in Hin.
    destruct Hin as (y & Heq & Hy). injection Heq as -> ->.
    apply filter_In in Hy. tauto.
  - intros (Ha & Hb & Hon). exists a. split; [exact Ha|].
    apply in_map_iff. exists b. split; [reflexivity|].
    apply filter_In. now split.
Qed.

Lemma col_is_eq (c : option Z) (n : Z) : col_is c n = true <-> c = Some n.
Proof.
  destruct c as [m|]; simpl.
  - rewrite Z.eqb_eq. split; congruence.
  - split; discriminate.
Qed.

Lemma available_in_spec (d : Db) (teamCode : string)
    (s : Subtask.t) :
  snd (serve (TaskRoutes.availableSubtasks teamCode) d) = d
  /\ (In s (available_in d teamCode)
      <-> In s (subtasks d)
          /\ Subtask.status s = Status.available
          /\ in_team_task d teamCode s).
Proof.
  unfold available_in, serve, TaskRoutes.availableSubtasks, serve_route,
    try_catch, bind, query, effect, ret.
  cbn [cur saved issued fst snd].
  split; [reflexivity|].
  rewrite map_map. cbn [TaskRoutes.a_subtask].
  rewrite in_map_iff. split.
  - intros (((s0 & t) & ou) & <- & Hin). cbn [fst].
    apply In_order_by, filter_In in Hin. destruct Hin as (Hin & Hw).
    apply In_left_join in Hin. destruct Hin as (Hst & _).
    apply In_inner_join in Hst. destruct Hst as (Hs & Ht & Hon).
    cbn [fst snd] in Hw. apply andb_true_iff in Hw. destruct Hw as (Hteam & Hav).
    split; [exact Hs|]. split; [now apply Status_eqb_eq|].
    exists t. split; [exact Ht|]. split; [now apply col_is_eq|].
    now apply String.eqb_eq.
  - intros (Hs & Hav & t & Ht & Htid & Hteam).
    assert (Hst : In (s, t) (inner_join
                               (fun s0 t0 => col_is (Subtask.task_id s0) (Task.id t0))
                               (subtasks d) (tasks d))).
    { apply In_inner_join. split; [exact Hs|]. split; [exact Ht|].
      now apply col_is_eq. }
    destruct (left_join_total
                (fun (st : Subtask.t * Task.t) u =>
                   col_is (Task.created_by (snd st)) (User.id u))
                _ (users d) (s, t) Hst) as (ou & Hin).
    exists (s, t, ou). split; [reflexivity|].
    apply In_order_by, filter_In. split; [exact Hin|].
    cbn [fst snd]. apply andb_true_iff. split.
    + now apply String.eqb_eq.
    + now apply Status_eqb_eq.
Qed.

(** X8.  The available route lists exactly the subtasks with status available
    that belong to a task of the team, and changes nothing. *)
Theorem availableSubtasks_lists_exactly (d : Db) (teamCode : string)
    (s : Subtask.t) :
  snd (serve (TaskRoutes.availableSubtasks teamCode) d) = d
  /\ (In s (available_in d teamCode)
      <-> In s (subtasks d)
          /\ Subtask.status s = Status.available
          /\ in_team_task d teamCode s).
Proof.
  exact (available_in_spec d teamCode s).
Qed.

(** X9.  A subtask that has been claimed is on no team's list of available
    subtasks any more. *)
Theorem claimed_subtask_leaves_available (d : Db) (subtaskId uid : Z)
    (s : Subtask.t) (teamCode : string) :
  uid <> 0 ->
  subtask_by_id d subtaskId = Some s ->
  Subtask.status s = Status.available ->
  user_exists d uid ->
  let d1 := snd (fst (run (Tasks.takeSubtask subtaskId (Some uid)) d)) in
  forall s1, In s1 (available_in d1 teamCode) -> Subtask.id s1 <> subtaskId.
Proof.
  intros Huid Hs Hav Hu d1 s1 Hin Hid.
  destruct (take_available d subtaskId uid Huid s Hs Hav Hu) as (details & E).
  subst d1. rewrite E in Hin. cbn [fst snd] in Hin.
  apply available_in_spec in Hin.
  destruct Hin as (Hin & Hst & _).
  unfold reassign_in, with_subtasks in Hin. cbn [subtasks] in Hin.
  apply in_map_iff in Hin. destruct Hin as (r & Heq & _).
  destruct (Subtask.id r =? subtaskId) eqn:Hr.
  - subst s1. discriminate.
  - subst s1. apply Z.eqb_neq in Hr. contradiction.
Qed.

(** Subtask 1 is the only available subtask of team AB12CD in the sample
    database; once user 2 has claimed it the list is empty. *)
Lemma claimed_subtask_leaves_available_witness :
  available_in Sample.db "AB12CD"
  = [Sample.subtask 1 1 None Status.available Progress.not_started]
  /\ forall s1,
      In s1 (available_in
               (snd (fst (run (Tasks.takeSubtask 1 (Some 2)) Sample.db)))
               "AB12CD") ->
      Subtask.id s1 <> 1.
Proof.
  split; [reflexivity|].
  apply (claimed_subtask_leaves_available Sample.db 1 2
           (Sample.subtask 1 1 None Status.available Progress.not_started)
           "AB12CD").
  - discriminate.
  - reflexivity.
  - reflexivity.
  - exists (Sample.user 2 "b@x.com" Role.member "AB12CD" Membership.pending).
    split; [simpl; tauto | reflexivity].
Defined.

(** X10.  After a member has been deleted, each subtask that was assigned to
    them and belongs to a task of a team is on that team's list of
    available subtasks, whatever its status was. *)
Theorem deleted_members_subtasks_become_available (d : Db)
    (teamCode : string) (memberId : Z) (leaderId : option Z)
    (res : Response) (d' : Db) (log : list Stmt) (s : Subtask.t)
    (taskTeam : string) :
  run (Auth.deleteTeamMember teamCode memberId leaderId) d = (res, d', log) ->
  code res = 200 ->
  In s (subtasks d) ->
  Subtask.assigned_to s = Some memberId ->
  in_team_task d taskTeam s ->
  In (released_row s) (available_in d' taskTeam).
Proof.
  intros Hrun Hcode Hin Ha Hteam.
  destruct (deleteTeamMember_effect d teamCode memberId leaderId res d' log Hrun)
    as [(_ & ->) | (Hc & _)]; [|contradiction].
  apply available_in_spec.
  split; [|split; [reflexivity|exact Hteam]].
  unfold member_deleted, release_all. cbn [subtasks].
  apply in_map_iff. exists s. split; [|exact Hin].
  rewrite Ha. simpl. now rewrite Z.eqb_refl.
Qed.

(** Member 4 of the sample database had subtask 3, completed; after leader
    1 deletes them it is listed as available, its progress still
    completed. *)
Lemma deleted_members_subtasks_become_available_witness :
  In (Sample.subtask 3 1 None Status.available Progress.completed)
     (available_in
        (snd (fst (run (Auth.deleteTeamMember "AB12CD" 4 (Some 1)) Sample.db)))
        "AB12CD").
Proof.
  apply (deleted_members_subtasks_become_available Sample.db "AB12CD" 4 (Some 1)
           (fst (fst (run (Auth.deleteTeamMember "AB12CD" 4 (Some 1)) Sample.db)))
           (snd (fst (run (Auth.deleteTeamMember "AB12CD" 4 (Some 1)) Sample.db)))
           (snd (run (Auth.deleteTeamMember "AB12CD" 4 (Some 1)) Sample.db))
           (Sample.subtask 3 1 (Some 4) Status.completed Progress.completed)
           "AB12CD").
  - reflexivity.
  - reflexivity.
  - simpl. tauto.
  - reflexivity.
  - exists (Task.mk 1 "T1" None "AB12CD" (Some 1) 5 "active" 5).
    split; [simpl; tauto|]. split; reflexivity.
Defined.

Lemma insert_by_sorted {A} (le : A -> A -> bool) (x : A) (l : list A) :
  (forall a b, le a b = true \/ le b a = true) ->
  (forall a b c, le a b = true -> le b c = true -> le a c = true) ->
  StronglySorted (fun a b => le a b = true) l ->
  StronglySorted (fun a b => le a b = true) (Tasks.insert_by le x l).
Proof.
  intros Htotal Htrans Hl.
  induction Hl as [|y l Hl IH Hy]; simpl.
  - constructor; constructor.
  - destruct (le x y) eqn:E.
    + constructor; [constructor; assumption|].
      constructor; [exact E|].
      eapply Forall_impl; [|exact Hy]. intros c Hc. now apply (Htrans x y c).
    + constructor; [exact IH|].
      apply Forall_forall. intros c Hc. apply In_insert_by in Hc.
      destruct Hc as [-> | Hc].
      * destruct (Htotal x y) as [H | H]; [congruence | exact H].
      * rewrite Forall_forall in Hy. now apply Hy.
Qed.

Lemma order_by_sorted {A} (le : A -> A -> bool) (l : list A) :
  (forall a b, le a b = true \/ le b a = true) ->
  (forall a b c, le a b = true -> le b c = true -> le a c = true) ->
  StronglySorted (fun a b => le a b = true) (Tasks.order_by le l).
Proof.
  intros Htotal Htrans. unfold Tasks.order_by.
  induction l as [|x l IH]; simpl; [constructor|].
  now apply insert_by_sorted.
Qed.

Lemma StronglySorted_map {A B} (f : A -> B) (R : B -> B -> Prop) (l : list A) :
  StronglySorted (fun a b => R (f a) (f b)) l -> StronglySorted R (map f l).
Proof.
  induction 1 as [|a l Hl IH Ha]; simpl; constructor; [exact IH|].
  apply Forall_forall. intros b Hb. apply in_map_iff in Hb.
  destruct Hb as (x & <- & Hx). rewrite Forall_forall in Ha. now apply Ha.
Qed.

Lemma StronglySorted_weaken {A} (R R' : A -> A -> Prop) (l : list A) :
  (forall a b, R a b -> R' a b) ->
  StronglySorted R l -> StronglySorted R' l.
Proof.
  intros HR. induction 1 as [|a l Hl IH Ha]; constructor; [exact IH|].
  eapply Forall_impl; [|exact Ha]. intros b. apply HR.
Qed.

Lemma by_progress_then_newest_spec (a b : Subtask.t) :
  TaskRoutes.by_progress_then_newest a b = true <-> before_in_progress_order a b.
Proof.
  unfold TaskRoutes.by_progress_then_newest, before_in_progress_order.
  rewrite orb_true_iff, andb_true_iff, Z.ltb_lt, Z.eqb_eq, Z.leb_le. tauto.
Qed.

Lemma listed_for_user_spec (d : Db) (userId : Z) :
  snd (serve (TaskRoutes.userSubtasks userId) d) = d
  /\ StronglySorted before_in_progress_order (listed_for_user d userId)
  /\ (forall s,
        In s (listed_for_user d userId)
        <-> In s (subtasks d)
            /\ Subtask.assigned_to s = Some userId
            /\ exists t, In t (tasks d) /\ Subtask.task_id s = Some (Task.id t)).
Proof.
  unfold listed_for_user, serve, TaskRoutes.userSubtasks, serve_route,
    try_catch.
  destruct (integer d userId) eqn:Hint;
    [rewrite bind_query_on by exact Hint
    |rewrite bind_query_on_raises by exact Hint;
     cbn [cur saved issued fst snd ret];
     split; [reflexivity|]; split; [constructor|];
     intros s; split; [intros []|];
     intros (Hs & Ha & _); exfalso;
     assert (integer d userId = true) as Hheld
       by (apply assignee_integer; apply existsb_exists; exists s;
           split; [exact Hs|]; rewrite Ha; simpl; apply Z.eqb_refl);
     congruence].
  unfold ret. cbn [cur saved issued fst snd].
  split; [reflexivity|].
  rewrite map_map. cbn [TaskRoutes.u_subtask].
  split.
  - apply StronglySorted_map.
    eapply StronglySorted_weaken.
    2: { apply (order_by_sorted
                  (fun a b : Subtask.t * Task.t * option User.t * option User.t =>
                     TaskRoutes.by_progress_then_newest (fst (fst (fst a)))
                                                        (fst (fst (fst b))))).
         - intros a b.
           rewrite !by_progress_then_newest_spec.
           unfold before_in_progress_order. lia.
         - intros a b c.
           rewrite !by_progress_then_newest_spec.
           unfold before_in_progress_order. lia. }
    intros a b H. now apply by_progress_then_newest_spec.
  - intros s. rewrite in_map_iff. split.
    + intros ((((s0 & t) & ou) & ouc) & <- & Hin). cbn [fst].
      apply In_order_by, filter_In in Hin. destruct Hin as (Hin & Hw).
      apply In_left_join in Hin. destruct Hin as (Hin & _).
      apply In_left_join in Hin. destruct Hin as (Hst & _).
      apply In_inner_join in Hst. destruct Hst as (Hs & Ht & Hon).
      cbn [fst snd] in Hw.
      split; [exact Hs|]. split; [now apply col_is_eq|].
      exists t. split; [exact Ht|]. now apply col_is_eq.
    + intros (Hs & Ha & t & Ht & Htid).
      assert (Hst : In (s, t) (inner_join
                                 (fun s0 t0 => col_is (Subtask.task_id s0) (Task.id t0))
                                 (subtasks d) (tasks d))).
      { apply In_inner_join. split; [exact Hs|]. split; [exact Ht|].
        now apply col_is_eq. }
      destruct (left_join_total
                  (fun (st : Subtask.t * Task.t) u =>
                     col_is (Subtask.assigned_to (fst st)) (User.id u))
                  _ (users d) (s, t) Hst) as (ou & Hin1).
      destruct (left_join_total
                  (fun (stu : Subtask.t * Task.t * option User.t) uc =>
                     col_is (Task.created_by (snd (fst stu))) (User.id uc))
                  _ (users d) (s, t, ou) Hin1) as (ouc & Hin2).
      exists (s, t, ou, ouc). split; [reflexivity|].
      apply In_order_by, filter_In. split; [exact Hin2|].
      cbn [fst snd]. now apply col_is_eq.
Qed.

(** X11.  The route for a user's subtasks lists exactly the subtasks assigned to
    the user that belong to an existing task, ordered by progress
    (not_started, assigned, in_progress, testing, completed) and, within
    one progress value, newest first; it changes nothing. *)
Theorem userSubtasks_sorted_and_exact (d : Db) (userId : Z) :
  snd (serve (TaskRoutes.userSubtasks userId) d) = d
  /\ StronglySorted before_in_progress_order (listed_for_user d userId)
  /\ (forall s,
        In s (listed_for_user d userId)
        <-> In s (subtasks d)
            /\ Subtask.assigned_to s = Some userId
            /\ exists t, In t (tasks d) /\ Subtask.task_id s = Some (Task.id t)).
Proof.
  exact (listed_for_user_spec d userId).
Qed.

(** X12.  A subtask that a user has claimed is on the user's own list, in
    progress, provided its task exists. *)
Theorem claimed_subtask_listed_for_user (d : Db) (subtaskId uid : Z)
    (s : Subtask.t) (t : Task.t) :
  uid <> 0 ->
  subtask_by_id d subtaskId = Some s ->
  Subtask.status s = Status.available ->
  user_exists d uid ->
  task_of d s = Some t ->
  let d1 := snd (fst (run (Tasks.takeSubtask subtaskId (Some uid)) d)) in
  In (reassigned (Some uid) Status.taken Progress.in_progress s)
     (listed_for_user d1 uid).
Proof.
  intros Huid Hs Hav Hu Ht d1.
  destruct (take_available d subtaskId uid Huid s Hs Hav Hu) as (details & E).
  subst d1. rewrite E. cbn [fst snd].
  apply listed_for_user_spec.
  unfold subtask_by_id in Hs. apply find_some in Hs. destruct Hs as (Hin & Hid).
  unfold task_of in Ht. apply find_some in Ht. destruct Ht as (Htin & Hon).
  split; [|split; [reflexivity|]].
  - unfold reassign_in, with_subtasks. cbn [subtasks].
    apply in_map_iff. exists s. split; [|exact Hin]. now rewrite Hid.
  - exists t. split; [exact Htin|]. cbn. now apply col_is_eq.
Qed.

(** Member 2 claims subtask 1 of the sample database. *)
Lemma claimed_subtask_listed_for_user_witness :
  listed_for_user (snd (fst (run (Tasks.takeSubtask 1 (Some 2)) Sample.db))) 2
  = [Sample.subtask 1 1 (Some 2) Status.taken Progress.in_progress]
  /\ In (Sample.subtask 1 1 (Some 2) Status.taken Progress.in_progress)
        (listed_for_user
           (snd (fst (run (Tasks.takeSubtask 1 (Some 2)) Sample.db))) 2).
Proof.
  split; [reflexivity|].
  apply (claimed_subtask_listed_for_user Sample.db 1 2
           (Sample.subtask 1 1 None Status.available Progress.not_started)
           (Task.mk 1 "T1" None "AB12CD" (Some 1) 5 "active" 5)).
  - discriminate.
  - reflexivity.
  - reflexivity.
  - exists (Sample.user 2 "b@x.com" Role.member "AB12CD" Membership.pending).
    split; [simpl; tauto | reflexivity].
  - reflexivity.
Defined.

(* ------------------------------------------------------------------ *)
(** ** Registering a leader *)

(** X13.  registerLeader answers 400 when the email is taken.  Otherwise the
    leader's user row and the team row are written in one transaction.
    When email, name, team name and the hash of the password have at most
    255 characters and the generated team code at most 10, and the
    sequence of users.id has an id to give: if the code is new and the
    sequence of teams.id has an id to give, both rows are there
    afterwards, the user approved and a leader, the team pointing at the
    user; if a team already has the code, or the sequence of teams.id has
    no id to give, the INSERT of the team raises, the answer is 500 and
    the user row inserted before it is gone again, the four tables being
    as before (the id that the sequence gave the row is not given back).
    When one of the texts does not fit its column, or the sequence of
    users.id has no id to give, an INSERT raises, the answer is 500 and
    the four tables are as before. *)
Theorem registerLeader_all_or_nothing (E : Env) (S : Serial) (d : Db)
    (teamCode email password name teamName : string) :
  (forall u,
      user_by_email d email = Some u ->
      serve (AuthRoutes.registerLeader E S teamCode email password name teamName) d
      = (Failure 400 "User already exists", d))
  /\ (user_by_email d email = None ->
      (String.length email <= 255)%nat ->
      (String.length (bcrypt_hash E password 10) <= 255)%nat ->
      (String.length name <= 255)%nat ->
      (String.length teamCode <= 10)%nat ->
      (String.length teamName <= 255)%nat ->
      users_id_free d = true ->
      ((exists t, team_by_code d teamCode = Some t)
       \/ teams_id_free S d = false ->
       let r := serve (AuthRoutes.registerLeader E S teamCode email password
                         name teamName) d in
       fst r = Failure 500 "Internal server error"
       /\ users (snd r) = users d /\ teams (snd r) = teams d
       /\ tasks (snd r) = tasks d /\ subtasks (snd r) = subtasks d
       /\ users_id_seq (snd r) = users_id_seq d + 1)
      /\ (team_by_code d teamCode = None ->
          teams_id_free S d = true ->
          let leader := User.mk (users_id_seq d + 1) email
                                (bcrypt_hash E password 10) name Role.leader
                                teamCode (NOW E) Membership.approved
                                None None None None (NOW E) in
          serve (AuthRoutes.registerLeader E S teamCode email password name
                                           teamName) d
          = (Json ("Registration successful", teamCode, leader),
             mkDb (users d ++ [leader])
                  (teams d ++ [Team.mk (teams_id_seq S + 1) teamCode teamName
                                       (Some (users_id_seq d + 1)) (NOW E)])
                  (tasks d) (subtasks d) (users_id_seq d + 1))))
  /\ (user_by_email d email = None ->
      varchar 255 email = None
      \/ varchar 255 (bcrypt_hash E password 10) = None
      \/ varchar 255 name = None
      \/ varchar 10 teamCode = None
      \/ varchar 255 teamName = None
      \/ users_id_free d = false ->
      let r := serve (AuthRoutes.registerLeader E S teamCode email password
                        name teamName) d in
      fst r = Failure 500 "Internal server error"
      /\ users (snd r) = users d /\ teams (snd r) = teams d
      /\ tasks (snd r) = tasks d /\ subtasks (snd r) = subtasks d).
Proof.
  unfold serve, AuthRoutes.registerLeader, serve_route, try_catch, bind,
    Auth.select_user_by_email, AuthRoutes.insert_user_returning_all,
    AuthRoutes.insert_team, begin_, commit, rollback, throw, ret,
    effect, select, statement, user_by_email, team_by_code,
    users_id_free, teams_id_free, has_user.
  split; [|split].
  - intros u Hu. destruct (filter_cons_find _ _ _ Hu) as (rest & Hf).
    cbn. rewrite Hf. reflexivity.
  - intros Hu Hemail Hhash Hname Hcode Hteamname Hfree.
    pose proof (existsb_find_none _ _ Hu) as Hex.
    apply filter_nil_find in Hu.
    apply andb_true_iff in Hfree. destruct Hfree as (Hint & Hkey).
    apply negb_true_iff in Hkey.
    split.
    + intros Hno.
      cbn. rewrite Hu. cbn.
      rewrite (varchar_fits _ _ Hemail), (varchar_fits _ _ Hhash),
        (varchar_fits _ _ Hname), (varchar_fits _ _ Hcode).
      rewrite Hint, Hkey, Hex. cbn.
      rewrite binding_1
        by (apply user_integer; cbn [users]; apply existsb_app_last;
            cbn [User.id]; apply Z.eqb_refl).
      rewrite ?(varchar_fits _ _ Hcode), ?(varchar_fits _ _ Hteamname).
      destruct (int4 (teams_id_seq S + 1)) eqn:Htid; cbn;
        [|repeat split].
      destruct (existsb (fun t => Team.id t =? teams_id_seq S + 1) (teams d))
        eqn:Htkey; cbn; [repeat split|].
      destruct Hno as [(t & Ht) | Hno]; [|discriminate Hno].
      rewrite (existsb_find_some _ _ _ Ht). cbn. repeat split.
    + intros Ht Htfree.
      pose proof (existsb_find_none _ _ Ht) as Hteam.
      apply andb_true_iff in Htfree. destruct Htfree as (Htid & Htkey).
      apply negb_true_iff in Htkey.
      cbn. rewrite Hu. cbn.
      rewrite (varchar_fits _ _ Hemail), (varchar_fits _ _ Hhash),
        (varchar_fits _ _ Hname), (varchar_fits _ _ Hcode).
      rewrite Hint, Hkey, Hex. cbn.
      rewrite binding_1
        by (apply user_integer; cbn [users]; apply existsb_app_last;
            cbn [User.id]; apply Z.eqb_refl).
      rewrite ?(varchar_fits _ _ Hcode), ?(varchar_fits _ _ Hteamname).
      cbn. rewrite Htid, Htkey. cbn. rewrite Hteam. cbn.
      rewrite existsb_app. cbn. rewrite Z.eqb_refl, orb_true_r. cbn.
      reflexivity.
  - intros Hu Hlong.
    apply filter_nil_find in Hu.
    cbn. rewrite Hu. cbn.
    destruct (varchar 255 email) as [email'|] eqn:Hemail;
      [|cbn; repeat split].
    destruct (varchar 255 (bcrypt_hash E password 10)) as [hash'|] eqn:Hhash;
      [|cbn; repeat split].
    destruct (varchar 255 name) as [name'|] eqn:Hname;
      [|cbn; repeat split].
    destruct (varchar 10 teamCode) as [code'|] eqn:Hcode;
      [|cbn; repeat split].
    destruct (int4 (users_id_seq d + 1)) eqn:Hint; cbn;
      [|repeat split].
    destruct (existsb (fun u => User.id u =? users_id_seq d + 1) (users d))
      eqn:Hkey; cbn; [repeat split|].
    destruct (existsb (fun u => String.eqb (User.email u) email') (users d));
      [cbn; repeat split|].
    cbn.
    rewrite binding_1
      by (apply user_integer; cbn [users]; apply existsb_app_last;
          cbn [User.id]; apply Z.eqb_refl).
    destruct Hlong as [H | [H | [H | [H | [H | H]]]]]; try congruence;
      [|cbn in H; discriminate H].
    rewrite H. cbn. repeat split.
Qed.

(** In the sample database the code AB12CD is taken and QQ11QQ is not; a
    team name of 256 characters does not fit its column. *)
Lemma registerLeader_all_or_nothing_witness :
  (let r := serve (AuthRoutes.registerLeader Sample.env (mkSerial 2 2 3)
                     "AB12CD" "z@z.com" "pw" "Zed" "TeamQ") Sample.db in
   fst r = Failure 500 "Internal server error"
   /\ users (snd r) = users Sample.db /\ teams (snd r) = teams Sample.db
   /\ tasks (snd r) = tasks Sample.db /\ subtasks (snd r) = subtasks Sample.db
   /\ users_id_seq (snd r) = 5)
  /\ serve (AuthRoutes.registerLeader Sample.env (mkSerial 2 2 3)
              "QQ11QQ" "z@z.com" "pw" "Zed" "TeamQ") Sample.db
     = (Json ("Registration successful", "QQ11QQ",
              User.mk 5 "z@z.com" "h:pw" "Zed" Role.leader "QQ11QQ" 100
                      Membership.approved None None None None 100),
        mkDb (users Sample.db
              ++ [User.mk 5 "z@z.com" "h:pw" "Zed" Role.leader "QQ11QQ" 100
                          Membership.approved None None None None 100])
             (teams Sample.db ++ [Team.mk 3 "QQ11QQ" "TeamQ" (Some 5) 100])
             (tasks Sample.db) (subtasks Sample.db) 5)
  /\ (let r := serve (AuthRoutes.registerLeader Sample.env (mkSerial 2 2 3)
                        "QQ11QQ" "z@z.com" "pw" "Zed" (Sample.text 256))
                     Sample.db in
      fst r = Failure 500 "Internal server error"
      /\ users (snd r) = users Sample.db /\ teams (snd r) = teams Sample.db
      /\ tasks (snd r) = tasks Sample.db
      /\ subtasks (snd r) = subtasks Sample.db).
Proof.
  split; [|split].
  - destruct (registerLeader_all_or_nothing Sample.env (mkSerial 2 2 3)
                Sample.db "AB12CD" "z@z.com" "pw" "Zed" "TeamQ")
      as (_ & H & _).
    destruct H as (H & _);
      [ reflexivity | vm_compute; lia | vm_compute; lia | vm_compute; lia
      | vm_compute; lia | vm_compute; lia | reflexivity | ].
    apply H. left.
    exists (Team.mk 1 "AB12CD" "TeamA" (Some 1) 0). reflexivity.
  - destruct (registerLeader_all_or_nothing Sample.env (mkSerial 2 2 3)
                Sample.db "QQ11QQ" "z@z.com" "pw" "Zed" "TeamQ")
      as (_ & H & _).
    destruct H as (_ & H);
      [ reflexivity | vm_compute; lia | vm_compute; lia | vm_compute; lia
      | vm_compute; lia | vm_compute; lia | reflexivity | ].
    apply H; reflexivity.
  - destruct (registerLeader_all_or_nothing Sample.env (mkSerial 2 2 3)
                Sample.db "QQ11QQ" "z@z.com" "pw" "Zed" (Sample.text 256))
      as (_ & _ & H).
    apply H; [reflexivity|].
    right. right. right. right. left. reflexivity.
Defined.

(* ------------------------------------------------------------------ *)
(** ** Checking a member's status *)

(** X14.  check-member-status answers 400 when the email or the team code is
    empty.  For an email and a team code that are not, it tells what login
    will do without looking at a password: when it says canLogin, login
    with a password that verifies answers 200; when it says not, login
    answers 401 or 403 whatever the password.  In no case does it change
    anything. *)
Theorem checkMemberStatus_agrees_with_login (E : Env) (d : Db)
    (email teamCode : string) :
  (email = "" \/ teamCode = "" ->
   serve (AuthRoutes.checkMemberStatus email teamCode) d
   = (Failure 400 "Email and team code are required", d))
  /\ (email <> "" ->
      teamCode <> "" ->
      snd (serve (AuthRoutes.checkMemberStatus email teamCode) d) = d
      /\ (can_login d email teamCode = true ->
          forall password u,
            login_user d email teamCode = Some u ->
            bcrypt_compare E password (User.password u) = true ->
            login_code E d email password teamCode = 200)
      /\ (can_login d email teamCode = false ->
          forall password,
            login_code E d email password teamCode = 401
            \/ login_code E d email password teamCode = 403)).
Proof.
  split.
  { intros H.
    unfold serve, AuthRoutes.checkMemberStatus, serve_route, try_catch, blank.
    assert (String.eqb email "" || String.eqb teamCode "" = true) as ->;
      [|reflexivity].
    destruct H as [-> | ->]; [reflexivity | apply orb_true_r]. }
  intros He Ht.
  apply String.eqb_neq in He. apply String.eqb_neq in Ht.
  unfold can_login, login_code, serve, AuthRoutes.checkMemberStatus,
    serve_route, try_catch, blank.
  rewrite He, Ht. cbn [orb].
  unfold bind, AuthRoutes.select_status_by_email_and_team, query, effect, ret.
  cbn [cur saved issued].
  unfold run, Auth.login, route, try_catch, bind,
    Auth.select_user_by_email_and_team, select, statement, login_user.
  cbn [cur saved issued].
  destruct (find (fun u => String.eqb (User.email u) email
                           && String.eqb (User.team_code u) teamCode)
                 (users d)) as [u|] eqn:Hu.
  - destruct (filter_cons_find _ _ _ Hu) as (rest & ->). cbn [map].
    split; [destruct (User.role u), (User.status u); reflexivity|]. split.
    + intros Hcan password u0 Heq Hpw. injection Heq as <-.
      rewrite Hpw. cbn [negb].
      destruct (User.role u), (User.status u); try discriminate Hcan;
        reflexivity.
    + intros Hcan password.
      destruct (bcrypt_compare E password (User.password u));
        cbn [negb]; [|left; reflexivity].
      destruct (User.role u), (User.status u); try discriminate Hcan;
        right; reflexivity.
  - rewrite (filter_nil_find _ _ Hu). cbn [map].
    split; [reflexivity|]. split.
    + intros Hcan. discriminate.
    + intros _ password. left. reflexivity.
Qed.

(** In the sample database leader a@x.com can log in, pending member
    b@x.com cannot. *)
Lemma checkMemberStatus_agrees_with_login_witness :
  can_login Sample.db "a@x.com" "AB12CD" = true
  /\ login_code Sample.env Sample.db "a@x.com" "pw" "AB12CD" = 200
  /\ can_login Sample.db "b@x.com" "AB12CD" = false
  /\ (login_code Sample.env Sample.db "b@x.com" "pw" "AB12CD" = 401
      \/ login_code Sample.env Sample.db "b@x.com" "pw" "AB12CD" = 403).
Proof.
  split; [reflexivity|]. split.
  - destruct (checkMemberStatus_agrees_with_login Sample.env Sample.db
                "a@x.com" "AB12CD") as (_ & H).
    destruct H as (_ & H & _); [discriminate | discriminate |].
    apply (H eq_refl "pw"
             (Sample.user 1 "a@x.com" Role.leader "AB12CD" Membership.approved));
      reflexivity.
  - split; [reflexivity|].
    destruct (checkMemberStatus_agrees_with_login Sample.env Sample.db
                "b@x.com" "AB12CD") as (_ & H).
    destruct H as (_ & _ & H); [discriminate | discriminate |].
    apply (H eq_refl "pw").
Defined.

(* ------------------------------------------------------------------ *)
(** ** Deleting a rejected member *)

(** X15.  delete-rejected-member removes a member only while they are rejected:
    for an id that is no INTEGER the DELETE raises and the answer is 500;
    for an INTEGER that no rejected member has (a pending or approved
    member, a leader, nobody) it answers 404 and changes nothing; a
    rejected member to whom a subtask is still assigned is not removed
    either (the DELETE raises on the reference and the answer is 500); a
    rejected member that no row refers to is removed, and only they. *)
Theorem deleteRejectedMember_outcomes (d : Db) (userId : Z) :
  (integer d userId = false ->
   serve (AuthRoutes.deleteRejectedMember userId) d
   = (Failure 500 "Internal server error", d))
  /\ (integer d userId = true ->
      rejected_member d userId = None ->
      serve (AuthRoutes.deleteRejectedMember userId) d
      = (Failure 404 "Rejected member not found", d))
  /\ (forall u s,
        rejected_member d userId = Some u ->
        In s (subtasks d) ->
        Subtask.assigned_to s = Some userId ->
        (forall u', In u' (users d) -> User.id u' = userId -> u' = u) ->
        serve (AuthRoutes.deleteRejectedMember userId) d
        = (Failure 500 "Internal server error", d))
  /\ (forall u,
        rejected_member d userId = Some u ->
        Auth.user_referenced d userId = false ->
        serve (AuthRoutes.deleteRejectedMember userId) d
        = (Json ("Rejected member deleted permanently", u),
           with_users d
             (filter (fun u' =>
                        negb ((User.id u' =? userId)
                              && Membership.eqb (User.status u') Membership.rejected
                              && Role.eqb (User.role u') Role.member))
                     (users d)))).
Proof.
  assert (Hheld : forall u, rejected_member d userId = Some u ->
                             integer d userId = true).
  { intros u H. apply user_integer.
    pose proof (existsb_find_some _ _ _ H) as Hex.
    revert Hex. apply existsb_weaken. intros a Ha.
    apply andb_true_iff in Ha. destruct Ha as (Ha & _).
    apply andb_true_iff in Ha. tauto. }
  unfold rejected_member in *.
  unfold serve, AuthRoutes.deleteRejectedMember, serve_route,
    try_catch, bind, AuthRoutes.delete_user_where, effect, ret.
  cbn [cur saved issued].
  split; [|split; [|split]].
  - intros Hi. rewrite (binding_raises_1 _ _ _ Hi). reflexivity.
  - intros Hi H. rewrite (binding_1 _ _ _ Hi). cbn [cur saved issued].
    rewrite (existsb_find_none _ _ H), (filter_nil_find _ _ H).
    cbn. unfold with_users.
    replace (filter _ (users d)) with (users d); [now destruct d|].
    clear -H. induction (users d) as [|x l IH]; [reflexivity|].
    simpl in *.
    destruct ((User.id x =? userId)
              && Membership.eqb (User.status x) Membership.rejected
              && Role.eqb (User.role x) Role.member); [discriminate|].
    simpl. now rewrite <- IH.
  - intros u s H Hs Ha Huniq.
    rewrite (binding_1 _ _ _ (Hheld u H)). cbn [cur saved issued].
    rewrite (existsb_find_some _ _ _ H). cbn [andb].
    assert (Hsub : existsb (fun s0 => col_is (Subtask.assigned_to s0) userId)
                           (subtasks d) = true).
    { apply existsb_exists. exists s. split; [exact Hs|]. now apply col_is_eq. }
    rewrite Hsub, !orb_true_r. cbn [andb].
    assert (Hgone : existsb (fun u0 => User.id u0 =? userId)
                      (filter (fun u0 =>
                                 negb ((User.id u0 =? userId)
                                       && Membership.eqb (User.status u0) Membership.rejected
                                       && Role.eqb (User.role u0) Role.member))
                              (users d)) = false).
    { match goal with |- ?x = false => destruct x eqn:Ex end; [|reflexivity].
      apply existsb_exists in Ex. destruct Ex as (u' & Hin & Hid).
      apply filter_In in Hin. destruct Hin as (Hin & Hn).
      apply Z.eqb_eq in Hid. rewrite (Huniq u' Hin Hid) in Hn.
      apply find_some in H. destruct H as (_ & H). rewrite H in Hn.
      discriminate. }
    rewrite Hgone. reflexivity.
  - intros u H Href.
    rewrite (binding_1 _ _ _ (Hheld u H)). cbn [cur saved issued].
    destruct (filter_cons_find _ _ _ H) as (rest & Hf).
    unfold Auth.user_referenced in Href.
    apply orb_false_iff in Href. destruct Href as (Href & Hsub).
    apply orb_false_iff in Href. destruct Href as (Href & Htask).
    apply orb_false_iff in Href. destruct Href as (Husers & Hteam).
    rewrite Hteam, Htask, Hsub.
    assert (Hrem : existsb (fun u0 => col_is (User.approved_by u0) userId
                                      || col_is (User.rejected_by u0) userId)
                     (filter (fun u0 =>
                                negb ((User.id u0 =? userId)
                                      && Membership.eqb (User.status u0) Membership.rejected
                                      && Role.eqb (User.role u0) Role.member))
                             (users d))
                   && negb (existsb (fun u0 => User.id u0 =? userId)
                              (filter (fun u0 =>
                                         negb ((User.id u0 =? userId)
                                               && Membership.eqb (User.status u0) Membership.rejected
                                               && Role.eqb (User.role u0) Role.member))
                                      (users d))) = false).
    { destruct (existsb (fun u0 => User.id u0 =? userId) (filter _ (users d)))
        eqn:Hid; [apply andb_false_r|].
      rewrite andb_true_r.
      match goal with |- ?x = false => destruct x eqn:Ex end; [|reflexivity].
      apply existsb_exists in Ex. destruct Ex as (u' & Hin & Hr).
      assert (Hne : (User.id u' =? userId) = false).
      { destruct (User.id u' =? userId) eqn:E; [|reflexivity].
        assert (existsb (fun u0 => User.id u0 =? userId) (filter
                  (fun u0 => negb ((User.id u0 =? userId)
                                   && Membership.eqb (User.status u0) Membership.rejected
                                   && Role.eqb (User.role u0) Role.member))
                  (users d)) = true) as Hc.
        { apply existsb_exists. now exists u'. }
        congruence. }
      apply filter_In in Hin. destruct Hin as (Hin & _).
      assert (existsb (fun u0 => negb (User.id u0 =? userId)
                                 && (col_is (User.approved_by u0) userId
                                     || col_is (User.rejected_by u0) userId))
                      (users d) = true) as Hc.
      { apply existsb_exists. exists u'. split; [exact Hin|].
        now rewrite Hne, Hr. }
      congruence. }
    rewrite !orb_false_r.
    rewrite <- andb_assoc, Hrem, andb_false_r. rewrite Hf. reflexivity.
Qed.

(** Member 4 of the sample database has subtasks 2 and 3, member 2 has
    none; each is rejected by leader 1 first. *)
Lemma deleteRejectedMember_outcomes_witness :
  serve (AuthRoutes.deleteRejectedMember 4) (sample_after_rejecting 4)
  = (Failure 500 "Internal server error", sample_after_rejecting 4)
  /\ map User.id
         (users (snd (serve (AuthRoutes.deleteRejectedMember 2)
                            (sample_after_rejecting 2))))
     = [1; 3; 4]
  /\ serve (AuthRoutes.deleteRejectedMember 4) Sample.db
     = (Failure 404 "Rejected member not found", Sample.db)
  /\ serve (AuthRoutes.deleteRejectedMember 2147483648) Sample.db
     = (Failure 500 "Internal server error", Sample.db).
Proof.
  split; [|split; [|split]].
  - destruct (deleteRejectedMember_outcomes (sample_after_rejecting 4) 4)
      as (_ & _ & H & _).
    apply (H (User.mk 4 "d@x.com" "h:pw" "N" Role.member "AB12CD" 0
                      Membership.rejected None None (Some 1) (Some 100) 100)
             (Sample.subtask 2 1 (Some 4) Status.taken Progress.in_progress)).
    + reflexivity.
    + simpl. tauto.
    + reflexivity.
    + intros u' Hin Hid. simpl in Hin.
      destruct Hin as [<- | [<- | [<- | [<- | []]]]];
        try discriminate Hid; reflexivity.
  - destruct (deleteRejectedMember_outcomes (sample_after_rejecting 2) 2)
      as (_ & _ & _ & H).
    rewrite (H (User.mk 2 "b@x.com" "h:pw" "N" Role.member "AB12CD" 0
                        Membership.rejected None None (Some 1) (Some 100) 100));
      reflexivity.
  - destruct (deleteRejectedMember_outcomes Sample.db 4) as (_ & H & _).
    apply H; reflexivity.
  - destruct (deleteRejectedMember_outcomes Sample.db 2147483648) as (H & _).
    apply H. reflexivity.
Defined.

(* ------------------------------------------------------------------ *)
(** ** Approving a rejected member *)

(** X16.  approve-rejected-member answers 400 when userId, teamCode or
    approvedBy is missing.  Otherwise, when one of the two ids is no
    INTEGER the UPDATE raises and the answer is 500.  For INTEGER ids the
    route is guarded on the current status: for a member of the team who
    is rejected, and an approver that is a user, it answers 200, makes
    them approved, records the acting user and the time and clears
    rejected_by and rejected_at; for a member who is pending or approved,
    or an id that is no member of the team, it updates no row, answers 404
    and leaves the database as it was. *)
Theorem reApprove_outcomes (E : Env) (d : Db) (teamCode : string) :
  (forall userId approvedBy,
     falsy userId = true \/ teamCode = "" \/ falsy approvedBy = true ->
     run (Auth.reApprove E userId teamCode approvedBy) d
     = (fail 400 "Missing required fields", d, []))
  /\ (forall uid approvedBy,
        uid <> 0 ->
        teamCode <> "" ->
        approvedBy <> 0 ->
        (integer d uid = false \/ integer d approvedBy = false ->
         run (Auth.reApprove E (Some uid) teamCode (Some approvedBy)) d
         = (fail 500 "Internal server error", d,
            [BEGIN; UPDATE_user_reapprove; ROLLBACK]))
        /\ (integer d uid = true ->
            integer d approvedBy = true ->
            (forall u, In u (users d) -> User.id u = uid ->
                       User.team_code u = teamCode -> User.role u = Role.member ->
                       User.status u <> Membership.rejected) ->
            run (Auth.reApprove E (Some uid) teamCode (Some approvedBy)) d
            = (fail 404 "Rejected member not found or already processed", d,
               [BEGIN; UPDATE_user_reapprove; ROLLBACK]))
        /\ (forall u,
              member_of_team d uid teamCode = Some u ->
              User.status u = Membership.rejected ->
              (forall u', In u' (users d) -> User.id u' = uid -> u' = u) ->
              user_exists d approvedBy ->
              run (Auth.reApprove E (Some uid) teamCode (Some approvedBy)) d
              = (ok (json_user "Member approved successfully"
                               (reapproved E approvedBy u)),
                 with_users d
                   (map (fun u' => if User.id u' =? uid
                                   then reapproved E approvedBy u' else u')
                        (users d)),
                 [BEGIN; UPDATE_user_reapprove; COMMIT]))).
Proof.
  split.
  { intros userId approvedBy H.
    unfold run, Auth.reApprove, Auth.membership_route, route, try_catch.
    assert (falsy userId || String.eqb teamCode "" || falsy approvedBy = true)
      as ->; [|reflexivity].
    destruct H as [-> | [-> | ->]];
      [reflexivity | now rewrite orb_true_r | apply orb_true_r]. }
  intros uid approvedBy Huid Htc Hby.
  apply String.eqb_neq in Htc.
  unfold run, Auth.reApprove, Auth.membership_route, route, try_catch.
  rewrite (falsy_some uid Huid), (falsy_some approvedBy Hby), Htc.
  unfold bind, begin_, commit, rollback, Auth.update_user_reapprove,
    Auth.update_users, statement.
  cbn.
  split; [|split].
  - intros Hi.
    rewrite binding_raises
      by (cbn [forallb]; destruct Hi as [-> | ->];
          [apply andb_false_r | reflexivity]).
    cbn. now rewrite db_eta.
  - intros Hi Hib Hnone. rewrite (binding_2 _ _ _ _ Hib Hi). cbn.
    assert (Hex : existsb (fun u => (User.id u =? uid)
                                    && String.eqb (User.team_code u) teamCode
                                    && Membership.eqb (User.status u) Membership.rejected
                                    && Role.eqb (User.role u) Role.member)
                          (users d) = false).
    { match goal with |- ?x = false => destruct x eqn:Ex end; [|reflexivity].
      apply existsb_exists in Ex. destruct Ex as (u & Hin & Hu).
      apply andb_true_iff in Hu. destruct Hu as (Hu & Hr).
      apply andb_true_iff in Hu. destruct Hu as (Hu & Hst).
      apply andb_true_iff in Hu. destruct Hu as (Hi' & Ht).
      apply Z.eqb_eq in Hi'. apply String.eqb_eq in Ht.
      apply Role_eqb_eq in Hr.
      exfalso. apply (Hnone u Hin Hi' Ht Hr).
      destruct (User.status u); try discriminate Hst. reflexivity. }
    rewrite Hex. cbn. rewrite (filter_existsb_false _ _ Hex). cbn.
    now rewrite db_eta.
  - intros u Hu Hst Huniq Hactor.
    apply user_exists_existsb in Hactor.
    unfold member_of_team in Hu.
    pose proof (find_some _ _ Hu) as (Hin & Hp).
    apply andb_true_iff in Hp. destruct Hp as (Hp & Hr).
    apply andb_true_iff in Hp. destruct Hp as (Hi & Ht).
    assert (Hint : integer d uid = true).
    { apply user_integer, existsb_exists. now exists u. }
    rewrite (binding_2 _ _ _ _ (user_integer d approvedBy Hactor) Hint). cbn.
    assert (Hhit : forall u',
               In u' (users d) ->
               ((User.id u' =? uid)
                && String.eqb (User.team_code u') teamCode
                && Membership.eqb (User.status u') Membership.rejected
                && Role.eqb (User.role u') Role.member)
               = (User.id u' =? uid)).
    { intros u' Hin'. destruct (User.id u' =? uid) eqn:Eid; [|reflexivity].
      apply Z.eqb_eq in Eid. rewrite (Huniq u' Hin' Eid).
      now rewrite Ht, Hst, Hr. }
    assert (Hex : existsb (fun u' => (User.id u' =? uid)
                                     && String.eqb (User.team_code u') teamCode
                                     && Membership.eqb (User.status u') Membership.rejected
                                     && Role.eqb (User.role u') Role.member)
                          (users d) = true).
    { apply existsb_exists. exists u. split; [exact Hin|].
      now rewrite Hi, Ht, Hst, Hr. }
    rewrite Hex, Hactor. cbn.
    rewrite (filter_ext_in _ (fun u' => User.id u' =? uid) (users d) Hhit).
    assert (Hfirst : exists rest,
               filter (fun u' => User.id u' =? uid) (users d) = u :: rest).
    { assert (Hf : find (fun u' => User.id u' =? uid) (users d) = Some u).
      { destruct (find (fun u' => User.id u' =? uid) (users d)) as [u0|] eqn:F.
        - apply find_some in F. destruct F as (Hin0 & Hid0).
          apply Z.eqb_eq in Hid0. now rewrite (Huniq u0 Hin0 Hid0).
        - pose proof (find_none _ _ F u Hin) as Hc. simpl in Hc. congruence. }
      now apply filter_cons_find. }
    destruct Hfirst as (rest & ->). cbn.
    unfold with_users, reapproved.
    rewrite (map_ext_in _ (fun u' => if User.id u' =? uid
                                     then reapproved E approvedBy u' else u')
               (users d)).
    + reflexivity.
    + intros u' Hin'. now rewrite (Hhit u' Hin').
Qed.

(** Leader 1 approves member 4 again after having rejected them; on the
    sample database itself, where member 4 is approved, the same call
    finds nothing to do. *)
Lemma reApprove_outcomes_witness :
  run (Auth.reApprove Sample.env (Some 4) "AB12CD" (Some 1)) Sample.db
  = (fail 404 "Rejected member not found or already processed", Sample.db,
     [BEGIN; UPDATE_user_reapprove; ROLLBACK])
  /\ option_map User.status
       (user_by_id
          (snd (fst (run (Auth.reApprove Sample.env (Some 4) "AB12CD" (Some 1))
                         (sample_after_rejecting 4))))
          4)
     = Some Membership.approved.
Proof.
  split.
  - destruct (reApprove_outcomes Sample.env Sample.db "AB12CD") as (_ & H).
    destruct (H 4 1) as (_ & H1 & _);
      [discriminate | discriminate | discriminate |].
    apply H1; [reflexivity | reflexivity |].
    intros u Hin Hid _ _. simpl in Hin.
    destruct Hin as [<- | [<- | [<- | [<- | []]]]];
      try discriminate Hid; discriminate.
  - destruct (reApprove_outcomes Sample.env (sample_after_rejecting 4) "AB12CD")
      as (_ & H).
    destruct (H 4 1) as (_ & _ & H1);
      [discriminate | discriminate | discriminate |].
    rewrite (H1 (User.mk 4 "d@x.com" "h:pw" "N" Role.member "AB12CD" 0
                         Membership.rejected None None (Some 1) (Some 100) 100)).
    + reflexivity.
    + reflexivity.
    + reflexivity.
    + intros u' Hin Hid. simpl in Hin.
      destruct Hin as [<- | [<- | [<- | [<- | []]]]];
        try discriminate Hid; reflexivity.
    + exists (Sample.user 1 "a@x.com" Role.leader "AB12CD" Membership.approved).
      split; [simpl; tauto | reflexivity].
Defined.

(* ------------------------------------------------------------------ *)
(** ** The listings of members *)

Lemma In_members_with_status (d : Db) (teamCode : string)
    (status : Membership.t) (i : Z) :
  In i (map User.id (AuthRoutes.members_with_status d teamCode status))
  <-> member_with_status d teamCode status i.
Proof.
  unfold AuthRoutes.members_with_status, member_with_status.
  rewrite in_map_iff. split.
  - intros (u & Hid & Hin). apply filter_In in Hin. destruct Hin as (Hin & Hp).
    apply andb_true_iff in Hp. destruct Hp as (Hp & Hs).
    apply andb_true_iff in Hp. destruct Hp as (Ht & Hr).
    apply String.eqb_eq in Ht. apply Role_eqb_eq in Hr.
    exists u. repeat split; try assumption.
    destruct (User.status u), status; try discriminate Hs; reflexivity.
  - intros (u & Hin & Hid & Ht & Hr & Hs). exists u. split; [exact Hid|].
    apply filter_In. split; [exact Hin|].
    rewrite Ht, Hr, Hs, String.eqb_refl. now destruct status.
Qed.

Lemma In_map_order_by {A B} (f : A -> B) (le : A -> A -> bool) (l : list A)
    (y : B) :
  In y (map f (Tasks.order_by le l)) <-> In y (map f l).
Proof.
  rewrite !in_map_iff. split; intros (x & Hx & Hin); exists x;
    (split; [exact Hx|]); now apply In_order_by in Hin || apply In_order_by.
Qed.

Lemma member_ids_spec (d : Db) (teamCode : string) (i : Z) :
  (In i (approved_ids d teamCode)
   <-> member_with_status d teamCode Membership.approved i)
  /\ (In i (pending_ids d teamCode)
      <-> member_with_status d teamCode Membership.pending i)
  /\ (In i (rejected_ids d teamCode)
      <-> member_with_status d teamCode Membership.rejected i).
Proof.
  unfold approved_ids, pending_ids, rejected_ids, serve,
    AuthRoutes.allMembers, AuthRoutes.pendingRequests,
    AuthRoutes.rejectedMembers, serve_route, try_catch, bind, query, effect, ret.
  cbn [cur saved issued fst snd].
  rewrite !map_map. cbn [AuthRoutes.m_id fst].
  split; [|split].
  - rewrite (In_map_order_by User.id). apply In_members_with_status.
  - rewrite (In_map_order_by User.id). apply In_members_with_status.
  - rewrite (In_map_order_by User.id). apply In_members_with_status.
Qed.

(** X17.  The three listings sort a team's members by status: all-members has
    exactly the approved members, pending-requests the pending ones,
    rejected-members the rejected ones; a leader, or a member of another
    team, is on none of them. *)
Theorem member_listings_by_status (d : Db) (teamCode : string) (i : Z) :
  (In i (approved_ids d teamCode)
   <-> member_with_status d teamCode Membership.approved i)
  /\ (In i (pending_ids d teamCode)
      <-> member_with_status d teamCode Membership.pending i)
  /\ (In i (rejected_ids d teamCode)
      <-> member_with_status d teamCode Membership.rejected i).
Proof.
  exact (member_ids_spec d teamCode i).
Qed.

(* ------------------------------------------------------------------ *)
(** ** From registration to login *)

Lemma filter_map_preserve {A} (p : A -> bool) (g : A -> A) (l : list A) :
  (forall a, p (g a) = p a) ->
  filter p (map g l) = map g (filter p l).
Proof.
  intros Hg. induction l as [|a l IH]; simpl; [reflexivity|].
  rewrite Hg. destruct (p a); simpl; now rewrite IH.
Qed.

Lemma filter_none_of {A} (p q : A -> bool) (l : list A) :
  find q l = None ->
  (forall a, p a = true -> q a = true) ->
  filter p l = [].
Proof.
  intros Hq Hpq. induction l as [|a l IH]; simpl in *; [reflexivity|].
  destruct (q a) eqn:Eq; [discriminate|].
  destruct (p a) eqn:Ep.
  - rewrite (Hpq a Ep) in Eq. discriminate.
  - now apply IH.
Qed.

(** X18.  A member's way in.  Someone registers with the code of an existing
    team, an email that is not taken, and an email, a name and a password
    hash of at most 255 characters (a team code has at most 10), the
    sequence of users.id having an id to give: until a decision is made their login is answered 403 and they are on the
    team's list of pending requests; once any existing user has approved
    them through approve-member, the same login is answered 200 and they
    are on the list of members. *)
Theorem member_onboarding (E : Env) (d : Db)
    (email password name teamCode : string) (approvedBy : Z) (t : Team.t) :
  teamCode <> "" ->
  team_by_code d teamCode = Some t ->
  user_by_email d email = None ->
  (String.length email <= 255)%nat ->
  (String.length (bcrypt_hash E password 10) <= 255)%nat ->
  (String.length name <= 255)%nat ->
  (String.length teamCode <= 10)%nat ->
  users_id_free d = true ->
  users_id_seq d + 1 <> 0 ->
  approvedBy <> 0 ->
  user_exists d approvedBy ->
  bcrypt_compare E password (bcrypt_hash E password 10) = true ->
  let newId := users_id_seq d + 1 in
  let d1 := snd (fst (run (Auth.registerMember E email password name teamCode) d)) in
  let approval := run (Auth.approveMember E (Some newId) teamCode (Some approvedBy)) d1 in
  let d2 := snd (fst approval) in
  code (fst (fst (run (Auth.login E email password teamCode) d1))) = 403
  /\ In newId (pending_ids d1 teamCode)
  /\ code (fst (fst approval)) = 200
  /\ code (fst (fst (run (Auth.login E email password teamCode) d2))) = 200
  /\ In newId (approved_ids d2 teamCode).
Proof.
  intros Htc Ht Hu Hemail Hhash Hname Hcode Hfree Hnew Hby Hactor Hpw
         newId d1 approval d2.
  unfold users_id_free, has_user in Hfree.
  apply andb_true_iff in Hfree. destruct Hfree as (Hint & Hkey).
  apply negb_true_iff in Hkey.
  set (row := User.mk newId email (bcrypt_hash E password 10) name Role.member
                      teamCode (NOW E) Membership.pending None None None None
                      (NOW E)).
  set (d1' := mkDb (users d ++ [row]) (teams d) (tasks d) (subtasks d) newId).
  assert (Hd1 : d1 = d1').
  { subst d1.
    destruct (filter_cons_find _ _ _ Ht) as (trest & Hft).
    pose proof (existsb_find_none _ _ Hu) as Hex.
    pose proof (filter_nil_find _ _ Hu) as Hfu.
    unfold run, Auth.registerMember, route, try_catch, bind,
      Auth.select_team_by_code, Auth.select_user_by_email,
      Auth.insert_user, select, statement.
    cbn. unfold team_by_code in Hft. rewrite Hft. cbn.
    unfold user_by_email in Hfu, Hex. rewrite Hfu. cbn.
    rewrite (varchar_fits _ _ Hemail), (varchar_fits _ _ Hhash),
      (varchar_fits _ _ Hname), (varchar_fits _ _ Hcode).
    rewrite Hint, Hkey, Hex. reflexivity. }
  set (hit := fun u : User.t => (User.id u =? newId)
                                && String.eqb (User.team_code u) teamCode
                                && Role.eqb (User.role u) Role.member).
  set (approve := fun u : User.t =>
         User.mk (User.id u) (User.email u) (User.password u) (User.name u)
                 (User.role u) (User.team_code u) (User.created_at u)
                 Membership.approved (Some approvedBy) (Some (NOW E))
                 (User.rejected_by u) (User.rejected_at u) (NOW E)).
  set (d2' := mkDb (map (fun u => if hit u then approve u else u) (users d ++ [row]))
                   (teams d) (tasks d) (subtasks d) newId).
  assert (Hrowhit : hit row = true).
  { unfold hit, row. cbn. now rewrite Z.eqb_refl, String.eqb_refl. }
  assert (Happroval : code (fst (fst approval)) = 200 /\ d2 = d2').
  { subst d2 approval. rewrite Hd1.
    apply String.eqb_neq in Htc.
    unfold run, Auth.approveMember, Auth.membership_route, route, try_catch.
    rewrite (falsy_some newId Hnew), (falsy_some approvedBy Hby), Htc.
    unfold bind, begin_, commit, Auth.update_user_approve, Auth.update_users,
      statement.
    cbn. fold hit. fold approve.
    assert (Hex : existsb hit (users d ++ [row]) = true).
    { apply existsb_app_last. exact Hrowhit. }
    assert (Hact : existsb (fun u => User.id u =? approvedBy) (users d ++ [row])
                   = true).
    { rewrite existsb_app. apply user_exists_existsb in Hactor.
      now rewrite Hactor. }
    rewrite binding_2;
      [|apply user_integer; exact Hact
       |apply user_integer; cbn [users]; apply existsb_app_last;
        cbn [User.id row]; apply Z.eqb_refl].
    cbn. fold hit. fold approve.
    rewrite Hex, Hact. cbn.
    rewrite filter_app. cbn [filter]. rewrite Hrowhit.
    destruct (filter hit (users d)); cbn; split; reflexivity. }
  destruct Happroval as (Happroved & Hd2).
  assert (Hmatch : forall l,
             filter (fun u => String.eqb (User.email u) email
                              && String.eqb (User.team_code u) teamCode)
                    (users d ++ l)
             = filter (fun u => String.eqb (User.email u) email
                                && String.eqb (User.team_code u) teamCode) l).
  { intros l. rewrite filter_app.
    rewrite (filter_none_of _ (fun u => String.eqb (User.email u) email)
               (users d) Hu); [reflexivity|].
    intros a Ha. apply andb_true_iff in Ha. tauto. }
  split; [|split; [|split; [|split]]].
  - rewrite Hd1.
    unfold run, Auth.login, route, try_catch, bind,
      Auth.select_user_by_email_and_team, select, statement.
    cbn. rewrite Hmatch. cbn. rewrite !String.eqb_refl. cbn.
    rewrite Hpw. reflexivity.
  - rewrite Hd1. apply member_ids_spec.
    exists row. split; [|repeat split].
    cbn. apply in_or_app. right. now left.
  - exact Happroved.
  - rewrite Hd2.
    unfold run, Auth.login, route, try_catch, bind,
      Auth.select_user_by_email_and_team, select, statement.
    cbn.
    rewrite (filter_map_preserve
               (fun u => String.eqb (User.email u) email
                         && String.eqb (User.team_code u) teamCode)
               (fun u => if hit u then approve u else u)).
    + rewrite Hmatch. cbn. rewrite !String.eqb_refl. cbn.
      rewrite Hrowhit. cbn. rewrite Hpw. reflexivity.
    + intros a. now destruct (hit a).
  - rewrite Hd2. apply member_ids_spec.
    exists (approve row). split; [|repeat split].
    cbn. apply in_map_iff. exists row. split.
    + now rewrite Hrowhit.
    + apply in_or_app. right. now left.
Qed.

(** The scenario on the sample database: e@x.com joins team AB12CD and is
    approved by leader 1. *)
Lemma member_onboarding_witness :
  let d1 := snd (fst (run (Auth.registerMember Sample.env "e@x.com" "pw" "Eve"
                             "AB12CD") Sample.db)) in
  let approval := run (Auth.approveMember Sample.env (Some 5) "AB12CD" (Some 1)) d1 in
  let d2 := snd (fst approval) in
  code (fst (fst (run (Auth.login Sample.env "e@x.com" "pw" "AB12CD") d1))) = 403
  /\ In 5 (pending_ids d1 "AB12CD")
  /\ code (fst (fst approval)) = 200
  /\ code (fst (fst (run (Auth.login Sample.env "e@x.com" "pw" "AB12CD") d2))) = 200
  /\ In 5 (approved_ids d2 "AB12CD").
Proof.
  apply (member_onboarding Sample.env Sample.db "e@x.com" "pw" "Eve" "AB12CD" 1
           (Team.mk 1 "AB12CD" "TeamA" (Some 1) 0)).
  - discriminate.
  - reflexivity.
  - reflexivity.
  - vm_compute. lia.
  - vm_compute. lia.
  - vm_compute. lia.
  - vm_compute. lia.
  - reflexivity.
  - discriminate.
  - discriminate.
  - exists (Sample.user 1 "a@x.com" Role.leader "AB12CD" Membership.approved).
    split; [simpl; tauto | reflexivity].
  - reflexivity.
Defined.

(* ------------------------------------------------------------------ *)
(** ** What every route keeps *)

Section Keeps.
Variable Inv : Db -> Prop.

(** The property does not depend on where the sequence of [users.id]
    stands. *)
Hypothesis Inv_sequence :
  forall d seq,
    Inv d -> Inv (mkDb (users d) (teams d) (tasks d) (subtasks d) seq).

Lemma keeps_ret {A} (a : A) : keeps Inv (ret a).
Proof. intros c H. exact H. Qed.

Lemma keeps_throw {A} (e : PgError) : keeps Inv (@throw A e).
Proof. intros c H. exact H. Qed.

Lemma keeps_bind {A B} (m : Query A) (k : A -> Query B) :
  keeps Inv m -> (forall a, keeps Inv (k a)) -> keeps Inv (bind m k).
Proof.
  intros Hm Hk c H. unfold bind. specialize (Hm c H).
  destruct (m c) as [[a|e] c']; simpl in Hm.
  - now apply Hk.
  - exact Hm.
Qed.

Lemma keeps_try_catch {A} (body : Query A) (handler : PgError -> Query A) :
  keeps Inv body -> (forall e, keeps Inv (handler e)) ->
  keeps Inv (try_catch body handler).
Proof.
  intros Hb Hh c H. unfold try_catch. specialize (Hb c H).
  destruct (body c) as [[a|e] c']; simpl in Hb.
  - exact Hb.
  - now apply Hh.
Qed.

Lemma keeps_begin : keeps Inv begin_.
Proof. intros c (Hc & _). split; simpl; exact Hc. Qed.

Lemma keeps_commit : keeps Inv commit.
Proof. intros c (Hc & _). split; simpl; [exact Hc | exact I]. Qed.

Lemma keeps_rollback : keeps Inv rollback.
Proof.
  intros c (Hc & Hs). split; simpl; [|exact I].
  destruct (saved c); [now apply Inv_sequence | assumption].
Qed.

Lemma keeps_statement {A} (s : Stmt) (f : Db -> Res A * Db) :
  (forall d, Inv d -> Inv (snd (f d))) -> keeps Inv (statement s f).
Proof.
  intros Hf c (Hc & Hs). unfold statement.
  specialize (Hf (cur c) Hc). destruct (f (cur c)) as [r d'].
  split; simpl; assumption.
Qed.

Lemma keeps_effect {A} (f : Db -> Res A * Db) :
  (forall d, Inv d -> Inv (snd (f d))) -> keeps Inv (effect f).
Proof.
  intros Hf c (Hc & Hs). unfold effect.
  specialize (Hf (cur c) Hc). destruct (f (cur c)) as [r d'].
  split; simpl; assumption.
Qed.

Lemma keeps_binding {A} (ps : list Z) (f : Db -> Res A * Db) :
  (forall d, Inv d -> Inv (snd (f d))) ->
  forall d, Inv d -> Inv (snd (binding ps f d)).
Proof.
  intros Hf d Hd. unfold binding.
  destruct (forallb (integer d) ps); [now apply Hf | exact Hd].
Qed.

Lemma keeps_select {A} (s : Stmt) (f : Db -> A) : keeps Inv (select s f).
Proof. apply keeps_statement. intros d H. exact H. Qed.

Lemma keeps_select_on {A} (ps : list Z) (s : Stmt) (f : Db -> A) :
  keeps Inv (select_on ps s f).
Proof.
  apply keeps_statement. apply keeps_binding. intros d H. exact H.
Qed.

Lemma keeps_query {A} (f : Db -> A) : keeps Inv (query f).
Proof. apply keeps_effect. intros d H. exact H. Qed.

Lemma keeps_query_on {A} (ps : list Z) (f : Db -> A) :
  keeps Inv (query_on ps f).
Proof.
  apply keeps_effect. apply keeps_binding. intros d H. exact H.
Qed.

Lemma keeps_left_by {A} (q : Query A) (d : Db) :
  keeps Inv q -> Inv d -> Inv (left_by q d).
Proof.
  intros Hq Hd. unfold left_by.
  apply (Hq (mkConn d None [])). split; simpl; [exact Hd | exact I].
Qed.

End Keeps.

Lemma integrity_forall (d : Db) :
  integrity d <->
  (forall s, In s (subtasks d) ->
     refers_to_task d (Subtask.task_id s) = true
     /\ refers_to_user d (Subtask.assigned_to s) = true)
  /\ (forall t, In t (tasks d) -> refers_to_user d (Task.created_by t) = true)
  /\ (forall t, In t (teams d) -> refers_to_user d (Team.leader_id t) = true)
  /\ (forall u, In u (users d) ->
        refers_to_user d (User.approved_by u) = true
        /\ refers_to_user d (User.rejected_by u) = true).
Proof. unfold integrity. rewrite !Forall_forall. reflexivity. Qed.

Lemma existsb_false_In {A} (p : A -> bool) (l : list A) (x : A) :
  existsb p l = false -> In x l -> p x = false.
Proof.
  intros H Hin. destruct (p x) eqn:Hp; [|reflexivity].
  rewrite <- H. symmetry. apply existsb_exists. now exists x.
Qed.

Ltac head_of t :=
  match t with
  | ?f _ => head_of f
  | _ => t
  end.

(** [left_by] is the database that [run] and [serve] return. *)
Lemma left_by_run (h : Query Response) (d : Db) :
  snd (fst (run h d)) = left_by h d.
Proof.
  unfold run, left_by. destruct (h (mkConn d None [])) as [[r|e] c]; reflexivity.
Qed.

Lemma left_by_serve {B} (h : Query (Reply B)) (d : Db) :
  snd (serve h d) = left_by h d.
Proof.
  unfold serve, left_by. destruct (h (mkConn d None [])) as [[r|e] c]; reflexivity.
Qed.

(* ------------------------------------------------------------------ *)
(** ** The task listing of a team *)

Lemma length_filter_insert_by {A} (q : A -> bool) (le : A -> A -> bool) (x : A)
    (l : list A) :
  List.length (filter q (Tasks.insert_by le x l))
  = List.length (filter q (x :: l)).
Proof.
  induction l as [|y l IH]; simpl; [reflexivity|].
  destruct (le x y); simpl; [reflexivity|].
  simpl in IH. destruct (q y), (q x); simpl in *; rewrite IH; reflexivity.
Qed.

Lemma length_filter_order_by {A} (q : A -> bool) (le : A -> A -> bool)
    (l : list A) :
  List.length (filter q (Tasks.order_by le l)) = List.length (filter q l).
Proof.
  unfold Tasks.order_by. induction l as [|x l IH]; simpl; [reflexivity|].
  rewrite length_filter_insert_by. simpl. destruct (q x); simpl; now rewrite IH.
Qed.

Lemma length_filter_map {A B} (q : B -> bool) (f : A -> B) (l : list A) :
  List.length (filter q (map f l)) = List.length (filter (fun x => q (f x)) l).
Proof.
  induction l as [|x l IH]; simpl; [reflexivity|].
  destruct (q (f x)); simpl; now rewrite IH.
Qed.

Lemma filter_filter_and {A} (p q : A -> bool) (l : list A) :
  filter q (filter p l) = filter (fun x => p x && q x) l.
Proof.
  induction l as [|x l IH]; simpl; [reflexivity|].
  destruct (p x); simpl; [destruct (q x)|]; now rewrite IH.
Qed.

Lemma filter_key_unique {A} (f : A -> Z) (n : Z) (l : list A) :
  NoDup (map f l) ->
  (List.length (filter (fun x => Z.eqb n (f x)) l) <= 1)%nat.
Proof.
  induction l as [|x l IH]; simpl; intros Hnd; [lia|].
  inversion Hnd as [|? ? Hnot Hnd']; subst.
  destruct (n =? f x) eqn:E; [|now apply IH].
  apply Z.eqb_eq in E. subst n. simpl.
  rewrite (filter_none_of (fun y => f x =? f y) (fun y => f x =? f y) l);
    [simpl; lia | | auto].
  destruct (find (fun y => f x =? f y) l) as [y|] eqn:Ef; [|reflexivity].
  apply find_some in Ef. destruct Ef as (Hin & Heq). apply Z.eqb_eq in Heq.
  exfalso. apply Hnot. rewrite Heq. now apply in_map.
Qed.

Lemma left_join_fst {A B} (on : A -> B -> bool) (l : list A) (r : list B) :
  (forall a, In a l -> (List.length (filter (on a) r) <= 1)%nat) ->
  map fst (left_join on l r) = l.
Proof.
  unfold left_join. induction l as [|a l IH]; intros H; [reflexivity|].
  cbn [flat_map]. rewrite map_app.
  rewrite IH by (intros x Hx; apply H; now right).
  specialize (H a (or_introl eq_refl)).
  destruct (filter (on a) r) as [|b [|b' bs]]; simpl in *; [reflexivity.. | lia].
Qed.

Lemma filter_fst {A B} (p : A -> bool) (l : list (A * B)) :
  map fst (filter (fun x => p (fst x)) l) = filter p (map fst l).
Proof.
  induction l as [|x l IH]; simpl; [reflexivity|].
  destruct (p (fst x)); simpl; now rewrite IH.
Qed.

(** With [users.id] a key, the join with [users] keeps each subtask once. *)
Lemma subtasks_join_users (d : Db) :
  NoDup (map User.id (users d)) ->
  map fst (left_join (fun s u => col_is (Subtask.assigned_to s) (User.id u))
                     (subtasks d) (users d))
  = subtasks d.
Proof.
  intros Hkey. apply left_join_fst. intros s _.
  destruct (Subtask.assigned_to s) as [n|]; simpl.
  - now apply filter_key_unique.
  - clear Hkey. induction (users d) as [|u l IH]; simpl; [lia | exact IH].
Qed.

Lemma attached_count (d : Db) (taskId : Z) (q : Subtask.t -> bool) :
  NoDup (map User.id (users d)) ->
  List.length (filter (fun r => q (r_subtask r)) (attached d taskId))
  = List.length (filter (fun s => col_is (Subtask.task_id s) taskId && q s)
                        (subtasks d)).
Proof.
  intros Hkey. unfold attached.
  rewrite length_filter_map. cbn [r_subtask].
  rewrite length_filter_order_by, filter_filter_and.
  rewrite <- (subtasks_join_users d Hkey) at 2.
  rewrite <- (filter_fst (fun s => col_is (Subtask.task_id s) taskId && q s)).
  now rewrite length_map.
Qed.

Lemma listTasksForTeam_run (d : Db) (teamCode : string) :
  serve (TaskRoutes.listTasksForTeam teamCode) d
  = (Json (map (fun row => (row, attached d (Task.id (r_task row))))
               (team_task_rows d teamCode)),
     d).
Proof.
  unfold serve, TaskRoutes.listTasksForTeam, serve_route, try_catch,
    TaskRoutes.select_tasks_of_team, query, effect, Tasks.getSubtasksForTask.
  unfold bind at 1. cbn [cur saved issued].
  unfold bind at 1.
  rewrite (map_all_select_on SELECT_subtasks_for_task
             (fun row : TaskRow => Task.id (r_task row))
             (fun (row : TaskRow) d0 => attached d0 (Task.id (r_task row)))
             (fun row subtasks => (row, subtasks))).
  - reflexivity.
  - intros row Hin. cbn [cur]. apply In_order_by in Hin.
    apply in_map_iff in Hin. destruct Hin as ([t ou] & <- & Hin).
    apply filter_In in Hin. destruct Hin as (Hin & _).
    apply In_left_join in Hin. destruct Hin as (Ht & _).
    apply task_integer, existsb_exists. exists t.
    split; [exact Ht | apply Z.eqb_refl].
Qed.

(** X20.  The listing of a team's tasks answers 200 and changes nothing.
    It has exactly the tasks whose team code is the one asked for, newest
    first.  With [users.id] a key, the two counts on each task agree with
    the subtasks attached to it: [total_subtasks] is their number and
    [completed_subtasks] the number of those with status completed; and
    the attached subtasks are exactly the task's. *)
Theorem listTasksForTeam_counts_agree (d : Db) (teamCode : string) :
  NoDup (map User.id (users d)) ->
  serve (TaskRoutes.listTasksForTeam teamCode) d
  = (Json (team_listing d teamCode), d)
  /\ (forall t, In t (map (fun x => r_task (fst x)) (team_listing d teamCode))
                <-> In t (tasks d) /\ Task.team_code t = teamCode)
  /\ StronglySorted (fun a b => Task.created_at b <= Task.created_at a)
                    (map (fun x => r_task (fst x)) (team_listing d teamCode))
  /\ (forall row subs, In (row, subs) (team_listing d teamCode) ->
        total_subtasks row = Z.of_nat (List.length subs)
        /\ completed_subtasks row
           = Z.of_nat (List.length (filter row_completed subs))
        /\ forall s, In s (map r_subtask subs)
                     <-> In s (subtasks d)
                         /\ Subtask.task_id s = Some (Task.id (r_task row))).
Proof.
  intros Hkey.
  assert (Hlist : team_listing d teamCode
                  = map (fun row => (row, attached d (Task.id (r_task row))))
                        (team_task_rows d teamCode)).
  { unfold team_listing. now rewrite listTasksForTeam_run. }
  split; [rewrite Hlist; apply listTasksForTeam_run|].
  rewrite Hlist, map_map. cbn [fst].
  split; [|split].
  - intros t. unfold team_task_rows. rewrite In_map_order_by, map_map.
    cbn [r_task]. rewrite in_map_iff. split.
    + intros ([t0 ou] & <- & Hin). apply filter_In in Hin.
      destruct Hin as (Hin & Hc). apply In_left_join in Hin.
      cbn [fst] in *. split; [apply Hin | now apply String.eqb_eq].
    + intros (Hin & Hc).
      destruct (left_join_total
                  (fun t u => col_is (Task.created_by t) (User.id u))
                  (tasks d) (users d) t Hin) as (ou & Hou).
      exists (t, ou). split; [reflexivity|]. apply filter_In.
      split; [exact Hou | now apply String.eqb_eq].
  - apply StronglySorted_map. unfold team_task_rows.
    eapply StronglySorted_weaken; [|apply order_by_sorted].
    + intros a b H. apply Z.leb_le in H. exact H.
    + intros a b. rewrite !Z.leb_le. lia.
    + intros a b c. rewrite !Z.leb_le. lia.
  - intros row subs Hin. apply in_map_iff in Hin.
    destruct Hin as (row0 & Heq & Hin). injection Heq as -> <-.
    unfold team_task_rows in Hin. apply In_order_by in Hin.
    apply in_map_iff in Hin. destruct Hin as ([t ou] & <- & _).
    cbn [fst snd r_task total_subtasks completed_subtasks].
    split; [|split].
    + unfold Tasks.count_subtasks. f_equal.
      assert (Ht := attached_count d (Task.id t) (fun _ => true) Hkey).
      cbv beta in Ht.
      rewrite (filter_ext
                 (fun s => col_is (Subtask.task_id s) (Task.id t) && true)
                 (fun s => col_is (Subtask.task_id s) (Task.id t))) in Ht
        by (intros; apply andb_true_r).
      rewrite <- Ht. clear.
      induction (attached d (Task.id t)); simpl; congruence.
    + unfold Tasks.count_completed_subtasks. f_equal.
      now rewrite <- (attached_count d (Task.id t)
                        (fun s => Status.eqb (Subtask.status s) Status.completed)
                        Hkey).
    + intros s. unfold attached. rewrite map_map. cbn [r_subtask].
      rewrite In_map_order_by, in_map_iff. split.
      * intros ([s0 ou0] & <- & Hs). apply filter_In in Hs.
        destruct Hs as (Hs & Hc). apply In_left_join in Hs. cbn [fst] in *.
        split; [apply Hs | now apply col_is_eq].
      * intros (Hs & Hc).
        destruct (left_join_total
                    (fun s u => col_is (Subtask.assigned_to s) (User.id u))
                    (subtasks d) (users d) s Hs) as (ou' & Hou).
        exists (s, ou'). split; [reflexivity|]. apply filter_In.
        split; [exact Hou | now apply col_is_eq].
Qed.

Lemma listTasksForTeam_counts_agree_witness :
  NoDup (map User.id (users Sample.db))
  /\ forall row subs,
       In (row, subs) (team_listing Sample.db "AB12CD") ->
       total_subtasks row = Z.of_nat (List.length subs)
       /\ completed_subtasks row
          = Z.of_nat (List.length (filter row_completed subs)).
Proof.
  assert (H : NoDup (map User.id (users Sample.db))).
  { simpl. repeat constructor; simpl; intuition discriminate. }
  split; [exact H|]. intros row subs Hin.
  destruct (listTasksForTeam_counts_agree Sample.db "AB12CD" H)
    as (_ & _ & _ & Hcounts).
  destruct (Hcounts row subs Hin) as (H1 & H2 & _). split; assumption.
Defined.

(* ------------------------------------------------------------------ *)
(** ** Deleting a subtask, editing a task *)

(** What the route does for a call that carries a userId, when the
    subtask and its task are there. *)
Lemma deleteSubtask_run (d : Db) (subtaskId uid : Z) (s : Subtask.t) (t : Task.t) :
  uid <> 0 ->
  subtask_by_id d subtaskId = Some s ->
  task_of d s = Some t ->
  serve (TaskRoutes.deleteSubtask subtaskId (Some uid)) d
  = if negb (integer d uid)
    then (Failure 500 "Internal server error", d)
    else
      match user_by_id d uid with
      | None => (Failure 403 "User not found", d)
      | Some u =>
          if TaskRoutes.may_modify (Task.created_by t) (Task.team_code t) uid
                                   (User.role u) (User.team_code u)
          then (Json "Subtask deleted successfully", subtask_deleted d subtaskId)
          else (Failure 403 "Not authorized to delete this subtask", d)
      end.
Proof.
  intros Huid Hs Ht.
  destruct (hd_filter_inner_join
              (fun s0 t0 => col_is (Subtask.task_id s0) (Task.id t0))
              (fun s0 => Subtask.id s0 =? subtaskId)
              (subtasks d) (tasks d) s t Hs Ht) as (rest & Hjoin).
  pose proof (subtask_by_id_integer _ _ _ Hs) as Hint.
  destruct (filter_cons_find _ _ _ Hs) as (srest & Hfs).
  unfold serve, TaskRoutes.deleteSubtask, serve_route, try_catch.
  rewrite (falsy_some uid Huid).
  unfold bind, TaskRoutes.select_subtask_owner, Tasks.select_user_role,
    TaskRoutes.delete_subtask, query_on, effect, select_on, statement.
  cbn. rewrite (binding_1 _ _ _ Hint). cbn. rewrite Hjoin. cbn.
  destruct (integer d uid) eqn:Hui; cbn [negb];
    [rewrite (binding_1 _ _ _ Hui)
    |rewrite (binding_raises_1 _ _ _ Hui); reflexivity].
  cbn. unfold user_by_id.
  destruct (find (fun u => User.id u =? uid) (users d)) as [u|] eqn:Hu.
  - destruct (filter_cons_find _ _ _ Hu) as (urest & ->). cbn.
    destruct (TaskRoutes.may_modify _ _ _ _ _); cbn; [|reflexivity].
    rewrite (binding_1 _ _ _ Hint). cbn.
    rewrite Hfs. reflexivity.
  - rewrite (filter_nil_find _ _ Hu). reflexivity.
Qed.

(** X21.  deleteSubtask without a userId answers 400.  With one, it answers
    500 when the subtask id is no INTEGER (the SELECT raises), 404 when it
    is one and no subtask has it, 500 when the caller's id is no INTEGER,
    403 for a caller who is no user or who neither created the owning task
    nor leads its team, and changes nothing; for the creator or a leader
    of the team it removes the subtask and nothing else: the other
    subtasks and every task stay, also the task that has no subtask
    left. *)
Theorem deleteSubtask_outcomes (d : Db) (subtaskId : Z) :
  (forall userId,
     falsy userId = true ->
     serve (TaskRoutes.deleteSubtask subtaskId userId) d
     = (Failure 400 "User ID is required", d))
  /\ (forall uid,
        uid <> 0 ->
        (integer d subtaskId = false ->
         serve (TaskRoutes.deleteSubtask subtaskId (Some uid)) d
         = (Failure 500 "Internal server error", d))
        /\ (integer d subtaskId = true ->
            subtask_by_id d subtaskId = None ->
            serve (TaskRoutes.deleteSubtask subtaskId (Some uid)) d
            = (Failure 404 "Subtask not found", d))
        /\ (forall s t,
              subtask_by_id d subtaskId = Some s ->
              task_of d s = Some t ->
              integer d uid = false ->
              serve (TaskRoutes.deleteSubtask subtaskId (Some uid)) d
              = (Failure 500 "Internal server error", d))
        /\ (forall s t,
              subtask_by_id d subtaskId = Some s ->
              task_of d s = Some t ->
              integer d uid = true ->
              user_by_id d uid = None ->
              serve (TaskRoutes.deleteSubtask subtaskId (Some uid)) d
              = (Failure 403 "User not found", d))
        /\ (forall s t u,
              subtask_by_id d subtaskId = Some s ->
              task_of d s = Some t ->
              user_by_id d uid = Some u ->
              ~ may_modify_task t u ->
              serve (TaskRoutes.deleteSubtask subtaskId (Some uid)) d
              = (Failure 403 "Not authorized to delete this subtask", d))
        /\ (forall s t u,
              subtask_by_id d subtaskId = Some s ->
              task_of d s = Some t ->
              user_by_id d uid = Some u ->
              may_modify_task t u ->
              serve (TaskRoutes.deleteSubtask subtaskId (Some uid)) d
              = (Json "Subtask deleted successfully",
                 subtask_deleted d subtaskId)))
  /\ subtask_by_id (subtask_deleted d subtaskId) subtaskId = None
  /\ (forall s, In s (subtasks d) -> Subtask.id s <> subtaskId ->
                In s (subtasks (subtask_deleted d subtaskId)))
  /\ tasks (subtask_deleted d subtaskId) = tasks d.
Proof.
  split; [|split; [|split; [|split]]].
  - intros userId Hf.
    unfold serve, TaskRoutes.deleteSubtask, serve_route, try_catch.
    now rewrite Hf.
  - intros uid Huid.
    split; [|split; [|split; [|split; [|split]]]].
    + intros Hi.
      unfold serve, TaskRoutes.deleteSubtask, serve_route, try_catch.
      rewrite (falsy_some uid Huid).
      unfold TaskRoutes.select_subtask_owner.
      rewrite bind_query_on_raises by exact Hi. reflexivity.
    + intros Hi Hs.
      unfold serve, TaskRoutes.deleteSubtask, serve_route, try_catch.
      rewrite (falsy_some uid Huid).
      unfold TaskRoutes.select_subtask_owner.
      rewrite bind_query_on by exact Hi. cbn.
      rewrite (filter_inner_join_none
                 (fun s0 t0 => col_is (Subtask.task_id s0) (Task.id t0))
                 (fun s0 => Subtask.id s0 =? subtaskId)
                 (subtasks d) (tasks d) Hs).
      reflexivity.
    + intros s t Hs Ht Hi.
      now rewrite (deleteSubtask_run d subtaskId uid s t), Hi.
    + intros s t Hs Ht Hi Hu.
      now rewrite (deleteSubtask_run d subtaskId uid s t), Hi, Hu.
    + intros s t u Hs Ht Hu Hn.
      rewrite (deleteSubtask_run d subtaskId uid s t),
        (user_by_id_integer _ _ _ Hu), Hu by assumption.
      pose proof (may_modify_spec t u) as Hspec.
      rewrite (user_by_id_id d uid u Hu) in Hspec. cbn [negb].
      destruct (TaskRoutes.may_modify (Task.created_by t) (Task.team_code t) uid
                  (User.role u) (User.team_code u)); [|reflexivity].
      exfalso. apply Hn, Hspec. reflexivity.
    + intros s t u Hs Ht Hu Hmay.
      rewrite (deleteSubtask_run d subtaskId uid s t),
        (user_by_id_integer _ _ _ Hu), Hu by assumption.
      pose proof (may_modify_spec t u) as Hspec.
      rewrite (user_by_id_id d uid u Hu) in Hspec. apply Hspec in Hmay.
      cbn [negb]. now rewrite Hmay.
  - unfold subtask_by_id, subtask_deleted. cbn [subtasks with_subtasks].
    destruct (find _ (filter _ (subtasks d))) as [x|] eqn:Hx; [|reflexivity].
    apply find_some in Hx. destruct Hx as (Hin & Hid).
    apply filter_In in Hin. destruct Hin as (_ & Hno).
    rewrite Hid in Hno. discriminate.
  - intros s Hin Hne. unfold subtask_deleted. cbn [subtasks with_subtasks].
    apply filter_In. split; [exact Hin|].
    apply negb_true_iff. now apply Z.eqb_neq.
  - reflexivity.
Qed.

(** Member 4 may not delete subtask 2 of the sample database, leader 1
    may. *)
Lemma deleteSubtask_outcomes_witness :
  serve (TaskRoutes.deleteSubtask 2 (Some 4)) Sample.db
  = (Failure 403 "Not authorized to delete this subtask", Sample.db)
  /\ serve (TaskRoutes.deleteSubtask 2 (Some 1)) Sample.db
     = (Json "Subtask deleted successfully", subtask_deleted Sample.db 2).
Proof.
  destruct (deleteSubtask_outcomes Sample.db 2) as (_ & H & _).
  split.
  - destruct (H 4) as (_ & _ & _ & _ & H4 & _); [discriminate|].
    apply (H4 (Sample.subtask 2 1 (Some 4) Status.taken Progress.in_progress)
              (Task.mk 1 "T1" None "AB12CD" (Some 1) 5 "active" 5)
              (Sample.user 4 "d@x.com" Role.member "AB12CD" Membership.approved)).
    + reflexivity.
    + reflexivity.
    + reflexivity.
    + intros [H1 | (H1 & _)]; discriminate.
  - destruct (H 1) as (_ & _ & _ & _ & _ & H1); [discriminate|].
    apply (H1 (Sample.subtask 2 1 (Some 4) Status.taken Progress.in_progress)
              (Task.mk 1 "T1" None "AB12CD" (Some 1) 5 "active" 5)
              (Sample.user 1 "a@x.com" Role.leader "AB12CD" Membership.approved)).
    + reflexivity.
    + reflexivity.
    + reflexivity.
    + left. reflexivity.
Defined.

(** What the route does for a call that carries a userId. *)
Lemma editTask_run (d : Db) (taskId uid : Z) (title : string)
    (description : option string) :
  uid <> 0 ->
  serve (TaskRoutes.editTask taskId title description (Some uid)) d
  = if negb (integer d taskId)
    then (Failure 500 "Internal server error", d)
    else
      match task_by_id d taskId with
      | None => (Failure 404 "Task not found", d)
      | Some t =>
          if negb (integer d uid)
          then (Failure 500 "Internal server error", d)
          else
            match user_by_id d uid with
            | None => (Failure 403 "User not found", d)
            | Some u =>
                if TaskRoutes.may_modify (Task.created_by t) (Task.team_code t)
                                         uid (User.role u) (User.team_code u)
                then
                  match varchar 255 title with
                  | Some stored =>
                      let d' := rewrite_task d taskId
                                             (retitled stored description) in
                      (Json ("Task updated successfully", task_view d' taskId),
                       d')
                  | None => (Failure 500 "Internal server error", d)
                  end
                else (Failure 403 "Not authorized to edit this task", d)
            end
      end.
Proof.
  intros Huid.
  unfold serve, TaskRoutes.editTask, serve_route, try_catch.
  rewrite (falsy_some uid Huid).
  unfold TaskRoutes.select_task_owner.
  destruct (integer d taskId) eqn:Hti; cbn [negb];
    [rewrite bind_query_on by exact Hti
    |rewrite bind_query_on_raises by exact Hti; reflexivity].
  cbn [cur saved issued parseInt]. unfold task_by_id, user_by_id.
  destruct (find (fun t => Task.id t =? taskId) (tasks d)) as [t|] eqn:Ht.
  - pose proof (existsb_find_some _ _ _ Ht) as Hex.
    destruct (filter_cons_find _ _ _ Ht) as (trest & Hft). rewrite Hft.
    cbn [map]. unfold Tasks.select_user_role.
    destruct (integer d uid) eqn:Hui; cbn [negb];
      [rewrite bind_select_on by exact Hui
      |unfold bind, select_on, statement; cbn [cur saved issued];
       rewrite (binding_raises_1 _ _ _ Hui); reflexivity].
    cbn [cur saved issued].
    destruct (find (fun u => User.id u =? uid) (users d)) as [u|] eqn:Hu.
    + destruct (filter_cons_find _ _ _ Hu) as (urest & ->). cbn [map].
      cbn [Task.created_by Task.team_code fst snd].
      destruct (TaskRoutes.may_modify _ _ _ _ _); cbn [negb]; [|reflexivity].
      unfold bind at 1. unfold TaskRoutes.update_task, effect.
      cbn [cur saved issued]. rewrite (binding_1 _ _ _ Hti).
      destruct (varchar 255 title) as [stored|]; [|reflexivity].
      rewrite (filter_map_if (fun t0 => Task.id t0 =? taskId)) by reflexivity.
      rewrite Hft. cbn [map].
      unfold bind at 1.
      match goal with
      | |- context [TaskRoutes.getTaskWithSubtasks taskId ?c] =>
          destruct (getTaskWithSubtasks_reads taskId c) as (H1 & H2 & _);
          [|destruct (TaskRoutes.getTaskWithSubtasks taskId c) as [r c']]
      end.
      { apply task_integer. cbn [cur tasks with_tasks].
        rewrite existsb_map_if; [exact Hex | reflexivity]. }
      cbn [fst snd cur] in *. subst r. unfold ret. cbn [cur]. rewrite H2.
      reflexivity.
    + rewrite (filter_nil_find _ _ Hu). reflexivity.
  - rewrite (filter_nil_find _ _ Ht). reflexivity.
Qed.

(** X22.  editTask, the request carrying a title, answers 400 without a
    userId.  With one, it answers 500 when the task id is no INTEGER (the
    SELECT raises), 404 when it is one and no task has it, 500 when the
    caller's id is no INTEGER, 403 for a caller who is no user or who
    neither created the task nor leads its team, and changes nothing.
    For the creator or a leader of the team: a title of at most 255
    characters and the description sent are written and nothing else (the
    task keeps its id, team, creator and status, the other tasks and all
    subtasks are as they were, and the answer carries the task as it now
    reads); a title that does not fit its column makes the UPDATE raise,
    the answer is 500 and nothing changes. *)
Theorem editTask_outcomes (d : Db) (taskId : Z) (title : string)
    (description : option string) :
  (forall userId,
     falsy userId = true ->
     serve (TaskRoutes.editTask taskId title description userId) d
     = (Failure 400 "User ID is required", d))
  /\ (forall uid,
        uid <> 0 ->
        (integer d taskId = false ->
         serve (TaskRoutes.editTask taskId title description (Some uid)) d
         = (Failure 500 "Internal server error", d))
        /\ (integer d taskId = true ->
            task_by_id d taskId = None ->
            serve (TaskRoutes.editTask taskId title description (Some uid)) d
            = (Failure 404 "Task not found", d))
        /\ (forall t,
              task_by_id d taskId = Some t ->
              integer d uid = false ->
              serve (TaskRoutes.editTask taskId title description (Some uid)) d
              = (Failure 500 "Internal server error", d))
        /\ (forall t,
              task_by_id d taskId = Some t ->
              integer d uid = true ->
              user_by_id d uid = None ->
              serve (TaskRoutes.editTask taskId title description (Some uid)) d
              = (Failure 403 "User not found", d))
        /\ (forall t u,
              task_by_id d taskId = Some t ->
              user_by_id d uid = Some u ->
              ~ may_modify_task t u ->
              serve (TaskRoutes.editTask taskId title description (Some uid)) d
              = (Failure 403 "Not authorized to edit this task", d))
        /\ (forall t u,
              task_by_id d taskId = Some t ->
              user_by_id d uid = Some u ->
              may_modify_task t u ->
              varchar 255 title = None ->
              serve (TaskRoutes.editTask taskId title description (Some uid)) d
              = (Failure 500 "Internal server error", d))
        /\ (forall t u,
              task_by_id d taskId = Some t ->
              user_by_id d uid = Some u ->
              may_modify_task t u ->
              (String.length title <= 255)%nat ->
              let d' := rewrite_task d taskId (retitled title description) in
              serve (TaskRoutes.editTask taskId title description (Some uid)) d
              = (Json ("Task updated successfully", task_view d' taskId), d')
              /\ task_by_id d' taskId = Some (retitled title description t)
              /\ subtasks d' = subtasks d
              /\ users d' = users d
              /\ (forall t0, In t0 (tasks d) -> Task.id t0 <> taskId ->
                             In t0 (tasks d')))).
Proof.
  split.
  { intros userId Hf.
    unfold serve, TaskRoutes.editTask, serve_route, try_catch.
    now rewrite Hf. }
  intros uid Huid.
  pose proof (editTask_run d taskId uid title description Huid) as Hrun.
  split; [|split; [|split; [|split; [|split; [|split]]]]].
  - intros Hi. now rewrite Hrun, Hi.
  - intros Hi Ht. now rewrite Hrun, Hi, Ht.
  - intros t Ht Hi. now rewrite Hrun, (task_by_id_integer _ _ _ Ht), Ht, Hi.
  - intros t Ht Hi Hu.
    now rewrite Hrun, (task_by_id_integer _ _ _ Ht), Ht, Hi, Hu.
  - intros t u Ht Hu Hn.
    rewrite Hrun, (task_by_id_integer _ _ _ Ht), Ht,
      (user_by_id_integer _ _ _ Hu), Hu.
    pose proof (may_modify_spec t u) as Hspec.
    rewrite (user_by_id_id d uid u Hu) in Hspec. cbn [negb].
    destruct (TaskRoutes.may_modify (Task.created_by t) (Task.team_code t) uid
                (User.role u) (User.team_code u)); [|reflexivity].
    exfalso. apply Hn, Hspec. reflexivity.
  - intros t u Ht Hu Hmay Hlong.
    rewrite Hrun, (task_by_id_integer _ _ _ Ht), Ht,
      (user_by_id_integer _ _ _ Hu), Hu.
    pose proof (may_modify_spec t u) as Hspec.
    rewrite (user_by_id_id d uid u Hu) in Hspec. apply Hspec in Hmay.
    cbn [negb]. now rewrite Hmay, Hlong.
  - intros t u Ht Hu Hmay Hlen d'.
    split; [|split; [|split; [|split]]].
    + rewrite Hrun, (task_by_id_integer _ _ _ Ht), Ht,
        (user_by_id_integer _ _ _ Hu), Hu.
      pose proof (may_modify_spec t u) as Hspec.
      rewrite (user_by_id_id d uid u Hu) in Hspec. apply Hspec in Hmay.
      cbn [negb]. now rewrite Hmay, (varchar_fits _ _ Hlen).
    + unfold task_by_id, d', rewrite_task. cbn [tasks with_tasks].
      rewrite (find_map_if (fun t0 => Task.id t0 =? taskId)) by reflexivity.
      unfold task_by_id in Ht. now rewrite Ht.
    + reflexivity.
    + reflexivity.
    + intros t0 Hin Hne. unfold d', rewrite_task. cbn [tasks with_tasks].
      apply in_map_iff. exists t0. split; [|exact Hin].
      apply Z.eqb_neq in Hne. now rewrite Hne.
Qed.

(** Member 4 may not edit task 1 of the sample database; leader 1 may, but
    not with a title of 256 characters. *)
Lemma editTask_outcomes_witness :
  serve (TaskRoutes.editTask 1 "New" None (Some 4)) Sample.db
  = (Failure 403 "Not authorized to edit this task", Sample.db)
  /\ task_by_id (rewrite_task Sample.db 1 (retitled "New" None)) 1
     = Some (retitled "New" None
                      (Task.mk 1 "T1" None "AB12CD" (Some 1) 5 "active" 5))
  /\ serve (TaskRoutes.editTask 1 (Sample.text 256) None (Some 1)) Sample.db
     = (Failure 500 "Internal server error", Sample.db).
Proof.
  split; [|split].
  - destruct (editTask_outcomes Sample.db 1 "New" None) as (_ & H).
    destruct (H 4) as (_ & _ & _ & _ & H4 & _); [discriminate|].
    apply (H4 (Task.mk 1 "T1" None "AB12CD" (Some 1) 5 "active" 5)
              (Sample.user 4 "d@x.com" Role.member "AB12CD" Membership.approved)).
    + reflexivity.
    + reflexivity.
    + intros [H1 | (H1 & _)]; discriminate.
  - destruct (editTask_outcomes Sample.db 1 "New" None) as (_ & H).
    destruct (H 1) as (_ & _ & _ & _ & _ & _ & H1); [discriminate|].
    apply (H1 (Task.mk 1 "T1" None "AB12CD" (Some 1) 5 "active" 5)
              (Sample.user 1 "a@x.com" Role.leader "AB12CD" Membership.approved)).
    + reflexivity.
    + reflexivity.
    + left. reflexivity.
    + vm_compute. lia.
  - destruct (editTask_outcomes Sample.db 1 (Sample.text 256) None) as (_ & H).
    destruct (H 1) as (_ & _ & _ & _ & _ & H1 & _); [discriminate|].
    apply (H1 (Task.mk 1 "T1" None "AB12CD" (Some 1) 5 "active" 5)
              (Sample.user 1 "a@x.com" Role.leader "AB12CD" Membership.approved)).
    + reflexivity.
    + reflexivity.
    + left. reflexivity.
    + reflexivity.
Defined.

(** X23.  editSubtask turns a call away without writing: 400 without a
    userId; with one, 500 when the subtask id is no INTEGER (the SELECT
    raises), 404 when it is one and no subtask has it, 500 when the
    caller's id is no INTEGER, 403 when the caller is no user or neither
    created the owning task nor leads its team; and for an authorized
    caller, when the assignee sent is the id of no user, or the title does
    not fit its column, the UPDATE raises and the answer is 500, the
    subtask being as it was. *)
Theorem editSubtask_rejections (d : Db) (subtaskId : Z) (title : string)
    (description : option string) (assignedTo : option Z) :
  (forall userId,
     falsy userId = true ->
     serve (TaskRoutes.editSubtask subtaskId title description assignedTo
                                   userId) d
     = (Failure 400 "User ID is required", d))
  /\ (forall uid,
        uid <> 0 ->
        (integer d subtaskId = false ->
         serve (TaskRoutes.editSubtask subtaskId title description assignedTo
                                       (Some uid)) d
         = (Failure 500 "Internal server error", d))
        /\ (integer d subtaskId = true ->
            subtask_by_id d subtaskId = None ->
            serve (TaskRoutes.editSubtask subtaskId title description assignedTo
                                          (Some uid)) d
            = (Failure 404 "Subtask not found", d))
        /\ (forall s t,
              subtask_by_id d subtaskId = Some s ->
              task_of d s = Some t ->
              integer d uid = false ->
              serve (TaskRoutes.editSubtask subtaskId title description
                                            assignedTo (Some uid)) d
              = (Failure 500 "Internal server error", d))
        /\ (forall s t,
              subtask_by_id d subtaskId = Some s ->
              task_of d s = Some t ->
              integer d uid = true ->
              user_by_id d uid = None ->
              serve (TaskRoutes.editSubtask subtaskId title description
                                            assignedTo (Some uid)) d
              = (Failure 403 "User not found", d))
        /\ (forall s t u,
              subtask_by_id d subtaskId = Some s ->
              task_of d s = Some t ->
              user_by_id d uid = Some u ->
              ~ may_modify_task t u ->
              serve (TaskRoutes.editSubtask subtaskId title description
                                            assignedTo (Some uid)) d
              = (Failure 403 "Not authorized to edit this subtask", d))
        /\ (forall s t u,
              subtask_by_id d subtaskId = Some s ->
              task_of d s = Some t ->
              user_by_id d uid = Some u ->
              may_modify_task t u ->
              refers_to_user d assignedTo = false
              \/ varchar 255 title = None ->
              serve (TaskRoutes.editSubtask subtaskId title description
                                            assignedTo (Some uid)) d
              = (Failure 500 "Internal server error", d))).
Proof.
  split.
  { intros userId Hf.
    unfold serve, TaskRoutes.editSubtask, serve_route, try_catch.
    now rewrite Hf. }
  intros uid Huid.
  unfold serve, TaskRoutes.editSubtask, serve_route, try_catch.
  rewrite (falsy_some uid Huid).
  unfold bind, TaskRoutes.select_subtask_owner, Tasks.select_user_role,
    TaskRoutes.update_subtask, Tasks.getSubtaskWithDetails,
    query_on, effect, select_on, statement.
  split; [|split; [|split; [|split; [|split]]]].
  - intros Hi. cbn. rewrite (binding_raises_1 _ _ _ Hi). reflexivity.
  - intros Hi Hs. cbn. rewrite (binding_1 _ _ _ Hi). cbn.
    rewrite (filter_inner_join_none
               (fun s0 t0 => col_is (Subtask.task_id s0) (Task.id t0))
               (fun s0 => Subtask.id s0 =? subtaskId)
               (subtasks d) (tasks d) Hs).
    reflexivity.
  - intros s t Hs Ht Hi.
    destruct (hd_filter_inner_join
                (fun s0 t0 => col_is (Subtask.task_id s0) (Task.id t0))
                (fun s0 => Subtask.id s0 =? subtaskId)
                (subtasks d) (tasks d) s t Hs Ht) as (rest & Hjoin).
    cbn. rewrite (binding_1 _ _ _ (subtask_by_id_integer _ _ _ Hs)). cbn.
    rewrite Hjoin. cbn. rewrite (binding_raises_1 _ _ _ Hi). reflexivity.
  - intros s t Hs Ht Hi Hu.
    destruct (hd_filter_inner_join
                (fun s0 t0 => col_is (Subtask.task_id s0) (Task.id t0))
                (fun s0 => Subtask.id s0 =? subtaskId)
                (subtasks d) (tasks d) s t Hs Ht) as (rest & Hjoin).
    cbn. rewrite (binding_1 _ _ _ (subtask_by_id_integer _ _ _ Hs)). cbn.
    rewrite Hjoin. cbn. rewrite (binding_1 _ _ _ Hi). cbn.
    rewrite (filter_nil_find _ _ Hu). reflexivity.
  - intros s t u Hs Ht Hu Hn.
    destruct (hd_filter_inner_join
                (fun s0 t0 => col_is (Subtask.task_id s0) (Task.id t0))
                (fun s0 => Subtask.id s0 =? subtaskId)
                (subtasks d) (tasks d) s t Hs Ht) as (rest & Hjoin).
    destruct (filter_cons_find _ _ _ Hu) as (urest & Husers).
    pose proof (may_modify_spec t u) as Hspec.
    rewrite (user_by_id_id d uid u Hu) in Hspec.
    cbn. rewrite (binding_1 _ _ _ (subtask_by_id_integer _ _ _ Hs)). cbn.
    rewrite Hjoin. cbn.
    rewrite (binding_1 _ _ _ (user_by_id_integer _ _ _ Hu)). cbn.
    rewrite Husers. cbn.
    destruct (TaskRoutes.may_modify (Task.created_by t) (Task.team_code t) uid
                (User.role u) (User.team_code u)); [|reflexivity].
    exfalso. apply Hn, Hspec. reflexivity.
  - intros s t u Hs Ht Hu Hmay Hbad.
    destruct (hd_filter_inner_join
                (fun s0 t0 => col_is (Subtask.task_id s0) (Task.id t0))
                (fun s0 => Subtask.id s0 =? subtaskId)
                (subtasks d) (tasks d) s t Hs Ht) as (rest & Hjoin).
    destruct (filter_cons_find _ _ _ Hu) as (urest & Husers).
    pose proof (existsb_find_some _ _ _ Hs) as Hex.
    pose proof (may_modify_spec t u) as Hspec.
    rewrite (user_by_id_id d uid u Hu) in Hspec. apply Hspec in Hmay.
    cbn. rewrite (binding_1 _ _ _ (subtask_by_id_integer _ _ _ Hs)). cbn.
    rewrite Hjoin. cbn.
    rewrite (binding_1 _ _ _ (user_by_id_integer _ _ _ Hu)). cbn.
    rewrite Husers. cbn. rewrite Hmay. cbn.
    destruct (falsy assignedTo); cbn;
      (destruct (forallb (integer d) (subtaskId :: nullable assignedTo)) eqn:Hps;
       [rewrite (binding_ok _ _ _ Hps)
       |rewrite (binding_raises _ _ _ Hps); reflexivity]);
      (destruct (varchar 255 title) as [stored|] eqn:Hfit; [|reflexivity]);
      (destruct Hbad as [Hrefs | Hlong]; [|discriminate Hlong]);
      cbn; rewrite Hex, Hrefs; reflexivity.
Qed.

(** Leader 1 edits subtask 1 of the sample database and names user 99,
    whom the database does not have. *)
Lemma editSubtask_rejections_witness :
  serve (TaskRoutes.editSubtask 1 "t" None (Some 99) (Some 1)) Sample.db
  = (Failure 500 "Internal server error", Sample.db).
Proof.
  destruct (editSubtask_rejections Sample.db 1 "t" None (Some 99)) as (_ & H).
  destruct (H 1) as (_ & _ & _ & _ & _ & H1); [discriminate|].
  apply (H1 (Sample.subtask 1 1 None Status.available Progress.not_started)
            (Task.mk 1 "T1" None "AB12CD" (Some 1) 5 "active" 5)
            (Sample.user 1 "a@x.com" Role.leader "AB12CD" Membership.approved)).
  - reflexivity.
  - reflexivity.
  - reflexivity.
  - left. reflexivity.
  - left. reflexivity.
Defined.

(* ------------------------------------------------------------------ *)
(** ** Creating a task, then fetching it *)

Lemma getTask_run (d : Db) (taskId : Z) :
  integer d taskId = true ->
  serve (TaskRoutes.getTask taskId) d
  = (match task_view d taskId with
     | Some v => Json v
     | None => Failure 404 "Task not found"
     end, d).
Proof.
  intros Hint.
  unfold serve, TaskRoutes.getTask, serve_route, try_catch,
    TaskRoutes.select_task_by_id, Tasks.getSubtasksForTask, task_view.
  rewrite bind_query_on by exact Hint. cbn [cur saved issued].
  destruct (filter (fun tu => Task.id (fst tu) =? taskId)
              (left_join (fun t u => col_is (Task.created_by t) (User.id u))
                 (tasks d) (users d))) as [|[t ou] rest]; [reflexivity|].
  cbn [map fst snd]. rewrite bind_select_on by exact Hint. reflexivity.
Qed.

Lemma In_attached (d : Db) (taskId : Z) (s : Subtask.t) :
  In s (map r_subtask (attached d taskId))
  <-> In s (subtasks d) /\ Subtask.task_id s = Some taskId.
Proof.
  unfold attached. rewrite map_map. cbn [r_subtask].
  rewrite In_map_order_by, in_map_iff. split.
  - intros ([s0 ou0] & <- & Hs). apply filter_In in Hs.
    destruct Hs as (Hs & Hc). apply In_left_join in Hs. cbn [fst] in *.
    split; [apply Hs | now apply col_is_eq].
  - intros (Hs & Hc).
    destruct (left_join_total
                (fun s u => col_is (Subtask.assigned_to s) (User.id u))
                (subtasks d) (users d) s Hs) as (ou & Hou).
    exists (s, ou). split; [reflexivity|]. apply filter_In.
    split; [exact Hou | now apply col_is_eq].
Qed.

Lemma filter_left_join_none {A B} (on : A -> B -> bool) (p : A -> bool)
    (l : list A) (r : list B) :
  existsb p l = false ->
  filter (fun ab => p (fst ab)) (left_join on l r) = [].
Proof.
  intros H. destruct (filter _ (left_join on l r)) as [|[a ob] rest] eqn:E;
    [reflexivity|].
  assert (Hin : In (a, ob) (filter (fun ab => p (fst ab)) (left_join on l r))).
  { rewrite E. now left. }
  apply filter_In in Hin. destruct Hin as (Hin & Hp).
  apply In_left_join in Hin. cbn [fst] in Hp.
  rewrite (existsb_false_In p l a H (proj1 Hin)) in Hp. discriminate.
Qed.

Lemma new_subtask_rows_task (E : Env) (taskId : Z) (assignSpecific : bool)
    (l : list TaskRoutes.NewSubtask) (next : Z) (s : Subtask.t) :
  In s (new_subtask_rows E taskId assignSpecific next l) ->
  Subtask.task_id s = Some taskId.
Proof.
  revert next. induction l as [|x l IH]; intros next; simpl; [tauto|].
  intros [<-|Hin]; [reflexivity | now apply (IH (next + 1))].
Qed.

(** X24.  A task that has been created can be fetched.  Whenever the create
    route answers 200, on a database that satisfies its foreign keys and
    in which [users.id] is a key, the route for one task, asked for the id
    that the sequence gave, answers 200 with the very task that the create
    route answered with: the row just inserted (title and team code as
    stored, creator as sent), and attached to it exactly the subtasks
    inserted for the elements of the request, one for each. *)
Theorem created_task_can_be_fetched (E : Env) (S : Serial) (d : Db)
    (title : string) (description : option string) (teamCode : string)
    (createdBy : option Z) (l : list TaskRoutes.NewSubtask)
    (assignSpecific : bool) :
  integrity d ->
  NoDup (map User.id (users d)) ->
  let newId := tasks_id_seq S + 1 in
  let r := serve (TaskRoutes.createTask E S title description teamCode
                    createdBy l assignSpecific) d in
  reply_code (fst r) = 200 ->
  exists v,
    fst r = Json ("Task created successfully", Some v)
    /\ serve (TaskRoutes.getTask newId) (snd r) = (Json v, snd r)
    /\ TaskRoutes.tw_task v
       = Task.mk newId (take 255 title) description (take 10 teamCode)
                 createdBy (NOW E) "active" (NOW E)
    /\ List.length (TaskRoutes.tw_subtasks v) = List.length l
    /\ (forall s, In s (map r_subtask (TaskRoutes.tw_subtasks v))
                  <-> In s (new_subtask_rows E newId assignSpecific
                                             (subtasks_id_seq S + 1) l)).
Proof.
  intros Hint Hkey newId r Hcode.
  assert (Hrun : exists cb,
             createdBy = Some cb
             /\ has_task d newId = false
             /\ r = (Json ("Task created successfully",
                           task_view (task_created E S d title description
                                        teamCode cb l assignSpecific) newId),
                     task_created E S d title description teamCode cb l
                                  assignSpecific)).
  { subst r.
    destruct (blank title || blank teamCode || falsy createdBy
              || (List.length l =? 0)%nat) eqn:Hguard.
    - exfalso. revert Hcode.
      unfold serve, TaskRoutes.createTask, serve_route. rewrite Hguard.
      cbn. discriminate.
    - apply orb_false_iff in Hguard. destruct Hguard as (Hguard & Hl).
      apply orb_false_iff in Hguard. destruct Hguard as (Hguard & Hcb).
      apply orb_false_iff in Hguard. destruct Hguard as (Ht & Htc).
      destruct createdBy as [cb|]; [|discriminate].
      assert (Hcb' : cb <> 0) by (now apply Z.eqb_neq).
      assert (Hl' : l <> []) by (intros ->; discriminate).
      unfold blank in Ht, Htc.
      apply String.eqb_neq in Ht. apply String.eqb_neq in Htc.
      pose proof (createTask_run E S d title description teamCode cb l
                    assignSpecific Ht Htc Hcb' Hl') as Hrun.
      destruct (creates S d title teamCode cb l assignSpecific) eqn:Hc.
      + exists cb. split; [reflexivity|]. split; [|exact Hrun].
        unfold creates, tasks_id_free in Hc.
        apply andb_true_iff in Hc. destruct Hc as (Hc & _).
        apply andb_true_iff in Hc. destruct Hc as (Hc & _).
        apply andb_true_iff in Hc. destruct Hc as (_ & Hc).
        apply andb_true_iff in Hc. destruct Hc as (_ & Hc).
        now apply negb_true_iff.
      + exfalso. rewrite Hrun in Hcode. cbn in Hcode. discriminate. }
  destruct Hrun as (cb & -> & Hfresh & Hrun). rewrite Hrun. cbn [fst snd].
  set (d' := task_created E S d title description teamCode cb l
                          assignSpecific).
  set (row := Task.mk newId (take 255 title) description (take 10 teamCode)
                      (Some cb) (NOW E) "active" (NOW E)).
  assert (Hnew : integer d' newId = true).
  { apply task_integer. unfold d', task_created. cbn [tasks].
    apply existsb_app_last. cbn [Task.id]. apply Z.eqb_refl. }
  assert (Hold : forall s, In s (subtasks d) -> Subtask.task_id s <> Some newId).
  { intros s Hin Heq. apply integrity_forall in Hint.
    destruct (proj1 Hint s Hin) as (Href & _). rewrite Heq in Href.
    simpl in Href. fold newId in Hfresh. congruence. }
  assert (Hsubs : forall s, In s (subtasks d') /\ Subtask.task_id s = Some newId
                            <-> In s (new_subtask_rows E newId assignSpecific
                                                       (subtasks_id_seq S + 1) l)).
  { intros s. unfold d', task_created. cbn [subtasks]. fold newId.
    rewrite in_app_iff. split.
    - intros ([Hin|Hin] & Heq); [now apply Hold in Hin | exact Hin].
    - intros Hin. split; [now right | now apply new_subtask_rows_task in Hin]. }
  assert (Hview : exists name,
             task_view d' newId
             = Some (TaskRoutes.mkTaskWithSubtasks row name (attached d' newId))).
  { unfold task_view, d', task_created. cbn [tasks users]. fold newId row.
    unfold left_join at 1. rewrite flat_map_app, filter_app.
    fold (left_join (fun t u => col_is (Task.created_by t) (User.id u))
                    (tasks d) (users d)).
    rewrite (filter_left_join_none
               (fun t u => col_is (Task.created_by t) (User.id u))
               (fun t => Task.id t =? newId) (tasks d) (users d) Hfresh).
    cbn [app flat_map].
    destruct (filter (fun u => col_is (Task.created_by row) (User.id u)) (users d))
      as [|u0 us]; cbn; rewrite Z.eqb_refl; eexists; reflexivity. }
  destruct Hview as (name & Hview).
  exists (TaskRoutes.mkTaskWithSubtasks row name (attached d' newId)).
  split; [now rewrite Hview|].
  split; [now rewrite (getTask_run _ _ Hnew), Hview|].
  split; [reflexivity|].
  cbn [TaskRoutes.tw_subtasks]. split.
  - assert (Hc := attached_count d' newId (fun _ => true) Hkey).
    cbv beta in Hc.
    assert (Hall : forall A (xs : list A), filter (fun _ => true) xs = xs).
    { intros A xs. induction xs; simpl; congruence. }
    rewrite Hall in Hc. rewrite Hc.
    unfold d', task_created. cbn [subtasks]. fold newId.
    rewrite filter_app, length_app.
    rewrite (filter_none_of _ (fun s => col_is (Subtask.task_id s) newId)).
    + cbn [List.length Nat.add].
      rewrite <- (new_subtask_rows_length E newId assignSpecific l
                    (subtasks_id_seq S + 1)).
      f_equal. apply forallb_filter_id. apply forallb_forall.
      intros s Hin. apply new_subtask_rows_task in Hin. rewrite Hin.
      simpl. now rewrite Z.eqb_refl.
    + destruct (find _ (subtasks d)) as [s|] eqn:Ef; [|reflexivity].
      apply find_some in Ef. destruct Ef as (Hin & Hc').
      apply col_is_eq in Hc'. now apply Hold in Hin.
    + intros a Ha. apply andb_true_iff in Ha. apply Ha.
  - intros s. rewrite In_attached. apply Hsubs.
Qed.

(** Leader 1 creates task 3 in the sample database, with two subtasks. *)
Lemma created_task_can_be_fetched_witness :
  let r := serve (TaskRoutes.createTask Sample.env (mkSerial 2 2 3) "T3" None
                    "AB12CD" (Some 1)
                    [TaskRoutes.mkNewSubtask "a" None (Some 4);
                     TaskRoutes.mkNewSubtask "b" None None]
                    true) Sample.db in
  exists v,
    fst r = Json ("Task created successfully", Some v)
    /\ serve (TaskRoutes.getTask 3) (snd r) = (Json v, snd r)
    /\ TaskRoutes.tw_task v
       = Task.mk 3 "T3" None "AB12CD" (Some 1) 100 "active" 100
    /\ List.length (TaskRoutes.tw_subtasks v) = 2%nat
    /\ (forall s, In s (map r_subtask (TaskRoutes.tw_subtasks v))
                  <-> In s (new_subtask_rows Sample.env 3 true 4
                              [TaskRoutes.mkNewSubtask "a" None (Some 4);
                               TaskRoutes.mkNewSubtask "b" None None])).
Proof.
  apply (created_task_can_be_fetched Sample.env (mkSerial 2 2 3) Sample.db
           "T3" None "AB12CD" (Some 1)
           [TaskRoutes.mkNewSubtask "a" None (Some 4);
            TaskRoutes.mkNewSubtask "b" None None]
           true).
  - unfold integrity. simpl. repeat constructor.
  - simpl. repeat constructor; simpl; intuition discriminate.
  - reflexivity.
Defined.

(* ------------------------------------------------------------------ *)
(** ** Status and assignee stay together *)

Lemma coherent_same_subtasks (d d' : Db) :
  subtasks d' = subtasks d -> coherent d -> coherent d'.
Proof. unfold coherent, subtasks_keyed. intros ->. tauto. Qed.

Lemma coherent_sequence (d : Db) (seq : Z) :
  coherent d ->
  coherent (mkDb (users d) (teams d) (tasks d) (subtasks d) seq).
Proof. apply coherent_same_subtasks. reflexivity. Qed.

Lemma coherent_mapped (d : Db) (g : Subtask.t -> Subtask.t) (d' : Db) :
  subtasks d' = map g (subtasks d) ->
  (forall s, Subtask.id (g s) = Subtask.id s) ->
  (forall s, In s (subtasks d) -> held_by_someone s -> held_by_someone (g s)) ->
  coherent d -> coherent d'.
Proof.
  unfold coherent, subtasks_keyed. intros -> Hid Hg (Hk & Hh). split.
  - rewrite map_map. rewrite (map_ext _ Subtask.id) by exact Hid. exact Hk.
  - apply Forall_forall. intros s Hin. apply in_map_iff in Hin.
    destruct Hin as (s0 & <- & Hin). rewrite Forall_forall in Hh.
    apply Hg; [exact Hin | now apply Hh].
Qed.

Lemma keyed_filter (keep : Subtask.t -> bool) (rows : list Subtask.t) :
  NoDup (map Subtask.id rows) -> NoDup (map Subtask.id (filter keep rows)).
Proof.
  intros Hkey. induction rows as [|s rows IH]; [constructor|].
  cbn [map] in Hkey. apply NoDup_cons_iff in Hkey. destruct Hkey as (Hnot & Hkey).
  cbn [filter]. destruct (keep s); [|now apply IH].
  cbn [map]. apply NoDup_cons; [|now apply IH].
  intros Hin. apply Hnot. apply in_map_iff in Hin.
  destruct Hin as (s' & Heq & Hin). apply filter_In in Hin.
  rewrite <- Heq. apply in_map. apply Hin.
Qed.

Lemma coherent_filtered (d : Db) (keep : Subtask.t -> bool) (d' : Db) :
  subtasks d' = filter keep (subtasks d) -> coherent d -> coherent d'.
Proof.
  unfold coherent, subtasks_keyed. intros -> (Hk & Hh). split.
  - now apply keyed_filter.
  - apply Forall_forall. intros s Hin. apply filter_In in Hin.
    rewrite Forall_forall in Hh. now apply Hh.
Qed.

(** A statement that raises leaves the tables as they were; the cases of
    a statement are those of its conditions. *)
Ltac coherent_cases Hd :=
  cbv beta zeta;
  repeat match goal with
    | |- coherent (snd (if ?b then _ else _)) => destruct b
    | |- coherent (snd (match ?x with _ => _ end)) => destruct x
    end;
  cbn [snd];
  try exact Hd;
  try (eapply coherent_same_subtasks; [reflexivity | exact Hd]).

Lemma coherent_update_subtask_assignment (a : Z) (st : Status.t)
    (pr : Progress.t) (subtaskId : Z) :
  keeps coherent (Tasks.update_subtask_assignment a st pr subtaskId).
Proof.
  apply keeps_statement. apply keeps_binding. intros d Hd. coherent_cases Hd.
  eapply coherent_mapped; [reflexivity | | | exact Hd].
  - intros s. cbv beta. now destruct (Subtask.id s =? subtaskId).
  - intros s _ Hs. cbv beta. destruct (Subtask.id s =? subtaskId); [|exact Hs].
    intros _. discriminate.
Qed.

Lemma coherent_update_subtask_deadline (deadline subtaskId : Z) :
  keeps coherent (TaskRoutes.update_subtask_deadline deadline subtaskId).
Proof.
  apply keeps_effect. apply keeps_binding. intros d Hd. cbv beta zeta.
  cbn [snd].
  eapply coherent_mapped; [reflexivity | | | exact Hd].
  - intros s. cbv beta. now destruct (Subtask.id s =? subtaskId).
  - intros s _ Hs. cbv beta. destruct (Subtask.id s =? subtaskId); exact Hs.
Qed.

Lemma coherent_update_subtasks_release (memberId : Z) :
  keeps coherent (Auth.update_subtasks_release Status.available memberId).
Proof.
  apply keeps_statement. apply keeps_binding. intros d Hd. cbv beta zeta.
  cbn [snd].
  eapply coherent_mapped; [reflexivity | | | exact Hd].
  - intros s. cbv beta. now destruct (col_is (Subtask.assigned_to s) memberId).
  - intros s _ Hs. cbv beta. destruct (col_is (Subtask.assigned_to s) memberId);
      [|exact Hs].
    intros [H|H]; discriminate.
Qed.

Lemma coherent_update_subtask (title : string) (description : option string)
    (assignedTo : option Z) (status : Status.t) (progress : Progress.t)
    (subtaskId : Z) :
  (status = Status.assigned \/ status = Status.taken -> assignedTo <> None) ->
  keeps coherent (TaskRoutes.update_subtask title description assignedTo status
                                            progress subtaskId).
Proof.
  intros Hst. apply keeps_effect. apply keeps_binding. intros d Hd.
  cbv beta zeta.
  destruct (varchar 255 title) as [stored|]; [|exact Hd].
  match goal with |- coherent (snd (if ?b then _ else _)) => destruct b end;
    [exact Hd|].
  cbn [snd]. eapply coherent_mapped; [reflexivity | | | exact Hd].
  - intros s. cbv beta. now destruct (Subtask.id s =? subtaskId).
  - intros s _ Hs. cbv beta. destruct (Subtask.id s =? subtaskId); [|exact Hs].
    exact Hst.
Qed.

Lemma coherent_delete_subtasks_of_task (taskId : Z) :
  keeps coherent (TaskRoutes.delete_subtasks_of_task taskId).
Proof.
  apply keeps_effect. apply keeps_binding. intros d Hd. cbn [snd].
  eapply coherent_filtered; [reflexivity | exact Hd].
Qed.

Lemma coherent_delete_subtask (subtaskId : Z) :
  keeps coherent (TaskRoutes.delete_subtask subtaskId).
Proof.
  apply keeps_effect. apply keeps_binding. intros d Hd. cbn [snd].
  eapply coherent_filtered; [reflexivity | exact Hd].
Qed.

Lemma coherent_delete_task (taskId : Z) :
  keeps coherent (TaskRoutes.delete_task taskId).
Proof.
  apply keeps_effect. apply keeps_binding. intros d Hd. cbn [snd].
  destruct (has_task d taskId).
  - eapply coherent_filtered; [reflexivity | exact Hd].
  - eapply coherent_same_subtasks; [reflexivity | exact Hd].
Qed.

Lemma coherent_update_task (title : string) (description : option string)
    (taskId : Z) :
  keeps coherent (TaskRoutes.update_task title description taskId).
Proof.
  apply keeps_effect. apply keeps_binding. intros d Hd. coherent_cases Hd.
Qed.

Lemma coherent_insert_team (E : Env) (id : Z) (team_code team_name : string)
    (leader_id : Z) :
  keeps coherent (AuthRoutes.insert_team E id team_code team_name leader_id).
Proof.
  apply keeps_effect. apply keeps_binding. intros d Hd. coherent_cases Hd.
Qed.

Lemma coherent_insert_user (E : Env) (email password name : string)
    (role : Role.t) (team_code : string) (status : Membership.t) :
  keeps coherent (Auth.insert_user E email password name role team_code status).
Proof. apply keeps_statement. intros d Hd. coherent_cases Hd. Qed.

Lemma coherent_insert_user_returning_all (E : Env)
    (email password name : string) (role : Role.t) (team_code : string)
    (status : Membership.t) :
  keeps coherent (AuthRoutes.insert_user_returning_all E email password name
                                                       role team_code status).
Proof. apply keeps_effect. intros d Hd. coherent_cases Hd. Qed.

Lemma coherent_update_users (s : Stmt) (userId : Z) (hit : User.t -> bool)
    (set : User.t -> User.t) (actor : Z) :
  keeps coherent (Auth.update_users s userId hit set actor).
Proof.
  apply keeps_statement. apply keeps_binding. intros d Hd. coherent_cases Hd.
Qed.

Lemma coherent_delete_user (userId : Z) :
  keeps coherent (Auth.delete_user userId).
Proof.
  apply keeps_statement. apply keeps_binding. intros d Hd. coherent_cases Hd.
Qed.

Lemma coherent_delete_user_where (userId : Z) (status : Membership.t)
    (role : Role.t) :
  keeps coherent (AuthRoutes.delete_user_where userId status role).
Proof.
  apply keeps_effect. apply keeps_binding. intros d Hd. coherent_cases Hd.
Qed.

Ltac coherent_statement_known :=
  first
    [ apply keeps_ret | apply keeps_throw | apply keeps_begin
    | apply keeps_commit | apply (keeps_rollback coherent coherent_sequence)
    | apply keeps_select | apply keeps_query
    | apply keeps_select_on | apply keeps_query_on
    | apply coherent_update_subtask_assignment
    | apply coherent_update_subtask_deadline
    | apply coherent_update_subtasks_release
    | apply coherent_delete_subtasks_of_task
    | apply coherent_delete_subtask
    | apply coherent_delete_task
    | apply coherent_update_task
    | apply coherent_insert_team
    | apply coherent_insert_user
    | apply coherent_insert_user_returning_all
    | apply coherent_update_users
    | apply coherent_delete_user
    | apply coherent_delete_user_where ].

Ltac coherent_route :=
  repeat first
    [ coherent_statement_known
    | apply keeps_bind; [|intro]
    | apply keeps_try_catch; [|intro]
    | progress cbv zeta
    | match goal with
      | |- keeps _ (if ?b then _ else _) => destruct b eqn:?
      | |- keeps _ (match ?x with _ => _ end) => destruct x
      end
    | match goal with
      | |- keeps _ ?q => let h := head_of q in progress unfold h
      end ].

Lemma coherent_takeSubtask (subtaskId : Z) (userId : option Z) :
  keeps coherent (Tasks.takeSubtask subtaskId userId).
Proof. coherent_route. Qed.

Lemma coherent_assignSubtask (subtaskId : Z) (userId assignedBy : option Z) :
  keeps coherent (Tasks.assignSubtask subtaskId userId assignedBy).
Proof. coherent_route. Qed.

Lemma coherent_updateDeadline (subtaskId : Z) (deadline userId : option Z) :
  keeps coherent (TaskRoutes.updateDeadline subtaskId deadline userId).
Proof. coherent_route. Qed.

Lemma coherent_editTask (taskId : Z) (title : string)
    (description : option string) (userId : option Z) :
  keeps coherent (TaskRoutes.editTask taskId title description userId).
Proof. coherent_route. Qed.

Lemma coherent_deleteTask (taskId : Z) (userId : option Z) :
  keeps coherent (TaskRoutes.deleteTask taskId userId).
Proof. coherent_route. Qed.

Lemma coherent_deleteSubtask (subtaskId : Z) (userId : option Z) :
  keeps coherent (TaskRoutes.deleteSubtask subtaskId userId).
Proof. coherent_route. Qed.

Lemma coherent_registerLeader (E : Env) (S : Serial)
    (generatedCode email password name teamName : string) :
  keeps coherent (AuthRoutes.registerLeader E S generatedCode email password
                                            name teamName).
Proof. coherent_route. Qed.

Lemma coherent_registerMember (E : Env) (email password name teamCode : string) :
  keeps coherent (Auth.registerMember E email password name teamCode).
Proof. coherent_route. Qed.

Lemma coherent_approveMember (E : Env) (userId : option Z) (teamCode : string)
    (approvedBy : option Z) :
  keeps coherent (Auth.approveMember E userId teamCode approvedBy).
Proof. coherent_route. Qed.

Lemma coherent_rejectMember (E : Env) (userId : option Z) (teamCode : string)
    (rejectedBy : option Z) :
  keeps coherent (Auth.rejectMember E userId teamCode rejectedBy).
Proof. coherent_route. Qed.

Lemma coherent_reApprove (E : Env) (userId : option Z) (teamCode : string)
    (approvedBy : option Z) :
  keeps coherent (Auth.reApprove E userId teamCode approvedBy).
Proof. coherent_route. Qed.

Lemma coherent_deleteRejectedMember (userId : Z) :
  keeps coherent (AuthRoutes.deleteRejectedMember userId).
Proof. coherent_route. Qed.

Lemma coherent_deleteTeamMember (teamCode : string) (memberId : Z)
    (leaderId : option Z) :
  keeps coherent (Auth.deleteTeamMember teamCode memberId leaderId).
Proof. coherent_route. Qed.

Lemma coherent_editSubtask (subtaskId : Z) (title : string)
    (description : option string) (assignedTo userId : option Z) :
  keeps coherent (TaskRoutes.editSubtask subtaskId title description assignedTo
                                         userId).
Proof.
  unfold TaskRoutes.editSubtask, serve_route.
  apply keeps_try_catch; [|intro; apply keeps_ret].
  destruct (falsy userId); [apply keeps_ret|].
  apply keeps_bind; [coherent_route|]. intros [|[cb tc] rest]; [apply keeps_ret|].
  apply keeps_bind; [coherent_route|].
  intros [|[role utc] rest']; [apply keeps_ret|].
  match goal with |- keeps _ (if ?b then _ else _) => destruct b end;
    [apply keeps_ret|].
  destruct (falsy assignedTo) eqn:Hf; cbn [negb]; cbv beta iota.
  - apply keeps_bind; [|intros [|]; coherent_route].
    apply coherent_update_subtask. intros [H|H]; discriminate.
  - apply keeps_bind; [|intros [|]; coherent_route].
    apply coherent_update_subtask. intros _ ->. discriminate.
Qed.

Lemma NoDup_map_eq {A B} (f : A -> B) (l : list A) (x y : A) :
  NoDup (map f l) -> In x l -> In y l -> f x = f y -> x = y.
Proof.
  induction l as [|a l IH]; simpl; intros Hnd Hx Hy Heq; [contradiction|].
  inversion Hnd as [|? ? Hnot Hnd']; subst.
  destruct Hx as [->|Hx], Hy as [->|Hy].
  - reflexivity.
  - exfalso. apply Hnot. rewrite Heq. now apply in_map.
  - exfalso. apply Hnot. rewrite <- Heq. now apply in_map.
  - now apply IH.
Qed.

Lemma held_after_progress (p : Progress.t) (s : Subtask.t) :
  held_by_someone s ->
  held_by_someone
    (Subtask.set_status (Tasks.status_for_progress p (Subtask.status s))
                        (Subtask.set_progress p s)).
Proof.
  unfold held_by_someone, Tasks.status_for_progress.
  cbn [Subtask.status Subtask.assigned_to Subtask.set_status Subtask.set_progress].
  intros Hs.
  destruct (Progress.eqb p Progress.completed); [intros [H|H]; discriminate|].
  destruct (Progress.eqb p Progress.in_progress
            && Status.eqb (Subtask.status s) Status.assigned) eqn:Hc;
    [|exact Hs].
  intros _. apply Hs. left.
  apply andb_true_iff in Hc. now apply Status_eqb_eq.
Qed.

(** The progress route writes the status that it computed from the row it
    read.  Nothing has changed the row in between, so the status written
    is one that the row's assignee allows. *)
Lemma coherent_updateProgress (subtaskId : Z) (progress : option Progress.t)
    (userId : option Z) :
  keeps coherent (Tasks.updateProgress subtaskId progress userId).
Proof.
  intros c (Hc & Hsaved).
  unfold Tasks.updateProgress, route, try_catch.
  destruct progress as [p|]; [|split; assumption].
  destruct (falsy userId); [split; assumption|].
  unfold bind, Tasks.select_subtask_with_task, Tasks.select_user_role,
    Tasks.update_subtask_progress, Tasks.update_subtask_status,
    Tasks.getSubtaskWithDetails, select_on, statement, ret.
  cbn [cur saved issued fst snd].
  destruct (integer (cur c) subtaskId) eqn:Hi;
    [ rewrite (binding_1 _ _ _ Hi)
    | rewrite (binding_raises_1 _ _ _ Hi); split; assumption ].
  cbn [cur saved issued fst snd].
  destruct (filter (fun st => Subtask.id (fst st) =? subtaskId)
              (inner_join (fun s t => col_is (Subtask.task_id s) (Task.id t))
                          (subtasks (cur c)) (tasks (cur c))))
    as [|[s0 t0] rest] eqn:Hj; cbn [map]; [split; assumption|].
  cbn [cur saved issued fst snd].
  destruct (integer (cur c) (parseInt userId)) eqn:Hu;
    [ rewrite (binding_1 _ _ _ Hu)
    | rewrite (binding_raises_1 _ _ _ Hu); split; assumption ].
  cbn [cur saved issued fst snd].
  destruct (filter (fun u => User.id u =? parseInt userId) (users (cur c)))
    as [|u0 urest]; cbn [map]; [split; assumption|].
  cbn [cur saved issued fst snd].
  match goal with
  | |- context [negb (col_is (Subtask.assigned_to s0) ?x) && ?y && ?z] =>
      destruct (negb (col_is (Subtask.assigned_to s0) x) && y && z)
  end; [split; assumption|].
  assert (Hs0 : In s0 (subtasks (cur c)) /\ Subtask.id s0 = subtaskId).
  { assert (Hin : In (s0, t0)
                     (filter (fun st => Subtask.id (fst st) =? subtaskId)
                        (inner_join
                           (fun s t => col_is (Subtask.task_id s) (Task.id t))
                           (subtasks (cur c)) (tasks (cur c))))).
    { rewrite Hj. now left. }
    apply filter_In in Hin. destruct Hin as (Hin & Hid).
    apply In_inner_join in Hin. split; [apply Hin | now apply Z.eqb_eq]. }
  destruct Hs0 as (Hin0 & Hid0).
  assert (Hex : existsb (fun s => Subtask.id s =? subtaskId) (subtasks (cur c))
                = true).
  { apply existsb_exists. exists s0. split; [exact Hin0 | now apply Z.eqb_eq]. }
  rewrite (binding_1 _ _ _ Hi). cbn [cur saved issued fst snd].
  rewrite binding_1 by subtask_kept Hex. cbn [cur saved issued fst snd].
  rewrite binding_1 by subtask_kept Hex. cbn [cur saved issued fst snd].
  split; [|exact Hsaved]. cbn [cur].
  eapply (coherent_mapped (cur c)
            (fun s => if Subtask.id s =? subtaskId
                      then Subtask.set_status
                             (Tasks.status_for_progress p (Subtask.status s0))
                             (Subtask.set_progress p s)
                      else s)); [| | |exact Hc].
  - cbn [subtasks]. rewrite map_map. apply map_ext. intros s.
    destruct (Subtask.id s =? subtaskId) eqn:E; cbn [Subtask.set_progress Subtask.id].
    + now rewrite E.
    + now rewrite E.
  - intros s. cbv beta. now destruct (Subtask.id s =? subtaskId).
  - intros s Hin Hs. cbv beta.
    destruct (Subtask.id s =? subtaskId) eqn:E; [|exact Hs].
    apply Z.eqb_eq in E.
    assert (s = s0).
    { apply (NoDup_map_eq Subtask.id (subtasks (cur c))); [apply Hc | | |];
        congruence. }
    subst s. now apply held_after_progress.
Qed.

Lemma new_subtask_rows_ids (E : Env) (taskId : Z) (assignSpecific : bool)
    (l : list TaskRoutes.NewSubtask) (next : Z) :
  (forall i, In i (map Subtask.id
                       (new_subtask_rows E taskId assignSpecific next l)) ->
             next <= i)
  /\ NoDup (map Subtask.id (new_subtask_rows E taskId assignSpecific next l)).
Proof.
  revert next. induction l as [|x l IH]; intros next; simpl.
  - split; [tauto | constructor].
  - destruct (IH (next + 1)) as (Hge & Hnd). split.
    + intros i [<-|Hin]; [lia|]. apply Hge in Hin. lia.
    + constructor; [|exact Hnd]. intros Hin. apply Hge in Hin. lia.
Qed.

Lemma new_subtask_rows_held (E : Env) (taskId : Z) (assignSpecific : bool)
    (l : list TaskRoutes.NewSubtask) (next : Z) :
  Forall held_by_someone (new_subtask_rows E taskId assignSpecific next l).
Proof.
  revert next. induction l as [|x l IH]; intros next; simpl; constructor;
    [|apply IH].
  unfold held_by_someone. cbn [Subtask.status Subtask.assigned_to].
  destruct (assigns assignSpecific x) eqn:Ha.
  - intros _ Hnone. unfold assigns in Ha. apply andb_true_iff in Ha.
    destruct Ha as (_ & Ha). rewrite Hnone in Ha. discriminate.
  - intros [H|H]; discriminate.
Qed.

(** The ids that the loop of the create route asked of the sequence were
    free: none of the new rows has the id of a row that was there. *)
Lemma new_subtask_rows_free (rows : list Subtask.t) (E : Env) (taskId : Z)
    (assignSpecific : bool) (l : list TaskRoutes.NewSubtask) :
  forall next s,
    subtask_ids_free rows next (List.length l) = true ->
    In s (new_subtask_rows E taskId assignSpecific next l) ->
    existsb (fun r => Subtask.id r =? Subtask.id s) rows = false.
Proof.
  induction l as [|x l IH]; intros next s Hfree Hin; [contradiction|].
  cbn [List.length subtask_ids_free] in Hfree.
  apply andb_true_iff in Hfree. destruct Hfree as (Hhead & Hfree).
  apply andb_true_iff in Hhead. destruct Hhead as (_ & Hhead).
  destruct Hin as [<- | Hin].
  - cbn [Subtask.id]. now apply negb_true_iff.
  - now apply (IH (next + 1)).
Qed.

Lemma coherent_task_created (E : Env) (S : Serial) (d : Db) (title : string)
    (description : option string) (teamCode : string) (createdBy : Z)
    (l : list TaskRoutes.NewSubtask) (assignSpecific : bool) :
  coherent d ->
  subtask_ids_free (subtasks d) (subtasks_id_seq S + 1) (List.length l) = true ->
  coherent (task_created E S d title description teamCode createdBy l
                         assignSpecific).
Proof.
  unfold coherent, subtasks_keyed, task_created.
  cbn [subtasks]. intros (Hk & Hh) Hfree.
  destruct (new_subtask_rows_ids E (tasks_id_seq S + 1) assignSpecific l
              (subtasks_id_seq S + 1)) as (_ & Hnd).
  split.
  - rewrite map_app. apply NoDup_app; [exact Hk | exact Hnd |].
    intros i Hold Hnew.
    apply in_map_iff in Hnew. destruct Hnew as (s & <- & Hs).
    apply in_map_iff in Hold. destruct Hold as (r & Heq & Hr).
    pose proof (new_subtask_rows_free (subtasks d) E (tasks_id_seq S + 1)
                  assignSpecific l (subtasks_id_seq S + 1) s Hfree Hs) as Hno.
    assert (Hyes : existsb (fun r0 => Subtask.id r0 =? Subtask.id s)
                           (subtasks d) = true).
    { apply existsb_exists. exists r. split; [exact Hr | now apply Z.eqb_eq]. }
    congruence.
  - apply Forall_app. split; [exact Hh | apply new_subtask_rows_held].
Qed.

(** The create route leaves the database as it was, or as [task_created]
    describes, and then the ids of the new rows were free. *)
Lemma createTask_left (E : Env) (S : Serial) (d : Db) (title : string)
    (description : option string) (teamCode : string) (createdBy : option Z)
    (l : list TaskRoutes.NewSubtask) (assignSpecific : bool) :
  left_by (TaskRoutes.createTask E S title description teamCode createdBy l
                                 assignSpecific) d = d
  \/ (left_by (TaskRoutes.createTask E S title description teamCode createdBy l
                                     assignSpecific) d
      = task_created E S d title description teamCode (parseInt createdBy) l
                     assignSpecific
      /\ subtask_ids_free (subtasks d) (subtasks_id_seq S + 1) (List.length l)
         = true).
Proof.
  rewrite <- left_by_serve.
  destruct (blank title || blank teamCode || falsy createdBy
            || (List.length l =? 0)%nat) eqn:Hguard.
  - left. unfold serve, TaskRoutes.createTask, serve_route, try_catch.
    rewrite Hguard. reflexivity.
  - repeat (apply orb_false_iff in Hguard; destruct Hguard as (Hguard & ?)).
    destruct createdBy as [cb|]; [|discriminate].
    assert (Ht : title <> "") by (now apply String.eqb_neq).
    assert (Htc : teamCode <> "") by (now apply String.eqb_neq).
    assert (Hcb : cb <> 0) by (now apply Z.eqb_neq).
    assert (Hl : l <> []) by (destruct l; [discriminate | congruence]).
    pose proof (createTask_run E S d title description teamCode cb l
                  assignSpecific Ht Htc Hcb Hl) as Hrun.
    destruct (creates S d title teamCode cb l assignSpecific) eqn:Hc;
      rewrite Hrun; [right | left; reflexivity].
    split; [reflexivity|].
    unfold creates in Hc.
    apply andb_true_iff in Hc. destruct Hc as (_ & Hc).
    apply andb_true_iff in Hc. apply Hc.
Qed.

Lemma served_alone_keeps_coherent (E : Env) (S : Serial) (req : Request)
    (d : Db) :
  coherent d -> coherent (served_alone E S req d).
Proof.
  intros Hd.
  destruct req as [ | | | | title description teamCode createdBy l assignSpecific
                  | | | | | | | | | | | ]; cbn [served_alone].
  - apply keeps_left_by; [apply coherent_takeSubtask | exact Hd].
  - apply keeps_left_by; [apply coherent_assignSubtask | exact Hd].
  - apply keeps_left_by; [apply coherent_updateProgress | exact Hd].
  - apply keeps_left_by; [apply coherent_updateDeadline | exact Hd].
  - destruct (createTask_left E S d title description teamCode createdBy l
                assignSpecific) as [Heq | (Heq & Hfree)]; rewrite Heq;
      [exact Hd | now apply coherent_task_created].
  - apply keeps_left_by; [apply coherent_editTask | exact Hd].
  - apply keeps_left_by; [apply coherent_editSubtask | exact Hd].
  - apply keeps_left_by; [apply coherent_deleteTask | exact Hd].
  - apply keeps_left_by; [apply coherent_deleteSubtask | exact Hd].
  - apply keeps_left_by; [apply coherent_registerLeader | exact Hd].
  - apply keeps_left_by; [apply coherent_registerMember | exact Hd].
  - apply keeps_left_by; [apply coherent_approveMember | exact Hd].
  - apply keeps_left_by; [apply coherent_rejectMember | exact Hd].
  - apply keeps_left_by; [apply coherent_reApprove | exact Hd].
  - apply keeps_left_by; [apply coherent_deleteRejectedMember | exact Hd].
  - apply keeps_left_by; [apply coherent_deleteTeamMember | exact Hd].
Qed.

(** Served between the reads and the writes of a progress request, another
    request can part status and assignee.  In the sample database member 4
    holds subtask 2, whose status is taken.  The progress route reads the
    row for a request of member 4; the leader's removal of member 4 is
    served next and releases the subtask; the progress route then writes
    the progress, and the status that it computed from the row it had
    read.  The subtask is left with status taken and no assignee. *)
Lemma interleaved_progress_parts_status_and_assignee :
  exists s0,
    fst (Tasks.select_subtask_with_task 2 (mkConn Sample.db None []))
    = Done [(s0, "AB12CD", Some 1)]
    /\ let d1 := left_by (Auth.deleteTeamMember "AB12CD" 4 (Some 1))
                         Sample.db in
       let d2 := left_by (Tasks.update_subtask_progress Progress.testing 2 ;;
                          Tasks.update_subtask_status
                            (Tasks.status_for_progress Progress.testing
                                                       (Subtask.status s0))
                            2)
                         d1 in
       coherent Sample.db /\ coherent d1 /\ ~ coherent d2.
Proof.
  eexists. split; [reflexivity|]. cbv zeta.
  assert (H : coherent Sample.db).
  { split.
    - unfold subtasks_keyed. simpl.
      repeat constructor; simpl; intuition discriminate.
    - simpl. repeat apply Forall_cons; try apply Forall_nil;
        intros [H0|H0]; first [discriminate H0 | discriminate]. }
  split; [exact H|]. split.
  - apply keeps_left_by; [apply coherent_deleteTeamMember | exact H].
  - intros (_ & Hh). vm_compute in Hh.
    inversion Hh as [|? ? _ Hrest]. inversion Hrest as [|? ? H2 _].
    apply H2; [right; reflexivity | reflexivity].
Qed.

(** X25.  Status and assignee stay together in a request served alone.
    Call a database coherent when [subtasks.id] is a key and every subtask
    whose status is assigned or taken has an assignee.  Take a coherent
    database and one request to any of the sixteen routes that write,
    whatever its arguments and whatever it answers.  When the statements
    of that request run with no statement of another request between
    them, the database it leaves is coherent: every assigned or taken
    subtask has an assignee.  Several routes, the progress route among
    them, issue their statements outside a transaction, and a request
    served between the statements of another can part the two, as the
    lemma above shows; nothing is claimed here of requests whose
    statements interleave. *)
Theorem held_subtasks_keep_an_assignee (E : Env) (S : Serial) (req : Request)
    (d : Db) :
  coherent d ->
  coherent (served_alone E S req d)
  /\ forall s, In s (subtasks (served_alone E S req d)) ->
               Subtask.status s = Status.assigned
               \/ Subtask.status s = Status.taken ->
               exists a, Subtask.assigned_to s = Some a.
Proof.
  intros Hd.
  pose proof (served_alone_keeps_coherent E S req d Hd) as H.
  split; [exact H|]. intros s Hin Hst.
  destruct H as (_ & Hh). rewrite Forall_forall in Hh.
  specialize (Hh s Hin Hst).
  destruct (Subtask.assigned_to s) as [a|]; [now exists a | contradiction].
Qed.

Lemma held_subtasks_keep_an_assignee_witness :
  coherent Sample.db
  /\ coherent (served_alone Sample.env (mkSerial 2 2 3)
                 (UpdateProgress 2 (Some Progress.testing) (Some 4))
                 Sample.db).
Proof.
  assert (H : coherent Sample.db).
  { split.
    - unfold subtasks_keyed. simpl.
      repeat constructor; simpl; intuition discriminate.
    - simpl. repeat apply Forall_cons; try apply Forall_nil;
        intros [H0|H0]; first [discriminate H0 | discriminate]. }
  split; [exact H|].
  apply (held_subtasks_keep_an_assignee Sample.env (mkSerial 2 2 3)
           (UpdateProgress 2 (Some Progress.testing) (Some 4)) Sample.db H).
Defined.
